(** * Spine importer for 3ds Max: a shallow embedding and its properties

    The repository holds two versions of one script,
    [spine_importer_improved.py] and [spine_importer.py].  Both read a Spine
    skeleton (JSON) and a texture atlas (text) and drive the 3ds Max scene
    through [pymxs.runtime].  [Module Improved] embeds the functions of the
    first file, the dialog ([create_ui] and its MAXScript) apart;
    [Module Original] embeds the atlas parser, the skeleton builder and the
    mesh builder of the second.  The animation import of the second file
    writes its keys through controller calls of the host
    ([bone.pos.controller], [rt.addNewKey]) that the model of the scene
    does not cover, and its entry point calls it: the two are not embedded.  The
    embedding is over

    - IEEE binary64 numbers ([SpecFloat] at precision 53), since Python's
      [float] is binary64 and [int(f)] truncates;
    - dynamically typed JSON values with the Python operations the scripts
      apply to them ([dict.get], [in], [float], truthiness, iteration), each
      raising the exception Python raises;
    - a state-and-exception monad over a model of the host scene: mutations
      made before an exception survive it, as in Python.

    What is outside the repository is a parameter ([platform]): the file
    system, Python's float parser and [repr], and the host's [radToDeg].
    Host calls ([createBone], [BitmapTexture], attribute writes) are modelled
    as allocations and field updates that always succeed.

    Strings are sequences of code points below 256. *)

From Stdlib Require Import ZArith List String Ascii Bool Lia Relations.
From Stdlib Require Import SpecFloat.
Import ListNotations.
Open Scope string_scope.
Open Scope Z_scope.

Set Warnings "-register-all".

(* ===================================================================== *)
(** * Python floats: IEEE 754 binary64 *)
(* ===================================================================== *)

Module Float64.

Definition prec : Z := 53.
Definition emax : Z := 1024.

Definition float : Type := spec_float.

(** [float(n)] for an integer [n], rounded to nearest even. *)
Definition of_Z (z : Z) : float := binary_normalize prec emax z 0 false.

Definition mul : float -> float -> float := SFmul prec emax.
Definition sub : float -> float -> float := SFsub prec emax.
Definition div : float -> float -> float := SFdiv prec emax.
Definition opp : float -> float := SFopp.
Definition ltb : float -> float -> bool := SFltb.
Definition leb : float -> float -> bool := SFleb.

Definition is_finite (f : float) : bool :=
  match f with
  | S754_zero _ | S754_finite _ _ _ => true
  | _ => false
  end.

Definition is_zero (f : float) : bool :=
  match f with
  | S754_zero _ => true
  | _ => false
  end.

(** Not below zero: a zero of either sign, or a positive finite number. *)
Definition nonneg (f : float) : bool :=
  match f with
  | S754_zero _ | S754_finite false _ _ => true
  | _ => false
  end.

Definition zero : float := S754_zero false.

(** The literals of the scripts, as the nearest binary64 numbers. *)
Definition f30 : float := Eval vm_compute in of_Z 30.
Definition f1 : float := Eval vm_compute in of_Z 1.
Definition f0_01 : float := Eval vm_compute in div (of_Z 1) (of_Z 100).
Definition f0_1 : float := Eval vm_compute in div (of_Z 1) (of_Z 10).
Definition f0_3 : float := Eval vm_compute in div (of_Z 3) (of_Z 10).

(** The integer part of [m * 2^e] for a positive mantissa. *)
Definition magnitude (m : positive) (e : Z) : Z :=
  if 0 <=? e then Zpos m * 2 ^ e else Zpos m / 2 ^ (- e).

(** Python's [int(f)]: truncation toward zero; [None] on NaN and
    infinities, where Python raises. *)
Definition trunc (f : float) : option Z :=
  match f with
  | S754_zero _ => Some 0
  | S754_finite s m e => Some (cond_Zopp s (magnitude m e))
  | _ => None
  end.

(** The mathematical floor and ceiling of a finite float. *)
Definition floor (f : float) : option Z :=
  match f with
  | S754_zero _ => Some 0
  | S754_finite s m e =>
      Some (if 0 <=? e then cond_Zopp s (Zpos m * 2 ^ e)
            else cond_Zopp s (Zpos m) / 2 ^ (- e))
  | _ => None
  end.

Definition ceil (f : float) : option Z :=
  match f with
  | S754_zero _ => Some 0
  | S754_finite s m e =>
      Some (if 0 <=? e then cond_Zopp s (Zpos m * 2 ^ e)
            else - (cond_Zopp (negb s) (Zpos m) / 2 ^ (- e)))
  | _ => None
  end.

(** A finite float denotes a whole number. *)
Definition integral (f : float) : bool :=
  match f with
  | S754_zero _ => true
  | S754_finite _ m e => (0 <=? e) || (Zpos m mod 2 ^ (- e) =? 0)
  | _ => false
  end.

End Float64.

(* ===================================================================== *)
(** * Python strings *)
(* ===================================================================== *)

Module PyStr.

Definition code (c : ascii) : N := N_of_ascii c.

(** [str.isspace] on the code points below 256. *)
Definition isspace (c : ascii) : bool :=
  let n := code c in
  (((9 <=? n) && (n <=? 13)) || ((28 <=? n) && (n <=? 32))
   || (n =? 133) || (n =? 160))%N.

(** [str.lower] on one code point below 256. *)
Definition lower_char (c : ascii) : ascii :=
  let n := code c in
  if (((65 <=? n) && (n <=? 90))
      || ((192 <=? n) && (n <=? 222) && negb (n =? 215)))%N
  then ascii_of_N (n + 32) else c.

Fixpoint lower (s : string) : string :=
  match s with
  | EmptyString => EmptyString
  | String c r => String (lower_char c) (lower r)
  end.

Fixpoint startswith (p s : string) : bool :=
  match p, s with
  | EmptyString, _ => true
  | String a p', String b s' => Ascii.eqb a b && startswith p' s'
  | String _ _, EmptyString => false
  end.

(** [sub in s]. *)
Fixpoint contains (sub s : string) : bool :=
  startswith sub s
  || match s with
     | EmptyString => false
     | String _ r => contains sub r
     end.

Fixpoint rev_acc (s acc : string) : string :=
  match s with
  | EmptyString => acc
  | String c r => rev_acc r (String c acc)
  end.

Definition rev (s : string) : string := rev_acc s EmptyString.

Definition endswith (p s : string) : bool := startswith (rev p) (rev s).

Fixpoint lstrip (s : string) : string :=
  match s with
  | EmptyString => EmptyString
  | String c r => if isspace c then lstrip r else s
  end.

(** [s.strip()]. *)
Definition strip (s : string) : string := rev (lstrip (rev (lstrip s))).

(** [s.replace(a, b)] for one-character [a] and [b]. *)
Fixpoint replace (a b : ascii) (s : string) : string :=
  match s with
  | EmptyString => EmptyString
  | String c r => String (if Ascii.eqb c a then b else c) (replace a b r)
  end.

(** [s.split(sep)] for a one-character separator. *)
Fixpoint split_acc (sep : ascii) (s cur : string) : list string :=
  match s with
  | EmptyString => [rev cur]
  | String c r =>
      if Ascii.eqb c sep then rev cur :: split_acc sep r EmptyString
      else split_acc sep r (String c cur)
  end.

Definition split (sep : ascii) (s : string) : list string :=
  split_acc sep s EmptyString.

Definition nonempty (s : string) : bool :=
  match s with
  | EmptyString => false
  | String _ _ => true
  end.

End PyStr.

(* ===================================================================== *)
(** * Python values and exceptions *)
(* ===================================================================== *)

(** What [json.load] returns.  A [JDict] keeps its items in insertion
    order, as a Python [dict] does; a dictionary built by [json.load] has
    no repeated key. *)
Inductive json : Type :=
| JNull
| JBool (b : bool)
| JInt (z : Z)
| JFloat (f : Float64.float)
| JStr (s : string)
| JList (l : list json)
| JDict (kv : list (string * json)).

Inductive exn : Type :=
| TypeError
| ValueError
| KeyError
| AttributeError
| OverflowError
| IndexError
| OSError.

Definition is_ValueError (e : exn) : bool :=
  match e with
  | ValueError => true
  | _ => false
  end.

(** ** Insertion-ordered dictionaries with string keys *)

Module Dict.

Definition t (V : Type) : Type := list (string * V).

Fixpoint get {V} (d : t V) (k : string) : option V :=
  match d with
  | [] => None
  | (k', v) :: r => if String.eqb k' k then Some v else get r k
  end.

Definition mem {V} (d : t V) (k : string) : bool :=
  match get d k with
  | Some _ => true
  | None => false
  end.

(** [d[k] = v]: an existing key keeps its place, a new key goes last. *)
Fixpoint set {V} (d : t V) (k : string) (v : V) : t V :=
  match d with
  | [] => [(k, v)]
  | (k', v') :: r =>
      if String.eqb k' k then (k', v) :: r else (k', v') :: set r k v
  end.

Definition keys {V} (d : t V) : list string := map fst d.
Definition values {V} (d : t V) : list V := map snd d.

End Dict.

(** ** The environment outside the repository *)

Record platform : Type := {
  (** [str(v)] of a value that is not a string *)
  py_repr : json -> string;
  (** [float(s)] of a string; [None] where Python raises [ValueError] *)
  parse_float : string -> option Float64.float;
  (** the host's [rt.radToDeg] *)
  radToDeg : Float64.float -> Float64.float;
  (** [os.path.join] and [os.path.exists] *)
  path_join : string -> string -> string;
  path_exists : string -> bool;
  (** [open(p).readlines()] and [json.load(open(p))] *)
  read_lines : string -> exn + list string;
  load_json : string -> exn + json
}.

(** ** Python operations on JSON values *)

Module Py.

(** [bool(v)]. *)
Definition truthy (v : json) : bool :=
  match v with
  | JNull => false
  | JBool b => b
  | JInt z => negb (z =? 0)
  | JFloat f => negb (Float64.is_zero f)
  | JStr s => PyStr.nonempty s
  | JList l => match l with [] => false | _ => true end
  | JDict kv => match kv with [] => false | _ => true end
  end.

(** [d.get(k, default)]; only a [dict] has [get]. *)
Definition get (d : json) (k : string) (default : json) : exn + json :=
  match d with
  | JDict kv =>
      inr match Dict.get kv k with
          | Some v => v
          | None => default
          end
  | _ => inl AttributeError
  end.

(** [d[k]] for a string [k]. *)
Definition index (d : json) (k : string) : exn + json :=
  match d with
  | JDict kv =>
      match Dict.get kv k with
      | Some v => inr v
      | None => inl KeyError
      end
  | _ => inl TypeError
  end.

Definition json_is_str (k : string) (v : json) : bool :=
  match v with
  | JStr s => String.eqb s k
  | _ => false
  end.

(** [k in c] for a string [k]. *)
Definition contains (k : string) (c : json) : exn + bool :=
  match c with
  | JDict kv => inr (Dict.mem kv k)
  | JList l => inr (existsb (json_is_str k) l)
  | JStr s => inr (PyStr.contains k s)
  | _ => inl TypeError
  end.

Fixpoint chars (s : string) : list json :=
  match s with
  | EmptyString => []
  | String c r => JStr (String c EmptyString) :: chars r
  end.

(** The elements a [for] loop visits. *)
Definition iter (c : json) : exn + list json :=
  match c with
  | JList l => inr l
  | JDict kv => inr (map (fun p => JStr (fst p)) kv)
  | JStr s => inr (chars s)
  | _ => inl TypeError
  end.

(** [d.items()] and [d.keys()]; only a [dict] has them. *)
Definition items (c : json) : exn + list (string * json) :=
  match c with
  | JDict kv => inr kv
  | _ => inl AttributeError
  end.

Definition keys (c : json) : exn + list string :=
  match c with
  | JDict kv => inr (Dict.keys kv)
  | _ => inl AttributeError
  end.

(** [len(c)]. *)
Definition len (c : json) : exn + Z :=
  match c with
  | JList l => inr (Z.of_nat (List.length l))
  | JDict kv => inr (Z.of_nat (List.length kv))
  | JStr s => inr (Z.of_nat (String.length s))
  | _ => inl TypeError
  end.

(** [float(v)]. *)
Definition to_float (E : platform) (v : json) : exn + Float64.float :=
  match v with
  | JFloat f => inr f
  | JInt z =>
      let f := Float64.of_Z z in
      if Float64.is_finite f then inr f else inl OverflowError
  | JBool b => inr (if b then Float64.f1 else Float64.zero)
  | JStr s =>
      match parse_float E s with
      | Some f => inr f
      | None => inl ValueError
      end
  | _ => inl TypeError
  end.

(** [int(f)] of a float. *)
Definition int_of_float (f : Float64.float) : exn + Z :=
  match Float64.trunc f with
  | Some z => inr z
  | None =>
      match f with
      | S754_nan => inl ValueError
      | _ => inl OverflowError
      end
  end.

(** [str(v)]. *)
Definition str (E : platform) (v : json) : string :=
  match v with
  | JStr s => s
  | _ => py_repr E v
  end.

(** [max(a, b)] of two floats: [b] when [b > a], else [a]. *)
Definition max (a b : Float64.float) : Float64.float :=
  if Float64.ltb a b then b else a.

End Py.

(** A Python number that is an [int] or a [float]: the running maximum
    of the duration scan starts as the [int] 0. *)
Inductive pynum : Type :=
| PInt (z : Z)
| PFloat (f : Float64.float).

Module PyNum.

Definition to_float (n : pynum) : Float64.float :=
  match n with
  | PInt z => Float64.of_Z z
  | PFloat f => f
  end.

(** [max(a, b)] with [b] a float. *)
Definition max (a : pynum) (b : Float64.float) : pynum :=
  if Float64.ltb (to_float a) b then PFloat b else a.

(** [int(a * 30)]. *)
Definition int_times_30 (a : pynum) : exn + Z :=
  match a with
  | PInt z => inr (z * 30)
  | PFloat f => Py.int_of_float (Float64.mul f Float64.f30)
  end.

End PyNum.

(* ===================================================================== *)
(** * The host scene ([pymxs.runtime]) *)
(* ===================================================================== *)

Inductive level : Type := INFO | WARNING | ERROR.

(** A value interpolated into a log line. *)
Inductive arg : Type :=
| AStr (s : string)
| AInt (z : Z)
| AFloat (f : Float64.float)
| AVal (v : json)
| AKeys (l : list string)
| AExn (e : exn).

(** A formatted message: the text of the f-string with [{}] for each
    interpolated value, and the values.  The scripts' texts are Chinese;
    the embedding carries an English rendering of each. *)
Record message : Type := Msg { m_text : string; m_args : list arg }.

Record entry : Type := Entry { e_level : level; e_msg : message }.

Record point3 : Type :=
  Point3 { p_x : Float64.float; p_y : Float64.float; p_z : Float64.float }.

(** A [BitmapTexture]. *)
Record bitmap : Type :=
  Bitmap { bm_filename : string; bm_rotation : option Float64.float }.

(** A [StandardMaterial]; [mat_diffuseMap] refers to a bitmap. *)
Record material : Type := Material { mat_name : string; mat_diffuseMap : nat }.

Inductive node_kind : Type := BoneNode | PlaneNode.

(** A scene node: a bone made by [BoneSys.createBone] or a [Plane].
    [n_parent] refers to another node.  [n_pos_keys] and [n_rot_keys]
    record every assignment to [.pos] and [.rotation] with the slider time
    at which it was made. *)
Record node : Type := Node {
  n_kind : node_kind;
  n_name : string;
  n_pos : point3;
  n_tip : option point3;
  n_width : Float64.float;
  n_height : Float64.float;
  n_length : Float64.float;
  n_rotation : option Float64.float;
  n_parent : option nat;
  n_material : option material;
  n_pos_keys : list (Z * point3);
  n_rot_keys : list (Z * Float64.float)
}.

Record host : Type := Host {
  bitmaps : list bitmap;
  nodes : list node;
  animationRange : Z * Z;
  sliderTime : Z;
  selection : list nat;
  listener : list entry
}.

Module Scene.

Fixpoint update {A} (l : list A) (i : nat) (f : A -> A) : list A :=
  match l, i with
  | [], _ => []
  | x :: r, O => f x :: r
  | x :: r, S j => x :: update r j f
  end.

Definition with_bitmaps (h : host) (b : list bitmap) : host :=
  Host b (nodes h) (animationRange h) (sliderTime h) (selection h) (listener h).

Definition with_nodes (h : host) (n : list node) : host :=
  Host (bitmaps h) n (animationRange h) (sliderTime h) (selection h) (listener h).

Definition with_animationRange (h : host) (r : Z * Z) : host :=
  Host (bitmaps h) (nodes h) r (sliderTime h) (selection h) (listener h).

Definition with_sliderTime (h : host) (t : Z) : host :=
  Host (bitmaps h) (nodes h) (animationRange h) t (selection h) (listener h).

Definition with_selection (h : host) (s : list nat) : host :=
  Host (bitmaps h) (nodes h) (animationRange h) (sliderTime h) s (listener h).

Definition with_listener (h : host) (l : list entry) : host :=
  Host (bitmaps h) (nodes h) (animationRange h) (sliderTime h) (selection h) l.

Definition set_rotation_bm (r : Float64.float) (b : bitmap) : bitmap :=
  Bitmap (bm_filename b) (Some r).

Definition set_name (s : string) (n : node) : node :=
  Node (n_kind n) s (n_pos n) (n_tip n) (n_width n) (n_height n) (n_length n)
       (n_rotation n) (n_parent n) (n_material n) (n_pos_keys n) (n_rot_keys n).

Definition set_width (w : Float64.float) (n : node) : node :=
  Node (n_kind n) (n_name n) (n_pos n) (n_tip n) w (n_height n) (n_length n)
       (n_rotation n) (n_parent n) (n_material n) (n_pos_keys n) (n_rot_keys n).

Definition set_height (w : Float64.float) (n : node) : node :=
  Node (n_kind n) (n_name n) (n_pos n) (n_tip n) (n_width n) w (n_length n)
       (n_rotation n) (n_parent n) (n_material n) (n_pos_keys n) (n_rot_keys n).

Definition set_length (w : Float64.float) (n : node) : node :=
  Node (n_kind n) (n_name n) (n_pos n) (n_tip n) (n_width n) (n_height n) w
       (n_rotation n) (n_parent n) (n_material n) (n_pos_keys n) (n_rot_keys n).

Definition set_parent (p : nat) (n : node) : node :=
  Node (n_kind n) (n_name n) (n_pos n) (n_tip n) (n_width n) (n_height n)
       (n_length n) (n_rotation n) (Some p) (n_material n) (n_pos_keys n)
       (n_rot_keys n).

Definition set_material (m : material) (n : node) : node :=
  Node (n_kind n) (n_name n) (n_pos n) (n_tip n) (n_width n) (n_height n)
       (n_length n) (n_rotation n) (n_parent n) (Some m) (n_pos_keys n)
       (n_rot_keys n).

(** [node.pos = p] at slider time [t]. *)
Definition set_pos (t : Z) (p : point3) (n : node) : node :=
  Node (n_kind n) (n_name n) p (n_tip n) (n_width n) (n_height n) (n_length n)
       (n_rotation n) (n_parent n) (n_material n) (n_pos_keys n ++ [(t, p)])
       (n_rot_keys n).

(** [node.rotation = EulerAngles(0, 0, a)] at slider time [t]. *)
Definition set_rotation (t : Z) (a : Float64.float) (n : node) : node :=
  Node (n_kind n) (n_name n) (n_pos n) (n_tip n) (n_width n) (n_height n)
       (n_length n) (Some a) (n_parent n) (n_material n) (n_pos_keys n)
       (n_rot_keys n ++ [(t, a)]).

(** The node [BoneSys.createBone(start, tip, zaxis)] makes. *)
Definition new_bone (start tip : point3) : node :=
  Node BoneNode "" start (Some tip) Float64.zero Float64.zero Float64.zero
       None None None [] [].

(** The node [Plane(length=1, width=1)] makes. *)
Definition new_plane : node :=
  Node PlaneNode "" (Point3 Float64.zero Float64.zero Float64.zero) None
       Float64.f1 Float64.zero Float64.f1 None None None [] [].

Definition parent_of (h : host) (i : nat) : option nat :=
  match nth_error (nodes h) i with
  | Some n => n_parent n
  | None => None
  end.

End Scene.

(* ===================================================================== *)
(** * Host state with Python exceptions *)
(* ===================================================================== *)

(** A computation runs on the host state and either returns or raises;
    the state it leaves is kept in both cases. *)
Definition M (A : Type) : Type := host -> (exn + A) * host.

Definition ret {A} (a : A) : M A := fun h => (inr a, h).

Definition raise {A} (e : exn) : M A := fun h => (inl e, h).

Definition bind {A B} (m : M A) (k : A -> M B) : M B :=
  fun h =>
    match m h with
    | (inr a, h') => k a h'
    | (inl e, h') => (inl e, h')
    end.

(** [try: m  except Exception as e: handler e]. *)
Definition try_catch {A} (m : M A) (handler : exn -> M A) : M A :=
  fun h =>
    match m h with
    | (inl e, h') => handler e h'
    | r => r
    end.

(** [try: m  except ValueError: handler]: other exceptions pass. *)
Definition try_ValueError {A} (m : M A) (handler : M A) : M A :=
  try_catch m (fun e => if is_ValueError e then handler else raise e).

(** A pure Python operation that may raise. *)
Definition lift {A} (r : exn + A) : M A := fun h => (r, h).

Definition modify (f : host -> host) : M unit := fun h => (inr tt, f h).

Definition gets {A} (f : host -> A) : M A := fun h => (inr (f h), h).

Declare Scope monad_scope.
Delimit Scope monad_scope with monad.
Notation "x <- m ;; k" := (bind m (fun x => k))
  (at level 61, m at next level, right associativity) : monad_scope.
Notation "m ;; k" := (bind m (fun _ => k))
  (at level 61, right associativity) : monad_scope.
Open Scope monad_scope.

(** [for x in xs: s = body x s]. *)
Fixpoint for_each {X S} (body : X -> S -> M S) (xs : list X) (s : S) : M S :=
  match xs with
  | [] => ret s
  | x :: r => s' <- body x s ;; for_each body r s'
  end.

Module Rt.

(** [rt.BitmapTexture(filename=p)]. *)
Definition BitmapTexture (p : string) : M nat :=
  fun h =>
    (inr (List.length (bitmaps h)),
     Scene.with_bitmaps h (bitmaps h ++ [Bitmap p None])).

Definition update_bitmap (i : nat) (f : bitmap -> bitmap) : M unit :=
  modify (fun h => Scene.with_bitmaps h (Scene.update (bitmaps h) i f)).

Definition add_node (n : node) : M nat :=
  fun h =>
    (inr (List.length (nodes h)), Scene.with_nodes h (nodes h ++ [n])).

(** [rt.BoneSys.createBone(start, tip, Point3(0, 0, 1))]. *)
Definition createBone (start tip : point3) : M nat :=
  add_node (Scene.new_bone start tip).

(** [rt.Plane(length=1, width=1)]. *)
Definition Plane : M nat := add_node Scene.new_plane.

Definition update_node (i : nat) (f : node -> node) : M unit :=
  modify (fun h => Scene.with_nodes h (Scene.update (nodes h) i f)).

(** [node.pos = p]: the write is made at the current slider time. *)
Definition set_pos (i : nat) (p : point3) : M unit :=
  fun h => update_node i (Scene.set_pos (sliderTime h) p) h.

Definition set_rotation (i : nat) (a : Float64.float) : M unit :=
  fun h => update_node i (Scene.set_rotation (sliderTime h) a) h.

(** [node.pos]. *)
Definition get_pos (i : nat) : M point3 :=
  fun h =>
    match nth_error (nodes h) i with
    | Some n => (inr (n_pos n), h)
    | None => (inl AttributeError, h)
    end.

Definition set_sliderTime (t : Z) : M unit :=
  modify (fun h => Scene.with_sliderTime h t).

(** [rt.animationRange = rt.Interval(a, b)]. *)
Definition set_animationRange (a b : Z) : M unit :=
  modify (fun h => Scene.with_animationRange h (a, b)).

(** [rt.select(ids)] followed by [rt.zoomExtents()]. *)
Definition select (ids : list nat) : M unit :=
  modify (fun h => Scene.with_selection h ids).

(** One line printed to the listener. *)
Definition print (l : level) (m : message) : M unit :=
  modify (fun h => Scene.with_listener h (listener h ++ [Entry l m])).

End Rt.

Definition backslash : ascii := Eval vm_compute in ascii_of_N 92.
Definition slash : ascii := Eval vm_compute in ascii_of_N 47.
Definition dquote : ascii := Eval vm_compute in ascii_of_N 34.
Definition apostrophe : ascii := Eval vm_compute in ascii_of_N 39.
Definition newline : ascii := Eval vm_compute in ascii_of_N 10.
Definition space : ascii := Eval vm_compute in ascii_of_N 32.
Definition dot : ascii := Eval vm_compute in ascii_of_N 46.
Definition colon : ascii := Eval vm_compute in ascii_of_N 58.

(** [enumerate(xs, n)]. *)
Fixpoint enumerate {A} (n : Z) (xs : list A) : list (Z * A) :=
  match xs with
  | [] => []
  | x :: r => (n, x) :: enumerate (n + 1) r
  end.

(** The truth value of [current_texture]: [None] and the empty name
    are false. *)
Definition truthy_name (o : option string) : bool :=
  match o with
  | Some s => PyStr.nonempty s
  | None => false
  end.

(** The three channels the duration scan visits, in its order. *)
Definition channels : list string := ["translate"; "rotate"; "scale"].

(* ===================================================================== *)
(** * spine_importer_improved.py *)
(* ===================================================================== *)

Module Improved.

(** The locals of [load_textures]. *)
Record tex_state : Type := TexState {
  textures : Dict.t nat;
  current_texture : option string;
  loaded_count : Z;
  error_count : Z
}.

(** The locals of [create_bones]. *)
Record bones_state : Type := BonesState {
  bone_map : Dict.t nat;
  created_count : Z;
  bone_errors : Z
}.

Section WithPlatform.

Variable E : platform.

(** [safe_str], lines 7-14. *)
Definition safe_str (s : json) : string :=
  match s with
  | JNull => ""
  | _ => PyStr.replace dquote apostrophe
           (PyStr.replace backslash slash (Py.str E s))
  end.

(** [debug_print], lines 16-24. *)
Definition debug_print (msg : message) (lvl : level) : M unit :=
  Rt.print lvl msg.

(** [validate_file_path], lines 26-32. *)
Definition validate_file_path (file_path file_type : string)
  : bool * message :=
  if negb (PyStr.nonempty file_path) then
    (false, Msg "{} path is empty" [AStr file_type])
  else if negb (path_exists E file_path) then
    (false, Msg "{} does not exist: {}" [AStr file_type; AStr file_path])
  else (true, Msg "" []).

(** The body of the loop over the atlas lines, lines 57-90. *)
Definition load_line (texture_dir : string) (numbered : Z * string)
    (st : tex_state) : M tex_state :=
  let '(line_num, raw) := numbered in
  let line := PyStr.strip raw in
  if negb (PyStr.nonempty line) then ret st
  else
    try_catch
      (if PyStr.endswith ".png" line then
         let tex_name := hd "" (PyStr.split dot line) in
         let tex_path := path_join E texture_dir line in
         if path_exists E tex_path then
           if negb (Dict.mem (textures st) tex_name) then
             tex <- Rt.BitmapTexture tex_path ;;
             debug_print (Msg "load texture: {}" [AStr tex_name]) INFO ;;
             ret (TexState (Dict.set (textures st) tex_name tex)
                           (Some tex_name) (loaded_count st + 1)
                           (error_count st))
           else
             debug_print
               (Msg "texture already exists, skipping: {}" [AStr tex_name])
               INFO ;;
             ret st
         else
           debug_print (Msg "texture file not found: {}" [AStr tex_path])
                       WARNING ;;
           ret (TexState (textures st) (current_texture st)
                         (loaded_count st) (error_count st + 1))
       else if PyStr.startswith "rotate:" line
               && truthy_name (current_texture st) then
         try_ValueError
           (field <- lift match nth_error (PyStr.split colon line) 1 with
                          | Some f => inr f
                          | None => inl IndexError
                          end ;;
            rotation_value <- lift (Py.to_float E (JStr field)) ;;
            tex <- lift match current_texture st with
                        | Some c =>
                            match Dict.get (textures st) c with
                            | Some t => inr t
                            | None => inl KeyError
                            end
                        | None => inl KeyError
                        end ;;
            Rt.update_bitmap tex (Scene.set_rotation_bm rotation_value) ;;
            debug_print
              (Msg "set texture rotation: {} = {}"
                   [AStr (match current_texture st with
                          | Some c => c
                          | None => ""
                          end); AFloat rotation_value]) INFO ;;
            ret st)
           (debug_print (Msg "rotation value parse error: {}" [AStr line])
                        WARNING ;;
            ret st)
       else ret st)
      (fun e =>
         debug_print (Msg "error while processing line {}: {}"
                          [AInt line_num; AExn e]) ERROR ;;
         ret (TexState (textures st) (current_texture st) (loaded_count st)
                       (error_count st + 1))).

(** [load_textures], lines 34-98. *)
Definition load_textures (atlas_path texture_dir : string)
  : M (Dict.t nat) :=
  let textures0 : Dict.t nat := [] in
  let '(valid, error_msg) := validate_file_path atlas_path "Atlas file" in
  if negb valid then debug_print error_msg ERROR ;; ret textures0
  else
    let '(valid, error_msg) :=
      validate_file_path texture_dir "texture directory" in
    if negb valid then debug_print error_msg ERROR ;; ret textures0
    else
      try_catch
        (lines <- lift (read_lines E atlas_path) ;;
         st <- for_each (load_line texture_dir) (enumerate 1 lines)
                        (TexState textures0 None 0 0) ;;
         debug_print
           (Msg "texture loading finished: {} loaded, {} failed"
                [AInt (loaded_count st); AInt (error_count st)]) INFO ;;
         ret (textures st))
        (fun e =>
           debug_print (Msg "texture loading failed: {}" [AExn e]) ERROR ;;
           debug_print (Msg "details: {}" [AExn e]) ERROR ;;
           ret []).

(** Pass 1 of [create_bones]: the body of the loop, lines 115-155. *)
Definition create_bone (scale : Float64.float) (bone : json)
    (st : bones_state) : M bones_state :=
  try_catch
    (nm <- lift (Py.get bone "name" (JStr "")) ;;
     let bone_name := safe_str nm in
     if negb (PyStr.nonempty bone_name) then
       debug_print (Msg "skipping unnamed bone" []) WARNING ;;
       ret st
     else
       x <- lift (Py.get bone "x" (JInt 0)) ;;
       fx <- lift (Py.to_float E x) ;;
       let pos_x := Float64.mul fx scale in
       y <- lift (Py.get bone "y" (JInt 0)) ;;
       fy <- lift (Py.to_float E y) ;;
       let pos_y := Float64.mul (Float64.opp fy) scale in
       let pos_z := Float64.zero in
       l <- lift (Py.get bone "length" (JFloat Float64.f1)) ;;
       fl <- lift (Py.to_float E l) ;;
       let bone_length := Float64.mul (Py.max Float64.f0_1 fl) scale in
       let end_pos := Point3 pos_x (Float64.sub pos_y bone_length) pos_z in
       new_bone <- Rt.createBone (Point3 pos_x pos_y pos_z) end_pos ;;
       Rt.update_node new_bone (Scene.set_name bone_name) ;;
       Rt.update_node new_bone
         (Scene.set_width (Float64.mul bone_length Float64.f0_3)) ;;
       Rt.update_node new_bone
         (Scene.set_height (Float64.mul bone_length Float64.f0_3)) ;;
       has_rotation <- lift (Py.contains "rotation" bone) ;;
       (if has_rotation : bool then
          try_ValueError
            (r <- lift (Py.index bone "rotation") ;;
             fr <- lift (Py.to_float E r) ;;
             let rotation := radToDeg E fr in
             Rt.set_rotation new_bone rotation ;;
             debug_print (Msg "set initial bone rotation: {} = {} degrees"
                              [AStr bone_name; AFloat rotation]) INFO)
            (debug_print (Msg "rotation value parse error: {}"
                              [AStr bone_name]) WARNING)
        else ret tt) ;;
       debug_print (Msg "created bone: {} at ({}, {})"
                        [AStr bone_name; AFloat pos_x; AFloat pos_y]) INFO ;;
       ret (BonesState (Dict.set (bone_map st) bone_name new_bone)
                       (created_count st + 1) (bone_errors st)))
    (fun e =>
       nm <- lift (Py.get bone "name" (JStr "unknown")) ;;
       debug_print (Msg "bone creation failed {}: {}" [AVal nm; AExn e])
                   ERROR ;;
       ret (BonesState (bone_map st) (created_count st)
                       (bone_errors st + 1))).

(** Pass 2 of [create_bones]: the body of the loop, lines 159-172.
    The loop state is the count of parent links made. *)
Definition link_bone (bone_map : Dict.t nat) (bone : json)
    (parent_relations : Z) : M Z :=
  try_catch
    (nm <- lift (Py.get bone "name" (JStr "")) ;;
     let bone_name := safe_str nm in
     pn <- lift (Py.get bone "parent" (JStr "")) ;;
     let parent_name := safe_str pn in
     if PyStr.nonempty parent_name then
       match Dict.get bone_map parent_name, Dict.get bone_map bone_name with
       | Some parent, Some child =>
           Rt.update_node child (Scene.set_parent parent) ;;
           debug_print (Msg "set parent: {} -> {}"
                            [AStr bone_name; AStr parent_name]) INFO ;;
           ret (parent_relations + 1)
       | None, _ =>
           debug_print (Msg "parent bone does not exist: {}"
                            [AStr parent_name]) WARNING ;;
           ret parent_relations
       | Some _, None => ret parent_relations
       end
     else ret parent_relations)
    (fun e =>
       debug_print (Msg "setting parent failed: {}" [AExn e]) ERROR ;;
       ret parent_relations).

(** [create_bones], lines 100-180. *)
Definition create_bones (data : json) (scale : Float64.float)
  : M (Dict.t nat) :=
  try_catch
    (bones_data <- lift (Py.get data "bones" (JList [])) ;;
     if negb (Py.truthy bones_data) then
       debug_print (Msg "warning: no bone data found" []) WARNING ;;
       ret []
     else
       n <- lift (Py.len bones_data) ;;
       debug_print (Msg "creating {} bones" [AInt n]) INFO ;;
       bones <- lift (Py.iter bones_data) ;;
       st <- for_each (create_bone scale) bones (BonesState [] 0 0) ;;
       parent_relations <- for_each (link_bone (bone_map st)) bones 0 ;;
       debug_print
         (Msg "bones finished: {} created, {} errors, {} parent links"
              [AInt (created_count st); AInt (bone_errors st);
               AInt parent_relations]) INFO ;;
       ret (bone_map st))
    (fun e =>
       debug_print (Msg "bone creation failed: {}" [AExn e]) ERROR ;;
       debug_print (Msg "details: {}" [AExn e]) ERROR ;;
       ret []).

(** The body of the loop of [create_meshes], lines 194-246.  The loop
    state is [(mesh_count, error_count)]. *)
Definition create_mesh (bone_map textures : Dict.t nat) (slot : json)
    (st : Z * Z) : M (Z * Z) :=
  let '(mesh_count, error_count) := st in
  try_catch
    (sn <- lift (Py.get slot "name" (JStr "")) ;;
     let slot_name := safe_str sn in
     bn <- lift (Py.get slot "bone" (JStr "")) ;;
     let bone_name := safe_str bn in
     attachment <- lift (Py.get slot "attachment" (JDict [])) ;;
     if negb (PyStr.nonempty slot_name) then
       debug_print (Msg "skipping unnamed slot" []) WARNING ;;
       ret st
     else
       match Dict.get bone_map bone_name with
       | None =>
           debug_print (Msg "no bone for slot {}: {}"
                            [AStr slot_name; AStr bone_name]) WARNING ;;
           ret (mesh_count, error_count + 1)
       | Some bone =>
           plane <- Rt.Plane ;;
           Rt.update_node plane (Scene.set_name ("Mesh_" ++ slot_name)) ;;
           Rt.update_node plane (Scene.set_parent bone) ;;
           pos <- Rt.get_pos bone ;;
           Rt.set_pos plane pos ;;
           has_name <- (if Py.truthy attachment
                        then lift (Py.contains "name" attachment)
                        else ret false) ;;
           (if has_name : bool then
              an <- lift (Py.index attachment "name") ;;
              tex_name <- lift match an with
                               | JStr a => inr (hd "" (PyStr.split dot a))
                               | _ => inl AttributeError
                               end ;;
              match Dict.get textures tex_name with
              | Some tex =>
                  Rt.update_node plane
                    (Scene.set_material
                       (Material ("Mat_" ++ tex_name) tex)) ;;
                  has_w <- lift (Py.contains "width" attachment) ;;
                  has_h <- (if has_w : bool
                            then lift (Py.contains "height" attachment)
                            else ret false) ;;
                  (if has_h : bool then
                     try_ValueError
                       (w <- lift (Py.index attachment "width") ;;
                        fw <- lift (Py.to_float E w) ;;
                        let width := Float64.mul fw Float64.f0_01 in
                        hh <- lift (Py.index attachment "height") ;;
                        fh <- lift (Py.to_float E hh) ;;
                        let height := Float64.mul fh Float64.f0_01 in
                        Rt.update_node plane (Scene.set_width width) ;;
                        Rt.update_node plane (Scene.set_length height) ;;
                        debug_print
                          (Msg "set mesh size: {} = {}x{}"
                               [AStr slot_name; AFloat width; AFloat height])
                          INFO)
                       (debug_print (Msg "size value parse error: {}"
                                         [AStr slot_name]) WARNING)
                   else ret tt) ;;
                  debug_print (Msg "applied texture {} to {}"
                                   [AStr tex_name; AStr slot_name]) INFO
              | None =>
                  debug_print (Msg "no texture for {}: {}"
                                   [AStr slot_name; AStr tex_name]) WARNING
              end
            else
              debug_print (Msg "slot {} has no attachment data"
                               [AStr slot_name]) WARNING) ;;
           ret (mesh_count + 1, error_count)
       end)
    (fun e =>
       sn <- lift (Py.get slot "name" (JStr "unknown")) ;;
       debug_print (Msg "mesh creation failed {}: {}" [AVal sn; AExn e])
                   ERROR ;;
       ret (mesh_count, error_count + 1)).

(** [create_meshes], lines 182-248. *)
Definition create_meshes (data : json) (bone_map textures : Dict.t nat)
  : M unit :=
  slots_data <- lift (Py.get data "slots" (JList [])) ;;
  if negb (Py.truthy slots_data) then
    debug_print (Msg "warning: no slot data found" []) WARNING
  else
    n <- lift (Py.len slots_data) ;;
    debug_print (Msg "creating {} meshes" [AInt n]) INFO ;;
    slots <- lift (Py.iter slots_data) ;;
    st <- for_each (create_mesh bone_map textures) slots (0, 0) ;;
    debug_print (Msg "meshes finished: {} created, {} failed"
                     [AInt (fst st); AInt (snd st)]) INFO.

(** The fallback scan over the top-level keys, lines 259-264:
    [animations] is the value held when the loop reaches a key. *)
Fixpoint find_animations (data : json) (keys : list string)
    (animations : json) : M json :=
  match keys with
  | [] => ret animations
  | key :: rest =>
      if PyStr.contains "anim" (PyStr.lower key)
         || PyStr.contains "motion" (PyStr.lower key) then
        debug_print (Msg "found a possible animation key: {}" [AStr key])
                    INFO ;;
        a <- lift (Py.get data key (JDict [])) ;;
        if Py.truthy a then ret a else find_animations data rest a
      else find_animations data rest animations
  end.

(** Lines 256-264: the animation source of a document. *)
Definition locate_animations (data : json) : M json :=
  animations <- lift (Py.get data "animations" (JDict [])) ;;
  if negb (Py.truthy animations) then
    debug_print (Msg "looking for other animation keys..." []) INFO ;;
    keys <- lift (Py.keys data) ;;
    find_animations data keys animations
  else ret animations.

(** The duration scan, lines 274-282, from the innermost loop out. *)
Definition scan_frame (frame : json) (anim_length : pynum) : M pynum :=
  t <- lift (Py.get frame "time" (JInt 0)) ;;
  ft <- lift (Py.to_float E t) ;;
  ret (PyNum.max anim_length ft).

Definition scan_channel (bone_anim : json) (anim_type : string)
    (anim_length : pynum) : M pynum :=
  present <- lift (Py.contains anim_type bone_anim) ;;
  if present : bool then
    frames <- lift (Py.index bone_anim anim_type) ;;
    fs <- lift (Py.iter frames) ;;
    for_each scan_frame fs anim_length
  else ret anim_length.

Definition scan_bone (item : string * json) (anim_length : pynum)
  : M pynum :=
  for_each (scan_channel (snd item)) channels anim_length.

Definition scan_clip (item : string * json) (anim_length : pynum)
  : M pynum :=
  bones_data <- lift (Py.get (snd item) "bones" (JDict [])) ;;
  bs <- lift (Py.items bones_data) ;;
  for_each scan_bone bs anim_length.

(** Lines 308-318: one translate keyframe. *)
Definition bake_translate (bone : nat) (frame : json) (_ : unit)
  : M unit :=
  try_catch
    (t <- lift (Py.get frame "time" (JInt 0)) ;;
     ft <- lift (Py.to_float E t) ;;
     time <- lift (Py.int_of_float (Float64.mul ft Float64.f30)) ;;
     vx <- lift (Py.get frame "x" (JInt 0)) ;;
     fx <- lift (Py.to_float E vx) ;;
     let x := Float64.mul fx Float64.f0_01 in
     vy <- lift (Py.get frame "y" (JInt 0)) ;;
     fy <- lift (Py.to_float E vy) ;;
     let y := Float64.mul (Float64.opp fy) Float64.f0_01 in
     Rt.set_sliderTime time ;;
     Rt.set_pos bone (Point3 x y Float64.zero))
    (fun e => debug_print (Msg "position keyframe error: {}" [AExn e]) ERROR).

(** Lines 323-332: one rotate keyframe. *)
Definition bake_rotate (bone : nat) (frame : json) (_ : unit) : M unit :=
  try_catch
    (t <- lift (Py.get frame "time" (JInt 0)) ;;
     ft <- lift (Py.to_float E t) ;;
     time <- lift (Py.int_of_float (Float64.mul ft Float64.f30)) ;;
     va <- lift (Py.get frame "angle" (JInt 0)) ;;
     fa <- lift (Py.to_float E va) ;;
     let angle := radToDeg E fa in
     Rt.set_sliderTime time ;;
     Rt.set_rotation bone angle)
    (fun e => debug_print (Msg "rotation keyframe error: {}" [AExn e]) ERROR).

(** Lines 297-332: the tracks of one bone of one clip. *)
Definition bake_bone (bone_map : Dict.t nat) (item : string * json)
    (_ : unit) : M unit :=
  let '(bone_name, bone_anim) := item in
  let bone_name_str := safe_str (JStr bone_name) in
  match Dict.get bone_map bone_name_str with
  | None =>
      debug_print (Msg "animation cannot find bone: {}" [AStr bone_name_str])
                  WARNING
  | Some bone =>
      has_t <- lift (Py.contains "translate" bone_anim) ;;
      (if has_t : bool then
         debug_print (Msg "processing position animation of {}"
                          [AStr bone_name_str]) INFO ;;
         frames <- lift (Py.index bone_anim "translate") ;;
         fs <- lift (Py.iter frames) ;;
         for_each (bake_translate bone) fs tt
       else ret tt) ;;
      has_r <- lift (Py.contains "rotate" bone_anim) ;;
      (if has_r : bool then
         debug_print (Msg "processing rotation animation of {}"
                          [AStr bone_name_str]) INFO ;;
         frames <- lift (Py.index bone_anim "rotate") ;;
         fs <- lift (Py.iter frames) ;;
         for_each (bake_rotate bone) fs tt
       else ret tt)
  end.

(** Lines 293-335: one clip; the loop state is [imported_animations]. *)
Definition bake_clip (bone_map : Dict.t nat) (item : string * json)
    (imported_animations : Z) : M Z :=
  debug_print (Msg "importing animation: {}" [AStr (fst item)]) INFO ;;
  bones_data <- lift (Py.get (snd item) "bones" (JDict [])) ;;
  bs <- lift (Py.items bones_data) ;;
  for_each (bake_bone bone_map) bs tt ;;
  debug_print (Msg "finished animation: {}" [AStr (fst item)]) INFO ;;
  ret (imported_animations + 1).

(** [import_animation], lines 250-344. *)
Definition import_animation (data : json) (bone_map : Dict.t nat)
  : M unit :=
  try_catch
    (debug_print (Msg "analysing animation data structure..." []) INFO ;;
     animations <- locate_animations data ;;
     if negb (Py.truthy animations) then
       debug_print (Msg "no animation data found" []) WARNING
     else
       n <- lift (Py.len animations) ;;
       debug_print (Msg "found {} animations" [AInt n]) INFO ;;
       names <- lift (Py.keys animations) ;;
       debug_print (Msg "animation names: {}" [AKeys names]) INFO ;;
       clips <- lift (Py.items animations) ;;
       longest <- for_each scan_clip clips (PInt 0) ;;
       frames <- lift (PyNum.int_times_30 longest) ;;
       let anim_length := frames + 10 in
       Rt.set_animationRange 0 anim_length ;;
       Rt.set_sliderTime 0 ;;
       debug_print (Msg "animation length: {} frames" [AInt anim_length])
                   INFO ;;
       imported <- for_each (bake_clip bone_map) clips 0 ;;
       Rt.set_sliderTime 0 ;;
       debug_print (Msg "animation import finished: {} animations"
                        [AInt imported]) INFO)
    (fun e =>
       debug_print (Msg "animation import failed: {}" [AExn e]) ERROR ;;
       debug_print (Msg "details: {}" [AExn e]) ERROR).

(** [import_spine], lines 346-401; the result is the returned text. *)
Definition import_spine (json_path atlas_path texture_dir : string)
    (scale : Float64.float) : M message :=
  try_catch
    (debug_print (Msg "=== starting Spine import ===" []) INFO ;;
     let '(valid, error_msg) := validate_file_path json_path "JSON file" in
     if negb valid then ret error_msg
     else
       let '(valid, error_msg) :=
         validate_file_path atlas_path "Atlas file" in
       if negb valid then ret error_msg
       else
         let '(valid, error_msg) :=
           validate_file_path texture_dir "texture directory" in
         if negb valid then ret error_msg
         else
           match load_json E json_path with
           | inl e => ret (Msg "reading the JSON file failed: {}" [AExn e])
           | inr data =>
               debug_print (Msg "JSON data loaded" []) INFO ;;
               debug_print (Msg "loading textures..." []) INFO ;;
               textures <- load_textures atlas_path texture_dir ;;
               debug_print (Msg "creating bones..." []) INFO ;;
               bone_map <- create_bones data scale ;;
               debug_print (Msg "creating meshes..." []) INFO ;;
               create_meshes data bone_map textures ;;
               Rt.set_sliderTime 0 ;;
               Rt.set_animationRange 0 100 ;;
               debug_print (Msg "importing animation..." []) INFO ;;
               import_animation data bone_map ;;
               (match bone_map with
                | [] => ret tt
                | _ => Rt.select (Dict.values bone_map)
                end) ;;
               debug_print (Msg "=== Spine import finished ===" []) INFO ;;
               ret (Msg "import succeeded: {} bones created, {} textures loaded"
                        [AInt (Z.of_nat (List.length bone_map));
                         AInt (Z.of_nat (List.length textures))])
           end)
    (fun e =>
       let error_msg := Msg "import failed: {}" [AExn e] in
       debug_print error_msg ERROR ;;
       debug_print (Msg "details: {}" [AExn e]) ERROR ;;
       ret error_msg).

End WithPlatform.

End Improved.

(* ===================================================================== *)
(** * spine_importer.py *)
(* ===================================================================== *)

(** The lines this file prints carry no level: each begins with an emoji.
    The embedding gives a line the level its emoji stands for: the cross
    mark is [ERROR], the warning sign is [WARNING], any other is [INFO]. *)

Module Original.

(** The locals of the loop of [load_textures]. *)
Record tex_state : Type := TexState {
  textures : Dict.t nat;
  current_texture : option string;
  texture_count : Z
}.

Section WithPlatform.

Variable E : platform.

(** [safe_str], lines 6-13. *)
Definition safe_str (s : json) : string :=
  match s with
  | JNull => ""
  | _ => PyStr.strip
           (PyStr.replace newline space
              (PyStr.replace dquote apostrophe
                 (PyStr.replace backslash slash (Py.str E s))))
  end.

(** [debug_print], lines 15-25. *)
Definition debug_print (lvl : level) (msg : message) : M unit :=
  Rt.print lvl msg.

(** The body of the loop over the atlas lines, lines 43-66. *)
Definition load_line (texture_dir : string) (numbered : Z * string)
    (st : tex_state) : M tex_state :=
  let '(line_num, raw) := numbered in
  let line := PyStr.strip raw in
  if negb (PyStr.nonempty line) then ret st
  else
    try_catch
      (if PyStr.endswith ".png" line then
         let tex_name := hd "" (PyStr.split dot line) in
         let tex_path := path_join E texture_dir line in
         if path_exists E tex_path then
           tex <- Rt.BitmapTexture tex_path ;;
           debug_print INFO (Msg "load texture: {}" [AStr tex_name]) ;;
           ret (TexState (Dict.set (textures st) tex_name tex)
                         (Some tex_name) (texture_count st + 1))
         else
           debug_print WARNING
             (Msg "texture file not found: {}" [AStr tex_path]) ;;
           ret st
       else if PyStr.startswith "rotate:" line
               && truthy_name (current_texture st) then
         try_catch
           (field <- lift match nth_error (PyStr.split colon line) 1 with
                          | Some f => inr f
                          | None => inl IndexError
                          end ;;
            rotation_value <- lift (Py.to_float E (JStr field)) ;;
            tex <- lift match current_texture st with
                        | Some c =>
                            match Dict.get (textures st) c with
                            | Some t => inr t
                            | None => inl KeyError
                            end
                        | None => inl KeyError
                        end ;;
            Rt.update_bitmap tex (Scene.set_rotation_bm rotation_value) ;;
            debug_print INFO
              (Msg "set texture rotation: {} = {}"
                   [AStr (match current_texture st with
                          | Some c => c
                          | None => ""
                          end); AFloat rotation_value]) ;;
            ret st)
           (fun _ =>
              debug_print WARNING
                (Msg "cannot parse rotation value: {}" [AStr line]) ;;
              ret st)
       else ret st)
      (fun e =>
         debug_print ERROR (Msg "error while processing line {}: {}"
                                [AInt line_num; AExn e]) ;;
         ret st).

(** [load_textures], lines 27-72. *)
Definition load_textures (atlas_path texture_dir : string)
  : M (Dict.t nat) :=
  try_catch
    (if negb (path_exists E atlas_path) then
       debug_print ERROR (Msg "Atlas file not found: {}" [AStr atlas_path]) ;;
       ret []
     else
       debug_print INFO (Msg "reading Atlas file: {}" [AStr atlas_path]) ;;
       lines <- lift (read_lines E atlas_path) ;;
       st <- for_each (load_line texture_dir) (enumerate 1 lines)
                      (TexState [] None 0) ;;
       debug_print INFO
         (Msg "loaded {} textures" [AInt (texture_count st)]) ;;
       ret (textures st))
    (fun e =>
       debug_print ERROR (Msg "texture loading failed: {}" [AExn e]) ;;
       ret []).

(** Pass 1 of [create_bones]: the body of the loop, lines 82-113.  The
    loop state is [bone_map]. *)
Definition create_bone (scale : Float64.float) (bone : json)
    (bone_map : Dict.t nat) : M (Dict.t nat) :=
  try_catch
    (nm <- lift (Py.index bone "name") ;;
     let bone_name := safe_str nm in
     x <- lift (Py.get bone "x" (JInt 0)) ;;
     fx <- lift (Py.to_float E x) ;;
     let pos_x := Float64.mul fx scale in
     y <- lift (Py.get bone "y" (JInt 0)) ;;
     fy <- lift (Py.to_float E y) ;;
     let pos_y := Float64.mul (Float64.opp fy) scale in
     let pos_z := Float64.zero in
     l <- lift (Py.get bone "length" (JFloat Float64.f1)) ;;
     fl <- lift (Py.to_float E l) ;;
     let bone_length := Float64.mul (Py.max Float64.f0_1 fl) scale in
     let end_pos := Point3 pos_x (Float64.sub pos_y bone_length) pos_z in
     new_bone <- Rt.createBone (Point3 pos_x pos_y pos_z) end_pos ;;
     Rt.update_node new_bone (Scene.set_name bone_name) ;;
     Rt.update_node new_bone
       (Scene.set_width (Float64.mul bone_length Float64.f0_3)) ;;
     Rt.update_node new_bone
       (Scene.set_height (Float64.mul bone_length Float64.f0_3)) ;;
     has_rotation <- lift (Py.contains "rotation" bone) ;;
     (if has_rotation : bool then
        r <- lift (Py.index bone "rotation") ;;
        fr <- lift (Py.to_float E r) ;;
        let rotation := radToDeg E fr in
        Rt.set_rotation new_bone rotation ;;
        debug_print INFO (Msg "set initial rotation: {} = {} degrees"
                              [AStr bone_name; AFloat rotation])
      else ret tt) ;;
     debug_print INFO (Msg "created bone: {} at ({}, {})"
                           [AStr bone_name; AFloat pos_x; AFloat pos_y]) ;;
     ret (Dict.set bone_map bone_name new_bone))
    (fun e =>
       nm <- lift (Py.get bone "name" (JStr "unknown")) ;;
       debug_print ERROR (Msg "bone creation failed {}: {}"
                              [AVal nm; AExn e]) ;;
       ret bone_map).

(** Pass 2 of [create_bones]: the body of the loop, lines 117-127.  The
    loop state is [parent_count]. *)
Definition link_bone (bone_map : Dict.t nat) (bone : json)
    (parent_count : Z) : M Z :=
  try_catch
    (nm <- lift (Py.index bone "name") ;;
     let bone_name := safe_str nm in
     pn <- lift (Py.get bone "parent" JNull) ;;
     let parent_name := safe_str pn in
     if PyStr.nonempty parent_name then
       match Dict.get bone_map parent_name, Dict.get bone_map bone_name with
       | Some parent, Some child =>
           Rt.update_node child (Scene.set_parent parent) ;;
           debug_print INFO (Msg "set parent: {} -> {}"
                                 [AStr bone_name; AStr parent_name]) ;;
           ret (parent_count + 1)
       | _, _ => ret parent_count
       end
     else ret parent_count)
    (fun e =>
       debug_print ERROR (Msg "setting parent failed: {}" [AExn e]) ;;
       ret parent_count).

(** [create_bones], lines 74-134. *)
Definition create_bones (data : json) (scale : Float64.float)
  : M (Dict.t nat) :=
  try_catch
    (debug_print INFO (Msg "creating bones, scale: {}" [AFloat scale]) ;;
     bones_data <- lift (Py.get data "bones" (JList [])) ;;
     bones <- lift (Py.iter bones_data) ;;
     bone_map <- for_each (create_bone scale) bones [] ;;
     bones_data2 <- lift (Py.get data "bones" (JList [])) ;;
     bones2 <- lift (Py.iter bones_data2) ;;
     parent_count <- for_each (link_bone bone_map) bones2 0 ;;
     debug_print INFO
       (Msg "created {} bones, {} parent links"
            [AInt (Z.of_nat (List.length bone_map)); AInt parent_count]) ;;
     ret bone_map)
    (fun e =>
       debug_print ERROR (Msg "bone creation failed: {}" [AExn e]) ;;
       ret []).

(** The body of the loop of [create_meshes], lines 142-183.  The loop
    state is [mesh_count]. *)
Definition create_mesh (bone_map textures : Dict.t nat) (slot : json)
    (mesh_count : Z) : M Z :=
  try_catch
    (sn <- lift (Py.index slot "name") ;;
     let slot_name := safe_str sn in
     bn <- lift (Py.index slot "bone") ;;
     let bone_name := safe_str bn in
     attachment <- lift (Py.get slot "attachment" (JDict [])) ;;
     match Dict.get bone_map bone_name with
     | None =>
         debug_print WARNING (Msg "no bone for slot {}: {}"
                                  [AStr slot_name; AStr bone_name]) ;;
         ret mesh_count
     | Some bone =>
         plane <- Rt.Plane ;;
         Rt.update_node plane (Scene.set_name ("Mesh_" ++ slot_name)) ;;
         Rt.update_node plane (Scene.set_parent bone) ;;
         pos <- Rt.get_pos bone ;;
         Rt.set_pos plane pos ;;
         has_name <- (if Py.truthy attachment
                      then lift (Py.contains "name" attachment)
                      else ret false) ;;
         (if has_name : bool then
            an <- lift (Py.index attachment "name") ;;
            tex_name <- lift match an with
                             | JStr a => inr (hd "" (PyStr.split dot a))
                             | _ => inl AttributeError
                             end ;;
            match Dict.get textures tex_name with
            | Some tex =>
                Rt.update_node plane
                  (Scene.set_material (Material ("Mat_" ++ tex_name) tex)) ;;
                has_w <- lift (Py.contains "width" attachment) ;;
                has_h <- (if has_w : bool
                          then lift (Py.contains "height" attachment)
                          else ret false) ;;
                (if has_h : bool then
                   w <- lift (Py.index attachment "width") ;;
                   fw <- lift (Py.to_float E w) ;;
                   let width := Float64.mul fw Float64.f0_01 in
                   Rt.update_node plane (Scene.set_width width) ;;
                   hh <- lift (Py.index attachment "height") ;;
                   fh <- lift (Py.to_float E hh) ;;
                   let height := Float64.mul fh Float64.f0_01 in
                   Rt.update_node plane (Scene.set_length height) ;;
                   debug_print INFO
                     (Msg "set mesh size: {} = {} x {}"
                          [AStr slot_name; AFloat width; AFloat height])
                 else ret tt) ;;
                debug_print INFO (Msg "applied texture {} to {}"
                                      [AStr tex_name; AStr slot_name])
            | None =>
                debug_print WARNING (Msg "no texture for {}: {}"
                                         [AStr slot_name; AStr tex_name])
            end
          else
            debug_print INFO (Msg "{} has no attachment data"
                                  [AStr slot_name])) ;;
         ret (mesh_count + 1)
     end)
    (fun e =>
       sn <- lift (Py.get slot "name" (JStr "unknown")) ;;
       debug_print ERROR (Msg "mesh creation failed {}: {}"
                              [AVal sn; AExn e]) ;;
       ret mesh_count).

(** [create_meshes], lines 136-185. *)
Definition create_meshes (data : json) (bone_map textures : Dict.t nat)
  : M unit :=
  debug_print INFO (Msg "creating meshes..." []) ;;
  slots_data <- lift (Py.get data "slots" (JList [])) ;;
  slots <- lift (Py.iter slots_data) ;;
  mesh_count <- for_each (create_mesh bone_map textures) slots 0 ;;
  debug_print INFO (Msg "created {} meshes" [AInt mesh_count]).

End WithPlatform.

End Original.

(* ===================================================================== *)
(** * The animation document of the specification *)
(* ===================================================================== *)

(** The typed view of the [animations] section (KeyframeTrack,
    AnimationClip), with its encoding as the JSON the scripts read. *)

Module Doc.

(** A JSON number: [json.load] gives an [int] or a [float]. *)
Inductive number : Type :=
| NInt (z : Z)
| NFloat (f : Float64.float).

Definition to_json (n : number) : json :=
  match n with
  | NInt z => JInt z
  | NFloat f => JFloat f
  end.

(** The float a number stands for. *)
Definition value (n : number) : Float64.float :=
  match n with
  | NInt z => Float64.of_Z z
  | NFloat f => f
  end.

(** A keyframe of a translate or scale track, and of a rotate track. *)
Record vec_key : Type :=
  VecKey { vk_time : number; vk_x : number; vk_y : number }.

Record angle_key : Type := AngleKey { ak_time : number; ak_angle : number }.

(** The tracks of one bone in one clip; a channel may be absent. *)
Record tracks : Type := Tracks {
  translate : option (list vec_key);
  rotate : option (list angle_key);
  scale : option (list vec_key)
}.

Definition clip : Type := list (string * tracks).

Definition animations : Type := list (string * clip).

Definition json_of_vec_key (k : vec_key) : json :=
  JDict [("time", to_json (vk_time k)); ("x", to_json (vk_x k));
         ("y", to_json (vk_y k))].

Definition json_of_angle_key (k : angle_key) : json :=
  JDict [("time", to_json (ak_time k)); ("angle", to_json (ak_angle k))].

Definition channel {A} (name : string) (enc : A -> json)
    (o : option (list A)) : list (string * json) :=
  match o with
  | Some ks => [(name, JList (map enc ks))]
  | None => []
  end.

Definition json_of_tracks (t : tracks) : json :=
  JDict (channel "translate" json_of_vec_key (translate t)
         ++ channel "rotate" json_of_angle_key (rotate t)
         ++ channel "scale" json_of_vec_key (scale t)).

Definition json_of_clip (c : clip) : json :=
  JDict [("bones", JDict (map (fun p => (fst p, json_of_tracks (snd p))) c))].

Definition json_of_animations (a : animations) : json :=
  JDict (map (fun p => (fst p, json_of_clip (snd p))) a).

Definition keys_of {A} (time : A -> number) (o : option (list A))
  : list Float64.float :=
  match o with
  | Some ks => map (fun k => value (time k)) ks
  | None => []
  end.

(** Every [timeSeconds] of the translate, rotate and scale keyframes of
    a bone, of a clip, of a document. *)
Definition times_of_tracks (t : tracks) : list Float64.float :=
  keys_of vk_time (translate t) ++ keys_of ak_time (rotate t)
  ++ keys_of vk_time (scale t).

Definition times_of_clip (c : clip) : list Float64.float :=
  flat_map (fun p => times_of_tracks (snd p)) c.

Definition times (a : animations) : list Float64.float :=
  flat_map (fun p => times_of_clip (snd p)) a.

(** [m] is the maximum of [ts]. *)
Definition is_maximum (m : Float64.float) (ts : list Float64.float) : Prop :=
  In m ts /\ Forall (fun t => Float64.leb t m = true) ts.

Definition all_finite (ts : list Float64.float) : Prop :=
  Forall (fun t => Float64.is_finite t = true) ts.

(** The key the baker writes for a translate keyframe and for a rotate
    keyframe: the frame index is [int(time * 30)]. *)
Definition frame_index (time : number) : option Z :=
  Float64.trunc (Float64.mul (value time) Float64.f30).

Definition translate_value (k : vec_key) : point3 :=
  Point3 (Float64.mul (value (vk_x k)) Float64.f0_01)
         (Float64.mul (Float64.opp (value (vk_y k))) Float64.f0_01)
         Float64.zero.

Definition rotate_value (E : platform) (k : angle_key) : Float64.float :=
  radToDeg E (value (ak_angle k)).

(** A keyframe the scripts can convert: its numbers are floats and the
    frame index exists. *)
Definition vec_ok (k : vec_key) : Prop :=
  Float64.is_finite (value (vk_time k)) = true
  /\ Float64.is_finite (Float64.mul (value (vk_time k)) Float64.f30) = true
  /\ Float64.is_finite (value (vk_x k)) = true
  /\ Float64.is_finite (value (vk_y k)) = true.

Definition angle_ok (k : angle_key) : Prop :=
  Float64.is_finite (value (ak_time k)) = true
  /\ Float64.is_finite (Float64.mul (value (ak_time k)) Float64.f30) = true
  /\ Float64.is_finite (value (ak_angle k)) = true.

Definition index_or_zero (time : number) : Z :=
  match frame_index time with
  | Some z => z
  | None => 0
  end.

Definition baked_translate (k : vec_key) : Z * point3 :=
  (index_or_zero (vk_time k), translate_value k).

Definition baked_rotate (E : platform) (k : angle_key)
  : Z * Float64.float :=
  (index_or_zero (ak_time k), rotate_value E k).

End Doc.

(** The fallback source of the specification: the first top-level item
    whose key contains "anim" or "motion", case-insensitively, and whose
    value is not empty. *)
Definition is_animation_key (key : string) : bool :=
  PyStr.contains "anim" (PyStr.lower key)
  || PyStr.contains "motion" (PyStr.lower key).

Definition fallback_source (kv : list (string * json))
  : option (string * json) :=
  find (fun p => is_animation_key (fst p) && Py.truthy (snd p)) kv.

(** ** The parent graph *)

(** The parent a bone record declares, as pass 2 of the improved script
    reads it, and the parents the records of a document declare. *)
Definition declares_by (E : platform) (bone : json)
    (child parent : string) : Prop :=
  exists nm pn,
    Py.get bone "name" (JStr "") = inr nm
    /\ Py.get bone "parent" (JStr "") = inr pn
    /\ Improved.safe_str E nm = child
    /\ Improved.safe_str E pn = parent
    /\ PyStr.nonempty parent = true.

Definition declares (E : platform) (bones : list json)
    (child parent : string) : Prop :=
  exists bone, In bone bones /\ declares_by E bone child parent.

(** The parent links of the scene between the bones of a map. *)
Definition linked (h : host) (bone_map : Dict.t nat)
    (child parent : string) : Prop :=
  exists c p,
    Dict.get bone_map child = Some c
    /\ Dict.get bone_map parent = Some p
    /\ Scene.parent_of h c = Some p.

Definition acyclic {A} (R : A -> A -> Prop) : Prop :=
  forall x, ~ clos_trans A R x x.

(** A node with a chain of parents that ends at a parentless node. *)
Inductive rooted (h : host) : nat -> Prop :=
| rooted_root i n :
    nth_error (nodes h) i = Some n -> n_parent n = None -> rooted h i
| rooted_step i p :
    Scene.parent_of h i = Some p -> rooted h p -> rooted h i.

(** The bones of a document, as [create_bones] iterates them. *)
Definition bones_of (data : json) : list json :=
  match Py.get data "bones" (JList []) with
  | inr b =>
      match Py.iter b with
      | inr l => l
      | inl _ => []
      end
  | inl _ => []
  end.

(** No dangling parent: every bone of the map is a scene node whose
    parent, if it has one, is a bone of the map. *)
Definition parents_resolved (h : host) (bone_map : Dict.t nat) : Prop :=
  forall name i,
    Dict.get bone_map name = Some i ->
    exists n,
      nth_error (nodes h) i = Some n
      /\ (n_parent n = None
          \/ exists p pname,
               n_parent n = Some p /\ Dict.get bone_map pname = Some p).

(* ===================================================================== *)
(** * Concrete inputs *)
(* ===================================================================== *)

Module Demo.

(** An environment with an empty file system. *)
Definition platform0 : platform := {|
  py_repr := fun _ => "";
  parse_float := fun _ => None;
  radToDeg := fun f => f;
  path_join := fun a b => a ++ "/" ++ b;
  path_exists := fun _ => false;
  read_lines := fun _ => inl OSError;
  load_json := fun _ => inl OSError
|}.

Definition ninety : Float64.float := Eval vm_compute in Float64.of_Z 90.

(** An environment where every path exists, the atlas is [lines] and
    the one float literal is "90". *)
Definition platform_with (lines : list string) : platform := {|
  py_repr := fun _ => "";
  parse_float :=
    fun s => if String.eqb (PyStr.strip s) "90" then Some ninety else None;
  radToDeg := fun f => f;
  path_join := fun a b => a ++ "/" ++ b;
  path_exists := fun _ => true;
  read_lines := fun _ => inr lines;
  load_json := fun _ => inl OSError
|}.

(** An empty scene, as [import_spine] sets the time line. *)
Definition scene0 : host := Host [] [] (0, 100) 0 [] [].

Definition quarter : Float64.float :=
  Eval vm_compute in Float64.div (Float64.of_Z 1) (Float64.of_Z 4).

Definition minus_quarter : Float64.float :=
  Eval vm_compute in Float64.opp quarter.

Definition key (t : Doc.number) : Doc.vec_key :=
  Doc.VecKey t (Doc.NInt 0) (Doc.NInt 0).

Definition one_track (ks : list Doc.vec_key) : Doc.animations :=
  [("clip", [("root", Doc.Tracks (Some ks) None None)])].

Definition document (a : Doc.animations) : list (string * json) :=
  [("animations", Doc.json_of_animations a)].

(** Scenario B: a translate track on [root] with keys at 0, 1 and 2. *)
Definition scenario_B : Doc.animations :=
  one_track [key (Doc.NInt 0); key (Doc.NInt 1); key (Doc.NInt 2)].

(** One key before time zero; one key a quarter of a second in. *)
Definition negative_time : Doc.animations := one_track [key (Doc.NInt (-1))].

Definition quarter_second : Doc.animations :=
  one_track [key (Doc.NFloat quarter)].

(** A bone that names itself as its parent. *)
Definition self_parent : json :=
  JDict [("bones", JList [JDict [("name", JStr "a"); ("parent", JStr "a")]])].

(** A bone with an empty name. *)
Definition empty_name : json :=
  JDict [("bones", JList [JDict [("name", JStr "")]])].

(** An atlas that declares a region, rotates it and declares it again. *)
Definition redeclared : list string := ["a.png"; "rotate: 90"; "a.png"].

(** A scene with one bone at the origin and nothing else. *)
Definition origin : point3 := Point3 Float64.zero Float64.zero Float64.zero.

Definition bone0 : node := Scene.new_bone origin origin.

Definition one_bone_scene : host := Host [] [bone0] (0, 100) 0 [] [].

(** A translate key a quarter of a second before time zero. *)
Definition early_key : Doc.vec_key :=
  Doc.VecKey (Doc.NFloat minus_quarter) (Doc.NInt 100) (Doc.NInt 100).

(** A bone whose parent is not a bone of the document. *)
Definition orphan_record : list (string * json) :=
  [("name", JStr "a"); ("parent", JStr "ghost")].

(** A document that keeps its clips under another key. *)
Definition other_key : list (string * json) :=
  [("bones", JList []); ("Animation_Data", JDict [("walk", JDict [])])].

End Demo.


(* ===================================================================== *)
(** * Notions the properties are stated with *)
(* ===================================================================== *)

(** [post m h Q]: running [m] from [h] ends, by return or by exception,
    in an outcome and a state that satisfy [Q]. *)
Definition post {A} (m : M A) (h : host) (Q : exn + A -> host -> Prop)
  : Prop :=
  Q (fst (m h)) (snd (m h)).

(** A computation that leaves an observation [f] of the scene as it
    was, whether it returns or raises. *)
Definition keeps {A B} (f : host -> B) (m : M A) : Prop :=
  forall h, f (snd (m h)) = f h.

(** The scene after one more listener line. *)
Definition log (h : host) (l : level) (text : string) (args : list arg)
  : host :=
  Scene.with_listener h (listener h ++ [Entry l (Msg text args)]).

(** Only information lines were printed. *)
Definition all_info (h : host) : Prop :=
  Forall (fun e => e_level e = INFO) (listener h).

(** The first line [import_spine] prints. *)
Definition start_line : entry :=
  Entry INFO (Msg "=== starting Spine import ===" []).

(** ** The animation baker *)

(** The listener lines of the fallback scan: one for each key it tries. *)
Definition possible_key_lines (keys : list string) : list entry :=
  map (fun k => Entry INFO (Msg "found a possible animation key: {}" [AStr k]))
      (filter is_animation_key keys).

(** The value of the primary key, as [data.get("animations", {})]. *)
Definition primary_animations (kv : list (string * json)) : json :=
  match Dict.get kv "animations" with
  | Some v => v
  | None => JDict []
  end.

(** The running maximum of the duration scan over a list of times. *)
Definition running_max (ts : list Float64.float) : pynum :=
  fold_left PyNum.max ts (PInt 0).

(** The duration in frames of the time line of a scene. *)
Definition durationFrames (h : host) : Z := snd (animationRange h).

(** A channel is in the document; the keyframes of a channel. *)
Definition present {A} (o : option A) : bool :=
  match o with
  | Some _ => true
  | None => false
  end.

Definition keys_or_nil {A} (o : option (list A)) : list A :=
  match o with
  | Some ks => ks
  | None => []
  end.

(** ** The skeleton builder *)

(** The name a bone record goes by in the improved file, and the parent
    it names: the fields as [bone.get] reads them, through [safe_str]. *)
Definition record_name (E : platform) (kv : list (string * json)) : string :=
  Improved.safe_str E
    match Dict.get kv "name" with
    | Some v => v
    | None => JStr ""
    end.

Definition record_parent (E : platform) (kv : list (string * json))
  : string :=
  Improved.safe_str E
    match Dict.get kv "parent" with
    | Some v => v
    | None => JStr ""
    end.

(** The name field of a record is missing or empty. *)
Definition nameless (kv : list (string * json)) : Prop :=
  Dict.get kv "name" = None
  \/ Dict.get kv "name" = Some (JStr "")
  \/ Dict.get kv "name" = Some JNull.

Definition nonempty_name (name : string) : Prop :=
  PyStr.nonempty name = true.

Definition any_name (name : string) : Prop := True.

(** A reading of the records that says nothing. *)
Definition undeclared (bone : json) (child parent : string) : Prop := True.

Definition parentless (n : node) : Prop := n_parent n = None.

Definition injective (bone_map : Dict.t nat) : Prop :=
  forall k1 k2 i,
    Dict.get bone_map k1 = Some i -> Dict.get bone_map k2 = Some i -> k1 = k2.

(** After pass 1: the names of the map satisfy [named], every bone of the
    map is a parentless scene node, and no node has two names. *)
Definition created (named : string -> Prop) (bone_map : Dict.t nat)
    (h : host) : Prop :=
  (forall name i,
     Dict.get bone_map name = Some i ->
     named name
     /\ exists n, nth_error (nodes h) i = Some n /\ parentless n)
  /\ injective bone_map.

(** During pass 2: a bone of the map has no parent, or a parent in the
    map that one of the records gives it ([D] reads a record). *)
Definition resolved (D : json -> string -> string -> Prop)
    (bones : list json) (bone_map : Dict.t nat) (h : host) : Prop :=
  forall name i,
    Dict.get bone_map name = Some i ->
    exists n,
      nth_error (nodes h) i = Some n
      /\ (n_parent n = None
          \/ exists p pname,
               n_parent n = Some p
               /\ Dict.get bone_map pname = Some p
               /\ exists bone, In bone bones /\ D bone name pname).

(** What one round of pass 1 does to the scene and the map: it appends
    parentless nodes, and either leaves the map or binds one name to the
    node it has just made. *)
Definition creates_fresh {S} (map_of : S -> Dict.t nat)
    (named : string -> Prop) (h : host) (st : S)
    (r : exn + S) (h' : host) : Prop :=
  exists extra,
    nodes h' = (nodes h ++ extra)%list
    /\ Forall parentless extra
    /\ match r with
       | inr st' =>
           map_of st' = map_of st
           \/ exists name n,
                named name
                /\ map_of st' = Dict.set (map_of st) name
                                  (List.length (nodes h))
                /\ extra = [n]
       | inl _ => True
       end.

(** What one round of pass 2 does: it returns, and either leaves the
    nodes or links a bone of the map to a bone of the map as the record
    says. *)
Definition links_declared {A} (D : json -> string -> string -> Prop)
    (bone_map : Dict.t nat) (bone : json) (h : host)
    (r : exn + A) (h' : host) : Prop :=
  (exists k, r = inr k)
  /\ (nodes h' = nodes h
      \/ exists child parent cname pname,
           Dict.get bone_map cname = Some child
           /\ Dict.get bone_map pname = Some parent
           /\ D bone cname pname
           /\ nodes h' = Scene.update (nodes h) child
                           (Scene.set_parent parent)).

(** What [create_bones] of the improved file returns: a map of
    non-empty names, one name a node, whose parent links are between
    bones of the map and are declared by a record of the document. *)
Definition improved_result (E : platform) (data : json)
    (r : exn + Dict.t nat) (h' : host) : Prop :=
  exists bone_map,
    r = inr bone_map
    /\ (forall name i, Dict.get bone_map name = Some i -> nonempty_name name)
    /\ injective bone_map
    /\ resolved (declares_by E) (bones_of data) bone_map h'.

(** What [create_bones] of [spine_importer.py] returns: a map without
    dangling parents. *)
Definition original_result (r : exn + Dict.t nat) (h' : host) : Prop :=
  exists bone_map, r = inr bone_map /\ parents_resolved h' bone_map.

(** ** The atlas parser *)

(** Two region tables, each with its scene, hold the same regions: the
    same names in the same order, and under each name a texture with the
    same field values. *)
Definition same_regions (hA : host) (tA : Dict.t nat)
    (hB : host) (tB : Dict.t nat) : Prop :=
  Dict.keys tA = Dict.keys tB
  /\ forall k i,
       Dict.get tA k = Some i ->
       exists j b,
         Dict.get tB k = Some j
         /\ nth_error (bitmaps hA) i = Some b
         /\ nth_error (bitmaps hB) j = Some b.

(** Two runs of the loop of [load_textures] in step: equal locals but
    for the texture references, the same regions, no texture under two
    names; the second run has left the first [n] textures of its scene,
    [old], as they were. *)
Definition in_step (n : nat) (old : list bitmap)
    (stA : Improved.tex_state) (hA : host)
    (stB : Improved.tex_state) (hB : host) : Prop :=
  Improved.current_texture stA = Improved.current_texture stB
  /\ Improved.loaded_count stA = Improved.loaded_count stB
  /\ Improved.error_count stA = Improved.error_count stB
  /\ same_regions hA (Improved.textures stA) hB (Improved.textures stB)
  /\ injective (Improved.textures stA)
  /\ injective (Improved.textures stB)
  /\ (forall k j, Dict.get (Improved.textures stB) k = Some j -> (n <= j)%nat)
  /\ firstn n (bitmaps hB) = old.

(** ** Text made safe for the listener *)

(** The character [c] occurs in [s]. *)
Fixpoint occurs (c : ascii) (s : string) : bool :=
  match s with
  | EmptyString => false
  | String a r => Ascii.eqb a c || occurs c r
  end.

(** [s] neither begins nor ends with white space: [s.strip()] has
    nothing to remove. *)
Definition trimmed (s : string) : Prop :=
  PyStr.lstrip s = s /\ PyStr.lstrip (PyStr.rev s) = PyStr.rev s.

(** ** The region table of the atlas parser *)

(** A region table in a scene that held [n0] textures before the parse
    began.  Every region is bound to a texture the parse has made, from
    the file that an atlas line ending in [.png] names in the texture
    directory, and that file exists; no texture is bound to two regions;
    the parse has made one texture for each region and no other. *)
Definition regions_sound (E : platform) (texture_dir : string) (n0 : nat)
    (t : Dict.t nat) (h : host) : Prop :=
  (forall name i,
     Dict.get t name = Some i ->
     (n0 <= i)%nat
     /\ exists b line,
          nth_error (bitmaps h) i = Some b
          /\ PyStr.endswith ".png" line = true
          /\ hd "" (PyStr.split dot line) = name
          /\ bm_filename b = path_join E texture_dir line
          /\ path_exists E (bm_filename b) = true)
  /\ injective t
  /\ List.length (bitmaps h) = (n0 + List.length t)%nat.

(** The loop of [load_textures] of the improved file, begun in the scene
    [h0]: the table is sound, [loaded_count] is its size, and the
    textures of [h0] are as they were. *)
Definition parsing (E : platform) (texture_dir : string) (h0 : host)
    (st : Improved.tex_state) (h : host) : Prop :=
  regions_sound E texture_dir (List.length (bitmaps h0))
    (Improved.textures st) h
  /\ Improved.loaded_count st = Z.of_nat (List.length (Improved.textures st))
  /\ firstn (List.length (bitmaps h0)) (bitmaps h) = bitmaps h0.

(** What the parsers and builders do not look at or touch: the nodes,
    the time line and the selection. *)
Definition beside_textures (h : host) : list node * (Z * Z) * Z * list nat :=
  (nodes h, animationRange h, sliderTime h, selection h).

(** ** The bone map of the skeleton builder *)

(** A bone map in a scene that held [n0] nodes before the skeleton was
    built: every name is bound to a bone the builder has made, and that
    bone carries the name. *)
Definition bones_named (n0 : nat) (bone_map : Dict.t nat) (h : host)
  : Prop :=
  forall name i,
    Dict.get bone_map name = Some i ->
    (n0 <= i)%nat
    /\ exists n,
         nth_error (nodes h) i = Some n
         /\ n_kind n = BoneNode
         /\ n_name n = name.

(** What one round of pass 1 does, with the names: it appends nodes,
    and either leaves the map or binds, to the bone it has just made,
    the name that bone carries. *)
Definition creates_named {S} (map_of : S -> Dict.t nat) (h : host) (st : S)
    (r : exn + S) (h' : host) : Prop :=
  exists extra,
    nodes h' = (nodes h ++ extra)%list
    /\ match r with
       | inr st' =>
           map_of st' = map_of st
           \/ exists n,
                map_of st' = Dict.set (map_of st) (n_name n)
                               (List.length (nodes h))
                /\ extra = [n]
                /\ n_kind n = BoneNode
       | inl _ => True
       end.

(** The invariant of both passes of [create_bones], begun in a scene
    with the nodes [nodes0]: the map names bones made since, and the
    nodes that were in the scene are as they were. *)
Definition naming (nodes0 : list node) (bone_map : Dict.t nat) (h : host)
  : Prop :=
  bones_named (List.length nodes0) bone_map h
  /\ firstn (List.length nodes0) (nodes h) = nodes0.

(** What [create_bones] returns, in either file, when called in the
    scene [h]. *)
Definition named_result (h : host) (r : exn + Dict.t nat) (h' : host)
  : Prop :=
  exists bone_map,
    r = inr bone_map
    /\ bones_named (List.length (nodes h)) bone_map h'
    /\ firstn (List.length (nodes h)) (nodes h') = nodes h.

(** What the skeleton and mesh builders do not touch: the textures, the
    time line and the selection. *)
Definition beside_nodes (h : host) : list bitmap * (Z * Z) * Z * list nat :=
  (bitmaps h, animationRange h, sliderTime h, selection h).

(** ** The planes of the mesh builder *)

(** A plane [create_meshes] has made for a slot, given the bone map and
    the region table, in a scene that had the nodes [nodes0]: it is
    named after the slot (whose name satisfies [named]), its parent is
    the bone the bone map gives for
    the slot, it sits where that bone was, and its material, if it has
    one, shows a texture of the region table and is named after it. *)
Definition mesh_of (named : string -> Prop) (bone_map textures : Dict.t nat)
    (nodes0 : list node) (n : node) : Prop :=
  n_kind n = PlaneNode
  /\ (exists slot_name,
        named slot_name /\ n_name n = ("Mesh_" ++ slot_name)%string)
  /\ (exists bone_name bone,
        Dict.get bone_map bone_name = Some bone
        /\ n_parent n = Some bone
        /\ forall b, nth_error nodes0 bone = Some b -> n_pos n = n_pos b)
  /\ match n_material n with
     | None => True
     | Some m =>
         exists tex_name,
           Dict.get textures tex_name = Some (mat_diffuseMap m)
           /\ mat_name m = ("Mat_" ++ tex_name)%string
     end.

(** The slots of a document, as [create_meshes] iterates them. *)
Definition slots_of (data : json) : list json :=
  match Py.get data "slots" (JList []) with
  | inr s =>
      match Py.iter s with
      | inr l => l
      | inl _ => []
      end
  | inl _ => []
  end.

Definition is_object (v : json) : Prop := exists kv, v = JDict kv.

(** What one round of the loop of [create_meshes] does: it appends at
    most one node, a plane for the slot; it returns if the slot is an
    object. *)
Definition adds_mesh {A} (named : string -> Prop)
    (bone_map textures : Dict.t nat) (slot : json)
    (h : host) (r : exn + A) (h' : host) : Prop :=
  exists extra,
    nodes h' = (nodes h ++ extra)%list
    /\ (List.length extra <= 1)%nat
    /\ Forall (mesh_of named bone_map textures (nodes h)) extra
    /\ (is_object slot -> exists st', r = inr st').

(** What the loop of [create_meshes] does over [k] slots. *)
Definition adds_meshes {A} (named : string -> Prop)
    (bone_map textures : Dict.t nat) (k : nat)
    (all_objects : Prop) (h : host) (r : exn + A) (h' : host) : Prop :=
  exists extra,
    nodes h' = (nodes h ++ extra)%list
    /\ (List.length extra <= k)%nat
    /\ Forall (mesh_of named bone_map textures (nodes h)) extra
    /\ (all_objects -> exists st', r = inr st').

(** ** The animation baker and the skeleton *)

(** What the baker leaves of a node: all but its position, its rotation
    and their keys. *)
Definition build (n : node)
  : node_kind * string * option point3 * Float64.float * Float64.float
    * Float64.float * option nat * option material :=
  (n_kind n, n_name n, n_tip n, n_width n, n_height n, n_length n,
   n_parent n, n_material n).

(** What the baker leaves of a scene: the textures, the selection and
    the build of every node. *)
Definition beside_animation (h : host)
  : list bitmap * list nat
    * list (node_kind * string * option point3 * Float64.float
            * Float64.float * Float64.float * option nat * option material) :=
  (bitmaps h, selection h, map build (nodes h)).

(** ** A bone record *)

(** A field of a record, as [record.get(key, default)] reads it. *)
Definition field (kv : list (string * json)) (key : string) (default : json)
  : json :=
  match Dict.get kv key with
  | Some v => v
  | None => default
  end.

(** The rotation a bone record declares, in degrees: none without a
    [rotation] key. *)
Definition declared_rotation (E : platform) (kv : list (string * json))
  : exn + option Float64.float :=
  match Dict.get kv "rotation" with
  | None => inr None
  | Some r =>
      match Py.to_float E r with
      | inr fr => inr (Some (radToDeg E fr))
      | inl e => inl e
      end
  end.

(** The bone pass 1 makes for a record at [(x, y)] of length [len],
    when the time slider is at [now]. *)
Definition placed_bone (scale : Float64.float) (name : string)
    (x y len : Float64.float) (rot : option Float64.float) (now : Z)
  : node :=
  let pos_x := Float64.mul x scale in
  let pos_y := Float64.mul (Float64.opp y) scale in
  let bone_length := Float64.mul (Py.max Float64.f0_1 len) scale in
  Node BoneNode name
    (Point3 pos_x pos_y Float64.zero)
    (Some (Point3 pos_x (Float64.sub pos_y bone_length) Float64.zero))
    (Float64.mul bone_length Float64.f0_3)
    (Float64.mul bone_length Float64.f0_3)
    Float64.zero
    rot None None []
    match rot with
    | Some degrees => [(now, degrees)]
    | None => []
    end.

(** ** A project to import *)

Module Sample.

(** An environment where every path exists, the atlas is [lines], the
    document is [doc] and the one float literal is "90". *)
Definition studio (lines : list string) (doc : json) : platform := {|
  py_repr := fun _ => "";
  parse_float :=
    fun s =>
      if String.eqb (PyStr.strip s) "90" then Some Demo.ninety else None;
  radToDeg := fun f => f;
  path_join := fun a b => a ++ "/" ++ b;
  path_exists := fun _ => true;
  read_lines := fun _ => inr lines;
  load_json := fun _ => inr doc
|}.

(** One region, rotated. *)
Definition atlas : list string := ["a.png"; "rotate: 90"].

(** A root bone with an arm, a slot on the arm that shows the region,
    and the clip of scenario B. *)
Definition arm : list (string * json) :=
  [("name", JStr "arm"); ("parent", JStr "root");
   ("x", JInt 10); ("y", JInt 20); ("length", JInt 2)].

Definition slot : json :=
  JDict [("name", JStr "hand"); ("bone", JStr "arm");
         ("attachment", JDict [("name", JStr "a.png")])].

Definition skeleton : list (string * json) :=
  [("bones", JList [JDict [("name", JStr "root")]; JDict arm]);
   ("slots", JList [slot]);
   ("animations", Doc.json_of_animations Demo.scenario_B)].

(** The same skeleton without its clips. *)
Definition still : list (string * json) :=
  [("bones", JList [JDict [("name", JStr "root")]; JDict arm]);
   ("slots", JList [slot])].

End Sample.

(** ** The region table of [spine_importer.py] *)

(** The loop of [load_textures] of [spine_importer.py], begun in the
    scene [h0]: every region is bound to a texture the parse has made
    from an existing file, [texture_count] counts the textures the parse
    has made, which are no fewer than the regions, and the textures of
    [h0] are as they were. *)
Definition original_parsing (E : platform) (h0 : host)
    (st : Original.tex_state) (h : host) : Prop :=
  (forall name i,
     Dict.get (Original.textures st) name = Some i ->
     (List.length (bitmaps h0) <= i)%nat
     /\ exists b,
          nth_error (bitmaps h) i = Some b
          /\ path_exists E (bm_filename b) = true)
  /\ Z.of_nat (List.length (bitmaps h))
     = Z.of_nat (List.length (bitmaps h0)) + Original.texture_count st
  /\ Z.of_nat (List.length (Original.textures st)) <= Original.texture_count st
  /\ firstn (List.length (bitmaps h0)) (bitmaps h) = bitmaps h0.

(** ** Atlas lines that name a missing file *)

(** The atlas line names a texture file that is not in the texture
    directory. *)
Definition names_missing_file (E : platform) (texture_dir raw : string)
  : bool :=
  let line := PyStr.strip raw in
  PyStr.endswith ".png" line
  && negb (path_exists E (path_join E texture_dir line)).

Definition missing_files (E : platform) (texture_dir : string)
    (lines : list string) : Z :=
  Z.of_nat (List.length (filter (names_missing_file E texture_dir) lines)).

(** The current region of the loop of [load_textures], if there is one,
    is in the table. *)
Definition current_in_table (st : Improved.tex_state) : Prop :=
  forall c,
    Improved.current_texture st = Some c ->
    exists i, Dict.get (Improved.textures st) c = Some i.

(** ** Bones and their declared parents *)

(** Every bone of the map is one of the nodes [l]. *)
Definition bones_are_nodes (bone_map : Dict.t nat) (l : list node) : Prop :=
  forall name i,
    Dict.get bone_map name = Some i -> exists n, nth_error l i = Some n.

(** No bone name is given two parents by the records [bones]. *)
Definition one_parent_each (E : platform) (bones : list json) : Prop :=
  forall b1 b2 name p1 p2,
    In b1 bones -> In b2 bones ->
    declares_by E b1 name p1 -> declares_by E b2 name p2 -> p1 = p2.

(** ** The animation section of a document *)

(** The animation source of a document: the value of the primary key
    when it is not empty, else the value of the fallback key. *)
Definition animation_source (kv : list (string * json)) : option json :=
  if Py.truthy (primary_animations kv) then Some (primary_animations kv)
  else option_map snd (fallback_source kv).

(** The animation section as JSON: clips, the tracks of their bones and
    the keyframes of their channels, whatever the order of the keys and
    whatever other keys there are. *)
Module Clips.

(** A number of a keyframe, [float(frame.get(key, 0))]: an absent key
    counts as 0. *)
Definition number (E : platform) (frame : json) (key : string)
  : exn + Float64.float :=
  match Py.get frame key (JInt 0) with
  | inr v => Py.to_float E v
  | inl e => inl e
  end.

(** [timeSeconds] of a keyframe. *)
Definition timeSeconds (E : platform) (frame : json) : Float64.float :=
  match number E frame "time" with
  | inr t => t
  | inl _ => Float64.zero
  end.

(** The keyframes of a channel of the tracks of a bone; none when the
    channel is absent. *)
Definition keyframes (bone_anim : json) (channel : string) : list json :=
  match bone_anim with
  | JDict kv =>
      match Dict.get kv channel with
      | Some (JList frames) => frames
      | _ => []
      end
  | _ => []
  end.

(** The bones of a clip, each with its tracks, and the clips of an
    animation section. *)
Definition tracks (clip : json) : list (string * json) :=
  match clip with
  | JDict kv =>
      match Dict.get kv "bones" with
      | Some (JDict bones) => bones
      | _ => []
      end
  | _ => []
  end.

Definition clips (animations : json) : list (string * json) :=
  match animations with
  | JDict kv => kv
  | _ => []
  end.

(** Every [timeSeconds] of the translate, rotate and scale keyframes of
    a bone, of a clip, of the animation section. *)
Definition times_of_tracks (E : platform) (bone_anim : json)
  : list Float64.float :=
  flat_map (fun channel => map (timeSeconds E) (keyframes bone_anim channel))
    channels.

Definition times_of_clip (E : platform) (clip : json) : list Float64.float :=
  flat_map (fun b => times_of_tracks E (snd b)) (tracks clip).

Definition times (E : platform) (animations : json) : list Float64.float :=
  flat_map (fun c => times_of_clip E (snd c)) (clips animations).

(** ** Well-formed sections *)

(** A keyframe with a time: an object whose [time], when it has one, is
    a number. *)
Definition timed (E : platform) (frame : json) : bool :=
  match number E frame "time" with
  | inr _ => true
  | inl _ => false
  end.

(** A channel is absent or a list. *)
Definition listed (kv : list (string * json)) (channel : string) : bool :=
  match Dict.get kv channel with
  | None | Some (JList _) => true
  | Some _ => false
  end.

(** The tracks of a bone: an object whose translate, rotate and scale
    channels, when present, are lists of keyframes with a time. *)
Definition tracks_ok (E : platform) (bone_anim : json) : bool :=
  match bone_anim with
  | JDict kv =>
      forallb (listed kv) channels
      && forallb (fun channel => forallb (timed E) (keyframes bone_anim channel))
           channels
  | _ => false
  end.

(** A clip: an object whose [bones], when present, is an object of
    tracks. *)
Definition clip_ok (E : platform) (clip : json) : bool :=
  match clip with
  | JDict kv =>
      match Dict.get kv "bones" with
      | None => true
      | Some (JDict bones) => forallb (fun b => tracks_ok E (snd b)) bones
      | Some _ => false
      end
  | _ => false
  end.

(** An animation section: an object of clips. *)
Definition well_formed (E : platform) (animations : json) : bool :=
  match animations with
  | JDict kv => forallb (fun c => clip_ok E (snd c)) kv
  | _ => false
  end.

(** ** Baked keys *)

(** The key a translate keyframe [(time, x, y)] is baked as:
    [(int(time * 30), (x * 0.01, -y * 0.01, 0))].  There is none when
    one of the three is not a number or the frame index does not
    exist. *)
Definition translate_key (E : platform) (frame : json)
  : option (Z * point3) :=
  match number E frame "time", number E frame "x", number E frame "y" with
  | inr t, inr x, inr y =>
      match Float64.trunc (Float64.mul t Float64.f30) with
      | Some frameIndex =>
          Some (frameIndex,
                Point3 (Float64.mul x Float64.f0_01)
                       (Float64.mul (Float64.opp y) Float64.f0_01)
                       Float64.zero)
      | None => None
      end
  | _, _, _ => None
  end.

(** The key a rotate keyframe [(time, angle)] is baked as:
    [(int(time * 30), radToDeg(angle))]. *)
Definition rotate_key (E : platform) (frame : json)
  : option (Z * Float64.float) :=
  match number E frame "time", number E frame "angle" with
  | inr t, inr a =>
      match Float64.trunc (Float64.mul t Float64.f30) with
      | Some frameIndex => Some (frameIndex, radToDeg E a)
      | None => None
      end
  | _, _ => None
  end.

(** The keys of the keyframes of a track that can be converted, each
    converted by itself, in the order of the track. *)
Definition keys_of {K} (convert : json -> option K) (frames : list json)
  : list K :=
  flat_map (fun frame =>
              match convert frame with
              | Some k => [k]
              | None => []
              end) frames.

(** The track of a clip is for the node [b]: its bone name, made safe,
    is bound to [b] in the bone map. *)
Definition names (E : platform) (bone_map : Dict.t nat) (name : string)
    (b : nat) : bool :=
  match Dict.get bone_map (Improved.safe_str E (JStr name)) with
  | Some i => Nat.eqb i b
  | None => false
  end.

(** The position keys and the rotation keys the animation section gives
    the node [b]: clip after clip and, in a clip, bone track after bone
    track. *)
Definition position_keys_of_tracks (E : platform) (bone_map : Dict.t nat)
    (b : nat) (item : string * json) : list (Z * point3) :=
  if names E bone_map (fst item) b
  then keys_of (translate_key E) (keyframes (snd item) "translate")
  else [].

Definition rotation_keys_of_tracks (E : platform) (bone_map : Dict.t nat)
    (b : nat) (item : string * json) : list (Z * Float64.float) :=
  if names E bone_map (fst item) b
  then keys_of (rotate_key E) (keyframes (snd item) "rotate")
  else [].

Definition position_keys (E : platform) (bone_map : Dict.t nat) (b : nat)
    (animations : json) : list (Z * point3) :=
  flat_map (fun c => flat_map (position_keys_of_tracks E bone_map b)
                       (tracks (snd c)))
    (clips animations).

Definition rotation_keys (E : platform) (bone_map : Dict.t nat) (b : nat)
    (animations : json) : list (Z * Float64.float) :=
  flat_map (fun c => flat_map (rotation_keys_of_tracks E bone_map b)
                       (tracks (snd c)))
    (clips animations).

End Clips.

(** The scene but for its listener. *)
Definition beside_listener (h : host)
  : list bitmap * list node * (Z * Z) * Z * list nat :=
  (bitmaps h, nodes h, animationRange h, sliderTime h, selection h).

(** The node [b] of [h'] is the node [b] of [h] with the position keys
    [pk] and the rotation keys [rk] written after the keys it had. *)
Definition keyed (h h' : host) (b : nat) (pk : list (Z * point3))
    (rk : list (Z * Float64.float)) : Prop :=
  forall n,
    nth_error (nodes h) b = Some n ->
    exists n',
      nth_error (nodes h') b = Some n'
      /\ n_pos_keys n' = (n_pos_keys n ++ pk)%list
      /\ n_rot_keys n' = (n_rot_keys n ++ rk)%list.

(** A document that keeps the clip of scenario B under another key,
    beside an empty [animations]. *)
Definition clips_elsewhere : list (string * json) :=
  [("bones", JList [JDict [("name", JStr "root")]]);
   ("animations", JDict []);
   ("Animation_Data", Doc.json_of_animations Demo.scenario_B)].

(** ** Declared parents in [spine_importer.py] *)

(** The parent a bone record declares, as pass 2 of [spine_importer.py]
    reads it: [bone["name"]] and [bone.get("parent")], each through the
    [safe_str] of that file. *)
Definition original_declares_by (E : platform) (bone : json)
    (child parent : string) : Prop :=
  exists nm pn,
    Py.index bone "name" = inr nm
    /\ Py.get bone "parent" JNull = inr pn
    /\ Original.safe_str E nm = child
    /\ Original.safe_str E pn = parent
    /\ PyStr.nonempty parent = true.

Definition original_declares (E : platform) (bones : list json)
    (child parent : string) : Prop :=
  exists bone, In bone bones /\ original_declares_by E bone child parent.

Definition original_one_parent_each (E : platform) (bones : list json)
  : Prop :=
  forall b1 b2 name p1 p2,
    In b1 bones -> In b2 bones ->
    original_declares_by E b1 name p1 ->
    original_declares_by E b2 name p2 -> p1 = p2.

(** What [create_bones] returns, by the reading [D] of its records: a
    map, one name a node, whose parent links are declared by a record;
    and, when no name is given two parents, every declared parent that
    is in the map with its child is linked. *)
Definition links_as_declared (D : json -> string -> string -> Prop)
    (bones : list json) (r : exn + Dict.t nat) (h' : host) : Prop :=
  exists bone_map,
    r = inr bone_map
    /\ injective bone_map
    /\ resolved D bones bone_map h'
    /\ ((forall b1 b2 name p1 p2,
           In b1 bones -> In b2 bones ->
           D b1 name p1 -> D b2 name p2 -> p1 = p2) ->
        forall child parent c p,
          (exists bone, In bone bones /\ D bone child parent) ->
          Dict.get bone_map child = Some c ->
          Dict.get bone_map parent = Some p ->
          Scene.parent_of h' c = Some p).

(** The warning of the improved file for a parent that is not a bone. *)
Definition missing_parent_warning (parent : string) : entry :=
  Entry WARNING (Msg "parent bone does not exist: {}" [AStr parent]).

(** The lines a computation has added to the listener. *)
Definition printed (h h' : host) (lines : list entry) : Prop :=
  listener h' = (listener h ++ lines)%list.

(** A skeleton with a root, an arm on the root, and a bone whose parent
    is not a bone of the document. *)
Definition with_orphan : json :=
  JDict [("bones",
          JList [JDict [("name", JStr "root")]; JDict Sample.arm;
                 JDict Demo.orphan_record])].

(** The lines added to the listener between [h] and [h'] hold no
    warning. *)
Definition no_warning_since (h h' : host) : Prop :=
  exists lines,
    printed h h' lines /\ Forall (fun e => e_level e <> WARNING) lines.

(** The listener has only grown between [h] and [h']. *)
Definition grown (h h' : host) : Prop := exists lines, printed h h' lines.

(** A bone whose name and whose parent differ as written and are the
    same once made safe. *)
Definition slashed : json :=
  JDict [("bones",
          JList [JDict [("name", JStr "a\b"); ("parent", JStr "a/b")]])].

(** Two scenes that differ in their listeners at most, and a
    computation that does not look at the listener: from two such
    scenes it ends alike, in two such scenes. *)
Definition alike (h1 h2 : host) : Prop :=
  beside_listener h1 = beside_listener h2.

Definition blind {A} (m : M A) : Prop :=
  forall h1 h2,
    alike h1 h2 ->
    fst (m h1) = fst (m h2) /\ alike (snd (m h1)) (snd (m h2)).

(* ===================================================================== *)
(** * A program logic for [M] *)
(* ===================================================================== *)

Section Rules.

Context {A B : Type}.

Lemma post_ret (a : A) h (Q : exn + A -> host -> Prop) :
  Q (inr a) h -> post (ret a) h Q.
Proof. exact (fun H => H). Qed.

Lemma post_raise (e : exn) h (Q : exn + A -> host -> Prop) :
  Q (inl e) h -> post (raise e) h Q.
Proof. exact (fun H => H). Qed.

Lemma post_lift (r : exn + A) h (Q : exn + A -> host -> Prop) :
  Q r h -> post (lift r) h Q.
Proof. exact (fun H => H). Qed.

Lemma post_bind (m : M A) (k : A -> M B) h (Q : exn + B -> host -> Prop) :
  post m h (fun r h' =>
              match r with
              | inr a => post (k a) h' Q
              | inl e => Q (inl e) h'
              end) ->
  post (bind m k) h Q.
Proof.
  unfold post, bind. destruct (m h) as [[e | a] h']; simpl; auto.
Qed.

Lemma post_try (m : M A) (handler : exn -> M A) h
    (Q : exn + A -> host -> Prop) :
  post m h (fun r h' =>
              match r with
              | inl e => post (handler e) h' Q
              | inr a => Q (inr a) h'
              end) ->
  post (try_catch m handler) h Q.
Proof.
  unfold post, try_catch. destruct (m h) as [[e | a] h']; simpl; auto.
Qed.

Lemma post_weaken (m : M A) h (Q Q' : exn + A -> host -> Prop) :
  post m h Q -> (forall r h', Q r h' -> Q' r h') -> post m h Q'.
Proof. unfold post. auto. Qed.

End Rules.

Lemma post_modify (f : host -> host) h (Q : exn + unit -> host -> Prop) :
  Q (inr tt) (f h) -> post (modify f) h Q.
Proof. exact (fun H => H). Qed.

(** A loop keeps an invariant [I] of its state and the scene; if the
    body raises, the loop raises and [X] holds of the scene. *)
Lemma post_for_each {X S} (body : X -> S -> M S) (I : S -> host -> Prop)
    (Ex : host -> Prop) (xs : list X) :
  (forall x s h, In x xs -> I s h ->
     post (body x s) h (fun r h' =>
                          match r with
                          | inr s' => I s' h'
                          | inl _ => Ex h'
                          end)) ->
  forall s h, I s h ->
    post (for_each body xs s) h (fun r h' =>
                                   match r with
                                   | inr s' => I s' h'
                                   | inl _ => Ex h'
                                   end).
Proof.
  induction xs as [| x xs IH]; intros Hbody s h HI.
  - exact HI.
  - simpl. apply post_bind.
    eapply post_weaken; [apply Hbody; [left; reflexivity | exact HI] |].
    intros [e | s'] h' Hr; [exact Hr |].
    apply IH; [| exact Hr].
    intros x' s0 h0 Hin. apply Hbody. right. exact Hin.
Qed.

(** One step of symbolic execution of a goal [post m h Q]. *)
Ltac wp :=
  lazymatch goal with
  | |- post (bind _ _) _ _ => apply post_bind
  | |- post (try_catch _ _) _ _ => apply post_try
  | |- post (try_ValueError _ _) _ _ => unfold try_ValueError; apply post_try
  | |- post (ret _) _ _ => apply post_ret
  | |- post (raise _) _ _ => apply post_raise
  | |- post (lift ?r) _ _ =>
      apply post_lift; let H := fresh "Hr" in destruct r eqn:H
  | |- post (modify _) _ _ => apply post_modify
  | |- post (Rt.print _ _) _ _ => apply post_modify
  | |- post (Improved.debug_print _ _) _ _ => apply post_modify
  | |- post (Original.debug_print _ _) _ _ => apply post_modify
  | |- post (Rt.update_node _ _) _ _ => apply post_modify
  | |- post (Rt.update_bitmap _ _) _ _ => apply post_modify
  | |- post (Rt.set_sliderTime _) _ _ => apply post_modify
  | |- post (Rt.set_animationRange _ _) _ _ => apply post_modify
  | |- post (Rt.select _) _ _ => apply post_modify
  | |- post (if ?b then _ else _) _ _ =>
      let H := fresh "Hb" in destruct b eqn:H
  | |- post (match ?x with _ => _ end) _ _ =>
      let H := fresh "Hx" in destruct x eqn:H
  end.

(* ===================================================================== *)
(** * Facts about strings and dictionaries *)
(* ===================================================================== *)

Lemma startswith_nonempty p c s :
  PyStr.startswith (String c p) s = true -> PyStr.nonempty s = true.
Proof. destruct s; simpl; [discriminate | reflexivity]. Qed.

Lemma Dict_get_set_same {V} (d : Dict.t V) k v :
  Dict.get (Dict.set d k v) k = Some v.
Proof.
  induction d as [| [k' v'] d IH]; simpl.
  - rewrite String.eqb_refl. reflexivity.
  - destruct (String.eqb k' k) eqn:Hk; simpl; rewrite Hk; auto.
Qed.

Lemma Dict_get_set_other {V} (d : Dict.t V) k k' v :
  k' <> k -> Dict.get (Dict.set d k v) k' = Dict.get d k'.
Proof.
  intros Hne. induction d as [| [k0 v0] d IH]; simpl.
  - destruct (String.eqb_spec k k'); [congruence | reflexivity].
  - destruct (String.eqb_spec k0 k); simpl.
    + subst. destruct (String.eqb_spec k k'); [congruence | reflexivity].
    + destruct (String.eqb_spec k0 k'); auto.
Qed.

Lemma Dict_get_In {V} (d : Dict.t V) k v :
  Dict.get d k = Some v -> In (k, v) d.
Proof.
  induction d as [| [k0 v0] d IH]; simpl; [discriminate |].
  destruct (String.eqb_spec k0 k); intros H.
  - inversion H. subst. left. reflexivity.
  - right. auto.
Qed.

Lemma Dict_get_app_fresh {V} (pre suf : Dict.t V) k :
  ~ In k (Dict.keys pre) -> Dict.get (pre ++ suf)%list k = Dict.get suf k.
Proof.
  induction pre as [| [k0 v0] pre IH]; simpl; intros Hn; [reflexivity |].
  destruct (String.eqb_spec k0 k); [tauto | apply IH; tauto].
Qed.

Lemma for_each_cons {X S} (body : X -> S -> M S) x r s h :
  for_each body (x :: r) s h
  = match body x s h with
    | (inr s', h') => for_each body r s' h'
    | (inl e, h') => (inl e, h')
    end.
Proof. reflexivity. Qed.

(** ** The import entry point *)

(** C9.  When the skeleton JSON path does not exist, [import_spine]
    returns at once with one message that says so.  The scene is the one
    it was called in but for the first listener line: no texture is
    loaded, no bone is created, the time line is not touched. *)
Theorem missing_skeleton_returns_at_once
    (E : platform) (json_path atlas_path texture_dir : string)
    (scale : Float64.float) (h : host) :
  path_exists E json_path = false ->
  let out := Improved.import_spine E json_path atlas_path texture_dir scale h in
  fst out
  = inr (if PyStr.nonempty json_path
         then Msg "{} does not exist: {}" [AStr "JSON file"; AStr json_path]
         else Msg "{} path is empty" [AStr "JSON file"])
  /\ snd out = Scene.with_listener h (listener h ++ [start_line])
  /\ bitmaps (snd out) = bitmaps h
  /\ nodes (snd out) = nodes h
  /\ animationRange (snd out) = animationRange h
  /\ sliderTime (snd out) = sliderTime h.
Proof.
  intros Hmissing.
  unfold Improved.import_spine, Improved.validate_file_path, try_catch, bind,
    Improved.debug_print, Rt.print, modify, ret.
  destruct (PyStr.nonempty json_path); simpl.
  - rewrite Hmissing. simpl. repeat split.
  - repeat split.
Qed.

Lemma missing_skeleton_returns_at_once_witness :
  path_exists Demo.platform0 "missing.json" = false
  /\ nodes (snd (Improved.import_spine Demo.platform0 "missing.json"
                   "a.atlas" "textures" Float64.f1 Demo.scene0)) = [].
Proof.
  split; [reflexivity |].
  apply (missing_skeleton_returns_at_once Demo.platform0 "missing.json"
           "a.atlas" "textures" Float64.f1 Demo.scene0).
  reflexivity.
Defined.

(** ** The atlas parser *)

(** C10.  A [rotate:] line met while no region is current is passed over:
    the loop body returns the state it was given and the scene it was
    given, listener included, and the loop goes on with the next line.
    Both files agree. *)
Theorem rotate_before_any_region_is_ignored
    (E : platform) (texture_dir raw : string) (n : Z) (rest : list string)
    (st : Improved.tex_state) (st' : Original.tex_state) (h : host) :
  PyStr.startswith "rotate:" (PyStr.strip raw) = true ->
  PyStr.endswith ".png" (PyStr.strip raw) = false ->
  Improved.current_texture st = None ->
  Original.current_texture st' = None ->
  Improved.load_line E texture_dir (n, raw) st h = (inr st, h)
  /\ for_each (Improved.load_line E texture_dir) (enumerate n (raw :: rest))
       st h
     = for_each (Improved.load_line E texture_dir) (enumerate (n + 1) rest)
         st h
  /\ Original.load_line E texture_dir (n, raw) st' h = (inr st', h).
Proof.
  intros Hrot Hpng Hcur Hcur'.
  assert (Hne : PyStr.nonempty (PyStr.strip raw) = true)
    by (eapply startswith_nonempty; exact Hrot).
  assert (Hstep : Improved.load_line E texture_dir (n, raw) st h
                  = (inr st, h)).
  { unfold Improved.load_line. rewrite Hne, Hpng, Hrot, Hcur. reflexivity. }
  split; [exact Hstep |]. split.
  - cbn [enumerate]. rewrite for_each_cons, Hstep. reflexivity.
  - unfold Original.load_line. rewrite Hne, Hpng, Hrot, Hcur'. reflexivity.
Qed.

Lemma rotate_before_any_region_is_ignored_witness :
  Improved.load_line Demo.platform0 "textures" (1, "  rotate: 90")
    (Improved.TexState [] None 0 0) Demo.scene0
  = (inr (Improved.TexState [] None 0 0), Demo.scene0).
Proof.
  apply (rotate_before_any_region_is_ignored Demo.platform0 "textures"
           "  rotate: 90" 1 [] (Improved.TexState [] None 0 0)
           (Original.TexState [] None 0) Demo.scene0);
    reflexivity.
Defined.

(** ** Locating the animation data *)

Section Fallback.

Variable E : platform.

Lemma find_animations_first (kv : list (string * json)) k v :
  NoDup (Dict.keys kv) ->
  forall suf pre,
    kv = (pre ++ suf)%list ->
    find (fun p => is_animation_key (fst p) && Py.truthy (snd p)) suf
    = Some (k, v) ->
    forall a h,
      fst (Improved.find_animations (JDict kv) (Dict.keys suf) a h) = inr v.
Proof.
  intros Hnd suf.
  induction suf as [| [k0 v0] suf IH]; intros pre Hkv Hfind a h;
    [discriminate |].
  assert (Hget : Dict.get kv k0 = Some v0).
  { subst kv. rewrite Dict_get_app_fresh.
    - simpl. rewrite String.eqb_refl. reflexivity.
    - unfold Dict.keys in Hnd. rewrite map_app in Hnd. simpl in Hnd.
      apply NoDup_remove_2 in Hnd. intros Hin. apply Hnd.
      apply in_or_app. left. exact Hin. }
  assert (Hkv' : kv = ((pre ++ [(k0, v0)]) ++ suf)%list)
    by (rewrite <- app_assoc; exact Hkv).
  simpl in Hfind. cbn [Dict.keys map fst Improved.find_animations].
  fold (is_animation_key k0).
  destruct (is_animation_key k0) eqn:Hkey; simpl in Hfind.
  - unfold bind, Improved.debug_print, Rt.print, modify, lift, Py.get.
    rewrite Hget.
    destruct (Py.truthy v0) eqn:Hv.
    + inversion Hfind. subst. reflexivity.
    + apply (IH _ Hkv' Hfind).
  - apply (IH _ Hkv' Hfind).
Qed.

Lemma find_animations_none (kv : list (string * json)) :
  forall ks a h,
    (forall k, In k ks -> is_animation_key k = true ->
               Py.truthy (match Dict.get kv k with
                          | Some v => v
                          | None => JDict []
                          end) = false) ->
    Py.truthy a = false ->
    exists a',
      Improved.find_animations (JDict kv) ks a h
      = (inr a',
         Scene.with_listener h (listener h ++ possible_key_lines ks))
      /\ Py.truthy a' = false.
Proof.
  induction ks as [| k0 ks IH]; intros a h Hall Ha.
  - exists a. split; [| exact Ha].
    unfold possible_key_lines. simpl. rewrite app_nil_r.
    destruct h; reflexivity.
  - cbn [Improved.find_animations]. fold (is_animation_key k0).
    unfold possible_key_lines. cbn [filter].
    destruct (is_animation_key k0) eqn:Hkey.
    + unfold bind, Improved.debug_print, Rt.print, modify, lift, Py.get.
      rewrite (Hall k0 (or_introl eq_refl) Hkey).
      destruct (IH (match Dict.get kv k0 with
                    | Some v => v
                    | None => JDict []
                    end)
                  (Scene.with_listener h
                     (listener h
                      ++ [Entry INFO
                            (Msg "found a possible animation key: {}"
                                 [AStr k0])]))) as [a' [Hrun Ha']].
      * intros k Hin. apply Hall. right. exact Hin.
      * apply (Hall k0 (or_introl eq_refl) Hkey).
      * exists a'. split; [| exact Ha']. rewrite Hrun.
        unfold Scene.with_listener. simpl. rewrite <- app_assoc.
        reflexivity.
    + apply IH; [| exact Ha]. intros k Hin. apply Hall. right. exact Hin.
Qed.

Lemma fallback_none_all (kv : list (string * json)) :
  fallback_source kv = None ->
  forall k, In k (Dict.keys kv) -> is_animation_key k = true ->
            Py.truthy (match Dict.get kv k with
                       | Some v => v
                       | None => JDict []
                       end) = false.
Proof.
  intros Hnone k Hin Hkey.
  destruct (Dict.get kv k) as [v |] eqn:Hget; [| reflexivity].
  apply Dict_get_In in Hget.
  pose proof (find_none _ _ Hnone _ Hget) as Hp. simpl in Hp.
  rewrite Hkey in Hp. exact Hp.
Qed.

(** [import_animation] catches every exception: it always returns. *)
Lemma import_animation_returns (data : json) (bone_map : Dict.t nat) h :
  fst (Improved.import_animation E data bone_map h) = inr tt.
Proof.
  unfold Improved.import_animation, try_catch.
  match goal with
  | |- context [match ?m h with _ => _ end] => destruct (m h) as [[e | []] h']
  end; reflexivity.
Qed.

End Fallback.

(* ===================================================================== *)
(** * Facts about binary64 *)
(* ===================================================================== *)

Module Float64Facts.

Import Float64.

(** Rounding keeps the sign it is given. *)
Lemma binary_round_aux_sign s m e l :
  match binary_round_aux prec emax s m e l with
  | S754_zero s' | S754_infinity s' | S754_finite s' _ _ => s' = s
  | S754_nan => True
  end.
Proof.
  unfold binary_round_aux.
  destruct (shr_fexp prec emax m e l) as [mrs' e'].
  destruct (shr_fexp prec emax _ e' loc_Exact) as [mrs'' e''].
  destruct (shr_m mrs''); [reflexivity | | exact I].
  destruct (e'' <=? emax - prec); reflexivity.
Qed.

(** A product of two numbers that are not below zero is not below zero. *)
Lemma mul_nonneg a b :
  nonneg a = true -> nonneg b = true -> is_finite (mul a b) = true ->
  nonneg (mul a b) = true.
Proof.
  intros Ha Hb Hf.
  destruct a as [sa | sa | | [|] ma ea]; try discriminate;
    destruct b as [sb | sb | | [|] mb eb]; try discriminate;
    try reflexivity.
  unfold mul, SFmul in *. simpl xorb in *.
  pose proof (binary_round_aux_sign false (Zpos (ma * mb)) (ea + eb)
                loc_Exact) as Hs.
  destruct (binary_round_aux prec emax false (Zpos (ma * mb)) (ea + eb)
              loc_Exact); try discriminate; subst; reflexivity.
Qed.

(** Truncation is the floor from zero upward. *)
Lemma trunc_floor_nonneg f : nonneg f = true -> trunc f = floor f.
Proof.
  intros Hf.
  destruct f as [s | s | | [|] m e]; try discriminate; [reflexivity |].
  unfold trunc, floor, magnitude. destruct (0 <=? e); reflexivity.
Qed.

(** The floor is at most the ceiling, and equals it on whole numbers
    only. *)
Lemma floor_le_ceil f a b :
  floor f = Some a -> ceil f = Some b ->
  a <= b /\ (a = b <-> integral f = true).
Proof.
  destruct f as [s | s | | s m e]; try discriminate.
  - intros Ha Hb. inversion Ha. inversion Hb. subst.
    split; [lia | tauto].
  - unfold floor, ceil, integral. intros Ha Hb.
    inversion Ha as [Ha']. inversion Hb as [Hb']. clear Ha Hb.
    destruct (0 <=? e) eqn:He.
    + split; [lia | simpl; tauto].
    + simpl orb.
      assert (Hd : 0 < 2 ^ (- e))
        by (apply Z.pow_pos_nonneg; apply Z.leb_gt in He; lia).
      set (d := 2 ^ (- e)) in *.
      pose proof (Z.div_mod (Zpos m) d ltac:(lia)) as Hdm.
      pose proof (Z.mod_pos_bound (Zpos m) d Hd) as Hmb.
      pose proof (Z.div_mod (Zneg m) d ltac:(lia)) as Hdn.
      pose proof (Z.mod_pos_bound (Zneg m) d Hd) as Hnb.
      rewrite Z.eqb_eq.
      destruct s; simpl cond_Zopp; simpl negb; simpl Z.opp in *.
      * split; [nia |]. split; intros H; nia.
      * split; [nia |]. split; intros H; nia.
Qed.

(** ** The order on finite floats *)

Ltac float_cases :=
  unfold ltb, leb, SFltb, SFleb, SFcompare;
  repeat match goal with
         | |- context [Z.compare ?x ?y] => destruct (Z.compare_spec x y)
         | |- context [Pos.compare_cont Eq ?x ?y] =>
             change (Pos.compare_cont Eq x y) with (Pos.compare x y);
             destruct (Pos.compare_spec x y)
         end;
  simpl; try congruence; try lia.

Lemma leb_ltb a b :
  is_finite a = true -> is_finite b = true -> leb a b = negb (ltb b a).
Proof.
  destruct a as [sa | sa | | sa ma ea]; try discriminate;
    destruct b as [sb | sb | | sb mb eb]; try discriminate; intros _ _;
    try destruct sa; try destruct sb; float_cases.
Qed.

(** [ltb b a = false] reads "a is at most b". *)
Lemma le_trans a b c :
  is_finite a = true -> is_finite b = true -> is_finite c = true ->
  ltb b a = false -> ltb c b = false -> ltb c a = false.
Proof.
  destruct a as [sa | sa | | sa ma ea]; try discriminate;
    destruct b as [sb | sb | | sb mb eb]; try discriminate;
    destruct c as [sc | sc | | sc mc ec]; try discriminate; intros _ _ _;
    try destruct sa; try destruct sb; try destruct sc; float_cases.
Qed.

Lemma lt_le_trans a b c :
  is_finite a = true -> is_finite b = true -> is_finite c = true ->
  ltb a b = true -> ltb c b = false -> ltb a c = true.
Proof.
  destruct a as [sa | sa | | sa ma ea]; try discriminate;
    destruct b as [sb | sb | | sb mb eb]; try discriminate;
    destruct c as [sc | sc | | sc mc ec]; try discriminate; intros _ _ _;
    try destruct sa; try destruct sb; try destruct sc; float_cases.
Qed.

Lemma lt_not_gt a b :
  is_finite a = true -> is_finite b = true ->
  ltb a b = true -> ltb b a = false.
Proof.
  destruct a as [sa | sa | | sa ma ea]; try discriminate;
    destruct b as [sb | sb | | sb mb eb]; try discriminate; intros _ _;
    try destruct sa; try destruct sb; float_cases.
Qed.

Lemma ltb_irrefl a : ltb a a = false.
Proof.
  destruct a as [sa | sa | | sa ma ea]; try reflexivity;
    destruct sa; float_cases.
Qed.

(** Above zero means finite with a positive sign, or plus infinity. *)
Lemma above_zero_nonneg f :
  is_finite f = true -> ltb zero f = true -> nonneg f = true.
Proof.
  intros Hf Hz.
  destruct f as [s | s | | [|] m e]; try discriminate; reflexivity.
Qed.

(** Two finite floats above zero, neither below the other, are equal. *)
Lemma above_zero_antisym a b :
  is_finite a = true -> is_finite b = true -> ltb zero a = true ->
  ltb a b = false -> ltb b a = false -> a = b.
Proof.
  intros Fa Fb Hz Hab Hba.
  destruct a as [sa | sa | | [|] ma ea]; try discriminate;
    destruct b as [sb | sb | | [|] mb eb]; try discriminate.
  revert Hab Hba. unfold ltb, SFltb, SFcompare.
  change (Pos.compare_cont Eq ma mb) with (Pos.compare ma mb).
  change (Pos.compare_cont Eq mb ma) with (Pos.compare mb ma).
  destruct (Z.compare_spec ea eb); destruct (Z.compare_spec eb ea);
    try lia; try discriminate;
    destruct (Pos.compare_spec ma mb); destruct (Pos.compare_spec mb ma);
    try lia; try discriminate.
  intros _ _. subst. reflexivity.
Qed.

End Float64Facts.

(* ===================================================================== *)
(** * The duration scan *)
(* ===================================================================== *)

Section RunningMax.

Import Float64 Float64Facts.

Lemma fold_max_spec (ts : list float) :
  Doc.all_finite ts ->
  forall acc,
    is_finite (PyNum.to_float acc) = true ->
    let r := fold_left PyNum.max ts acc in
    is_finite (PyNum.to_float r) = true
    /\ ltb (PyNum.to_float r) (PyNum.to_float acc) = false
    /\ Forall (fun t => ltb (PyNum.to_float r) t = false) ts
    /\ (r = acc
        \/ exists f, r = PFloat f /\ In f ts
                     /\ ltb (PyNum.to_float acc) f = true).
Proof.
  induction 1 as [| t ts Ht Hts IH]; intros acc Hacc; cbv zeta;
    cbn [fold_left].
  - repeat split; auto using ltb_irrefl.
  - assert (Hstep : PyNum.max acc t
                    = if ltb (PyNum.to_float acc) t then PFloat t else acc)
      by reflexivity.
    rewrite Hstep. clear Hstep.
    destruct (ltb (PyNum.to_float acc) t) eqn:Hlt.
    + destruct (IH (PFloat t) Ht) as (Hf & Hge & Hall & Hor).
      simpl in Hge.
      split; [exact Hf |]. split; [| split].
      * apply (le_trans _ t); auto using lt_not_gt.
      * constructor; assumption.
      * right. destruct Hor as [Hr | (f & Hr & Hin & Hlt')].
        -- exists t. rewrite Hr. split; [reflexivity |].
           split; [left; reflexivity | exact Hlt].
        -- assert (Hff : is_finite f = true)
             by (rewrite Forall_forall in Hts; auto).
           exists f. split; [exact Hr |]. split; [right; exact Hin |].
           apply (lt_le_trans _ t); auto. apply lt_not_gt; auto.
    + destruct (IH acc Hacc) as (Hf & Hge & Hall & Hor).
      split; [exact Hf |]. split; [exact Hge |]. split.
      * constructor; [| exact Hall].
        apply (le_trans _ (PyNum.to_float acc)); auto.
      * destruct Hor as [Hr | (f & Hr & Hin & Hlt')]; [left; exact Hr |].
        right. exists f. split; [exact Hr |].
        split; [right; exact Hin | exact Hlt'].
Qed.

Lemma floor_some_finite f z : floor f = Some z -> is_finite f = true.
Proof. destruct f; simpl; congruence. Qed.

(** The frame count of the running maximum: [floor(max(0, m) * 30)]
    for the maximum [m] of the times, and 0 when there is no time. *)
Lemma running_max_frames (ts : list float) :
  Doc.all_finite ts ->
  (ts = [] -> PyNum.int_times_30 (running_max ts) = inr 0)
  /\ (forall m fl,
        Doc.is_maximum m ts ->
        floor (mul (Py.max zero m) f30) = Some fl ->
        PyNum.int_times_30 (running_max ts) = inr fl).
Proof.
  intros Hfin. split; [intros ->; reflexivity |].
  intros m fl [Hin Hmax] Hfl.
  destruct (fold_max_spec ts Hfin (PInt 0) eq_refl) as (Hf & _ & Hall & Hor).
  fold (running_max ts) in *. unfold Doc.all_finite in Hfin.
  rewrite Forall_forall in Hall, Hmax, Hfin.
  change (PyNum.to_float (PInt 0)) with zero in *.
  destruct Hor as [Hr | (f & Hr & Hinf & Hpos)]; rewrite Hr in *.
  - change (PyNum.to_float (PInt 0)) with zero in Hall.
    unfold Py.max in Hfl. fold ltb in Hfl. rewrite (Hall m Hin) in Hfl.
    inversion Hfl. reflexivity.
  - change (PyNum.to_float (PFloat f)) with f in *.
    assert (Hfm : f = m).
    { apply above_zero_antisym; auto.
      pose proof (Hmax f Hinf) as Hle.
      rewrite leb_ltb in Hle by auto.
      destruct (ltb m f); [discriminate | reflexivity]. }
    subst f. unfold Py.max in Hfl. fold ltb in Hfl. rewrite Hpos in Hfl.
    unfold PyNum.int_times_30, Py.int_of_float.
    rewrite trunc_floor_nonneg, Hfl; [reflexivity |].
    apply mul_nonneg; [| reflexivity |].
    + apply above_zero_nonneg; auto.
    + apply (floor_some_finite _ fl Hfl).
Qed.

End RunningMax.

Section Scan.

Variable E : platform.

Lemma to_float_number (n : Doc.number) :
  Float64.is_finite (Doc.value n) = true ->
  Py.to_float E (Doc.to_json n) = inr (Doc.value n).
Proof.
  destruct n as [z | f]; simpl; [| reflexivity].
  intros ->. reflexivity.
Qed.

Lemma scan_vec_keys (ks : list Doc.vec_key) :
  Doc.all_finite (Doc.keys_of Doc.vk_time (Some ks)) ->
  forall len h,
    for_each (Improved.scan_frame E) (map Doc.json_of_vec_key ks) len h
    = (inr (fold_left PyNum.max (Doc.keys_of Doc.vk_time (Some ks)) len), h).
Proof.
  unfold Doc.all_finite. simpl.
  induction ks as [| k ks IH]; intros Hfin len h; [reflexivity |].
  inversion Hfin as [| ? ? Hk Hks]. subst.
  cbn [map]. rewrite for_each_cons.
  unfold Improved.scan_frame at 1, bind, lift, ret.
  cbn [Doc.json_of_vec_key Py.get Dict.get String.eqb Ascii.eqb Bool.eqb].
  rewrite (to_float_number _ Hk). simpl fold_left. apply IH. exact Hks.
Qed.

Lemma scan_angle_keys (ks : list Doc.angle_key) :
  Doc.all_finite (Doc.keys_of Doc.ak_time (Some ks)) ->
  forall len h,
    for_each (Improved.scan_frame E) (map Doc.json_of_angle_key ks) len h
    = (inr (fold_left PyNum.max (Doc.keys_of Doc.ak_time (Some ks)) len), h).
Proof.
  unfold Doc.all_finite. simpl.
  induction ks as [| k ks IH]; intros Hfin len h; [reflexivity |].
  inversion Hfin as [| ? ? Hk Hks]. subst.
  cbn [map]. rewrite for_each_cons.
  unfold Improved.scan_frame at 1, bind, lift, ret.
  cbn [Doc.json_of_angle_key Py.get Dict.get String.eqb Ascii.eqb Bool.eqb].
  rewrite (to_float_number _ Hk). simpl fold_left. apply IH. exact Hks.
Qed.

Lemma all_finite_app a b :
  Doc.all_finite (a ++ b) -> Doc.all_finite a /\ Doc.all_finite b.
Proof. apply Forall_app. Qed.

Lemma all_finite_keys_of {A} (time : A -> Doc.number) o :
  Doc.all_finite (Doc.keys_of time o) ->
  match o with
  | Some ks => Doc.all_finite (Doc.keys_of time (Some ks))
  | None => True
  end.
Proof. destruct o; auto. Qed.

Lemma scan_bone_encoded (name : string) (t : Doc.tracks) :
  Doc.all_finite (Doc.times_of_tracks t) ->
  forall len h,
    Improved.scan_bone E (name, Doc.json_of_tracks t) len h
    = (inr (fold_left PyNum.max (Doc.times_of_tracks t) len), h).
Proof.
  unfold Doc.times_of_tracks. intros Hfin len h.
  apply all_finite_app in Hfin. destruct Hfin as [Htr Hfin].
  apply all_finite_app in Hfin. destruct Hfin as [Hro Hsc].
  apply all_finite_keys_of in Htr, Hro, Hsc.
  rewrite !fold_left_app.
  destruct t as [[tr |] [ro |] [sc |]];
    cbn [Doc.translate Doc.rotate Doc.scale] in *;
    unfold Improved.scan_bone, channels, Doc.json_of_tracks, Doc.channel;
    cbn [Doc.translate Doc.rotate Doc.scale snd app for_each];
    unfold Improved.scan_channel, bind, lift, ret;
    cbn [Py.contains Py.index Py.iter Dict.mem Dict.get String.eqb Ascii.eqb
         Bool.eqb];
    repeat first [rewrite scan_vec_keys by assumption
                 | rewrite scan_angle_keys by assumption];
    reflexivity.
Qed.

Lemma scan_clip_encoded (name : string) (c : Doc.clip) :
  Doc.all_finite (Doc.times_of_clip c) ->
  forall len h,
    Improved.scan_clip E (name, Doc.json_of_clip c) len h
    = (inr (fold_left PyNum.max (Doc.times_of_clip c) len), h).
Proof.
  intros Hfin len h.
  unfold Improved.scan_clip, Doc.json_of_clip, bind, lift.
  cbn [snd Py.get Dict.get String.eqb Ascii.eqb Bool.eqb Py.items].
  revert Hfin len. unfold Doc.times_of_clip.
  induction c as [| [n t] c IH]; intros Hfin len; [reflexivity |].
  cbn [flat_map snd] in *. apply all_finite_app in Hfin.
  destruct Hfin as [Ht Hc].
  cbn [map fst snd]. rewrite for_each_cons, scan_bone_encoded by exact Ht.
  rewrite fold_left_app. apply IH. exact Hc.
Qed.

Lemma scan_clips_encoded (a : Doc.animations) :
  Doc.all_finite (Doc.times a) ->
  forall len h,
    for_each (Improved.scan_clip E)
      (map (fun p => (fst p, Doc.json_of_clip (snd p))) a) len h
    = (inr (fold_left PyNum.max (Doc.times a) len), h).
Proof.
  unfold Doc.times.
  induction a as [| [n c] a IH]; intros Hfin len h; [reflexivity |].
  cbn [flat_map snd] in *. apply all_finite_app in Hfin.
  destruct Hfin as [Hc Ha].
  cbn [map fst snd]. rewrite for_each_cons, scan_clip_encoded by exact Hc.
  rewrite fold_left_app. apply IH. exact Ha.
Qed.

End Scan.

(* ===================================================================== *)
(** * What a computation leaves untouched *)
(* ===================================================================== *)

Section Keeps.

Context {B : Type} (f : host -> B).

Lemma keeps_ret {A} (a : A) : keeps f (ret a).
Proof. intros h. reflexivity. Qed.

Lemma keeps_raise {A} (e : exn) : keeps f (@raise A e).
Proof. intros h. reflexivity. Qed.

Lemma keeps_lift {A} (r : exn + A) : keeps f (lift r).
Proof. intros h. reflexivity. Qed.

Lemma keeps_bind {A C} (m : M A) (k : A -> M C) :
  keeps f m -> (forall a, keeps f (k a)) -> keeps f (bind m k).
Proof.
  intros Hm Hk h. unfold bind. specialize (Hm h).
  destruct (m h) as [[e | a] h']; simpl in *; [exact Hm |].
  rewrite Hk. exact Hm.
Qed.

Lemma keeps_try {A} (m : M A) (handler : exn -> M A) :
  keeps f m -> (forall e, keeps f (handler e)) -> keeps f (try_catch m handler).
Proof.
  intros Hm Hk h. unfold try_catch. specialize (Hm h).
  destruct (m h) as [[e | a] h']; simpl in *; [| exact Hm].
  rewrite Hk. exact Hm.
Qed.

Lemma keeps_for_each {X S} (body : X -> S -> M S) :
  (forall x s, keeps f (body x s)) ->
  forall xs s, keeps f (for_each body xs s).
Proof.
  intros Hbody. induction xs as [| x xs IH]; intros s.
  - apply keeps_ret.
  - simpl. apply keeps_bind; [apply Hbody | exact IH].
Qed.

Lemma keeps_modify (g : host -> host) :
  (forall h, f (g h) = f h) -> keeps f (modify g).
Proof. intros Hg h. apply Hg. Qed.

Lemma keeps_post {A} (m : M A) h v :
  keeps f m -> f h = v -> post m h (fun _ h' => f h' = v).
Proof. intros Hm Hv. unfold post. rewrite Hm. exact Hv. Qed.

End Keeps.

Lemma post_eq {A} (m : M A) h r h' (Q : exn + A -> host -> Prop) :
  m h = (r, h') -> Q r h' -> post m h Q.
Proof. unfold post. intros ->. exact (fun H => H). Qed.

(** Decompose a goal [keeps f m] along the structure of [m]; what is
    left are the writes to the scene. *)
Ltac keeps_struct :=
  repeat (intros;
          lazymatch goal with
          | |- keeps _ (bind _ _) => apply keeps_bind
          | |- keeps _ (try_catch _ _) => apply keeps_try
          | |- keeps _ (try_ValueError _ _) =>
              unfold try_ValueError; apply keeps_try
          | |- keeps _ (for_each _ _ _) => apply keeps_for_each
          | |- keeps _ (ret _) => apply keeps_ret
          | |- keeps _ (raise _) => apply keeps_raise
          | |- keeps _ (lift _) => apply keeps_lift
          | |- keeps _ (if ?b then _ else _) => destruct b
          | |- keeps _ (match ?x with _ => _ end) => destruct x
          | |- keeps _ _ => fail
          end).

Create HintDb keeps.

Section BakeKeepsRange.

Variable E : platform.

Lemma print_keeps_range l m : keeps animationRange (Rt.print l m).
Proof. intros h. reflexivity. Qed.

Lemma slider_keeps_range t : keeps animationRange (Rt.set_sliderTime t).
Proof. intros h. reflexivity. Qed.

Lemma set_pos_keeps_range i p : keeps animationRange (Rt.set_pos i p).
Proof. intros h. reflexivity. Qed.

Lemma set_rotation_keeps_range i a :
  keeps animationRange (Rt.set_rotation i a).
Proof. intros h. reflexivity. Qed.

#[local] Hint Resolve print_keeps_range slider_keeps_range set_pos_keeps_range
  set_rotation_keeps_range : keeps.

Lemma bake_translate_keeps_range bone frame u :
  keeps animationRange (Improved.bake_translate E bone frame u).
Proof.
  unfold Improved.bake_translate, Improved.debug_print.
  keeps_struct; auto with keeps.
Qed.

Lemma bake_rotate_keeps_range bone frame u :
  keeps animationRange (Improved.bake_rotate E bone frame u).
Proof.
  unfold Improved.bake_rotate, Improved.debug_print.
  keeps_struct; auto with keeps.
Qed.

#[local] Hint Resolve bake_translate_keeps_range bake_rotate_keeps_range : keeps.

Lemma bake_bone_keeps_range bone_map item u :
  keeps animationRange (Improved.bake_bone E bone_map item u).
Proof.
  unfold Improved.bake_bone, Improved.debug_print.
  destruct item as [bone_name bone_anim].
  keeps_struct; auto with keeps.
Qed.

#[local] Hint Resolve bake_bone_keeps_range : keeps.

Lemma bake_clip_keeps_range bone_map item n :
  keeps animationRange (Improved.bake_clip E bone_map item n).
Proof.
  unfold Improved.bake_clip, Improved.debug_print.
  keeps_struct; auto with keeps.
Qed.

End BakeKeepsRange.

(* ===================================================================== *)
(** * The duration of the baked time line *)
(* ===================================================================== *)

Section Duration.

Variable E : platform.

Lemma locate_primary (kv : list (string * json)) (v : json) h :
  Dict.get kv "animations" = Some v ->
  Py.truthy v = true ->
  Improved.locate_animations (JDict kv) h = (inr v, h).
Proof.
  intros Hget Hv.
  unfold Improved.locate_animations, bind, lift, Py.get.
  rewrite Hget, Hv. reflexivity.
Qed.

(** The duration [import_animation] sets for an encoded document: the
    frame count of the running maximum plus the padding of 10. *)
Lemma import_animation_range
    (kv : list (string * json)) (a : Doc.animations)
    (bone_map : Dict.t nat) (h : host) (frames : Z) :
  Dict.get kv "animations" = Some (Doc.json_of_animations a) ->
  a <> [] ->
  Doc.all_finite (Doc.times a) ->
  PyNum.int_times_30 (running_max (Doc.times a)) = inr frames ->
  animationRange (snd (Improved.import_animation E (JDict kv) bone_map h))
  = (0, frames + 10).
Proof.
  intros Hget Hne Hfin Hframes.
  change (post (Improved.import_animation E (JDict kv) bone_map) h
            (fun _ h' => animationRange h' = (0, frames + 10))).
  unfold Improved.import_animation.
  apply post_try, post_bind, post_modify, post_bind.
  assert (Htruthy : Py.truthy (Doc.json_of_animations a) = true)
    by (destruct a; [congruence | reflexivity]).
  eapply post_eq; [apply (locate_primary kv _ _ Hget Htruthy) |].
  cbv beta iota. rewrite Htruthy. cbn [negb].
  unfold Doc.json_of_animations at 1 2 3.
  cbn [Py.len Py.keys Py.items].
  apply post_bind, post_lift, post_bind, post_modify, post_bind, post_lift,
    post_bind, post_modify, post_bind, post_lift, post_bind.
  eapply post_eq; [apply (scan_clips_encoded E a Hfin) |].
  cbv beta iota. fold (running_max (Doc.times a)). rewrite Hframes.
  apply post_bind, post_lift, post_bind, post_modify, post_bind, post_modify,
    post_bind, post_modify.
  match goal with
  | |- post ?m ?h0 _ =>
      apply (post_weaken m h0
               (fun _ h' => animationRange h' = (0, frames + 10)))
  end.
  - apply keeps_post; [| reflexivity].
    unfold Improved.debug_print.
    keeps_struct;
      auto using bake_clip_keeps_range, print_keeps_range,
        slider_keeps_range.
  - intros [e | []] h' Hh'; [| exact Hh'].
    unfold post, bind, Improved.debug_print, Rt.print, modify. exact Hh'.
Qed.

End Duration.

Section Clamp.

Import Float64 Float64Facts.

Lemma clamp_nonneg m :
  nonneg m = true -> floor (mul (Py.max zero m) f30) = floor (mul m f30).
Proof.
  intros Hm. destruct m as [s | s | | [|] mm e]; try discriminate;
    reflexivity.
Qed.

End Clamp.

(** C1 as stated fails on a keyframe before time zero: the maximum time
    is -1, [floor(-1 * 30) + 10] is -20, and the duration set is 10. *)
Lemma duration_claim_fails_before_time_zero :
  Doc.is_maximum (Float64.of_Z (-1)) (Doc.times Demo.negative_time)
  /\ Float64.floor (Float64.mul (Float64.of_Z (-1)) Float64.f30) = Some (-30)
  /\ animationRange
       (snd (Improved.import_animation Demo.platform0
               (JDict (Demo.document Demo.negative_time)) [] Demo.scene0))
     = (0, 10)
  /\ (0, 10) <> (0, -30 + 10).
Proof.
  split; [split; [simpl; auto | repeat constructor] |].
  split; [reflexivity |]. split; [reflexivity | discriminate].
Qed.

(** C5 as stated fails on a key at a quarter of a second: the product
    is 7.5 frames, its ceiling is 8, and the duration set is 17, not 18. *)
Lemma ceiling_claim_fails_on_a_quarter_second :
  Doc.is_maximum Demo.quarter (Doc.times Demo.quarter_second)
  /\ Float64.ceil (Float64.mul Demo.quarter Float64.f30) = Some 8
  /\ durationFrames
       (snd (Improved.import_animation Demo.platform0
               (JDict (Demo.document Demo.quarter_second)) [] Demo.scene0))
     = 17
  /\ 17 <> 8 + 10.
Proof.
  split; [split; [simpl; auto | repeat constructor] |].
  split; [reflexivity |]. split; [reflexivity | discriminate].
Qed.

(* ===================================================================== *)
(** * Baking keyframes *)
(* ===================================================================== *)

Lemma update_nth_error {A} (l : list A) i f n :
  nth_error l i = Some n ->
  nth_error (Scene.update l i f) i = Some (f n).
Proof.
  revert i. induction l as [| x l IH]; intros [| i]; simpl;
    try discriminate.
  - intros H. inversion H. reflexivity.
  - apply IH.
Qed.

Lemma update_nth_error_other {A} (l : list A) i j f :
  i <> j -> nth_error (Scene.update l i f) j = nth_error l j.
Proof.
  revert i j. induction l as [| x l IH]; intros [| i] [| j] Hne; simpl;
    try reflexivity; try congruence.
  apply IH. congruence.
Qed.

Lemma update_length {A} (l : list A) i f :
  List.length (Scene.update l i f) = List.length l.
Proof.
  revert i. induction l as [| x l IH]; intros [| i]; simpl; auto.
Qed.


(** C4 as stated fails on a keyframe before time zero: at -0.25 s the
    product is -7.5 frames, its floor is -8, and the key is written at
    frame -7. *)
Lemma floor_claim_fails_before_time_zero :
  Float64.floor (Float64.mul (Doc.value (Doc.vk_time Demo.early_key)) Float64.f30)
  = Some (-8)
  /\ (exists n',
        nth_error
          (nodes (snd (for_each (Improved.bake_translate Demo.platform0 0)
                         [Doc.json_of_vec_key Demo.early_key] tt Demo.one_bone_scene)))
          0%nat = Some n'
        /\ map fst (n_pos_keys n') = [-7])
  /\ -7 <> -8.
Proof.
  split; [reflexivity |]. split; [| discriminate].
  eexists. split; reflexivity.
Qed.

(* ===================================================================== *)
(** * The two passes of the skeleton builder *)
(* ===================================================================== *)

Lemma update_app_last {A} (l : list A) x f :
  Scene.update (l ++ [x]) (List.length l) f = (l ++ [f x])%list.
Proof. induction l as [| y l IH]; simpl; [reflexivity | rewrite IH; auto]. Qed.

Lemma post_add_node (n : node) h (Q : exn + nat -> host -> Prop) :
  Q (inr (List.length (nodes h))) (Scene.with_nodes h (nodes h ++ [n])) ->
  post (Rt.add_node n) h Q.
Proof. exact (fun H => H). Qed.

Lemma post_set_rotation i a h (Q : exn + unit -> host -> Prop) :
  Q (inr tt)
    (Scene.with_nodes h
       (Scene.update (nodes h) i (Scene.set_rotation (sliderTime h) a))) ->
  post (Rt.set_rotation i a) h Q.
Proof. exact (fun H => H). Qed.

Section TwoPasses.

Context {S : Type} (map_of : S -> Dict.t nat) (named : string -> Prop).
Context (D : json -> string -> string -> Prop).

Lemma created_step st h r h' :
  created named (map_of st) h ->
  creates_fresh map_of named h st r h' ->
  match r with
  | inr st' => created named (map_of st') h'
  | inl _ => True
  end.
Proof.
  intros [Hall Hinj] (extra & Hnodes & Hextra & Hr).
  destruct r as [e | st']; [exact I |].
  assert (Hold : forall i n, nth_error (nodes h) i = Some n ->
                             nth_error (nodes h') i = Some n).
  { intros i n Hn. rewrite Hnodes, nth_error_app1; [exact Hn |].
    apply nth_error_Some. congruence. }
  destruct Hr as [Hmap | (name & n & Hname & Hmap & Hone)]; rewrite Hmap.
  - split; [| exact Hinj].
    intros k i Hk. destruct (Hall k i Hk) as (Hn & n & Hi & Hp).
    split; [exact Hn |]. exists n. auto.
  - subst extra.
    assert (Hlt : forall k i, Dict.get (map_of st) k = Some i ->
                              (i < List.length (nodes h))%nat).
    { intros k i Hk. destruct (Hall k i Hk) as (_ & n0 & Hi & _).
      apply nth_error_Some. congruence. }
    split.
    + intros k i Hk. destruct (String.eqb_spec k name) as [-> | Hne].
      * rewrite Dict_get_set_same in Hk. inversion Hk. subst i.
        split; [exact Hname |]. exists n. split.
        -- rewrite Hnodes, nth_error_app2, Nat.sub_diag by lia. reflexivity.
        -- inversion Hextra. assumption.
      * rewrite Dict_get_set_other in Hk by exact Hne.
        destruct (Hall k i Hk) as (Hn & n0 & Hi & Hp).
        split; [exact Hn |]. exists n0. auto.
    + intros k1 k2 i H1 H2.
      destruct (String.eqb_spec k1 name) as [-> | Hne1];
        destruct (String.eqb_spec k2 name) as [-> | Hne2];
        try reflexivity.
      * rewrite Dict_get_set_same in H1. inversion H1. subst i.
        rewrite Dict_get_set_other in H2 by exact Hne2.
        apply Hlt in H2. lia.
      * rewrite Dict_get_set_same in H2. inversion H2. subst i.
        rewrite Dict_get_set_other in H1 by exact Hne1.
        apply Hlt in H1. lia.
      * rewrite Dict_get_set_other in H1, H2 by assumption.
        apply (Hinj k1 k2 i H1 H2).
Qed.

Lemma pass1_creates (step : json -> S -> M S) :
  (forall bone st h,
     post (step bone st) h (creates_fresh map_of named h st)) ->
  forall bones st h,
    created named (map_of st) h ->
    post (for_each step bones st) h
      (fun r h' =>
         match r with
         | inr st' => created named (map_of st') h'
         | inl _ => True
         end).
Proof.
  intros Hstep bones.
  apply (post_for_each step (fun st h => created named (map_of st) h)
           (fun _ => True)).
  intros bone st h _ Hc.
  eapply post_weaken; [apply Hstep |].
  intros r h' Hr. apply (created_step st h r h' Hc Hr).
Qed.

Lemma created_resolved bones bone_map h :
  created named bone_map h -> resolved D bones bone_map h.
Proof.
  intros [Hall _] name i Hk.
  destruct (Hall name i Hk) as (_ & n & Hi & Hp).
  exists n. split; [exact Hi | left; exact Hp].
Qed.

Lemma resolved_step {A} bones bone_map bone h (r : exn + A) h' :
  injective bone_map ->
  In bone bones ->
  resolved D bones bone_map h ->
  links_declared D bone_map bone h r h' ->
  resolved D bones bone_map h'.
Proof.
  intros Hinj Hin Hres (_ & [Hsame | Hlink]).
  - intros name i Hk. rewrite Hsame. apply (Hres name i Hk).
  - destruct Hlink as (child & parent & cname & pname
                       & Hc & Hp & Hd & Hnodes).
    intros name i Hk. rewrite Hnodes.
    destruct (Hres name i Hk) as (n & Hi & Hpar).
    destruct (Nat.eq_dec child i) as [-> | Hne].
    + exists (Scene.set_parent parent n).
      split; [apply update_nth_error; exact Hi |].
      right. exists parent, pname. split; [reflexivity |].
      split; [exact Hp |]. exists bone. split; [exact Hin |].
      rewrite (Hinj name cname i Hk Hc). exact Hd.
    + exists n. split; [| exact Hpar].
      rewrite update_nth_error_other by exact Hne. exact Hi.
Qed.

Lemma pass2_links (link : json -> Z -> M Z) bone_map :
  injective bone_map ->
  (forall bone k h,
     post (link bone k) h (links_declared D bone_map bone h)) ->
  forall bones k h,
    resolved D bones bone_map h ->
    post (for_each link bones k) h
      (fun r h' => (exists k', r = inr k') /\ resolved D bones bone_map h').
Proof.
  intros Hinj Hstep bones.
  assert (Hgen : forall l,
             (forall b, In b l -> In b bones) ->
             forall k h,
               resolved D bones bone_map h ->
               post (for_each link l k) h
                 (fun r h' =>
                    (exists k', r = inr k')
                    /\ resolved D bones bone_map h')).
  { induction l as [| b l IH]; intros Hsub k h Hres.
    - split; [exists k; reflexivity | exact Hres].
    - simpl. apply post_bind.
      eapply post_weaken; [apply Hstep |].
      intros r h' Hl.
      pose proof (resolved_step bones bone_map b h r h' Hinj
                    (Hsub b (or_introl eq_refl)) Hres Hl) as Hres'.
      destruct Hl as ((k' & ->) & _).
      apply IH; [| exact Hres'].
      intros b' Hb'. apply Hsub. right. exact Hb'. }
  apply Hgen. auto.
Qed.

End TwoPasses.

Ltac scene_simpl :=
  cbn [nodes bitmaps listener sliderTime animationRange selection
       Scene.with_nodes Scene.with_listener Scene.with_sliderTime
       Scene.with_bitmaps Scene.with_animationRange Scene.with_selection];
  rewrite ?update_app_last.

(** Run [wp] to the leaves, through the host calls that allocate. *)
Ltac wp_all :=
  repeat (cbv beta iota; scene_simpl;
          first [ apply post_add_node
                | apply post_set_rotation
                | wp ]).

Section BuilderSteps.

Variable E : platform.

Ltac name_ok :=
  first [ exact I
        | match goal with
          | H : negb (PyStr.nonempty ?x) = false |- nonempty_name ?x =>
              apply negb_false_iff in H; exact H
          end ].

(** The leaves of a round of pass 1: no node, or one node at the end. *)
Ltac fresh_leaf :=
  unfold creates_fresh; scene_simpl;
  first
    [ exists (@nil node); rewrite app_nil_r;
      split; [reflexivity |]; split; [constructor |];
      first [ exact I | left; reflexivity ]
    | eexists [_]; split; [reflexivity |];
      split; [repeat constructor |];
      first [ exact I
            | left; reflexivity
            | right; eexists; eexists;
              (split; [| split; reflexivity]); name_ok ] ].

Lemma improved_create_bone_fresh scale bone st h :
  post (Improved.create_bone E scale bone st) h
    (creates_fresh Improved.bone_map nonempty_name h st).
Proof.
  unfold Improved.create_bone, Rt.createBone.
  wp_all; fresh_leaf.
Qed.

Lemma original_create_bone_fresh scale bone bone_map h :
  post (Original.create_bone E scale bone bone_map) h
    (creates_fresh (fun m : Dict.t nat => m) any_name h bone_map).
Proof.
  unfold Original.create_bone, Rt.createBone.
  wp_all; fresh_leaf.
Qed.

End BuilderSteps.

Section BuilderSpecs.

Variable E : platform.

Ltac link_leaf :=
  unfold links_declared; scene_simpl;
  split; [eexists; reflexivity |];
  first
    [ left; reflexivity
    | right;
      match goal with
      | Hp : Dict.get _ ?pn = Some ?p, Hc : Dict.get _ ?cn = Some ?c
        |- context [Scene.update _ ?c (Scene.set_parent ?p)] =>
          exists c, p, cn, pn;
          split; [exact Hc |]; split; [exact Hp |]
      end;
      split; [| reflexivity];
      first [ exact I
            | unfold declares_by; do 2 eexists;
              repeat (split; [first [eassumption | reflexivity] |]);
              assumption ] ].

Lemma improved_link_bone_declared bone_map bone k h :
  post (Improved.link_bone E bone_map bone k) h
    (links_declared (declares_by E) bone_map bone h).
Proof.
  unfold Improved.link_bone.
  wp_all; link_leaf.
Qed.

Lemma original_link_bone_declared bone_map bone k h :
  post (Original.link_bone E bone_map bone k) h
    (links_declared undeclared bone_map bone h).
Proof.
  unfold Original.link_bone.
  wp_all; link_leaf.
Qed.

Lemma created_empty named h : created named [] h.
Proof.
  split; [intros name i H; discriminate |].
  intros k1 k2 i H. discriminate.
Qed.

Lemma resolved_empty D bones h : resolved D bones [] h.
Proof. intros name i H. discriminate. Qed.

Lemma improved_result_empty data h : improved_result E data (inr []) h.
Proof.
  exists []. split; [reflexivity |]. split; [intros ? ? H; discriminate |].
  split; [intros ? ? ? H; discriminate | apply resolved_empty].
Qed.

Lemma improved_create_bones_spec data scale h :
  post (Improved.create_bones E data scale) h (improved_result E data).
Proof.
  unfold Improved.create_bones.
  apply post_try, post_bind, post_lift.
  destruct (Py.get data "bones" (JList [])) as [e | bones_data] eqn:Hget;
    [apply post_bind, post_modify, post_bind, post_modify, post_ret,
       improved_result_empty |].
  destruct (negb (Py.truthy bones_data));
    [apply post_bind, post_modify, post_ret, improved_result_empty |].
  apply post_bind, post_lift.
  destruct (Py.len bones_data) as [e | n];
    [apply post_bind, post_modify, post_bind, post_modify, post_ret,
       improved_result_empty |].
  apply post_bind, post_modify, post_bind, post_lift.
  destruct (Py.iter bones_data) as [e | bones] eqn:Hiter;
    [apply post_bind, post_modify, post_bind, post_modify, post_ret,
       improved_result_empty |].
  assert (Hbones : bones_of data = bones)
    by (unfold bones_of; rewrite Hget, Hiter; reflexivity).
  apply post_bind.
  eapply post_weaken;
    [apply (pass1_creates Improved.bone_map nonempty_name
              (Improved.create_bone E scale)
              (improved_create_bone_fresh E scale));
     apply created_empty |].
  intros [e | st] h1 Hcreated;
    [apply post_bind, post_modify, post_bind, post_modify, post_ret,
       improved_result_empty |].
  apply post_bind.
  eapply post_weaken;
    [apply (pass2_links (declares_by E) (Improved.link_bone E (Improved.bone_map st))
              (Improved.bone_map st) (proj2 Hcreated)
              (improved_link_bone_declared (Improved.bone_map st))
              bones 0 h1);
     apply (created_resolved nonempty_name (declares_by E) bones _ _
              Hcreated) |].
  intros r h2 [[k ->] Hres].
  apply post_bind, post_modify, post_ret.
  exists (Improved.bone_map st). split; [reflexivity |].
  split; [intros name i Hk; apply (proj1 Hcreated name i Hk) |].
  split; [exact (proj2 Hcreated) |].
  rewrite Hbones. exact Hres.
Qed.

Lemma resolved_parents D bones bone_map h :
  resolved D bones bone_map h -> parents_resolved h bone_map.
Proof.
  intros Hres name i Hk. destruct (Hres name i Hk) as (n & Hi & Hp).
  exists n. split; [exact Hi |].
  destruct Hp as [Hp | (p & pname & Hp & Hg & _)]; [left; exact Hp |].
  right. exists p, pname. auto.
Qed.

Lemma original_result_empty h : original_result (inr []) h.
Proof.
  exists []. split; [reflexivity |]. intros name i H. discriminate.
Qed.

Lemma original_create_bones_spec data scale h :
  post (Original.create_bones E data scale) h original_result.
Proof.
  unfold Original.create_bones.
  apply post_try, post_bind, post_modify, post_bind, post_lift.
  destruct (Py.get data "bones" (JList [])) as [e | bones_data];
    [apply post_bind, post_modify, post_ret, original_result_empty |].
  apply post_bind, post_lift.
  destruct (Py.iter bones_data) as [e | bones] eqn:Hiter;
    [apply post_bind, post_modify, post_ret, original_result_empty |].
  apply post_bind.
  eapply post_weaken;
    [apply (pass1_creates (fun m : Dict.t nat => m) any_name
              (Original.create_bone E scale)
              (original_create_bone_fresh E scale));
     apply created_empty |].
  intros [e | bone_map] h1 Hcreated;
    [apply post_bind, post_modify, post_ret, original_result_empty |].
  apply post_bind, post_lift. cbv beta iota.
  apply post_bind, post_lift. rewrite Hiter. cbv beta iota.
  apply post_bind.
  eapply post_weaken;
    [apply (pass2_links undeclared (Original.link_bone E bone_map) bone_map
              (proj2 Hcreated) (original_link_bone_declared bone_map)
              bones 0 h1);
     apply (created_resolved any_name undeclared bones _ _ Hcreated) |].
  intros r h2 [[k ->] Hres].
  apply post_bind, post_modify, post_ret.
  exists bone_map. split; [reflexivity |].
  apply (resolved_parents undeclared bones). exact Hres.
Qed.

End BuilderSpecs.

(* ===================================================================== *)
(** * The skeleton builder *)
(* ===================================================================== *)

Lemma clos_trans_incl {A} (R R' : A -> A -> Prop) :
  (forall a b, R a b -> R' a b) ->
  forall a b, clos_trans A R a b -> clos_trans A R' a b.
Proof.
  intros Hsub a b H. induction H as [a b Hab | a b c _ IH1 _ IH2].
  - apply t_step. apply Hsub. exact Hab.
  - apply (t_trans _ _ a b c IH1 IH2).
Qed.

Section Skeleton.

Variable E : platform.

(** X18.  In the improved file no bone of the returned map has the
    empty name, and a record without a name makes no node: pass 1
    passes over it with a warning. *)
Lemma improved_skips_nameless (data : json) (scale : Float64.float) h :
  (exists bone_map,
     fst (Improved.create_bones E data scale h) = inr bone_map
     /\ Dict.get bone_map "" = None)
  /\ (forall (kv : list (string * json)) st,
        nameless kv ->
        Improved.create_bone E scale (JDict kv) st h
        = (inr st, log h WARNING "skipping unnamed bone" [])).
Proof.
  split.
  - destruct (improved_create_bones_spec E data scale h)
      as (bone_map & Hr & Hnames & _).
    exists bone_map. split; [exact Hr |].
    destruct (Dict.get bone_map "") as [i |] eqn:Hget; [| reflexivity].
    discriminate (Hnames "" i Hget).
  - intros kv st Hnameless.
    unfold Improved.create_bone, try_catch, bind, lift, Py.get.
    destruct Hnameless as [-> | [-> | ->]]; reflexivity.
Qed.

End Skeleton.

(** A node that is its own parent has no chain of parents to a root. *)
Lemma self_parent_not_rooted h i :
  Scene.parent_of h i = Some i -> ~ rooted h i.
Proof.
  intros Hself Hrooted.
  induction Hrooted as [i n Hn Hnone | i p Hp _ IH].
  - unfold Scene.parent_of in Hself. rewrite Hn in Hself. congruence.
  - rewrite Hself in Hp. inversion Hp. subst p. apply IH. exact Hself.
Qed.

(** C6 as stated fails on a bone that names itself as its parent: the
    link is made, nothing but information lines is printed, and the bone
    has no chain of parents that ends at a root. *)
Lemma cycle_claim_fails_on_self_parent :
  let out := Improved.create_bones Demo.platform0 Demo.self_parent
               Float64.f1 Demo.scene0 in
  fst out = inr [("a", 0%nat)]
  /\ Scene.parent_of (snd out) 0 = Some 0%nat
  /\ all_info (snd out)
  /\ ~ rooted (snd out) 0.
Proof.
  cbv zeta.
  split; [reflexivity |]. split; [reflexivity |].
  split; [repeat constructor |].
  apply self_parent_not_rooted. reflexivity.
Qed.

(** C7 on [spine_importer.py]: a bone whose name is the empty string is
    made and put in the map under the empty name, and no warning is
    printed.  The improved file makes no node and returns an empty map. *)
Lemma original_registers_the_empty_name :
  let old := Original.create_bones Demo.platform0 Demo.empty_name
               Float64.f1 Demo.scene0 in
  let new := Improved.create_bones Demo.platform0 Demo.empty_name
               Float64.f1 Demo.scene0 in
  fst old = inr [("", 0%nat)]
  /\ List.length (nodes (snd old)) = 1%nat
  /\ all_info (snd old)
  /\ fst new = inr []
  /\ nodes (snd new) = []
  /\ In (Entry WARNING (Msg "skipping unnamed bone" [])) (listener (snd new)).
Proof.
  cbv zeta. split; [reflexivity |]. split; [reflexivity |].
  split; [repeat constructor |]. split; [reflexivity |].
  split; [reflexivity |]. simpl. auto.
Qed.

(** ** Regions declared twice *)

Lemma endswith_nonempty p c s :
  PyStr.endswith (String c p) s = true -> PyStr.nonempty s = true.
Proof.
  destruct s; [| reflexivity].
  unfold PyStr.endswith. intros H.
  assert (Hrev : forall q acc, acc <> EmptyString ->
                              PyStr.rev_acc q acc <> EmptyString).
  { induction q as [| a q IH]; simpl; intros acc Hacc; [exact Hacc |].
    apply IH. discriminate. }
  unfold PyStr.rev in H. simpl in H.
  destruct (PyStr.rev_acc p (String c "")) eqn:Hr; [| discriminate].
  destruct (Hrev p (String c "") ltac:(discriminate) Hr).
Qed.

(** In the improved file a line that declares a region already in the
    table changes neither the table, nor the current region, nor the
    textures: it prints one line and goes on. *)
Lemma improved_skips_redeclared_region
    (E : platform) (texture_dir raw : string) (n : Z)
    (st : Improved.tex_state) (h : host) :
  let line := PyStr.strip raw in
  let tex_name := hd "" (PyStr.split dot line) in
  PyStr.endswith ".png" line = true ->
  path_exists E (path_join E texture_dir line) = true ->
  Dict.mem (Improved.textures st) tex_name = true ->
  Improved.load_line E texture_dir (n, raw) st h
  = (inr st, log h INFO "texture already exists, skipping: {}" [AStr tex_name]).
Proof.
  intros line tex_name Hpng Hexists Hmem.
  unfold Improved.load_line. fold line.
  rewrite (endswith_nonempty _ _ _ Hpng), Hpng, Hexists.
  fold tex_name. rewrite Hmem. reflexivity.
Qed.

(** C2 on [spine_importer.py]: the atlas [a.png / rotate: 90 / a.png]
    leaves region [a] bound to a second texture without the rotation; the
    improved file keeps the first texture, rotated. *)
Lemma original_overwrites_redeclared_region :
  let E := Demo.platform_with Demo.redeclared in
  let old := Original.load_textures E "a.atlas" "textures" Demo.scene0 in
  let new := Improved.load_textures E "a.atlas" "textures" Demo.scene0 in
  fst old = inr [("a", 1%nat)]
  /\ map bm_rotation (bitmaps (snd old)) = [Some Demo.ninety; None]
  /\ fst new = inr [("a", 0%nat)]
  /\ map bm_rotation (bitmaps (snd new)) = [Some Demo.ninety].
Proof. cbv zeta. repeat split; reflexivity. Qed.

(* ===================================================================== *)
(** * Parsing an atlas twice *)
(* ===================================================================== *)

Lemma Dict_get_None_keys {V} (d : Dict.t V) k :
  Dict.get d k = None <-> ~ In k (Dict.keys d).
Proof.
  induction d as [| [k0 v0] d IH]; simpl; [tauto |].
  destruct (String.eqb_spec k0 k); split; intros H.
  - discriminate.
  - exfalso. apply H. left. assumption.
  - intros [Heq | Hin]; [congruence | apply IH in H; contradiction].
  - apply IH. intros Hin. apply H. right. exact Hin.
Qed.

Lemma Dict_mem_keys {V W} (d : Dict.t V) (d' : Dict.t W) k :
  Dict.keys d = Dict.keys d' -> Dict.mem d k = Dict.mem d' k.
Proof.
  intros Hk. unfold Dict.mem.
  destruct (Dict.get d k) eqn:Hd; destruct (Dict.get d' k) eqn:Hd';
    try reflexivity.
  - apply Dict_get_None_keys in Hd'. rewrite <- Hk in Hd'.
    apply Dict_get_None_keys in Hd'. congruence.
  - apply Dict_get_None_keys in Hd. rewrite Hk in Hd.
    apply Dict_get_None_keys in Hd. congruence.
Qed.

Lemma Dict_keys_set_fresh {V} (d : Dict.t V) k v :
  Dict.mem d k = false -> Dict.keys (Dict.set d k v) = (Dict.keys d ++ [k])%list.
Proof.
  unfold Dict.mem.
  induction d as [| [k0 v0] d IH]; simpl; [reflexivity |].
  destruct (String.eqb k0 k); [discriminate |].
  intros H. simpl. rewrite IH by exact H. reflexivity.
Qed.

Lemma Dict_mem_false_get {V} (d : Dict.t V) k :
  Dict.mem d k = false -> Dict.get d k = None.
Proof. unfold Dict.mem. destruct (Dict.get d k); [discriminate | auto]. Qed.

Lemma firstn_update_ge {A} (l : list A) n i f :
  (n <= i)%nat -> firstn n (Scene.update l i f) = firstn n l.
Proof.
  revert n i. induction l as [| x l IH]; intros [| n] [| i] H; simpl;
    try reflexivity; try lia.
  rewrite IH by lia. reflexivity.
Qed.

Lemma firstn_app_le {A} (l l' : list A) n :
  (n <= List.length l)%nat -> firstn n (l ++ l') = firstn n l.
Proof.
  intros H. rewrite firstn_app.
  replace (n - List.length l)%nat with 0%nat by lia.
  simpl. apply app_nil_r.
Qed.

Lemma firstn_length_le {A} (l : list A) n old :
  firstn n l = old -> List.length old = n -> (n <= List.length l)%nat.
Proof.
  intros <- H. rewrite length_firstn in H. lia.
Qed.

Lemma nth_error_firstn_lt {A} (l : list A) n i :
  (i < n)%nat -> nth_error (firstn n l) i = nth_error l i.
Proof.
  revert n i. induction l as [| x l IH]; intros [| n] [| i] H; simpl;
    try reflexivity; try lia.
  apply IH. lia.
Qed.

Section TwoRuns.

Variable E : platform.

Lemma injective_set_fresh (d : Dict.t nat) k i :
  injective d ->
  (forall k' j, Dict.get d k' = Some j -> j <> i) ->
  injective (Dict.set d k i).
Proof.
  intros Hinj Hfresh k1 k2 j H1 H2.
  destruct (String.eqb_spec k1 k) as [-> | Hne1];
    destruct (String.eqb_spec k2 k) as [-> | Hne2]; try reflexivity.
  - rewrite Dict_get_set_same in H1. inversion H1. subst j.
    rewrite Dict_get_set_other in H2 by exact Hne2.
    destruct (Hfresh k2 i H2 eq_refl).
  - rewrite Dict_get_set_same in H2. inversion H2. subst j.
    rewrite Dict_get_set_other in H1 by exact Hne1.
    destruct (Hfresh k1 i H1 eq_refl).
  - rewrite Dict_get_set_other in H1, H2 by assumption.
    apply (Hinj k1 k2 j H1 H2).
Qed.

(** A new region in both runs. *)
Lemma in_step_register n old stA hA stB hB name path lA lB :
  List.length old = n ->
  in_step n old stA hA stB hB ->
  Dict.mem (Improved.textures stA) name = false ->
  in_step n old
    (Improved.TexState
       (Dict.set (Improved.textures stA) name (List.length (bitmaps hA)))
       (Some name) (Improved.loaded_count stA + 1) (Improved.error_count stA))
    (Scene.with_listener
       (Scene.with_bitmaps hA (bitmaps hA ++ [Bitmap path None])) lA)
    (Improved.TexState
       (Dict.set (Improved.textures stB) name (List.length (bitmaps hB)))
       (Some name) (Improved.loaded_count stB + 1) (Improved.error_count stB))
    (Scene.with_listener
       (Scene.with_bitmaps hB (bitmaps hB ++ [Bitmap path None])) lB).
Proof.
  intros Hold (Hcur & Hlc & Hec & [Hkeys Hreg] & HinjA & HinjB & Hge & Hpre)
    Hmem.
  assert (HmemB : Dict.mem (Improved.textures stB) name = false)
    by (rewrite <- (Dict_mem_keys _ _ name Hkeys); exact Hmem).
  assert (HltA : forall k i, Dict.get (Improved.textures stA) k = Some i ->
                             (i < List.length (bitmaps hA))%nat).
  { intros k i Hk. destruct (Hreg k i Hk) as (j & b & _ & Hi & _).
    apply nth_error_Some. congruence. }
  assert (HltB : forall k j, Dict.get (Improved.textures stB) k = Some j ->
                             (j < List.length (bitmaps hB))%nat).
  { intros k j Hk.
    destruct (Dict.get (Improved.textures stA) k) as [i |] eqn:HA.
    - destruct (Hreg k i HA) as (j' & b & Hj' & _ & Hj).
      assert (j' = j) by congruence. subst j'.
      apply nth_error_Some. congruence.
    - apply Dict_get_None_keys in HA. rewrite Hkeys in HA.
      apply Dict_get_None_keys in HA. congruence. }
  unfold in_step, same_regions.
  cbn [Improved.textures Improved.current_texture Improved.loaded_count
       Improved.error_count bitmaps Scene.with_listener Scene.with_bitmaps].
  split; [reflexivity |]. split; [congruence |]. split; [exact Hec |].
  split; [split |].
  - rewrite !Dict_keys_set_fresh by assumption. rewrite Hkeys. reflexivity.
  - intros k i Hk. destruct (String.eqb_spec k name) as [-> | Hne].
    + rewrite Dict_get_set_same in Hk. inversion Hk. subst i.
      exists (List.length (bitmaps hB)), (Bitmap path None).
      rewrite Dict_get_set_same.
      rewrite !nth_error_app2, !Nat.sub_diag by lia. auto.
    + rewrite Dict_get_set_other in Hk by exact Hne.
      destruct (Hreg k i Hk) as (j & b & Hj & Hi & Hjb).
      exists j, b. rewrite Dict_get_set_other by exact Hne.
      split; [exact Hj |].
      rewrite !nth_error_app1;
        [auto | apply nth_error_Some; congruence
         | apply nth_error_Some; congruence].
  - split; [| split; [| split]].
    + apply injective_set_fresh; [exact HinjA |].
      intros k' j Hk'. apply HltA in Hk'. lia.
    + apply injective_set_fresh; [exact HinjB |].
      intros k' j Hk'. apply HltB in Hk'. lia.
    + intros k j Hk. destruct (String.eqb_spec k name) as [-> | Hne].
      * rewrite Dict_get_set_same in Hk. inversion Hk.
        apply (firstn_length_le _ _ _ Hpre Hold).
      * rewrite Dict_get_set_other in Hk by exact Hne. apply (Hge k j Hk).
    + rewrite firstn_app_le; [exact Hpre |].
      apply (firstn_length_le _ _ _ Hpre Hold).
Qed.

(** A rotation of the current region in both runs. *)
Lemma in_step_rotate n old stA hA stB hB c i j v lA lB :
  in_step n old stA hA stB hB ->
  Dict.get (Improved.textures stA) c = Some i ->
  Dict.get (Improved.textures stB) c = Some j ->
  in_step n old stA
    (Scene.with_listener
       (Scene.with_bitmaps hA
          (Scene.update (bitmaps hA) i (Scene.set_rotation_bm v))) lA)
    stB
    (Scene.with_listener
       (Scene.with_bitmaps hB
          (Scene.update (bitmaps hB) j (Scene.set_rotation_bm v))) lB).
Proof.
  intros (Hcur & Hlc & Hec & [Hkeys Hreg] & HinjA & HinjB & Hge & Hpre)
    Hi Hj.
  unfold in_step, same_regions.
  cbn [Improved.textures Improved.current_texture Improved.loaded_count
       Improved.error_count bitmaps Scene.with_listener Scene.with_bitmaps].
  split; [exact Hcur |]. split; [exact Hlc |]. split; [exact Hec |].
  split; [split; [exact Hkeys |] |].
  - intros k i' Hk. destruct (Hreg k i' Hk) as (j' & b & Hj' & Hib & Hjb).
    destruct (String.eqb_spec k c) as [-> | Hne].
    + assert (i' = i) by congruence. assert (j' = j) by congruence.
      subst i' j'. exists j, (Scene.set_rotation_bm v b).
      split; [exact Hj |].
      split; apply update_nth_error; assumption.
    + exists j', b. split; [exact Hj' |].
      rewrite !update_nth_error_other; [auto | |].
      * intros ->. apply Hne. apply (HinjB k c j' Hj' Hj).
      * intros ->. apply Hne. apply (HinjA k c i' Hk Hi).
  - split; [exact HinjA |]. split; [exact HinjB |].
    split; [exact Hge |].
    rewrite firstn_update_ge; [exact Hpre | apply (Hge c j Hj)].
Qed.

(** A line that changes the listener and the error count at most. *)
Lemma in_step_log n old stA hA stB hB lA lB d :
  in_step n old stA hA stB hB ->
  in_step n old
    (Improved.TexState (Improved.textures stA) (Improved.current_texture stA)
       (Improved.loaded_count stA) (Improved.error_count stA + d))
    (Scene.with_listener hA lA)
    (Improved.TexState (Improved.textures stB) (Improved.current_texture stB)
       (Improved.loaded_count stB) (Improved.error_count stB + d))
    (Scene.with_listener hB lB).
Proof.
  intros (Hcur & Hlc & Hec & Hreg & HinjA & HinjB & Hge & Hpre).
  unfold in_step, same_regions.
  cbn [Improved.textures Improved.current_texture Improved.loaded_count
       Improved.error_count bitmaps Scene.with_listener Scene.with_bitmaps]. rewrite Hec. auto 10.
Qed.

Lemma in_step_print n old stA hA stB hB lA lB :
  in_step n old stA hA stB hB ->
  in_step n old stA (Scene.with_listener hA lA)
    stB (Scene.with_listener hB lB).
Proof. intros H. exact H. Qed.

(** One line keeps two runs in step. *)
Lemma load_line_in_step n old texture_dir ln stA hA stB hB :
  List.length old = n ->
  in_step n old stA hA stB hB ->
  exists stA' hA' stB' hB',
    Improved.load_line E texture_dir ln stA hA = (inr stA', hA')
    /\ Improved.load_line E texture_dir ln stB hB = (inr stB', hB')
    /\ in_step n old stA' hA' stB' hB'.
Proof.
  intros Hold Hstep.
  destruct stA as [tA cA lcA ecA], stB as [tB cB lcB ecB].
  pose proof Hstep as (Hcur & Hlc & Hec & [Hkeys Hreg] & _).
  cbn [Improved.textures Improved.current_texture Improved.loaded_count
       Improved.error_count] in Hcur, Hlc, Hec, Hkeys, Hreg.
  subst cB lcB ecB.
  destruct ln as [line_num raw].
  unfold Improved.load_line.
  cbn [Improved.textures Improved.current_texture Improved.loaded_count
       Improved.error_count].
  destruct (negb (PyStr.nonempty (PyStr.strip raw)));
    [do 4 eexists; split; [reflexivity |]; split; [reflexivity | exact Hstep]
    |].
  set (line := PyStr.strip raw).
  destruct (PyStr.endswith ".png" line).
  - destruct (path_exists E (path_join E texture_dir line)).
    + rewrite <- (Dict_mem_keys _ _ (hd "" (PyStr.split dot line)) Hkeys).
      destruct (Dict.mem tA (hd "" (PyStr.split dot line))) eqn:Hmem.
      * do 4 eexists. split; [reflexivity |]. split; [reflexivity |].
        apply in_step_print. exact Hstep.
      * do 4 eexists. split; [reflexivity |]. split; [reflexivity |].
        apply (in_step_register n old _ _ _ _ _ _ _ _ Hold Hstep Hmem).
    + do 4 eexists. split; [reflexivity |]. split; [reflexivity |].
      apply (in_step_log n old _ _ _ _ _ _ 1 Hstep).
  - destruct (PyStr.startswith "rotate:" line && truthy_name cA);
      [| do 4 eexists; split; [reflexivity |]; split;
         [reflexivity | exact Hstep]].
    unfold try_ValueError, try_catch, bind, lift, Improved.debug_print,
      Rt.print, Rt.update_bitmap, modify, ret, raise.
    destruct (nth_error (PyStr.split colon line) 1) as [field |];
      [| do 4 eexists; split; [reflexivity |]; split; [reflexivity |];
         apply (in_step_log n old _ _ _ _ _ _ 1 Hstep)].
    unfold Py.to_float.
    destruct (parse_float E field) as [v |];
      [| do 4 eexists; split; [reflexivity |]; split; [reflexivity |];
         apply in_step_print; exact Hstep].
    destruct cA as [c |];
      [| do 4 eexists; split; [reflexivity |]; split; [reflexivity |];
         apply (in_step_log n old _ _ _ _ _ _ 1 Hstep)].
    destruct (Dict.get tA c) as [i |] eqn:HA.
    + destruct (Hreg c i HA) as (j & b & HB & _). rewrite HB.
      do 4 eexists. split; [reflexivity |]. split; [reflexivity |].
      apply (in_step_rotate n old _ _ _ _ c i j v _ _ Hstep HA HB).
    + assert (HB : Dict.get tB c = None).
      { apply Dict_get_None_keys. rewrite <- Hkeys.
        apply Dict_get_None_keys. exact HA. }
      rewrite HB.
      do 4 eexists. split; [reflexivity |]. split; [reflexivity |].
      apply (in_step_log n old _ _ _ _ _ _ 1 Hstep).
Qed.

Lemma load_lines_in_step n old texture_dir lines :
  List.length old = n ->
  forall stA hA stB hB,
    in_step n old stA hA stB hB ->
    exists stA' hA' stB' hB',
      for_each (Improved.load_line E texture_dir) lines stA hA
      = (inr stA', hA')
      /\ for_each (Improved.load_line E texture_dir) lines stB hB
         = (inr stB', hB')
      /\ in_step n old stA' hA' stB' hB'.
Proof.
  intros Hold. induction lines as [| ln lines IH]; intros stA hA stB hB H.
  - exists stA, hA, stB, hB. auto.
  - destruct (load_line_in_step n old texture_dir ln _ _ _ _ Hold H)
      as (stA1 & hA1 & stB1 & hB1 & HA & HB & H1).
    destruct (IH _ _ _ _ H1) as (stA' & hA' & stB' & hB' & HA' & HB' & H').
    exists stA', hA', stB', hB'.
    rewrite !for_each_cons, HA, HB. auto.
Qed.

(** X16.  In the improved file, parsing the same atlas a second time,
    in the scene the first parse has left, gives a table with the same
    names,
    and under each name a texture with the same file name and rotation
    as the texture the first table holds under it. *)
Lemma improved_load_twice (atlas_path texture_dir : string) (h : host) :
  let first := Improved.load_textures E atlas_path texture_dir h in
  let second := Improved.load_textures E atlas_path texture_dir (snd first) in
  exists t1 t2,
    fst first = inr t1
    /\ fst second = inr t2
    /\ Dict.keys t1 = Dict.keys t2
    /\ forall k i,
         Dict.get t1 k = Some i ->
         exists j b,
           Dict.get t2 k = Some j
           /\ nth_error (bitmaps (snd second)) i = Some b
           /\ nth_error (bitmaps (snd second)) j = Some b.
Proof.
  cbv zeta. unfold Improved.load_textures.
  destruct (Improved.validate_file_path E atlas_path "Atlas file")
    as [[|] msg1];
    [| exists [], []; cbn; repeat split; intros k i H; discriminate].
  destruct (Improved.validate_file_path E texture_dir "texture directory")
    as [[|] msg2];
    [| exists [], []; cbn; repeat split; intros k i H; discriminate].
  cbn [negb]. unfold try_catch, bind, lift.
  destruct (read_lines E atlas_path) as [e | lines];
    [exists [], []; cbn; repeat split; intros k i H; discriminate |].
  set (init := Improved.TexState [] None 0 0).
  destruct (load_lines_in_step 0 [] texture_dir (enumerate 1 lines) eq_refl
              init h init h) as (st0 & h0 & _ & _ & Hrun0 & _ & _).
  { unfold in_step, same_regions, injective. cbn.
    repeat split; auto; try (intros; discriminate); lia. }
  rewrite Hrun0.
  unfold Improved.debug_print, Rt.print, modify, ret. cbn [fst snd].
  set (h1 := Scene.with_listener h0 _).
  destruct (load_lines_in_step (List.length (bitmaps h1)) (bitmaps h1)
              texture_dir (enumerate 1 lines) eq_refl init h init h1)
    as (stA & hA & stB & hB & HA & HB & Hstep).
  { unfold in_step, same_regions, injective. cbn.
    repeat split; auto; try (intros; discriminate).
    apply firstn_all. }
  rewrite Hrun0 in HA. inversion HA. subst stA hA. rewrite HB.
  cbn [fst snd].
  destruct Hstep as (_ & _ & _ & [Hkeys Hreg] & _ & _ & Hge & Hpre).
  exists (Improved.textures st0), (Improved.textures stB).
  split; [reflexivity |]. split; [reflexivity |]. split; [exact Hkeys |].
  intros k i Hk. destruct (Hreg k i Hk) as (j & b & Hj & Hi & Hjb).
  exists j, b. split; [exact Hj |]. split; [| exact Hjb].
  cbn [bitmaps Scene.with_listener].
  assert (Hlt : (i < List.length (bitmaps h1))%nat)
    by (apply nth_error_Some; unfold h1; cbn; congruence).
  rewrite <- (nth_error_firstn_lt (bitmaps hB) _ i Hlt), Hpre.
  unfold h1. cbn. exact Hi.
Qed.

End TwoRuns.

(* ===================================================================== *)
(** * [safe_str] *)
(* ===================================================================== *)

Lemma occurs_replace_same a b s :
  a <> b -> occurs a (PyStr.replace a b s) = false.
Proof.
  intros Hab. induction s as [| c s IH]; simpl; [reflexivity |].
  rewrite IH, orb_false_r.
  destruct (Ascii.eqb_spec c a) as [-> | Hca].
  - apply Ascii.eqb_neq. congruence.
  - apply Ascii.eqb_neq. exact Hca.
Qed.

Lemma occurs_replace_other a b c s :
  c <> b -> occurs c s = false -> occurs c (PyStr.replace a b s) = false.
Proof.
  intros Hcb. induction s as [| x s IH]; simpl; [reflexivity |].
  intros H. apply orb_false_iff in H. destruct H as [Hx Hs].
  rewrite (IH Hs), orb_false_r.
  destruct (Ascii.eqb x a); [| exact Hx].
  apply Ascii.eqb_neq. congruence.
Qed.

Lemma replace_absent a b s :
  occurs a s = false -> PyStr.replace a b s = s.
Proof.
  induction s as [| c s IH]; simpl; [reflexivity |].
  intros H. apply orb_false_iff in H. destruct H as [Hc Hs].
  rewrite Hc, (IH Hs). reflexivity.
Qed.

Lemma rev_acc_app s acc :
  PyStr.rev_acc s acc = (PyStr.rev s ++ acc)%string.
Proof.
  unfold PyStr.rev. revert acc.
  induction s as [| c s IH]; intros acc; simpl; [reflexivity |].
  rewrite (IH (String c acc)), (IH (String c "")).
  generalize (PyStr.rev_acc s "") as r. intros r.
  induction r as [| x r IHr]; simpl; [reflexivity | rewrite IHr; reflexivity].
Qed.

Lemma string_app_nil_r (s : string) : (s ++ "")%string = s.
Proof. induction s as [| c s IH]; simpl; [| rewrite IH]; reflexivity. Qed.

Lemma string_app_assoc (a b c : string) :
  ((a ++ b) ++ c)%string = (a ++ (b ++ c))%string.
Proof. induction a as [| x a IH]; simpl; [| rewrite IH]; reflexivity. Qed.

Lemma rev_cons c s : PyStr.rev (String c s) = (PyStr.rev s ++ String c "")%string.
Proof. unfold PyStr.rev at 1. simpl. apply rev_acc_app. Qed.

Lemma rev_app a b : PyStr.rev (a ++ b) = (PyStr.rev b ++ PyStr.rev a)%string.
Proof.
  induction a as [| c a IH]; simpl.
  - rewrite string_app_nil_r. reflexivity.
  - rewrite !rev_cons, IH, string_app_assoc. reflexivity.
Qed.

Lemma rev_involutive s : PyStr.rev (PyStr.rev s) = s.
Proof.
  induction s as [| c s IH]; [reflexivity |].
  rewrite rev_cons, rev_app, IH. reflexivity.
Qed.

Lemma occurs_app c a b : occurs c (a ++ b) = occurs c a || occurs c b.
Proof.
  induction a as [| x a IH]; simpl; [reflexivity |].
  rewrite IH, orb_assoc. reflexivity.
Qed.

Lemma occurs_rev c s : occurs c (PyStr.rev s) = occurs c s.
Proof.
  induction s as [| x s IH]; [reflexivity |].
  rewrite rev_cons, occurs_app, IH. simpl.
  rewrite orb_false_r. apply orb_comm.
Qed.

(** [lstrip] drops a prefix. *)
Lemma lstrip_suffix s : exists p, s = (p ++ PyStr.lstrip s)%string.
Proof.
  induction s as [| c s [p IH]]; simpl.
  - exists "". reflexivity.
  - destruct (PyStr.isspace c).
    + exists (String c p). simpl. rewrite <- IH. reflexivity.
    + exists "". reflexivity.
Qed.

Lemma lstrip_idempotent s : PyStr.lstrip (PyStr.lstrip s) = PyStr.lstrip s.
Proof.
  induction s as [| c s IH]; simpl; [reflexivity |].
  destruct (PyStr.isspace c) eqn:Hc; [exact IH |].
  simpl. rewrite Hc. reflexivity.
Qed.

(** What [lstrip] leaves begins, if it begins at all, with the first
    character of any string it is the front of. *)
Lemma lstrip_fixed_front a b :
  PyStr.lstrip (a ++ b) = (a ++ b)%string -> PyStr.lstrip a = a.
Proof.
  destruct a as [| c a]; simpl; [reflexivity |].
  destruct (PyStr.isspace c); [| reflexivity].
  intros H. exfalso.
  destruct (lstrip_suffix (a ++ b)) as [p Hp].
  rewrite H in Hp.
  assert (Hlen : String.length (a ++ b)
                 = String.length (p ++ String c (a ++ b))) by congruence.
  assert (Happ : forall x y, String.length (x ++ y)
                             = (String.length x + String.length y)%nat).
  { intros x y. induction x as [| z x IHx]; simpl; [| rewrite IHx]; reflexivity. }
  rewrite (Happ p) in Hlen. simpl in Hlen. lia.
Qed.

Lemma occurs_lstrip c s : occurs c s = false -> occurs c (PyStr.lstrip s) = false.
Proof.
  intros H. destruct (lstrip_suffix s) as [p Hp].
  rewrite Hp, occurs_app in H. apply orb_false_iff in H. tauto.
Qed.

Lemma occurs_strip c s : occurs c s = false -> occurs c (PyStr.strip s) = false.
Proof.
  intros H. unfold PyStr.strip.
  rewrite occurs_rev. apply occurs_lstrip.
  rewrite occurs_rev. apply occurs_lstrip. exact H.
Qed.

Lemma strip_trimmed s : trimmed (PyStr.strip s).
Proof.
  unfold trimmed, PyStr.strip.
  set (t := PyStr.lstrip s).
  set (u := PyStr.lstrip (PyStr.rev t)).
  split.
  - destruct (lstrip_suffix (PyStr.rev t)) as [p Hp]. fold u in Hp.
    assert (Ht : t = (PyStr.rev u ++ PyStr.rev p)%string).
    { rewrite <- rev_app, <- Hp, rev_involutive. reflexivity. }
    apply (lstrip_fixed_front _ (PyStr.rev p)).
    rewrite <- Ht. apply lstrip_idempotent.
  - rewrite rev_involutive. apply lstrip_idempotent.
Qed.

Lemma strip_fixed s : trimmed s -> PyStr.strip s = s.
Proof.
  intros [H1 H2]. unfold PyStr.strip.
  rewrite H1, H2. apply rev_involutive.
Qed.

Section SafeStr.

Variable E : platform.

(** X1.  Whatever the value, the text [safe_str] of the improved file
    returns holds no backslash and no double quote, the two characters
    that would end or escape the string literal [debug_print] hands to
    the listener; and [safe_str] of its own result is that result. *)
Theorem improved_safe_str_is_quotable (v : json) :
  let s := Improved.safe_str E v in
  occurs backslash s = false
  /\ occurs dquote s = false
  /\ Improved.safe_str E (JStr s) = s.
Proof.
  cbv zeta.
  assert (Hclean : forall w,
             occurs backslash (Improved.safe_str E w) = false
             /\ occurs dquote (Improved.safe_str E w) = false).
  { intros w. unfold Improved.safe_str.
    destruct w; try (split; [reflexivity | reflexivity]);
      (split;
       [ apply occurs_replace_other;
         [ discriminate | apply occurs_replace_same; discriminate ]
       | apply occurs_replace_same; discriminate ]). }
  destruct (Hclean v) as [Hb Hq].
  split; [exact Hb |]. split; [exact Hq |].
  unfold Improved.safe_str at 1. cbn [Py.str].
  rewrite (replace_absent backslash) by exact Hb.
  apply replace_absent. exact Hq.
Qed.

(** X2.  [safe_str] of [spine_importer.py] also takes out line feeds
    and strips the text: its result holds no backslash, no double quote
    and no line feed, neither begins nor ends with white space, and is
    left as it is by a second [safe_str]. *)
Theorem original_safe_str_is_one_clean_line (v : json) :
  let s := Original.safe_str E v in
  occurs backslash s = false
  /\ occurs dquote s = false
  /\ occurs newline s = false
  /\ trimmed s
  /\ Original.safe_str E (JStr s) = s.
Proof.
  cbv zeta.
  assert (Hclean : forall w,
             occurs backslash (Original.safe_str E w) = false
             /\ occurs dquote (Original.safe_str E w) = false
             /\ occurs newline (Original.safe_str E w) = false
             /\ trimmed (Original.safe_str E w)).
  { intros w. unfold Original.safe_str.
    assert (Hgen : forall t,
               let r := PyStr.strip
                          (PyStr.replace newline space
                             (PyStr.replace dquote apostrophe
                                (PyStr.replace backslash slash t))) in
               occurs backslash r = false /\ occurs dquote r = false
               /\ occurs newline r = false /\ trimmed r).
    { intros t r. unfold r.
      split; [| split; [| split]].
      - apply occurs_strip.
        apply occurs_replace_other; [discriminate |].
        apply occurs_replace_other; [discriminate |].
        apply occurs_replace_same. discriminate.
      - apply occurs_strip.
        apply occurs_replace_other; [discriminate |].
        apply occurs_replace_same. discriminate.
      - apply occurs_strip. apply occurs_replace_same. discriminate.
      - apply strip_trimmed. }
    destruct w; try apply Hgen.
    repeat split; reflexivity. }
  destruct (Hclean v) as (Hb & Hq & Hn & Ht).
  split; [exact Hb |]. split; [exact Hq |]. split; [exact Hn |].
  split; [exact Ht |].
  unfold Original.safe_str at 1. cbn [Py.str].
  rewrite (replace_absent backslash) by exact Hb.
  rewrite (replace_absent dquote) by exact Hq.
  rewrite (replace_absent newline) by exact Hn.
  apply strip_fixed. exact Ht.
Qed.

End SafeStr.

(* ===================================================================== *)
(** * The region table *)
(* ===================================================================== *)

Lemma Dict_set_fresh_length {V} (d : Dict.t V) k v :
  Dict.mem d k = false -> List.length (Dict.set d k v) = S (List.length d).
Proof.
  unfold Dict.mem.
  induction d as [| [k0 v0] d IH]; simpl; [reflexivity |].
  destruct (String.eqb k0 k); [discriminate |].
  intros H. simpl. rewrite IH by exact H. reflexivity.
Qed.

Section RegionTable.

Variable E : platform.
Variable texture_dir : string.

Ltac tex_simpl :=
  cbn [Improved.textures Improved.current_texture Improved.loaded_count
       Improved.error_count bitmaps Scene.with_listener Scene.with_bitmaps].

Lemma parsing_log h0 st h l d c :
  parsing E texture_dir h0 st h ->
  parsing E texture_dir h0
    (Improved.TexState (Improved.textures st) c (Improved.loaded_count st) d)
    (Scene.with_listener h l).
Proof. intros H. exact H. Qed.

Lemma parsing_register h0 st h line l c d :
  parsing E texture_dir h0 st h ->
  PyStr.endswith ".png" line = true ->
  path_exists E (path_join E texture_dir line) = true ->
  Dict.mem (Improved.textures st) (hd "" (PyStr.split dot line)) = false ->
  parsing E texture_dir h0
    (Improved.TexState
       (Dict.set (Improved.textures st) (hd "" (PyStr.split dot line))
          (List.length (bitmaps h)))
       c (Improved.loaded_count st + 1) d)
    (Scene.with_listener
       (Scene.with_bitmaps h
          (bitmaps h ++ [Bitmap (path_join E texture_dir line) None])) l).
Proof.
  intros ((Hreg & Hinj & Hlen) & Hcount & Hpre) Hpng Hexists Hmem.
  set (name := hd "" (PyStr.split dot line)) in *.
  assert (Hlt : forall k i, Dict.get (Improved.textures st) k = Some i ->
                            (i < List.length (bitmaps h))%nat).
  { intros k i Hk. destruct (Hreg k i Hk) as (_ & b & ln & Hb & _).
    apply nth_error_Some. congruence. }
  unfold parsing, regions_sound. tex_simpl.
  split; [split; [| split] | split].
  - intros k i Hk. destruct (String.eqb_spec k name) as [-> | Hne].
    + rewrite Dict_get_set_same in Hk. inversion Hk. subst i.
      split; [lia |].
      exists (Bitmap (path_join E texture_dir line) None), line.
      rewrite nth_error_app2, Nat.sub_diag by lia.
      repeat split; auto.
    + rewrite Dict_get_set_other in Hk by exact Hne.
      destruct (Hreg k i Hk) as (Hge & b & ln & Hb & Hrest).
      split; [exact Hge |]. exists b, ln.
      rewrite nth_error_app1 by (apply (Hlt k i Hk)).
      split; [exact Hb | exact Hrest].
  - apply injective_set_fresh; [exact Hinj |].
    intros k j Hk. apply Hlt in Hk. lia.
  - rewrite length_app, Dict_set_fresh_length by exact Hmem.
    simpl. lia.
  - rewrite Dict_set_fresh_length by exact Hmem. lia.
  - rewrite firstn_app_le by lia. exact Hpre.
Qed.

Lemma parsing_rotate h0 st h c i v l :
  parsing E texture_dir h0 st h ->
  Dict.get (Improved.textures st) c = Some i ->
  parsing E texture_dir h0 st
    (Scene.with_listener
       (Scene.with_bitmaps h
          (Scene.update (bitmaps h) i (Scene.set_rotation_bm v))) l).
Proof.
  intros ((Hreg & Hinj & Hlen) & Hcount & Hpre) Hc.
  unfold parsing, regions_sound. tex_simpl.
  split; [split; [| split] | split].
  - intros k j Hk. destruct (Hreg k j Hk) as (Hge & b & ln & Hb & Hrest).
    split; [exact Hge |].
    destruct (Nat.eq_dec i j) as [-> | Hne].
    + exists (Scene.set_rotation_bm v b), ln.
      split; [apply update_nth_error; exact Hb | exact Hrest].
    + exists b, ln. rewrite update_nth_error_other by exact Hne.
      split; [exact Hb | exact Hrest].
  - exact Hinj.
  - rewrite update_length. exact Hlen.
  - exact Hcount.
  - rewrite firstn_update_ge; [exact Hpre |].
    apply (proj1 (Hreg c i Hc)).
Qed.

(** One line of the atlas: the loop body returns and keeps the table
    sound. *)
Lemma load_line_parsing h0 ln st h :
  parsing E texture_dir h0 st h ->
  exists st' h',
    Improved.load_line E texture_dir ln st h = (inr st', h')
    /\ parsing E texture_dir h0 st' h'.
Proof.
  intros Hp. destruct st as [t c lc ec]. destruct ln as [line_num raw].
  unfold Improved.load_line. tex_simpl.
  destruct (negb (PyStr.nonempty (PyStr.strip raw)));
    [do 2 eexists; split; [reflexivity | exact Hp] |].
  set (line := PyStr.strip raw).
  destruct (PyStr.endswith ".png" line) eqn:Hpng.
  - destruct (path_exists E (path_join E texture_dir line)) eqn:Hex.
    + destruct (Dict.mem t (hd "" (PyStr.split dot line))) eqn:Hmem.
      * do 2 eexists. split; [reflexivity |].
        apply (parsing_log h0 _ h _ ec c Hp).
      * do 2 eexists. split; [reflexivity |].
        apply (parsing_register h0 _ h line _ _ ec Hp Hpng Hex Hmem).
    + do 2 eexists. split; [reflexivity |].
      apply (parsing_log h0 _ h _ (ec + 1) c Hp).
  - destruct (PyStr.startswith "rotate:" line && truthy_name c);
      [| do 2 eexists; split; [reflexivity | exact Hp]].
    unfold try_ValueError, try_catch, bind, lift, Improved.debug_print,
      Rt.print, Rt.update_bitmap, modify, ret, raise.
    destruct (nth_error (PyStr.split colon line) 1) as [field |];
      [| do 2 eexists; split; [reflexivity |];
         apply (parsing_log h0 _ h _ (ec + 1) c Hp)].
    unfold Py.to_float.
    destruct (parse_float E field) as [v |];
      [| do 2 eexists; split; [reflexivity |];
         apply (parsing_log h0 _ h _ ec c Hp)].
    destruct c as [c |];
      [| do 2 eexists; split; [reflexivity |];
         apply (parsing_log h0 _ h _ (ec + 1) None Hp)].
    destruct (Dict.get t c) as [i |] eqn:Hc.
    + do 2 eexists. split; [reflexivity |].
      apply (parsing_rotate h0 _ h c i v _ Hp Hc).
    + do 2 eexists. split; [reflexivity |].
      apply (parsing_log h0 _ h _ (ec + 1) (Some c) Hp).
Qed.

Lemma load_lines_parsing h0 lines :
  forall st h,
    parsing E texture_dir h0 st h ->
    exists st' h',
      for_each (Improved.load_line E texture_dir) lines st h = (inr st', h')
      /\ parsing E texture_dir h0 st' h'.
Proof.
  induction lines as [| ln lines IH]; intros st h Hp.
  - exists st, h. auto.
  - destruct (load_line_parsing h0 ln st h Hp) as (st1 & h1 & Hrun & Hp1).
    destruct (IH _ _ Hp1) as (st' & h' & Hrun' & Hp').
    exists st', h'. rewrite for_each_cons, Hrun. auto.
Qed.

Lemma parsing_start h :
  parsing E texture_dir h (Improved.TexState [] None 0 0) h.
Proof.
  unfold parsing, regions_sound, injective. tex_simpl.
  split; [split; [| split] | split].
  - intros name i Hk. discriminate.
  - intros k1 k2 i Hk. discriminate.
  - simpl. lia.
  - reflexivity.
  - apply firstn_all.
Qed.

Lemma load_line_beside ln st :
  keeps beside_textures (Improved.load_line E texture_dir ln st).
Proof.
  destruct ln as [line_num raw].
  unfold Improved.load_line, Improved.debug_print, Rt.BitmapTexture,
    Rt.update_bitmap, Rt.print.
  keeps_struct; intros h; reflexivity.
Qed.

Lemma load_textures_beside atlas_path :
  keeps beside_textures (Improved.load_textures E atlas_path texture_dir).
Proof.
  unfold Improved.load_textures, Improved.debug_print, Rt.print.
  destruct (Improved.validate_file_path E atlas_path "Atlas file")
    as [valid1 msg1].
  destruct (Improved.validate_file_path E texture_dir "texture directory")
    as [valid2 msg2].
  keeps_struct;
    first [ apply load_line_beside | intros h; reflexivity ].
Qed.

(** [load_textures] returns a sound table and leaves the textures of
    the scene as they were. *)
Lemma load_textures_parsing (atlas_path : string) (h : host) :
  post (Improved.load_textures E atlas_path texture_dir) h
    (fun r h' =>
       exists t,
         r = inr t
         /\ regions_sound E texture_dir (List.length (bitmaps h)) t h'
         /\ firstn (List.length (bitmaps h)) (bitmaps h') = bitmaps h).
Proof.
  assert (Hempty : forall h1,
             bitmaps h1 = bitmaps h ->
             exists t : Dict.t nat,
               inr [] = @inr exn _ t
               /\ regions_sound E texture_dir (List.length (bitmaps h)) t h1
               /\ firstn (List.length (bitmaps h)) (bitmaps h1) = bitmaps h).
  { intros h1 Hsame. destruct (parsing_start h) as (Hs & _ & Hpre).
    exists []. split; [reflexivity |].
    unfold regions_sound in *. rewrite Hsame. split; [exact Hs | exact Hpre]. }
  unfold Improved.load_textures.
  destruct (Improved.validate_file_path E atlas_path "Atlas file")
    as [[|] msg1]; cbn [negb];
    [| apply post_bind, post_modify, post_ret, Hempty; reflexivity].
  destruct (Improved.validate_file_path E texture_dir "texture directory")
    as [[|] msg2]; cbn [negb];
    [| apply post_bind, post_modify, post_ret, Hempty; reflexivity].
  apply post_try, post_bind, post_lift.
  destruct (read_lines E atlas_path) as [e | lines];
    [apply post_bind, post_modify, post_bind, post_modify, post_ret, Hempty;
     reflexivity |].
  apply post_bind.
  destruct (load_lines_parsing h (enumerate 1 lines) _ h (parsing_start h))
    as (st & h1 & Hrun & (Hs & _ & Hpre)).
  eapply post_eq; [exact Hrun |].
  apply post_bind, post_modify, post_ret.
  exists (Improved.textures st). split; [reflexivity |].
  split; [exact Hs | exact Hpre].
Qed.

(** X3.  The table [load_textures] of the improved file returns is
    sound in the scene it leaves: every region is bound to a texture the
    call has made from an existing file of the texture directory, no
    texture is bound to two regions, and the call has made one texture
    for each region and no other.  The call always returns; the textures
    that were in the scene, the nodes, the time line and the selection
    are as they were. *)
Theorem load_textures_table_is_sound (atlas_path : string) (h : host) :
  let out := Improved.load_textures E atlas_path texture_dir h in
  exists t,
    fst out = inr t
    /\ regions_sound E texture_dir (List.length (bitmaps h)) t (snd out)
    /\ firstn (List.length (bitmaps h)) (bitmaps (snd out)) = bitmaps h
    /\ beside_textures (snd out) = beside_textures h.
Proof.
  cbv zeta.
  destruct (load_textures_parsing atlas_path h) as (t & Hr & Hs & Hpre).
  exists t. split; [exact Hr |]. split; [exact Hs |].
  split; [exact Hpre | apply load_textures_beside].
Qed.

(** X4.  When both paths are valid and the atlas can be read, the last
    line [load_textures] of the improved file prints counts the regions
    of the table it returns. *)
Theorem load_textures_reports_table_size
    (atlas_path : string) (lines : list string) (h : host) :
  fst (Improved.validate_file_path E atlas_path "Atlas file") = true ->
  fst (Improved.validate_file_path E texture_dir "texture directory") = true ->
  read_lines E atlas_path = inr lines ->
  let out := Improved.load_textures E atlas_path texture_dir h in
  exists t failed before,
    fst out = inr t
    /\ listener (snd out)
       = (before
          ++ [Entry INFO
                (Msg "texture loading finished: {} loaded, {} failed"
                   [AInt (Z.of_nat (List.length t)); AInt failed])])%list.
Proof.
  intros Hv1 Hv2 Hread. cbv zeta. unfold Improved.load_textures.
  destruct (Improved.validate_file_path E atlas_path "Atlas file")
    as [valid1 msg1].
  destruct (Improved.validate_file_path E texture_dir "texture directory")
    as [valid2 msg2].
  simpl in Hv1, Hv2. subst valid1 valid2. cbn [negb].
  unfold try_catch, bind, lift. rewrite Hread.
  destruct (load_lines_parsing h (enumerate 1 lines) _ h (parsing_start h))
    as (st & h1 & Hrun & (_ & Hcount & _)).
  rewrite Hrun.
  exists (Improved.textures st), (Improved.error_count st), (listener h1).
  split; [reflexivity |]. cbn. rewrite Hcount. reflexivity.
Qed.

End RegionTable.

Lemma load_textures_reports_table_size_witness :
  exists t failed before,
    fst (Improved.load_textures (Sample.studio Sample.atlas (JDict []))
           "a.atlas" "textures" Demo.scene0) = inr t
    /\ listener
         (snd (Improved.load_textures (Sample.studio Sample.atlas (JDict []))
                 "a.atlas" "textures" Demo.scene0))
       = (before
          ++ [Entry INFO
                (Msg "texture loading finished: {} loaded, {} failed"
                   [AInt (Z.of_nat (List.length t)); AInt failed])])%list.
Proof.
  apply (load_textures_reports_table_size
           (Sample.studio Sample.atlas (JDict [])) "textures" "a.atlas"
           Sample.atlas Demo.scene0);
    reflexivity.
Defined.

(* ===================================================================== *)
(** * A region and its rotation *)
(* ===================================================================== *)

Lemma split_acc_nonempty sep s cur : PyStr.split_acc sep s cur <> [].
Proof.
  revert cur. induction s as [| c s IH]; intros cur; simpl; [discriminate |].
  destruct (Ascii.eqb c sep); [discriminate | apply IH].
Qed.

(** A line that starts with [rotate:] has a field after the colon, so
    [line.split(':')[1]] does not raise. *)
Lemma rotate_line_has_field line :
  PyStr.startswith "rotate:" line = true ->
  nth_error (PyStr.split colon line) 1
  = Some (nth 1 (PyStr.split colon line) "").
Proof.
  intros H.
  do 7 (destruct line as [| ? line]; [discriminate |];
        cbn [PyStr.startswith] in H; apply andb_true_iff in H; destruct H as [Hc H];
        apply Ascii.eqb_eq in Hc; subst).
  unfold PyStr.split. cbn -[PyStr.split_acc nth nth_error].
  change (PyStr.split_acc colon (String "r" (String "o" (String "t"
            (String "a" (String "t" (String "e" (String ":" line)))))))
            "")
    with ("rotate" :: PyStr.split_acc colon line "").
  pose proof (split_acc_nonempty colon line "") as Hne.
  destruct (PyStr.split_acc colon line "") as [| f r]; [congruence |].
  reflexivity.
Qed.

Section RegionRotation.

Variable E : platform.
Variable texture_dir : string.

(** X5.  A line that declares a new region, followed by a [rotate:]
    line: the two rounds of the loop make one texture for the region,
    from the file of that name in the texture directory, and its
    rotation is what [float] makes of the text after the colon; when
    that text is no float the texture has no rotation.  Neither round
    counts an error. *)
Theorem region_then_rotate
    (raw1 raw2 : string) (n : Z) (st : Improved.tex_state) (h : host) :
  let line1 := PyStr.strip raw1 in
  let line2 := PyStr.strip raw2 in
  let name := hd "" (PyStr.split dot line1) in
  let path := path_join E texture_dir line1 in
  let field := nth 1 (PyStr.split colon line2) "" in
  PyStr.endswith ".png" line1 = true ->
  path_exists E path = true ->
  PyStr.nonempty name = true ->
  Dict.mem (Improved.textures st) name = false ->
  PyStr.endswith ".png" line2 = false ->
  PyStr.startswith "rotate:" line2 = true ->
  let out := for_each (Improved.load_line E texture_dir)
               (enumerate n [raw1; raw2]) st h in
  fst out
  = inr (Improved.TexState
           (Dict.set (Improved.textures st) name (List.length (bitmaps h)))
           (Some name) (Improved.loaded_count st + 1)
           (Improved.error_count st))
  /\ bitmaps (snd out)
     = (bitmaps h ++ [Bitmap path (parse_float E field)])%list
  /\ Forall (fun e => e_level e <> ERROR)
       (skipn (List.length (listener h)) (listener (snd out))).
Proof.
  intros line1 line2 name path field Hpng Hex Hname Hmem Hpng2 Hrot.
  cbv zeta.
  assert (Hrun : exists l,
             for_each (Improved.load_line E texture_dir)
               (enumerate n [raw1; raw2]) st h
             = (inr (Improved.TexState
                       (Dict.set (Improved.textures st) name
                          (List.length (bitmaps h)))
                       (Some name) (Improved.loaded_count st + 1)
                       (Improved.error_count st)),
                Scene.with_listener
                  (Scene.with_bitmaps h
                     (bitmaps h ++ [Bitmap path (parse_float E field)]))
                  (listener h ++ l))
             /\ Forall (fun e => e_level e <> ERROR) l).
  { cbn [enumerate]. rewrite for_each_cons.
    assert (Hne1 : PyStr.nonempty line1 = true)
      by (apply (endswith_nonempty _ _ _ Hpng)).
    assert (Hne2 : PyStr.nonempty line2 = true)
      by (apply (startswith_nonempty _ _ _ Hrot)).
    unfold Improved.load_line at 1. fold line1.
    rewrite Hne1, Hpng. fold path. rewrite Hex. fold name. rewrite Hmem.
    cbn [negb].
    unfold try_catch at 1, bind at 1 2, Rt.BitmapTexture,
      Improved.debug_print at 1, Rt.print at 1, modify at 1, ret at 1.
    cbv beta iota.
    rewrite for_each_cons.
    unfold Improved.load_line. fold line2.
    rewrite Hne2, Hpng2, Hrot.
    cbn [negb Improved.current_texture Improved.textures truthy_name andb].
    rewrite Hname.
    rewrite (rotate_line_has_field line2 Hrot). fold field.
    rewrite Dict_get_set_same.
    unfold try_ValueError, try_catch, bind, lift, Py.to_float,
      Improved.debug_print, Rt.print, Rt.update_bitmap, modify, ret, raise,
      for_each.
    destruct (parse_float E field) as [v |];
      cbn [fst snd is_ValueError bitmaps listener Scene.with_bitmaps
           Scene.with_listener Improved.textures Improved.current_texture
           Improved.loaded_count Improved.error_count];
      rewrite ?update_app_last; rewrite <- app_assoc;
      eexists; (split; [reflexivity |]);
      repeat constructor; discriminate. }
  destruct Hrun as (l & -> & Hl).
  cbn [fst snd bitmaps listener Scene.with_bitmaps Scene.with_listener].
  split; [reflexivity |]. split; [reflexivity |].
  rewrite skipn_app, skipn_all, Nat.sub_diag. exact Hl.
Qed.

End RegionRotation.

Lemma region_then_rotate_witness :
  bitmaps
    (snd (for_each
            (Improved.load_line (Sample.studio Sample.atlas (JDict []))
               "textures")
            (enumerate 1 Sample.atlas)
            (Improved.TexState [] None 0 0) Demo.scene0))
  = [Bitmap "textures/a.png" (Some Demo.ninety)].
Proof.
  refine (proj1 (proj2 (region_then_rotate
                          (Sample.studio Sample.atlas (JDict [])) "textures"
                          "a.png" "rotate: 90" 1
                          (Improved.TexState [] None 0 0) Demo.scene0
                          _ _ _ _ _ _)));
    reflexivity.
Defined.

(* ===================================================================== *)
(** * The bone map *)
(* ===================================================================== *)

Lemma firstn_prefix_length {A} (l l0 : list A) n :
  firstn n l = l0 -> List.length l0 = n -> (n <= List.length l)%nat.
Proof. intros <- H. rewrite length_firstn in H. lia. Qed.

Section NamedBones.

Context {S : Type} (map_of : S -> Dict.t nat).
Variable nodes0 : list node.

Lemma naming_create st h r h' :
  naming nodes0 (map_of st) h ->
  creates_named map_of h st r h' ->
  firstn (List.length nodes0) (nodes h') = nodes0
  /\ match r with
     | inr st' => naming nodes0 (map_of st') h'
     | inl _ => True
     end.
Proof.
  intros [Hnamed Hpre] (extra & Hnodes & Hr).
  pose proof (firstn_prefix_length _ _ _ Hpre eq_refl) as Hle.
  assert (Hpre' : firstn (List.length nodes0) (nodes h') = nodes0)
    by (rewrite Hnodes, firstn_app_le by exact Hle; exact Hpre).
  split; [exact Hpre' |].
  destruct r as [e | st']; [exact I |].
  split; [| exact Hpre'].
  assert (Hold : forall name i,
             Dict.get (map_of st) name = Some i ->
             (List.length nodes0 <= i)%nat
             /\ exists n, nth_error (nodes h') i = Some n
                          /\ n_kind n = BoneNode /\ n_name n = name).
  { intros name i Hk. destruct (Hnamed name i Hk) as (Hge & n & Hi & Hn).
    split; [exact Hge |]. exists n. split; [| exact Hn].
    rewrite Hnodes, nth_error_app1; [exact Hi |].
    apply nth_error_Some. congruence. }
  destruct Hr as [Hmap | (n & Hmap & Hextra & Hkind)]; rewrite Hmap.
  - exact Hold.
  - intros name i Hk.
    destruct (String.eqb_spec name (n_name n)) as [-> | Hne].
    + rewrite Dict_get_set_same in Hk. inversion Hk. subst i extra.
      split; [exact Hle |]. exists n.
      rewrite Hnodes, nth_error_app2, Nat.sub_diag by lia.
      repeat split. exact Hkind.
    + rewrite Dict_get_set_other in Hk by exact Hne. apply Hold. exact Hk.
Qed.

Lemma naming_link {A} D bone_map bone h (r : exn + A) h' :
  naming nodes0 bone_map h ->
  links_declared D bone_map bone h r h' ->
  naming nodes0 bone_map h'.
Proof.
  intros [Hnamed Hpre] (_ & [Hsame | Hlink]).
  - split; [| rewrite Hsame; exact Hpre].
    intros name i Hk. rewrite Hsame. apply (Hnamed name i Hk).
  - destruct Hlink as (child & parent & cname & pname & Hc & _ & _ & Hnodes).
    split.
    + intros name i Hk. destruct (Hnamed name i Hk) as (Hge & n & Hi & Hn).
      split; [exact Hge |]. rewrite Hnodes.
      destruct (Nat.eq_dec child i) as [-> | Hne].
      * exists (Scene.set_parent parent n).
        split; [apply update_nth_error; exact Hi | exact Hn].
      * exists n. rewrite update_nth_error_other by exact Hne.
        split; [exact Hi | exact Hn].
    + rewrite Hnodes, firstn_update_ge; [exact Hpre |].
      apply (proj1 (Hnamed cname child Hc)).
Qed.

Lemma pass1_names (step : json -> S -> M S) :
  (forall bone st h, post (step bone st) h (creates_named map_of h st)) ->
  forall bones st h,
    naming nodes0 (map_of st) h ->
    post (for_each step bones st) h
      (fun r h' =>
         match r with
         | inr st' => naming nodes0 (map_of st') h'
         | inl _ => firstn (List.length nodes0) (nodes h') = nodes0
         end).
Proof.
  intros Hstep bones.
  apply (post_for_each step (fun st h => naming nodes0 (map_of st) h)
           (fun h' => firstn (List.length nodes0) (nodes h') = nodes0)).
  intros bone st h _ Hn.
  eapply post_weaken; [apply Hstep |].
  intros r h' Hr. destruct (naming_create st h r h' Hn Hr) as [Hpre Hres].
  destruct r; [exact Hpre | exact Hres].
Qed.

Lemma pass2_names D (link : json -> Z -> M Z) bone_map :
  (forall bone k h,
     post (link bone k) h (links_declared D bone_map bone h)) ->
  forall bones k h,
    naming nodes0 bone_map h ->
    post (for_each link bones k) h
      (fun r h' => (exists k', r = inr k') /\ naming nodes0 bone_map h').
Proof.
  intros Hstep. induction bones as [| b bones IH]; intros k h Hn.
  - split; [exists k; reflexivity | exact Hn].
  - simpl. apply post_bind.
    eapply post_weaken; [apply Hstep |].
    intros r h' Hl.
    pose proof (naming_link D bone_map b h r h' Hn Hl) as Hn'.
    destruct Hl as ((k' & ->) & _).
    apply IH. exact Hn'.
Qed.

End NamedBones.

Section NamedBonesOfBothFiles.

Variable E : platform.

Ltac named_leaf :=
  unfold creates_named; scene_simpl;
  first
    [ exists (@nil node); rewrite app_nil_r;
      split; [reflexivity |]; first [ exact I | left; reflexivity ]
    | eexists [_]; split; [reflexivity |];
      first [ exact I
            | left; reflexivity
            | right; eexists;
              (split; [| split; reflexivity]); reflexivity ] ].

Lemma improved_create_bone_named scale bone st h :
  post (Improved.create_bone E scale bone st) h
    (creates_named Improved.bone_map h st).
Proof.
  unfold Improved.create_bone, Rt.createBone.
  wp_all; named_leaf.
Qed.

Lemma original_create_bone_named scale bone bone_map h :
  post (Original.create_bone E scale bone bone_map) h
    (creates_named (fun m : Dict.t nat => m) h bone_map).
Proof.
  unfold Original.create_bone, Rt.createBone.
  wp_all; named_leaf.
Qed.

Lemma naming_empty h : naming (nodes h) [] h.
Proof.
  split; [intros name i H; discriminate | apply firstn_all].
Qed.

Lemma naming_listener nodes0 bone_map h l :
  naming nodes0 bone_map h -> naming nodes0 bone_map (Scene.with_listener h l).
Proof. exact (fun H => H). Qed.

Lemma named_result_empty h h' :
  nodes h' = nodes h -> named_result h (inr []) h'.
Proof.
  intros Hsame. exists []. split; [reflexivity |].
  rewrite Hsame. split; [intros name i H; discriminate | apply firstn_all].
Qed.

Lemma named_result_prefix h h' :
  firstn (List.length (nodes h)) (nodes h') = nodes h ->
  named_result h (inr []) h'.
Proof.
  intros Hpre. exists []. split; [reflexivity |].
  split; [intros name i H; discriminate | exact Hpre].
Qed.

Lemma improved_create_bones_named data scale h :
  post (Improved.create_bones E data scale) h (named_result h).
Proof.
  unfold Improved.create_bones.
  apply post_try, post_bind, post_lift.
  destruct (Py.get data "bones" (JList [])) as [e | bones_data];
    [apply post_bind, post_modify, post_bind, post_modify, post_ret,
       named_result_empty; reflexivity |].
  destruct (negb (Py.truthy bones_data));
    [apply post_bind, post_modify, post_ret, named_result_empty;
     reflexivity |].
  apply post_bind, post_lift.
  destruct (Py.len bones_data) as [e | n];
    [apply post_bind, post_modify, post_bind, post_modify, post_ret,
       named_result_empty; reflexivity |].
  apply post_bind, post_modify, post_bind, post_lift.
  destruct (Py.iter bones_data) as [e | bones];
    [apply post_bind, post_modify, post_bind, post_modify, post_ret,
       named_result_empty; reflexivity |].
  apply post_bind.
  eapply post_weaken;
    [apply (pass1_names Improved.bone_map (nodes h)
              (Improved.create_bone E scale)
              (improved_create_bone_named scale));
     apply (naming_empty (Scene.with_listener h _)) |].
  intros [e | st] h1 H1;
    [apply post_bind, post_modify, post_bind, post_modify, post_ret,
       named_result_prefix; exact H1 |].
  apply post_bind.
  eapply post_weaken;
    [apply (pass2_names (nodes h) (declares_by E)
              (Improved.link_bone E (Improved.bone_map st))
              (Improved.bone_map st)
              (improved_link_bone_declared E (Improved.bone_map st))
              bones 0 h1 H1) |].
  intros r h2 [[k ->] [Hnamed Hpre]].
  apply post_bind, post_modify, post_ret.
  exists (Improved.bone_map st). split; [reflexivity |].
  split; [exact Hnamed | exact Hpre].
Qed.

Lemma original_create_bones_named data scale h :
  post (Original.create_bones E data scale) h (named_result h).
Proof.
  unfold Original.create_bones.
  apply post_try, post_bind, post_modify, post_bind, post_lift.
  destruct (Py.get data "bones" (JList [])) as [e | bones_data];
    [apply post_bind, post_modify, post_ret, named_result_empty;
     reflexivity |].
  apply post_bind, post_lift.
  destruct (Py.iter bones_data) as [e | bones] eqn:Hiter;
    [apply post_bind, post_modify, post_ret, named_result_empty;
     reflexivity |].
  apply post_bind.
  eapply post_weaken;
    [apply (pass1_names (fun m : Dict.t nat => m) (nodes h)
              (Original.create_bone E scale)
              (original_create_bone_named scale));
     apply (naming_empty (Scene.with_listener h _)) |].
  intros [e | bone_map] h1 H1;
    [apply post_bind, post_modify, post_ret, named_result_prefix;
     exact H1 |].
  apply post_bind, post_lift. cbv beta iota.
  apply post_bind, post_lift. rewrite Hiter. cbv beta iota.
  apply post_bind.
  eapply post_weaken;
    [apply (pass2_names (nodes h) undeclared
              (Original.link_bone E bone_map) bone_map
              (original_link_bone_declared E bone_map) bones 0 h1 H1) |].
  intros r h2 [[k ->] [Hnamed Hpre]].
  apply post_bind, post_modify, post_ret.
  exists bone_map. split; [reflexivity |].
  split; [exact Hnamed | exact Hpre].
Qed.

Lemma improved_create_bones_beside data scale :
  keeps beside_nodes (Improved.create_bones E data scale).
Proof.
  unfold Improved.create_bones, Improved.debug_print.
  keeps_struct;
    try (intros; intro h0; reflexivity);
    unfold Improved.create_bone, Improved.link_bone, Improved.debug_print,
      Rt.createBone;
    keeps_struct; intros; intro h0; reflexivity.
Qed.

Lemma original_create_bones_beside data scale :
  keeps beside_nodes (Original.create_bones E data scale).
Proof.
  unfold Original.create_bones, Original.debug_print.
  keeps_struct;
    try (intros; intro h0; reflexivity);
    unfold Original.create_bone, Original.link_bone, Original.debug_print,
      Rt.createBone;
    keeps_struct; intros; intro h0; reflexivity.
Qed.

(** X6.  The map [create_bones] returns, in both files, names bones:
    every name is bound to a bone the call has made, and that bone
    carries the name.  The call always returns, and the nodes that were
    in the scene, the textures, the time line and the selection are as
    they were. *)
Theorem create_bones_binds_names_to_bones
    (data : json) (scale : Float64.float) (h : host) :
  (let out := Improved.create_bones E data scale h in
   exists bone_map,
     fst out = inr bone_map
     /\ bones_named (List.length (nodes h)) bone_map (snd out)
     /\ firstn (List.length (nodes h)) (nodes (snd out)) = nodes h
     /\ beside_nodes (snd out) = beside_nodes h)
  /\ (let out := Original.create_bones E data scale h in
      exists bone_map,
        fst out = inr bone_map
        /\ bones_named (List.length (nodes h)) bone_map (snd out)
        /\ firstn (List.length (nodes h)) (nodes (snd out)) = nodes h
        /\ beside_nodes (snd out) = beside_nodes h).
Proof.
  cbv zeta. split.
  - destruct (improved_create_bones_named data scale h)
      as (bone_map & Hr & Hnamed & Hpre).
    exists bone_map. split; [exact Hr |]. split; [exact Hnamed |].
    split; [exact Hpre | apply improved_create_bones_beside].
  - destruct (original_create_bones_named data scale h)
      as (bone_map & Hr & Hnamed & Hpre).
    exists bone_map. split; [exact Hr |]. split; [exact Hnamed |].
    split; [exact Hpre | apply original_create_bones_beside].
Qed.

End NamedBonesOfBothFiles.

(* ===================================================================== *)
(** * The planes of the mesh builder *)
(* ===================================================================== *)

Lemma post_get_pos i h (Q : exn + point3 -> host -> Prop) :
  (forall n, nth_error (nodes h) i = Some n -> Q (inr (n_pos n)) h) ->
  (nth_error (nodes h) i = None -> Q (inl AttributeError) h) ->
  post (Rt.get_pos i) h Q.
Proof.
  intros Hsome Hnone. unfold post, Rt.get_pos.
  destruct (nth_error (nodes h) i) as [n |]; simpl; auto.
Qed.

Lemma post_set_pos i p h (Q : exn + unit -> host -> Prop) :
  Q (inr tt)
    (Scene.with_nodes h
       (Scene.update (nodes h) i (Scene.set_pos (sliderTime h) p))) ->
  post (Rt.set_pos i p) h Q.
Proof. exact (fun H => H). Qed.

Section Meshes.

Variable E : platform.
Variables bone_map textures : Dict.t nat.

Ltac mesh_returns :=
  first
    [ intros _; eexists; reflexivity
    | intros [kv ->];
      match goal with
      | H : Py.get (JDict _) _ _ = inl _ |- _ =>
          cbn [Py.get] in H; discriminate H
      end ].

Ltac mesh_facts :=
  unfold mesh_of; split; [reflexivity |];
  split;
    [ eexists; split; [| reflexivity];
      first [ exact I
            | match goal with
              | H : negb (PyStr.nonempty ?x) = false |- _ =>
                  apply negb_false_iff in H; exact H
              end ] |];
  split;
    [ match goal with
      | Hx : Dict.get bone_map ?bn = Some ?b |- _ =>
          exists bn, b; split; [exact Hx |]; split; [reflexivity |]
      end;
      let b := fresh "b" in
      let Hb := fresh "Hb" in
      intros b Hb;
      match goal with
      | H : nth_error (nodes (Scene.with_nodes _ _)) _ = _ |- _ =>
          cbn [nodes Scene.with_nodes] in H;
          rewrite nth_error_app1 in H
            by (apply nth_error_Some; congruence);
          cbn; congruence
      end
    | cbn;
      first [ exact I
            | match goal with
              | Hx : Dict.get textures ?t = Some _ |- _ =>
                  exists t; split; [exact Hx | reflexivity]
              end ] ].

Ltac mesh_leaf :=
  unfold adds_mesh; scene_simpl;
  first
    [ exists (@nil node); rewrite app_nil_r;
      split; [reflexivity |]; split; [simpl; lia |];
      split; [constructor |]
    | eexists [_]; split; [reflexivity |]; split; [simpl; lia |];
      split; [constructor; [mesh_facts | constructor] |] ];
  mesh_returns.

Lemma improved_create_mesh_adds slot st h :
  post (Improved.create_mesh E bone_map textures slot st) h
    (adds_mesh nonempty_name bone_map textures slot h).
Proof.
  destruct st as [mesh_count error_count].
  unfold Improved.create_mesh, Rt.Plane.
  repeat (cbv beta iota; scene_simpl;
          first [ apply post_add_node
                | apply post_set_pos
                | apply post_get_pos; intros
                | wp ]).
  all: mesh_leaf.
Qed.

Lemma original_create_mesh_adds slot mesh_count h :
  post (Original.create_mesh E bone_map textures slot mesh_count) h
    (adds_mesh any_name bone_map textures slot h).
Proof.
  unfold Original.create_mesh, Rt.Plane.
  repeat (cbv beta iota; scene_simpl;
          first [ apply post_add_node
                | apply post_set_pos
                | apply post_get_pos; intros
                | wp ]).
  all: mesh_leaf.
Qed.

Lemma mesh_of_older named l extra n :
  mesh_of named bone_map textures (l ++ extra) n ->
  mesh_of named bone_map textures l n.
Proof.
  intros (Hk & Hname & (bn & b & Hget & Hpar & Hpos) & Hmat).
  split; [exact Hk |]. split; [exact Hname |]. split; [| exact Hmat].
  exists bn, b. split; [exact Hget |]. split; [exact Hpar |].
  intros b0 Hb0. apply Hpos.
  rewrite nth_error_app1; [exact Hb0 |].
  apply nth_error_Some. congruence.
Qed.

(** The loop over the slots, for a body that adds a mesh at most. *)
Lemma meshes_loop {S} named (body : json -> S -> M S) :
  (forall slot st h,
     post (body slot st) h (adds_mesh named bone_map textures slot h)) ->
  forall slots st h,
    post (for_each body slots st) h
      (adds_meshes named bone_map textures (List.length slots)
         (Forall is_object slots) h).
Proof.
  intros Hbody.
  induction slots as [| slot slots IH]; intros st h.
  - exists []. rewrite app_nil_r.
    split; [reflexivity |]. split; [simpl; lia |]. split; [constructor |].
    intros _. exists st. reflexivity.
  - simpl. apply post_bind.
    eapply post_weaken; [apply Hbody |].
    intros r h1 (e1 & Hn1 & Hl1 & Hm1 & Hret1).
    destruct r as [e | st1].
    + exists e1. split; [exact Hn1 |]. split; [lia |]. split; [exact Hm1 |].
      intros Hall. inversion Hall as [| ? ? Hobj _]. subst.
      destruct (Hret1 Hobj) as [st' Hst']. discriminate.
    + eapply post_weaken; [apply IH |].
      intros r h2 (e2 & Hn2 & Hl2 & Hm2 & Hret2).
      exists (e1 ++ e2)%list.
      split; [rewrite Hn2, Hn1, app_assoc; reflexivity |].
      split; [rewrite length_app; lia |].
      split.
      * apply Forall_app. split; [exact Hm1 |].
        rewrite Hn1 in Hm2.
        apply (Forall_impl _ (fun n => mesh_of_older named _ e1 n) Hm2).
      * intros Hall. inversion Hall. subst. auto.
Qed.

Ltac mesh_frame_leaf :=
  intros;
  let h0 := fresh "h" in
  intro h0;
  first [ reflexivity
        | unfold Rt.get_pos;
          match goal with
          | |- context [nth_error (nodes h0) ?n] =>
              destruct (nth_error (nodes h0) n); reflexivity
          end ].

Lemma improved_create_meshes_beside data :
  keeps beside_nodes (Improved.create_meshes E data bone_map textures).
Proof.
  unfold Improved.create_meshes, Improved.debug_print.
  keeps_struct; try mesh_frame_leaf.
  destruct s as [mesh_count error_count].
  unfold Improved.create_mesh, Improved.debug_print, Rt.Plane.
  keeps_struct; mesh_frame_leaf.
Qed.

Lemma original_create_meshes_beside data :
  keeps beside_nodes (Original.create_meshes E data bone_map textures).
Proof.
  unfold Original.create_meshes, Original.debug_print.
  keeps_struct; try mesh_frame_leaf.
  unfold Original.create_mesh, Original.debug_print, Rt.Plane.
  keeps_struct; mesh_frame_leaf.
Qed.

Lemma no_mesh named (k : nat) (h h1 : host) :
  nodes h1 = nodes h ->
  exists extra,
    nodes h1 = (nodes h ++ extra)%list
    /\ (List.length extra <= k)%nat
    /\ Forall (mesh_of named bone_map textures (nodes h)) extra.
Proof.
  intros Hsame. exists []. rewrite app_nil_r.
  split; [exact Hsame |]. split; [simpl; lia | constructor].
Qed.

Lemma improved_create_meshes_nodes (data : json) (h : host) :
  post (Improved.create_meshes E data bone_map textures) h
    (fun _ h' =>
       exists extra,
         nodes h' = (nodes h ++ extra)%list
         /\ (List.length extra <= List.length (slots_of data))%nat
         /\ Forall (mesh_of nonempty_name bone_map textures (nodes h)) extra).
Proof.
  unfold Improved.create_meshes, slots_of.
  apply post_bind, post_lift.
  destruct (Py.get data "slots" (JList [])) as [e | slots_data];
    [apply no_mesh; reflexivity |].
  destruct (negb (Py.truthy slots_data));
    [apply post_modify, no_mesh; reflexivity |].
  apply post_bind, post_lift.
  destruct (Py.len slots_data) as [e | k];
    [apply no_mesh; reflexivity |].
  apply post_bind, post_modify, post_bind, post_lift.
  destruct (Py.iter slots_data) as [e | slots];
    [apply no_mesh; reflexivity |].
  apply post_bind.
  eapply post_weaken;
    [apply (meshes_loop nonempty_name _ improved_create_mesh_adds) |].
  intros r h1 (extra & Hn & Hl & Hm & _).
  cbn [nodes Scene.with_listener] in Hn, Hm.
  destruct r as [e | st];
    [| apply post_modify];
    exists extra; (split; [exact Hn |]); split; assumption.
Qed.

Lemma original_create_meshes_nodes (data : json) (h : host) :
  post (Original.create_meshes E data bone_map textures) h
    (fun _ h' =>
       exists extra,
         nodes h' = (nodes h ++ extra)%list
         /\ (List.length extra <= List.length (slots_of data))%nat
         /\ Forall (mesh_of any_name bone_map textures (nodes h)) extra).
Proof.
  unfold Original.create_meshes, slots_of.
  apply post_bind, post_modify, post_bind, post_lift.
  destruct (Py.get data "slots" (JList [])) as [e | slots_data];
    [apply no_mesh; reflexivity |].
  apply post_bind, post_lift.
  destruct (Py.iter slots_data) as [e | slots];
    [apply no_mesh; reflexivity |].
  apply post_bind.
  eapply post_weaken;
    [apply (meshes_loop any_name _ original_create_mesh_adds) |].
  intros r h1 (extra & Hn & Hl & Hm & _).
  cbn [nodes Scene.with_listener] in Hn, Hm.
  destruct r as [e | st];
    [| apply post_modify];
    exists extra; (split; [exact Hn |]); split; assumption.
Qed.

Lemma improved_create_meshes_returns
    (data : json) (slots : list json) (h : host) :
  Py.get data "slots" (JList []) = inr (JList slots) ->
  Forall is_object slots ->
  fst (Improved.create_meshes E data bone_map textures h) = inr tt.
Proof.
  intros Hget Hall.
  unfold Improved.create_meshes, bind at 1, lift at 1. rewrite Hget.
  destruct slots as [| s slots]; [reflexivity |].
  cbn [Py.truthy negb Py.len Py.iter].
  unfold bind at 1, lift at 1. unfold bind at 1.
  unfold Improved.debug_print at 1, Rt.print at 1, modify at 1.
  unfold bind at 1, lift at 1. unfold bind at 1.
  match goal with
  | |- context [for_each ?b ?l ?s ?h1] =>
      destruct (meshes_loop nonempty_name _ improved_create_mesh_adds l s h1)
        as (_ & _ & _ & _ & Hret);
      destruct (Hret Hall) as [st' Hst'];
      unfold post in Hst';
      destruct (for_each b l s h1) as [r h2]
  end.
  simpl in Hst'. subst r. reflexivity.
Qed.

Lemma original_create_meshes_returns
    (data : json) (slots : list json) (h : host) :
  Py.get data "slots" (JList []) = inr (JList slots) ->
  Forall is_object slots ->
  fst (Original.create_meshes E data bone_map textures h) = inr tt.
Proof.
  intros Hget Hall.
  unfold Original.create_meshes, bind at 1, Original.debug_print at 1,
    Rt.print at 1, modify at 1.
  unfold bind at 1, lift at 1. rewrite Hget.
  cbn [Py.iter]. unfold bind at 1, lift at 1. unfold bind at 1.
  match goal with
  | |- context [for_each ?b ?l ?s ?h1] =>
      destruct (meshes_loop any_name _ original_create_mesh_adds l s h1)
        as (_ & _ & _ & _ & Hret);
      destruct (Hret Hall) as [st' Hst'];
      unfold post in Hst';
      destruct (for_each b l s h1) as [r h2]
  end.
  simpl in Hst'. subst r. reflexivity.
Qed.

(** X7.  Whatever the document, [create_meshes], in both files, only
    appends to the nodes of the scene, at most one node for each slot.
    Every node it appends is a plane named [Mesh_] and the name of a
    slot (not empty, in the improved file); its parent is a bone of the
    bone map, and it sits where that bone is if the bone is a node of
    the scene; its material, if any, shows a texture of the region
    table and is named [Mat_] and the region.  The textures, the time
    line and the selection are as they were. *)
Theorem create_meshes_adds_planes_under_bones (data : json) (h : host) :
  (let out := Improved.create_meshes E data bone_map textures h in
   exists extra,
     nodes (snd out) = (nodes h ++ extra)%list
     /\ (List.length extra <= List.length (slots_of data))%nat
     /\ Forall (mesh_of nonempty_name bone_map textures (nodes h)) extra
     /\ beside_nodes (snd out) = beside_nodes h)
  /\ (let out := Original.create_meshes E data bone_map textures h in
      exists extra,
        nodes (snd out) = (nodes h ++ extra)%list
        /\ (List.length extra <= List.length (slots_of data))%nat
        /\ Forall (mesh_of any_name bone_map textures (nodes h)) extra
        /\ beside_nodes (snd out) = beside_nodes h).
Proof.
  cbv zeta. split.
  - destruct (improved_create_meshes_nodes data h) as (extra & Hn & Hl & Hm).
    exists extra. split; [exact Hn |]. split; [exact Hl |].
    split; [exact Hm | apply improved_create_meshes_beside].
  - destruct (original_create_meshes_nodes data h) as (extra & Hn & Hl & Hm).
    exists extra. split; [exact Hn |]. split; [exact Hl |].
    split; [exact Hm | apply original_create_meshes_beside].
Qed.

(** X8.  [create_meshes] has, in both files, no handler of its own
    around the loop: it returns when the slots of the document are a
    list of objects (or are missing), whatever the objects hold, and it
    raises [AttributeError] when the document is not an object; the
    improved file has then changed nothing. *)
Theorem create_meshes_returns_on_objects
    (data : json) (slots : list json) (h : host) :
  Py.get data "slots" (JList []) = inr (JList slots) ->
  Forall is_object slots ->
  fst (Improved.create_meshes E data bone_map textures h) = inr tt
  /\ fst (Original.create_meshes E data bone_map textures h) = inr tt
  /\ forall other h0,
       ~ is_object other ->
       Improved.create_meshes E other bone_map textures h0
       = (inl AttributeError, h0)
       /\ fst (Original.create_meshes E other bone_map textures h0)
          = inl AttributeError.
Proof.
  intros Hget Hall. split; [| split].
  - apply (improved_create_meshes_returns data slots h Hget Hall).
  - apply (original_create_meshes_returns data slots h Hget Hall).
  - intros other h0 Hno.
    destruct other; try (split; reflexivity).
    exfalso. apply Hno. eexists. reflexivity.
Qed.

End Meshes.

Lemma create_meshes_returns_on_objects_witness :
  fst (Improved.create_meshes Demo.platform0 (JDict Sample.still)
         [("arm", 0%nat)] [] Demo.one_bone_scene) = inr tt.
Proof.
  refine (proj1 (create_meshes_returns_on_objects Demo.platform0
                   [("arm", 0%nat)] [] (JDict Sample.still) [Sample.slot]
                   Demo.one_bone_scene _ _)).
  - reflexivity.
  - constructor; [eexists; reflexivity | constructor].
Defined.

(* ===================================================================== *)
(** * The baker and the skeleton *)
(* ===================================================================== *)

Lemma map_update_same {A B} (f : A -> B) (g : A -> A) (l : list A) i :
  (forall x, f (g x) = f x) -> map f (Scene.update l i g) = map f l.
Proof.
  intros Hfg. revert i.
  induction l as [| x l IH]; intros [| i]; simpl; try reflexivity.
  - rewrite Hfg. reflexivity.
  - rewrite IH. reflexivity.
Qed.

Section BakerFrame.

Variable E : platform.

Lemma set_pos_beside i p : keeps beside_animation (Rt.set_pos i p).
Proof.
  intros h. unfold beside_animation, Rt.set_pos, Rt.update_node, modify.
  cbn [snd bitmaps selection nodes Scene.with_nodes].
  rewrite map_update_same; [reflexivity | intros x; reflexivity].
Qed.

Lemma set_rotation_beside i a : keeps beside_animation (Rt.set_rotation i a).
Proof.
  intros h. unfold beside_animation, Rt.set_rotation, Rt.update_node, modify.
  cbn [snd bitmaps selection nodes Scene.with_nodes].
  rewrite map_update_same; [reflexivity | intros x; reflexivity].
Qed.

Ltac beside_leaf :=
  intros;
  first [ apply set_pos_beside
        | apply set_rotation_beside
        | intro h0; reflexivity ].

Lemma bake_clip_beside bone_map item n :
  keeps beside_animation (Improved.bake_clip E bone_map item n).
Proof.
  unfold Improved.bake_clip, Improved.debug_print.
  keeps_struct; try beside_leaf.
  destruct x as [bone_name bone_anim].
  unfold Improved.bake_bone, Improved.debug_print.
  keeps_struct; try beside_leaf;
    unfold Improved.bake_translate, Improved.bake_rotate,
      Improved.debug_print;
    keeps_struct; beside_leaf.
Qed.

Lemma find_animations_beside data keys a :
  keeps beside_animation (Improved.find_animations data keys a).
Proof.
  revert a. induction keys as [| key keys IH]; intros a; simpl.
  - apply keeps_ret.
  - unfold Improved.debug_print. keeps_struct; try beside_leaf; apply IH.
Qed.

Lemma import_animation_beside (data : json) (bone_map : Dict.t nat) :
  keeps beside_animation (Improved.import_animation E data bone_map).
Proof.
  unfold Improved.import_animation, Improved.locate_animations,
    Improved.debug_print.
  keeps_struct;
    first [ intros; apply bake_clip_beside
          | intros; apply find_animations_beside
          | beside_leaf
          | idtac ].
  all: unfold Improved.scan_clip; keeps_struct; try beside_leaf.
  all: unfold Improved.scan_bone; keeps_struct; try beside_leaf.
  all: unfold Improved.scan_channel; keeps_struct; try beside_leaf.
  all: unfold Improved.scan_frame; keeps_struct; beside_leaf.
Qed.

Lemma Dict_get_In_values {V} (d : Dict.t V) k v :
  Dict.get d k = Some v -> In v (Dict.values d).
Proof.
  intros H. apply Dict_get_In in H.
  apply (in_map snd) in H. exact H.
Qed.

(** A node that is not a bone of the bone map is out of the baker's
    reach. *)
Section OtherNodes.

Variable bone_map : Dict.t nat.
Variable i : nat.
Hypothesis Hother : ~ In i (Dict.values bone_map).

Lemma set_pos_other bone p : bone <> i -> keeps (fun h => nth_error (nodes h) i) (Rt.set_pos bone p).
Proof.
  intros Hne h. unfold Rt.set_pos, Rt.update_node, modify.
  cbn [snd nodes Scene.with_nodes].
  apply update_nth_error_other. exact Hne.
Qed.

Lemma set_rotation_other bone a :
  bone <> i -> keeps (fun h => nth_error (nodes h) i) (Rt.set_rotation bone a).
Proof.
  intros Hne h. unfold Rt.set_rotation, Rt.update_node, modify.
  cbn [snd nodes Scene.with_nodes].
  apply update_nth_error_other. exact Hne.
Qed.

Lemma bake_clip_other item n :
  keeps (fun h => nth_error (nodes h) i) (Improved.bake_clip E bone_map item n).
Proof.
  unfold Improved.bake_clip, Improved.debug_print.
  keeps_struct; try (intros; intro h0; reflexivity).
  destruct x as [bone_name bone_anim]. intros u.
  unfold Improved.bake_bone, Improved.debug_print.
  destruct (Dict.get bone_map (Improved.safe_str E (JStr bone_name)))
    as [bone |] eqn:Hget; [| intro h0; reflexivity].
  assert (Hne : bone <> i).
  { intros ->. apply Hother. apply (Dict_get_In_values _ _ _ Hget). }
  keeps_struct; try (intros; intro h0; reflexivity);
    unfold Improved.bake_translate, Improved.bake_rotate,
      Improved.debug_print;
    keeps_struct;
    first [ intros; apply set_pos_other; exact Hne
          | intros; apply set_rotation_other; exact Hne
          | intros; intro h0; reflexivity ].
Qed.

Lemma find_animations_other data keys a :
  keeps (fun h => nth_error (nodes h) i) (Improved.find_animations data keys a).
Proof.
  revert a. induction keys as [| key keys IH]; intros a; simpl.
  - apply keeps_ret.
  - unfold Improved.debug_print.
    keeps_struct; try (intros; intro h0; reflexivity); apply IH.
Qed.

Lemma import_animation_other data :
  keeps (fun h => nth_error (nodes h) i) (Improved.import_animation E data bone_map).
Proof.
  unfold Improved.import_animation, Improved.locate_animations,
    Improved.debug_print.
  keeps_struct;
    first [ intros; apply bake_clip_other
          | intros; apply find_animations_other
          | intros; intro h0; reflexivity
          | idtac ].
  all: unfold Improved.scan_clip; keeps_struct;
    try (intros; intro h0; reflexivity).
  all: unfold Improved.scan_bone; keeps_struct;
    try (intros; intro h0; reflexivity).
  all: unfold Improved.scan_channel; keeps_struct;
    try (intros; intro h0; reflexivity).
  all: unfold Improved.scan_frame; keeps_struct; intros; intro h0; reflexivity.
Qed.

End OtherNodes.

(** X9.  Whatever the document and the bone map, [import_animation]
    adds and removes no node and changes of a node nothing but its
    position, its rotation and their keys: kinds, names, parents,
    sizes and materials, the textures and the selection are as they
    were.  A node that is not a bone of the bone map is not changed at
    all. *)
Theorem import_animation_keeps_the_build
    (data : json) (bone_map : Dict.t nat) (h : host) :
  let h' := snd (Improved.import_animation E data bone_map h) in
  List.length (nodes h') = List.length (nodes h)
  /\ beside_animation h' = beside_animation h
  /\ forall i,
       ~ In i (Dict.values bone_map) ->
       nth_error (nodes h') i = nth_error (nodes h) i.
Proof.
  cbv zeta.
  pose proof (import_animation_beside data bone_map h) as Hb.
  split; [| split; [exact Hb |]].
  - unfold beside_animation in Hb. inversion Hb as [[Hbm Hsel Hmap]].
    rewrite <- (length_map build (nodes h)), <- Hmap, length_map.
    reflexivity.
  - intros i Hi. apply (import_animation_other bone_map i Hi data h).
Qed.

End BakerFrame.

(* ===================================================================== *)
(** * The end of an animation import *)
(* ===================================================================== *)

Lemma for_each_returns {X S} (body : X -> S -> M S) (next : X -> S -> S) :
  (forall x s h, fst (body x s h) = inr (next x s)) ->
  forall xs s h,
    fst (for_each body xs s h) = inr (fold_left (fun s x => next x s) xs s).
Proof.
  intros Hbody. induction xs as [| x xs IH]; intros s h; [reflexivity |].
  simpl. unfold bind. specialize (Hbody x s h).
  destruct (body x s h) as [[e | s'] h']; simpl in Hbody; [discriminate |].
  inversion Hbody. subst s'. apply IH.
Qed.

Section EndOfImport.

Variable E : platform.

Lemma bake_translate_returns bone frame u h :
  fst (Improved.bake_translate E bone frame u h) = inr tt.
Proof.
  unfold Improved.bake_translate, try_catch.
  match goal with
  | |- context [match ?m h with _ => _ end] => destruct (m h) as [[e | []] h']
  end; reflexivity.
Qed.

Lemma bake_rotate_returns bone frame u h :
  fst (Improved.bake_rotate E bone frame u h) = inr tt.
Proof.
  unfold Improved.bake_rotate, try_catch.
  match goal with
  | |- context [match ?m h with _ => _ end] => destruct (m h) as [[e | []] h']
  end; reflexivity.
Qed.

Lemma bake_track_returns (body : json -> unit -> M unit) frames h :
  (forall x u h0, fst (body x u h0) = inr tt) ->
  fst (for_each body frames tt h) = inr tt.
Proof.
  intros Hbody.
  rewrite (for_each_returns body (fun _ _ => tt));
    [| intros x [] h0; apply Hbody].
  clear. induction frames as [| f frames IH]; [reflexivity | exact IH].
Qed.

(** The tracks of a bone of an encoded document raise nothing, whether
    the bone is in the map or not. *)
Lemma bake_bone_encoded_returns bone_map name (t : Doc.tracks) u h :
  fst (Improved.bake_bone E bone_map (name, Doc.json_of_tracks t) u h)
  = inr tt.
Proof.
  destruct u. unfold Improved.bake_bone.
  destruct (Dict.get bone_map (Improved.safe_str E (JStr name)))
    as [bone |]; [| reflexivity].
  destruct t as [[tr |] [ro |] [sc |]];
    unfold Doc.json_of_tracks, Doc.channel, bind, lift,
      Improved.debug_print, Rt.print, modify, ret;
    cbn [Doc.translate Doc.rotate Doc.scale app Py.contains Py.index Py.iter
         Dict.mem Dict.get String.eqb Ascii.eqb Bool.eqb];
    repeat match goal with
           | |- context [for_each (Improved.bake_translate E bone) ?fs tt ?hh] =>
               let H := fresh "H" in
               pose proof (bake_track_returns
                             (Improved.bake_translate E bone) fs hh
                             (bake_translate_returns bone)) as H;
               destruct (for_each (Improved.bake_translate E bone) fs tt hh)
                 as [[? | []] ?]; [discriminate H | clear H]
           | |- context [for_each (Improved.bake_rotate E bone) ?fs tt ?hh] =>
               let H := fresh "H" in
               pose proof (bake_track_returns
                             (Improved.bake_rotate E bone) fs hh
                             (bake_rotate_returns bone)) as H;
               destruct (for_each (Improved.bake_rotate E bone) fs tt hh)
                 as [[? | []] ?]; [discriminate H | clear H]
           end;
    reflexivity.
Qed.

Lemma bake_clip_encoded_returns bone_map name (c : Doc.clip) n h :
  fst (Improved.bake_clip E bone_map (name, Doc.json_of_clip c) n h)
  = inr (n + 1).
Proof.
  unfold Improved.bake_clip, Doc.json_of_clip, bind, lift,
    Improved.debug_print, Rt.print, modify, ret.
  cbn [fst snd Py.get Py.items Dict.get String.eqb Ascii.eqb Bool.eqb].
  match goal with
  | |- context [for_each ?b ?l tt ?hh] =>
      assert (H : fst (for_each b l tt hh) = inr tt);
      [| destruct (for_each b l tt hh) as [[? | []] ?];
         [discriminate H | reflexivity]]
  end.
  generalize (Scene.with_listener h
                (listener h
                 ++ [Entry INFO (Msg "importing animation: {}" [AStr name])])).
  induction c as [| [bname t] c IH]; intros h0; [reflexivity |].
  cbn [map fst snd]. rewrite for_each_cons.
  pose proof (bake_bone_encoded_returns bone_map bname t tt h0) as Hb.
  destruct (Improved.bake_bone E bone_map (bname, Doc.json_of_tracks t) tt h0)
    as [[e | []] h1]; [discriminate Hb |].
  apply IH.
Qed.

Lemma bake_clips_encoded_returns bone_map (a : Doc.animations) :
  forall n h,
    fst (for_each (Improved.bake_clip E bone_map)
           (map (fun p => (fst p, Doc.json_of_clip (snd p))) a) n h)
    = inr (n + Z.of_nat (List.length a)).
Proof.
  induction a as [| [name c] a IH]; intros n h.
  - simpl. rewrite Z.add_0_r. reflexivity.
  - cbn [map fst snd]. rewrite for_each_cons.
    pose proof (bake_clip_encoded_returns bone_map name c n h) as Hc.
    destruct (Improved.bake_clip E bone_map (name, Doc.json_of_clip c) n h)
      as [[e | n'] h1]; [discriminate Hc |].
    simpl in Hc. inversion Hc. subst n'.
    rewrite IH. f_equal. cbn [List.length]. lia.
Qed.

(** The run of [import_animation] on an encoded document whose
    maximum has a frame count: it returns from its last statement. *)
Lemma import_animation_encoded_run
    (kv : list (string * json)) (a : Doc.animations)
    (bone_map : Dict.t nat) (h : host) (frames : Z) :
  Dict.get kv "animations" = Some (Doc.json_of_animations a) ->
  a <> [] ->
  Doc.all_finite (Doc.times a) ->
  PyNum.int_times_30 (running_max (Doc.times a)) = inr frames ->
  exists h3,
    Improved.import_animation E (JDict kv) bone_map h
    = (inr tt,
       log (Scene.with_sliderTime h3 0) INFO
         "animation import finished: {} animations"
         [AInt (Z.of_nat (List.length a))]).
Proof.
  intros Hget Hne Hfin Hframes.
  assert (Hpost :
            post (Improved.import_animation E (JDict kv) bone_map) h
              (fun r h' =>
                 exists h3,
                   r = inr tt
                   /\ h' = log (Scene.with_sliderTime h3 0) INFO
                             "animation import finished: {} animations"
                             [AInt (Z.of_nat (List.length a))])).
  { unfold Improved.import_animation.
    apply post_try, post_bind, post_modify, post_bind.
    assert (Htruthy : Py.truthy (Doc.json_of_animations a) = true)
      by (destruct a; [congruence | reflexivity]).
    eapply post_eq; [apply (locate_primary kv _ _ Hget Htruthy) |].
    cbv beta iota. rewrite Htruthy. cbn [negb].
    unfold Doc.json_of_animations at 1 2 3.
    cbn [Py.len Py.keys Py.items].
    apply post_bind, post_lift, post_bind, post_modify, post_bind, post_lift,
      post_bind, post_modify, post_bind, post_lift, post_bind.
    eapply post_eq; [apply (scan_clips_encoded E a Hfin) |].
    cbv beta iota. fold (running_max (Doc.times a)). rewrite Hframes.
    apply post_bind, post_lift, post_bind, post_modify, post_bind,
      post_modify, post_bind, post_modify, post_bind.
    match goal with
    | |- post (for_each ?b ?l 0) ?h0 _ =>
        pose proof (bake_clips_encoded_returns bone_map a 0 h0) as Hrun;
        unfold post;
        destruct (for_each b l 0 h0) as [[e | n] h1]; [discriminate Hrun |]
    end.
    cbn [fst snd] in *. inversion Hrun. subst n.
    apply post_bind, post_modify, post_modify.
    exists h1. split; reflexivity. }
  unfold post in Hpost. destruct Hpost as (h3 & Hr & Hh).
  exists h3.
  destruct (Improved.import_animation E (JDict kv) bone_map h) as [r h'].
  simpl in Hr, Hh. subst. reflexivity.
Qed.

(** X10.  For a document whose clips are well formed, with finite
    times and a maximum that has a frame count, [import_animation]
    goes through every clip without raising: it leaves the time slider
    at frame 0, and its last line counts the clips of the document,
    whether their bones are in the bone map or not. *)
Theorem import_animation_ends_rewound
    (kv : list (string * json)) (a : Doc.animations)
    (bone_map : Dict.t nat) (h : host) (frames : Z) :
  Dict.get kv "animations" = Some (Doc.json_of_animations a) ->
  a <> [] ->
  Doc.all_finite (Doc.times a) ->
  PyNum.int_times_30 (running_max (Doc.times a)) = inr frames ->
  let h' := snd (Improved.import_animation E (JDict kv) bone_map h) in
  sliderTime h' = 0
  /\ exists before,
       listener h'
       = (before
          ++ [Entry INFO
                (Msg "animation import finished: {} animations"
                   [AInt (Z.of_nat (List.length a))])])%list.
Proof.
  intros Hget Hne Hfin Hframes. cbv zeta.
  destruct (import_animation_encoded_run kv a bone_map h frames
              Hget Hne Hfin Hframes) as (h3 & ->).
  split; [reflexivity |]. eexists. reflexivity.
Qed.

End EndOfImport.

Lemma import_animation_ends_rewound_witness :
  sliderTime
    (snd (Improved.import_animation Demo.platform0
            (JDict (Demo.document Demo.scenario_B)) [("root", 0%nat)]
            Demo.one_bone_scene))
  = 0.
Proof.
  refine (proj1 (import_animation_ends_rewound Demo.platform0
                   (Demo.document Demo.scenario_B) Demo.scenario_B
                   [("root", 0%nat)] Demo.one_bone_scene 60 _ _ _ _)).
  - reflexivity.
  - discriminate.
  - repeat constructor.
  - reflexivity.
Defined.

(* ===================================================================== *)
(** * The import, end to end *)
(* ===================================================================== *)

Lemma nth_error_map_same {A B} (f : A -> B) (l l' : list A) i x :
  map f l' = map f l ->
  nth_error l i = Some x ->
  exists x', nth_error l' i = Some x' /\ f x' = f x.
Proof.
  intros Hmap Hx.
  pose proof (map_nth_error f i l Hx) as Hfx.
  rewrite <- Hmap in Hfx.
  rewrite nth_error_map in Hfx.
  destruct (nth_error l' i) as [x' |]; [| discriminate].
  exists x'. split; [reflexivity |]. simpl in Hfx. congruence.
Qed.

Lemma regions_sound_bitmaps E texture_dir n0 t h h' :
  bitmaps h' = bitmaps h ->
  regions_sound E texture_dir n0 t h -> regions_sound E texture_dir n0 t h'.
Proof. unfold regions_sound. intros ->. exact (fun H => H). Qed.

Lemma bones_named_app n0 bone_map h h' extra :
  nodes h' = (nodes h ++ extra)%list ->
  bones_named n0 bone_map h -> bones_named n0 bone_map h'.
Proof.
  intros Hn Hnamed name i Hk.
  destruct (Hnamed name i Hk) as (Hge & n & Hi & Hrest).
  split; [exact Hge |]. exists n. split; [| exact Hrest].
  rewrite Hn, nth_error_app1; [exact Hi |].
  apply nth_error_Some. congruence.
Qed.

Lemma bones_named_build n0 bone_map h h' :
  map build (nodes h') = map build (nodes h) ->
  bones_named n0 bone_map h -> bones_named n0 bone_map h'.
Proof.
  intros Hmap Hnamed name i Hk.
  destruct (Hnamed name i Hk) as (Hge & n & Hi & Hkind & Hname).
  split; [exact Hge |].
  destruct (nth_error_map_same build _ _ i n Hmap Hi) as (n' & Hi' & Hb).
  exists n'. split; [exact Hi' |].
  unfold build in Hb. inversion Hb. split; congruence.
Qed.

Lemma post_run {A} (m : M A) h a b :
  post m h (fun r h' => r = a /\ h' = b) -> m h = (a, b).
Proof.
  unfold post. destruct (m h) as [r h']. simpl. intros [-> ->]. reflexivity.
Qed.

Section EndToEnd.

Variable E : platform.
Variables json_path atlas_path texture_dir : string.
Variable scale : Float64.float.

(** The stages of a run of [import_spine] that gets past its checks,
    on a document whose slots are a list of objects. *)
Lemma import_spine_stages (h : host) (data : json) (slots : list json) :
  fst (Improved.validate_file_path E json_path "JSON file") = true ->
  fst (Improved.validate_file_path E atlas_path "Atlas file") = true ->
  fst (Improved.validate_file_path E texture_dir "texture directory") = true ->
  load_json E json_path = inr data ->
  Py.get data "slots" (JList []) = inr (JList slots) ->
  Forall is_object slots ->
  exists textures h1 bone_map h2 h3 h4,
    Improved.load_textures E atlas_path texture_dir
      (log (log (log h INFO "=== starting Spine import ===" [])
              INFO "JSON data loaded" [])
         INFO "loading textures..." [])
    = (inr textures, h1)
    /\ Improved.create_bones E data scale (log h1 INFO "creating bones..." [])
       = (inr bone_map, h2)
    /\ Improved.create_meshes E data bone_map textures
         (log h2 INFO "creating meshes..." [])
       = (inr tt, h3)
    /\ Improved.import_animation E data bone_map
         (log (Scene.with_animationRange (Scene.with_sliderTime h3 0) (0, 100))
            INFO "importing animation..." [])
       = (inr tt, h4)
    /\ Improved.import_spine E json_path atlas_path texture_dir scale h
       = (inr (Msg "import succeeded: {} bones created, {} textures loaded"
                 [AInt (Z.of_nat (List.length bone_map));
                  AInt (Z.of_nat (List.length textures))]),
          log match bone_map with
              | [] => h4
              | _ => Scene.with_selection h4 (Dict.values bone_map)
              end INFO "=== Spine import finished ===" []).
Proof.
  intros Hv1 Hv2 Hv3 Hjson Hslots Hobj.
  unfold Improved.import_spine.
  destruct (Improved.validate_file_path E json_path "JSON file")
    as [valid1 msg1].
  destruct (Improved.validate_file_path E atlas_path "Atlas file")
    as [valid2 msg2].
  destruct (Improved.validate_file_path E texture_dir "texture directory")
    as [valid3 msg3].
  simpl in Hv1, Hv2, Hv3. subst valid1 valid2 valid3. cbn [negb].
  rewrite Hjson.
  set (hA := log (log (log h INFO "=== starting Spine import ===" [])
                    INFO "JSON data loaded" []) INFO "loading textures..." []).
  destruct (load_textures_parsing E texture_dir atlas_path hA)
    as (textures & Ht & _).
  destruct (Improved.load_textures E atlas_path texture_dir hA)
    as [r1 h1] eqn:Hrun1.
  simpl in Ht. subst r1.
  set (hB := log h1 INFO "creating bones..." []).
  destruct (improved_create_bones_named E data scale hB)
    as (bone_map & Hb & _).
  destruct (Improved.create_bones E data scale hB) as [r2 h2] eqn:Hrun2.
  simpl in Hb. subst r2.
  set (hC := log h2 INFO "creating meshes..." []).
  pose proof (improved_create_meshes_returns E bone_map textures data slots hC
                Hslots Hobj) as Hm.
  destruct (Improved.create_meshes E data bone_map textures hC)
    as [r3 h3] eqn:Hrun3.
  simpl in Hm. subst r3.
  set (hD := log (Scene.with_animationRange (Scene.with_sliderTime h3 0)
                    (0, 100)) INFO "importing animation..." []).
  pose proof (import_animation_returns E data bone_map hD) as Ha.
  destruct (Improved.import_animation E data bone_map hD)
    as [r4 h4] eqn:Hrun4.
  simpl in Ha. subst r4.
  exists textures, h1, bone_map, h2, h3, h4.
  repeat (split; [first [reflexivity | assumption] |]).
  apply post_run.
  apply post_try, post_bind, post_modify, post_bind, post_modify, post_bind,
    post_modify, post_bind.
  eapply post_eq; [exact Hrun1 |].
  apply post_bind, post_modify, post_bind.
  eapply post_eq; [exact Hrun2 |].
  apply post_bind, post_modify, post_bind.
  eapply post_eq; [exact Hrun3 |].
  apply post_bind, post_modify, post_bind, post_modify, post_bind,
    post_modify, post_bind.
  eapply post_eq; [exact Hrun4 |].
  apply post_bind.
  destruct bone_map as [| entry rest];
    [apply post_ret | apply post_modify];
    apply post_bind, post_modify, post_ret; split; reflexivity.
Qed.

(** X11.  When the three paths are valid, the document loads and its
    slots are a list of objects, [import_spine] returns the success
    message, whatever the bones, slots and animations hold, and the
    two counts of the message are those of a bone map and a region
    table that are sound in the scene the call leaves: every counted
    bone is a bone of the scene that carries its name, every counted
    region a texture made from an existing file.  The bones of the map,
    if there are any, are what is selected. *)
Theorem import_spine_reports_what_it_built
    (h : host) (data : json) (slots : list json) :
  fst (Improved.validate_file_path E json_path "JSON file") = true ->
  fst (Improved.validate_file_path E atlas_path "Atlas file") = true ->
  fst (Improved.validate_file_path E texture_dir "texture directory") = true ->
  load_json E json_path = inr data ->
  Py.get data "slots" (JList []) = inr (JList slots) ->
  Forall is_object slots ->
  let out := Improved.import_spine E json_path atlas_path texture_dir scale h in
  exists bone_map textures,
    fst out
    = inr (Msg "import succeeded: {} bones created, {} textures loaded"
             [AInt (Z.of_nat (List.length bone_map));
              AInt (Z.of_nat (List.length textures))])
    /\ bones_named (List.length (nodes h)) bone_map (snd out)
    /\ regions_sound E texture_dir (List.length (bitmaps h)) textures
         (snd out)
    /\ selection (snd out)
       = match bone_map with
         | [] => selection h
         | _ => Dict.values bone_map
         end.
Proof.
  intros Hv1 Hv2 Hv3 Hjson Hslots Hobj. cbv zeta.
  destruct (import_spine_stages h data slots Hv1 Hv2 Hv3 Hjson Hslots Hobj)
    as (textures & h1 & bone_map & h2 & h3 & h4
        & Hrun1 & Hrun2 & Hrun3 & Hrun4 & Hrun).
  rewrite Hrun. cbn [fst snd].
  exists bone_map, textures. split; [reflexivity |].
  (* the textures *)
  match type of Hrun1 with
  | Improved.load_textures _ _ _ ?hh = _ =>
      pose proof (load_textures_parsing E texture_dir atlas_path hh) as Ht;
      pose proof (load_textures_beside E texture_dir atlas_path hh) as Hb1
  end.
  unfold post in Ht. rewrite Hrun1 in Ht. cbn [fst snd] in Ht.
  destruct Ht as (t & Heq & Hsound & _). inversion Heq. subst t.
  rewrite Hrun1 in Hb1. cbn [snd] in Hb1.
  assert (Hn1 : nodes h1 = nodes h /\ selection h1 = selection h)
    by (injection Hb1; intros; split; assumption).
  destruct Hn1 as [Hn1 Hsel1].
  (* the bones *)
  match type of Hrun2 with
  | Improved.create_bones _ _ _ ?hh = _ =>
      pose proof (improved_create_bones_named E data scale hh) as Hb;
      pose proof (improved_create_bones_beside E data scale hh) as Hb2
  end.
  unfold post in Hb. rewrite Hrun2 in Hb. cbn [fst snd] in Hb.
  destruct Hb as (m & Heq2 & Hnamed & _). inversion Heq2. subst m.
  rewrite Hrun2 in Hb2. cbn [snd] in Hb2.
  assert (Hbm2 : bitmaps h2 = bitmaps h1 /\ selection h2 = selection h1)
    by (injection Hb2; intros; split; assumption).
  destruct Hbm2 as [Hbm2 Hsel2].
  (* the planes *)
  match type of Hrun3 with
  | Improved.create_meshes _ _ _ _ ?hh = _ =>
      pose proof (improved_create_meshes_nodes E bone_map textures data hh) as Hm;
      pose proof (improved_create_meshes_beside E bone_map textures data hh) as Hb3
  end.
  unfold post in Hm. rewrite Hrun3 in Hm. cbn [fst snd] in Hm.
  destruct Hm as (extra & Hn3 & _).
  rewrite Hrun3 in Hb3. cbn [snd] in Hb3.
  assert (Hbm3 : bitmaps h3 = bitmaps h2 /\ selection h3 = selection h2)
    by (injection Hb3; intros; split; assumption).
  destruct Hbm3 as [Hbm3 Hsel3].
  (* the keys *)
  match type of Hrun4 with
  | Improved.import_animation _ _ _ ?hh = _ =>
      pose proof (import_animation_beside E data bone_map hh) as Hb4
  end.
  rewrite Hrun4 in Hb4. cbn [snd] in Hb4.
  assert (Hbm4 : bitmaps h4 = bitmaps h3 /\ selection h4 = selection h3
                 /\ map build (nodes h4) = map build (nodes h3))
    by (injection Hb4; intros; repeat split; assumption).
  destruct Hbm4 as (Hbm4 & Hsel4 & Hmap4).
  clear Hb1 Hb2 Hb3 Hb4.
  split; [| split].
  - assert (Hfinal : bones_named (List.length (nodes h)) bone_map h4).
    { apply (bones_named_build _ _ _ _ Hmap4).
      cbn [nodes Scene.with_listener Scene.with_sliderTime
           Scene.with_animationRange].
      apply (bones_named_app _ _ (log h2 INFO "creating meshes..." []) h3
               extra Hn3).
      rewrite <- Hn1. exact Hnamed. }
    destruct bone_map; exact Hfinal.
  - assert (Hfinal : regions_sound E texture_dir (List.length (bitmaps h))
                       textures h4).
    { apply (regions_sound_bitmaps _ _ _ _ h1); [| exact Hsound].
      congruence. }
    destruct bone_map; exact Hfinal.
  - destruct bone_map; [| reflexivity].
    cbn [selection Scene.with_listener log]. congruence.
Qed.

End EndToEnd.

Lemma import_spine_reports_what_it_built_witness :
  exists bone_map textures,
    fst (Improved.import_spine
           (Sample.studio Sample.atlas (JDict Sample.skeleton))
           "a.json" "a.atlas" "textures" Float64.f1 Demo.scene0)
    = inr (Msg "import succeeded: {} bones created, {} textures loaded"
             [AInt (Z.of_nat (List.length bone_map));
              AInt (Z.of_nat (List.length textures))])
    /\ bones_named 0 bone_map
         (snd (Improved.import_spine
                 (Sample.studio Sample.atlas (JDict Sample.skeleton))
                 "a.json" "a.atlas" "textures" Float64.f1 Demo.scene0))
    /\ regions_sound (Sample.studio Sample.atlas (JDict Sample.skeleton))
         "textures" 0 textures
         (snd (Improved.import_spine
                 (Sample.studio Sample.atlas (JDict Sample.skeleton))
                 "a.json" "a.atlas" "textures" Float64.f1 Demo.scene0))
    /\ selection
         (snd (Improved.import_spine
                 (Sample.studio Sample.atlas (JDict Sample.skeleton))
                 "a.json" "a.atlas" "textures" Float64.f1 Demo.scene0))
       = match bone_map with
         | [] => []
         | _ => Dict.values bone_map
         end.
Proof.
  refine (import_spine_reports_what_it_built
            (Sample.studio Sample.atlas (JDict Sample.skeleton))
            "a.json" "a.atlas" "textures" Float64.f1 Demo.scene0
            (JDict Sample.skeleton) [Sample.slot] _ _ _ _ _ _);
    try reflexivity.
  constructor; [eexists; reflexivity | constructor].
Defined.

(* ===================================================================== *)
(** * The time line after an import, and imports that stop early *)
(* ===================================================================== *)

Section Outcomes.

Variable E : platform.
Variables json_path atlas_path texture_dir : string.
Variable scale : Float64.float.

(** Without an animation source [import_animation] prints and
    returns. *)
Lemma import_animation_without_source
    (kv : list (string * json)) (bone_map : Dict.t nat) (h : host) :
  Py.truthy (primary_animations kv) = false ->
  fallback_source kv = None ->
  exists l,
    Improved.import_animation E (JDict kv) bone_map h
    = (inr tt, Scene.with_listener h l).
Proof.
  intros Hprimary Hfb. unfold primary_animations in Hprimary.
  unfold Improved.import_animation, try_catch, Improved.locate_animations,
    bind, lift, Py.get, Py.keys, Improved.debug_print, Rt.print, modify.
  rewrite Hprimary. cbv beta iota delta [negb].
  match goal with
  | |- context [Improved.find_animations (JDict kv) (Dict.keys kv) ?a ?h0] =>
      destruct (find_animations_none kv (Dict.keys kv) a h0
                  (fallback_none_all kv Hfb) Hprimary) as [a' [Hrun Ha']]
  end.
  rewrite Hrun, Ha'. simpl. eexists. reflexivity.
Qed.

(** X13.  A document that loads but is not an object: the textures
    are loaded, [create_bones] reports the error and makes no bone, and
    [create_meshes] raises; [import_spine] returns the failure message
    for [AttributeError].  No node is made, and the time line and the
    selection are as they were. *)
Theorem import_spine_fails_on_a_document_that_is_no_object
    (h : host) (data : json) :
  fst (Improved.validate_file_path E json_path "JSON file") = true ->
  fst (Improved.validate_file_path E atlas_path "Atlas file") = true ->
  fst (Improved.validate_file_path E texture_dir "texture directory") = true ->
  load_json E json_path = inr data ->
  ~ is_object data ->
  let out := Improved.import_spine E json_path atlas_path texture_dir scale h in
  fst out = inr (Msg "import failed: {}" [AExn AttributeError])
  /\ beside_textures (snd out) = beside_textures h.
Proof.
  intros Hv1 Hv2 Hv3 Hjson Hno. cbv zeta.
  assert (Hbones : forall h0,
             Improved.create_bones E data scale h0
             = (inr [],
                log (log h0 ERROR "bone creation failed: {}"
                       [AExn AttributeError])
                  ERROR "details: {}" [AExn AttributeError])).
  { intros h0. destruct data; try reflexivity.
    exfalso. apply Hno. eexists. reflexivity. }
  assert (Hmeshes : forall bm tx h0,
             Improved.create_meshes E data bm tx h0
             = (inl AttributeError, h0)).
  { intros bm tx h0. destruct data; try reflexivity.
    exfalso. apply Hno. eexists. reflexivity. }
  assert (Hpost :
            post (Improved.import_spine E json_path atlas_path texture_dir
                    scale) h
              (fun r h' =>
                 r = inr (Msg "import failed: {}" [AExn AttributeError])
                 /\ beside_textures h' = beside_textures h)).
  { unfold Improved.import_spine.
    destruct (Improved.validate_file_path E json_path "JSON file")
      as [valid1 msg1].
    destruct (Improved.validate_file_path E atlas_path "Atlas file")
      as [valid2 msg2].
    destruct (Improved.validate_file_path E texture_dir "texture directory")
      as [valid3 msg3].
    simpl in Hv1, Hv2, Hv3. subst valid1 valid2 valid3. cbn [negb].
    rewrite Hjson.
    apply post_try, post_bind, post_modify, post_bind, post_modify, post_bind,
      post_modify, post_bind.
    match goal with
    | |- post (Improved.load_textures _ _ _) ?hh _ =>
        pose proof (load_textures_parsing E texture_dir atlas_path hh)
          as (t & Ht & _);
        pose proof (load_textures_beside E texture_dir atlas_path hh) as Hb;
        unfold post;
        destruct (Improved.load_textures E atlas_path texture_dir hh)
          as [r1 h1]
    end.
    cbn [fst snd] in *. subst r1.
    apply post_bind, post_modify, post_bind.
    eapply post_eq; [apply Hbones |].
    apply post_bind, post_modify, post_bind.
    eapply post_eq; [apply Hmeshes |].
    cbv beta iota.
    apply post_bind, post_modify, post_bind, post_modify, post_ret.
    split; [reflexivity | exact Hb]. }
  exact Hpost.
Qed.

(** X14.  [import_spine] checks its three paths, in the order JSON,
    atlas, texture directory, and then loads the document, before it
    does anything else: when a path is empty or missing, or the
    document cannot be read, the call returns the message for the first
    of these that fails, and the scene it leaves is the one it was
    called in with the first listener line added. *)
Theorem import_spine_stops_before_any_work (h : host) :
  let v1 := Improved.validate_file_path E json_path "JSON file" in
  let v2 := Improved.validate_file_path E atlas_path "Atlas file" in
  let v3 := Improved.validate_file_path E texture_dir "texture directory" in
  fst v1 && fst v2 && fst v3 = false
  \/ (exists e, load_json E json_path = inl e) ->
  let out := Improved.import_spine E json_path atlas_path texture_dir scale h in
  snd out = log h INFO "=== starting Spine import ===" []
  /\ fst out
     = inr (if negb (fst v1) then snd v1
            else if negb (fst v2) then snd v2
            else if negb (fst v3) then snd v3
            else match load_json E json_path with
                 | inl e => Msg "reading the JSON file failed: {}" [AExn e]
                 | inr _ => Msg "" []
                 end).
Proof.
  cbv zeta. intros Hstop.
  unfold Improved.import_spine, try_catch, bind at 1,
    Improved.debug_print at 1, Rt.print at 1, modify at 1.
  destruct (Improved.validate_file_path E json_path "JSON file")
    as [[|] msg1]; cbn [negb fst snd]; [| split; reflexivity].
  destruct (Improved.validate_file_path E atlas_path "Atlas file")
    as [[|] msg2]; cbn [negb fst snd]; [| split; reflexivity].
  destruct (Improved.validate_file_path E texture_dir "texture directory")
    as [[|] msg3]; cbn [negb fst snd]; [| split; reflexivity].
  destruct Hstop as [Hbad | [e He]]; [discriminate |].
  rewrite He. split; reflexivity.
Qed.

End Outcomes.

Lemma import_spine_fails_on_a_document_that_is_no_object_witness :
  fst (Improved.import_spine (Sample.studio Sample.atlas (JList []))
         "a.json" "a.atlas" "textures" Float64.f1 Demo.scene0)
  = inr (Msg "import failed: {}" [AExn AttributeError]).
Proof.
  refine (proj1 (import_spine_fails_on_a_document_that_is_no_object
                   (Sample.studio Sample.atlas (JList []))
                   "a.json" "a.atlas" "textures" Float64.f1 Demo.scene0
                   (JList []) _ _ _ _ _));
    try reflexivity.
  intros [kv H]. discriminate H.
Defined.

Lemma import_spine_stops_before_any_work_witness :
  snd (Improved.import_spine (Sample.studio Sample.atlas (JDict []))
         "a.json" "" "textures" Float64.f1 Demo.scene0)
  = log Demo.scene0 INFO "=== starting Spine import ===" [].
Proof.
  refine (proj1 (import_spine_stops_before_any_work
                   (Sample.studio Sample.atlas (JDict []))
                   "a.json" "" "textures" Float64.f1 Demo.scene0 _)).
  left. reflexivity.
Defined.

(* ===================================================================== *)
(** * Where a bone is put *)
(* ===================================================================== *)

Section Placement.

Variable E : platform.

(** X15.  A bone record with a name and numbers for [x], [y] and
    [length] (0, 0 and 1 when absent): pass 1 of the improved file
    makes one bone at [(x * scale, -y * scale, 0)], its tip
    [max(0.1, length) * scale] further down the y axis, its width and
    height 0.3 of that, rotated by the declared rotation in degrees, if
    any; the bone goes last in the scene and the map binds the name to
    it. *)
Theorem create_bone_places_the_bone
    (kv : list (string * json)) (scale x y len : Float64.float)
    (rot : option Float64.float) (st : Improved.bones_state) (h : host) :
  PyStr.nonempty (record_name E kv) = true ->
  Py.to_float E (field kv "x" (JInt 0)) = inr x ->
  Py.to_float E (field kv "y" (JInt 0)) = inr y ->
  Py.to_float E (field kv "length" (JFloat Float64.f1)) = inr len ->
  declared_rotation E kv = inr rot ->
  let out := Improved.create_bone E scale (JDict kv) st h in
  fst out
  = inr (Improved.BonesState
           (Dict.set (Improved.bone_map st) (record_name E kv)
              (List.length (nodes h)))
           (Improved.created_count st + 1) (Improved.bone_errors st))
  /\ nodes (snd out)
     = (nodes h
        ++ [placed_bone scale (record_name E kv) x y len rot (sliderTime h)])%list
  /\ Forall (fun e => e_level e = INFO)
       (skipn (List.length (listener h)) (listener (snd out))).
Proof.
  intros Hname Hx Hy Hlen Hrot. cbv zeta.
  unfold record_name, field, declared_rotation in *.
  assert (Hrun : exists l,
             Improved.create_bone E scale (JDict kv) st h
             = (inr (Improved.BonesState
                       (Dict.set (Improved.bone_map st)
                          (Improved.safe_str E
                             match Dict.get kv "name" with
                             | Some v => v
                             | None => JStr ""
                             end)
                          (List.length (nodes h)))
                       (Improved.created_count st + 1)
                       (Improved.bone_errors st)),
                Scene.with_listener
                  (Scene.with_nodes h
                     (nodes h
                      ++ [placed_bone scale
                            (Improved.safe_str E
                               match Dict.get kv "name" with
                               | Some v => v
                               | None => JStr ""
                               end) x y len rot (sliderTime h)]))
                  (listener h ++ l))
             /\ Forall (fun e => e_level e = INFO) l).
  { unfold Improved.create_bone, try_catch, try_ValueError, bind, lift,
      Py.get, Py.contains, Py.index, Dict.mem, Rt.createBone, Rt.add_node,
      Rt.update_node, Rt.set_rotation, Improved.debug_print, Rt.print,
      modify, ret.
    rewrite Hname. cbn [negb]. rewrite Hx, Hy, Hlen.
    destruct (Dict.get kv "rotation") as [r |].
    - destruct (Py.to_float E r) as [e | fr]; [discriminate |].
      inversion Hrot. subst rot.
      cbn [fst snd nodes listener sliderTime Scene.with_nodes
           Scene.with_listener Scene.update].
      rewrite !update_app_last.
      eexists. split.
      + unfold placed_bone, Scene.with_listener, Scene.with_nodes.
        cbn. rewrite ?update_app_last, <- ?app_assoc. reflexivity.
      + repeat constructor.
    - inversion Hrot. subst rot.
      cbn [fst snd nodes listener sliderTime Scene.with_nodes
           Scene.with_listener Scene.update].
      rewrite !update_app_last.
      eexists. split.
      + unfold placed_bone, Scene.with_listener, Scene.with_nodes.
        cbn. rewrite ?update_app_last, <- ?app_assoc. reflexivity.
      + repeat constructor. }
  destruct Hrun as (l & -> & Hl).
  cbn [fst snd nodes listener Scene.with_nodes Scene.with_listener].
  split; [reflexivity |]. split; [reflexivity |].
  rewrite skipn_app, skipn_all, Nat.sub_diag. exact Hl.
Qed.

End Placement.

Lemma create_bone_places_the_bone_witness :
  nodes
    (snd (Improved.create_bone Demo.platform0 Float64.f1 (JDict Sample.arm)
            (Improved.BonesState [] 0 0) Demo.scene0))
  = [placed_bone Float64.f1 "arm" (Float64.of_Z 10) (Float64.of_Z 20)
       (Float64.of_Z 2) None 0].
Proof.
  refine (proj1 (proj2 (create_bone_places_the_bone Demo.platform0 Sample.arm
                          Float64.f1 (Float64.of_Z 10) (Float64.of_Z 20)
                          (Float64.of_Z 2) None
                          (Improved.BonesState [] 0 0) Demo.scene0
                          _ _ _ _ _)));
    reflexivity.
Defined.

(* ===================================================================== *)
(** * The region table of [spine_importer.py] *)
(* ===================================================================== *)

Lemma Dict_set_length {V} (d : Dict.t V) k v :
  (List.length (Dict.set d k v) <= S (List.length d))%nat.
Proof.
  induction d as [| [k0 v0] d IH]; simpl; [lia |].
  destruct (String.eqb k0 k); simpl; lia.
Qed.

Section OriginalRegionTable.

Variable E : platform.
Variable texture_dir : string.

Ltac otex_simpl :=
  cbn [Original.textures Original.current_texture Original.texture_count
       bitmaps Scene.with_listener Scene.with_bitmaps].

Lemma original_parsing_log h0 st h l c :
  original_parsing E h0 st h ->
  original_parsing E h0
    (Original.TexState (Original.textures st) c (Original.texture_count st))
    (Scene.with_listener h l).
Proof. intros H. exact H. Qed.

Lemma original_parsing_register h0 st h name path l c :
  original_parsing E h0 st h ->
  path_exists E path = true ->
  original_parsing E h0
    (Original.TexState
       (Dict.set (Original.textures st) name (List.length (bitmaps h)))
       c (Original.texture_count st + 1))
    (Scene.with_listener
       (Scene.with_bitmaps h (bitmaps h ++ [Bitmap path None])) l).
Proof.
  intros (Hreg & Hlen & Hcount & Hpre) Hexists.
  pose proof (firstn_prefix_length _ _ _ Hpre eq_refl) as Hle.
  unfold original_parsing. otex_simpl.
  split; [| split; [| split]].
  - intros k i Hk. destruct (String.eqb_spec k name) as [-> | Hne].
    + rewrite Dict_get_set_same in Hk. inversion Hk. subst i.
      split; [exact Hle |].
      exists (Bitmap path None).
      rewrite nth_error_app2, Nat.sub_diag by lia.
      split; [reflexivity | exact Hexists].
    + rewrite Dict_get_set_other in Hk by exact Hne.
      destruct (Hreg k i Hk) as (Hge & b & Hb & Hrest).
      split; [exact Hge |]. exists b.
      rewrite nth_error_app1
        by (apply nth_error_Some; congruence).
      split; [exact Hb | exact Hrest].
  - rewrite length_app. simpl. lia.
  - pose proof (Dict_set_length (Original.textures st) name
                  (List.length (bitmaps h))). lia.
  - rewrite firstn_app_le by exact Hle. exact Hpre.
Qed.

Lemma original_parsing_rotate h0 st h c i v l :
  original_parsing E h0 st h ->
  Dict.get (Original.textures st) c = Some i ->
  original_parsing E h0 st
    (Scene.with_listener
       (Scene.with_bitmaps h
          (Scene.update (bitmaps h) i (Scene.set_rotation_bm v))) l).
Proof.
  intros (Hreg & Hlen & Hcount & Hpre) Hc.
  unfold original_parsing. otex_simpl.
  split; [| split; [| split]].
  - intros k j Hk. destruct (Hreg k j Hk) as (Hge & b & Hb & Hrest).
    split; [exact Hge |].
    destruct (Nat.eq_dec i j) as [-> | Hne].
    + exists (Scene.set_rotation_bm v b).
      split; [apply update_nth_error; exact Hb | exact Hrest].
    + exists b. rewrite update_nth_error_other by exact Hne.
      split; [exact Hb | exact Hrest].
  - rewrite update_length. exact Hlen.
  - exact Hcount.
  - rewrite firstn_update_ge; [exact Hpre |].
    apply (proj1 (Hreg c i Hc)).
Qed.

Lemma original_load_line_parsing h0 ln st h :
  original_parsing E h0 st h ->
  exists st' h',
    Original.load_line E texture_dir ln st h = (inr st', h')
    /\ original_parsing E h0 st' h'.
Proof.
  intros Hp. destruct st as [t c tc]. destruct ln as [line_num raw].
  unfold Original.load_line. otex_simpl.
  destruct (negb (PyStr.nonempty (PyStr.strip raw)));
    [do 2 eexists; split; [reflexivity | exact Hp] |].
  set (line := PyStr.strip raw).
  destruct (PyStr.endswith ".png" line) eqn:Hpng.
  - destruct (path_exists E (path_join E texture_dir line)) eqn:Hex.
    + do 2 eexists. split; [reflexivity |].
      apply (original_parsing_register h0 _ h _ _ _ _ Hp Hex).
    + do 2 eexists. split; [reflexivity |].
      apply (original_parsing_log h0 _ h _ c Hp).
  - destruct (PyStr.startswith "rotate:" line && truthy_name c);
      [| do 2 eexists; split; [reflexivity | exact Hp]].
    unfold try_catch, bind, lift, Original.debug_print,
      Rt.print, Rt.update_bitmap, modify, ret, raise.
    destruct (nth_error (PyStr.split colon line) 1) as [field |];
      [| do 2 eexists; split; [reflexivity |];
         apply (original_parsing_log h0 _ h _ c Hp)].
    unfold Py.to_float.
    destruct (parse_float E field) as [v |];
      [| do 2 eexists; split; [reflexivity |];
         apply (original_parsing_log h0 _ h _ c Hp)].
    destruct c as [c |];
      [| do 2 eexists; split; [reflexivity |];
         apply (original_parsing_log h0 _ h _ None Hp)].
    destruct (Dict.get t c) as [i |] eqn:Hc.
    + do 2 eexists. split; [reflexivity |].
      apply (original_parsing_rotate h0 _ h c i v _ Hp Hc).
    + do 2 eexists. split; [reflexivity |].
      apply (original_parsing_log h0 _ h _ (Some c) Hp).
Qed.

Lemma original_load_lines_parsing h0 lines :
  forall st h,
    original_parsing E h0 st h ->
    exists st' h',
      for_each (Original.load_line E texture_dir) lines st h = (inr st', h')
      /\ original_parsing E h0 st' h'.
Proof.
  induction lines as [| ln lines IH]; intros st h Hp.
  - exists st, h. auto.
  - destruct (original_load_line_parsing h0 ln st h Hp)
      as (st1 & h1 & Hrun & Hp1).
    destruct (IH _ _ Hp1) as (st' & h' & Hrun' & Hp').
    exists st', h'. rewrite for_each_cons, Hrun. auto.
Qed.

Lemma original_parsing_start h l :
  original_parsing E h (Original.TexState [] None 0) (Scene.with_listener h l).
Proof.
  unfold original_parsing. otex_simpl.
  split; [| split; [| split]].
  - intros name i Hk. discriminate.
  - lia.
  - simpl. lia.
  - apply firstn_all.
Qed.

Lemma original_load_textures_beside atlas_path :
  keeps beside_textures (Original.load_textures E atlas_path texture_dir).
Proof.
  unfold Original.load_textures, Original.debug_print, Rt.print.
  keeps_struct; try (intros; intro h0; reflexivity).
  destruct x as [line_num raw].
  unfold Original.load_line, Original.debug_print, Rt.BitmapTexture,
    Rt.update_bitmap, Rt.print.
  keeps_struct; intros; intro h0; reflexivity.
Qed.

(** X19.  [load_textures] of [spine_importer.py] always returns, and
    every region of its table is bound to a texture the call has made
    from an existing file; the textures that were in the scene, the
    nodes, the time line and the selection are as they were.  The call
    may have made more textures than the table has regions: the count
    of its last line, when the atlas is found and read, is the number
    of textures made, not the size of the table. *)
Theorem original_load_textures_binds_existing_files
    (atlas_path : string) (h : host) :
  let out := Original.load_textures E atlas_path texture_dir h in
  exists t,
    fst out = inr t
    /\ (forall name i,
          Dict.get t name = Some i ->
          (List.length (bitmaps h) <= i)%nat
          /\ exists b,
               nth_error (bitmaps (snd out)) i = Some b
               /\ path_exists E (bm_filename b) = true)
    /\ (List.length (bitmaps h) + List.length t
        <= List.length (bitmaps (snd out)))%nat
    /\ firstn (List.length (bitmaps h)) (bitmaps (snd out)) = bitmaps h
    /\ beside_textures (snd out) = beside_textures h
    /\ (path_exists E atlas_path = true ->
        forall lines,
          read_lines E atlas_path = inr lines ->
          exists before,
            listener (snd out)
            = (before
               ++ [Entry INFO
                     (Msg "loaded {} textures"
                        [AInt (Z.of_nat (List.length (bitmaps (snd out)))
                               - Z.of_nat (List.length (bitmaps h)))])])%list).
Proof.
  cbv zeta.
  assert (Hpost :
            post (Original.load_textures E atlas_path texture_dir) h
              (fun r h' =>
                 exists t,
                   r = inr t
                   /\ (forall name i,
                         Dict.get t name = Some i ->
                         (List.length (bitmaps h) <= i)%nat
                         /\ exists b,
                              nth_error (bitmaps h') i = Some b
                              /\ path_exists E (bm_filename b) = true)
                   /\ (List.length (bitmaps h) + List.length t
                       <= List.length (bitmaps h'))%nat
                   /\ firstn (List.length (bitmaps h)) (bitmaps h')
                      = bitmaps h
                   /\ (path_exists E atlas_path = true ->
                       forall lines,
                         read_lines E atlas_path = inr lines ->
                         exists before,
                           listener h'
                           = (before
                              ++ [Entry INFO
                                    (Msg "loaded {} textures"
                                       [AInt
                                          (Z.of_nat
                                             (List.length (bitmaps h'))
                                           - Z.of_nat
                                               (List.length (bitmaps h)))])])%list))).
  { assert (Hempty : forall h1,
               bitmaps h1 = bitmaps h ->
               (forall name i,
                  Dict.get (@nil (string * nat)) name = Some i ->
                  (List.length (bitmaps h) <= i)%nat
                  /\ exists b,
                       nth_error (bitmaps h1) i = Some b
                       /\ path_exists E (bm_filename b) = true)
               /\ (List.length (bitmaps h) + List.length (@nil (string * nat))
                   <= List.length (bitmaps h1))%nat
               /\ firstn (List.length (bitmaps h)) (bitmaps h1) = bitmaps h).
    { intros h1 Hsame. rewrite Hsame.
      split; [intros name i Hk; discriminate |].
      split; [simpl; lia | apply firstn_all]. }
    unfold Original.load_textures.
    apply post_try.
    destruct (path_exists E atlas_path) eqn:Hatlas; cbn [negb].
    - apply post_bind, post_modify, post_bind, post_lift.
      destruct (read_lines E atlas_path) as [e | lines] eqn:Hread.
      + apply post_bind, post_modify, post_ret.
        exists []. split; [reflexivity |].
        match goal with
        | |- (forall name i, _ -> _ /\ exists b, nth_error (bitmaps ?hh) _ = _ /\ _) /\ _ =>
            destruct (Hempty hh eq_refl) as (H1 & H2 & H3)
        end.
        split; [exact H1 |]. split; [exact H2 |]. split; [exact H3 |].
        intros _ lines Hlines. discriminate.
      + apply post_bind.
        match goal with
        | |- post (for_each _ _ ?st0) ?hh _ =>
            destruct (original_load_lines_parsing h (enumerate 1 lines) st0 hh
                        (original_parsing_start h _))
              as (st & h1 & Hrun & (Hreg & Hlen & Hcount & Hpre))
        end.
        eapply post_eq; [exact Hrun |].
        apply post_bind, post_modify, post_ret.
        exists (Original.textures st).
        cbn [bitmaps listener Scene.with_listener].
        split; [reflexivity |]. split; [exact Hreg |].
        split; [lia |]. split; [exact Hpre |].
        intros _ lines' Hlines. exists (listener h1).
        replace (Z.of_nat (List.length (bitmaps h1))
                 - Z.of_nat (List.length (bitmaps h)))
          with (Original.texture_count st) by lia.
        reflexivity.
    - apply post_bind, post_modify, post_ret.
      exists []. split; [reflexivity |].
      match goal with
      | |- (forall name i, _ -> _ /\ exists b, nth_error (bitmaps ?hh) _ = _ /\ _) /\ _ =>
          destruct (Hempty hh eq_refl) as (H1 & H2 & H3)
      end.
      split; [exact H1 |]. split; [exact H2 |]. split; [exact H3 |].
      intros Habs. discriminate. }
  destruct Hpost as (t & Hr & Hreg & Hlen & Hpre & Hline).
  exists t. split; [exact Hr |]. split; [exact Hreg |].
  split; [exact Hlen |]. split; [exact Hpre |].
  split; [apply original_load_textures_beside | exact Hline].
Qed.

End OriginalRegionTable.

(* ===================================================================== *)
(** * The errors the atlas parser counts *)
(* ===================================================================== *)

Section CountedErrors.

Variable E : platform.
Variable texture_dir : string.

Ltac tex_simpl :=
  cbn [Improved.textures Improved.current_texture Improved.loaded_count
       Improved.error_count].

(** One line: the error count goes up by one on a line that names a
    missing file, and on no other line. *)
Lemma load_line_counts n raw st h :
  current_in_table st ->
  exists st' h',
    Improved.load_line E texture_dir (n, raw) st h = (inr st', h')
    /\ current_in_table st'
    /\ Improved.error_count st'
       = Improved.error_count st
         + (if names_missing_file E texture_dir raw then 1 else 0).
Proof.
  intros Hcur. destruct st as [t c lc ec].
  unfold names_missing_file, current_in_table in *.
  unfold Improved.load_line. tex_simpl. cbn zeta.
  cbn [Improved.textures Improved.current_texture] in Hcur.
  destruct (PyStr.nonempty (PyStr.strip raw)) eqn:Hne; cbn [negb].
  2:{ assert (Hpng : PyStr.endswith ".png" (PyStr.strip raw) = false).
      { destruct (PyStr.endswith ".png" (PyStr.strip raw)) eqn:Hp;
          [| reflexivity].
        rewrite (endswith_nonempty _ _ _ Hp) in Hne. discriminate. }
      rewrite Hpng. do 2 eexists. split; [reflexivity |].
      split; [exact Hcur | cbn; lia]. }
  set (line := PyStr.strip raw) in *.
  destruct (PyStr.endswith ".png" line) eqn:Hpng; cbn [andb].
  - destruct (path_exists E (path_join E texture_dir line)) eqn:Hex;
      cbn [negb].
    + destruct (Dict.mem t (hd "" (PyStr.split dot line))) eqn:Hmem;
        cbn [negb].
      * do 2 eexists. split; [reflexivity |].
        split; [exact Hcur | tex_simpl; lia].
      * do 2 eexists. split; [reflexivity |]. tex_simpl.
        split; [| lia].
        intros c0 Hc0. inversion Hc0. subst c0.
        eexists. apply Dict_get_set_same.
    + do 2 eexists. split; [reflexivity |]. tex_simpl.
      split; [exact Hcur | lia].
  - destruct (PyStr.startswith "rotate:" line && truthy_name c) eqn:Hrot;
      [| do 2 eexists; split; [reflexivity |];
         split; [exact Hcur | tex_simpl; lia]].
    apply andb_true_iff in Hrot. destruct Hrot as [Hrot Htruthy].
    rewrite (rotate_line_has_field line Hrot).
    unfold try_ValueError, try_catch, bind, lift, Improved.debug_print,
      Rt.print, Rt.update_bitmap, modify, ret, raise, Py.to_float.
    destruct (parse_float E (nth 1 (PyStr.split colon line) "")) as [v |];
      [| do 2 eexists; split; [reflexivity |];
         split; [exact Hcur | tex_simpl; lia]].
    destruct c as [c |]; [| discriminate].
    destruct (Hcur c eq_refl) as [i Hi]. rewrite Hi.
    do 2 eexists. split; [reflexivity |].
    split; [exact Hcur | tex_simpl; lia].
Qed.

Lemma load_lines_count lines :
  forall n st h,
    current_in_table st ->
    exists st' h',
      for_each (Improved.load_line E texture_dir) (enumerate n lines) st h
      = (inr st', h')
      /\ Improved.error_count st'
         = Improved.error_count st + missing_files E texture_dir lines.
Proof.
  induction lines as [| raw lines IH]; intros n st h Hcur.
  - exists st, h. split; [reflexivity |]. unfold missing_files. simpl. lia.
  - destruct (load_line_counts n raw st h Hcur)
      as (st1 & h1 & Hrun & Hcur1 & Hcount).
    destruct (IH (n + 1) st1 h1 Hcur1) as (st' & h' & Hrun' & Hcount').
    exists st', h'. cbn [enumerate]. rewrite for_each_cons, Hrun.
    split; [exact Hrun' |].
    rewrite Hcount', Hcount. unfold missing_files. cbn [filter].
    destruct (names_missing_file E texture_dir raw); cbn [List.length]; lia.
Qed.

(** X20.  When both paths are valid and the atlas can be read, the
    number [load_textures] of the improved file reports as failed in its
    last line is the number of atlas lines that name a [.png] file
    missing from the texture directory: no other line is counted (a
    [rotate:] line that does not parse is a warning, and the handler
    around a line is not reached while the host's calls succeed). *)
Theorem load_textures_counts_missing_files
    (atlas_path : string) (lines : list string) (h : host) :
  fst (Improved.validate_file_path E atlas_path "Atlas file") = true ->
  fst (Improved.validate_file_path E texture_dir "texture directory") = true ->
  read_lines E atlas_path = inr lines ->
  let out := Improved.load_textures E atlas_path texture_dir h in
  exists loaded before,
    listener (snd out)
    = (before
       ++ [Entry INFO
             (Msg "texture loading finished: {} loaded, {} failed"
                [AInt loaded; AInt (missing_files E texture_dir lines)])])%list.
Proof.
  intros Hv1 Hv2 Hread. cbv zeta. unfold Improved.load_textures.
  destruct (Improved.validate_file_path E atlas_path "Atlas file")
    as [valid1 msg1].
  destruct (Improved.validate_file_path E texture_dir "texture directory")
    as [valid2 msg2].
  simpl in Hv1, Hv2. subst valid1 valid2. cbn [negb].
  unfold try_catch, bind, lift. rewrite Hread.
  destruct (load_lines_count lines 1 (Improved.TexState [] None 0 0) h)
    as (st & h1 & Hrun & Hcount).
  { intros c Hc. discriminate. }
  rewrite Hrun.
  exists (Improved.loaded_count st), (listener h1).
  cbn. cbn in Hcount. rewrite Hcount. reflexivity.
Qed.

End CountedErrors.

Lemma load_textures_counts_missing_files_witness :
  exists loaded before,
    listener
      (snd (Improved.load_textures (Sample.studio Sample.atlas (JDict []))
              "a.atlas" "textures" Demo.scene0))
    = (before
       ++ [Entry INFO
             (Msg "texture loading finished: {} loaded, {} failed"
                [AInt loaded; AInt 0])])%list.
Proof.
  apply (load_textures_counts_missing_files
           (Sample.studio Sample.atlas (JDict [])) "textures" "a.atlas"
           Sample.atlas Demo.scene0);
    reflexivity.
Defined.

(* ===================================================================== *)
(** * Declared parents that resolve are linked *)
(* ===================================================================== *)

Section LinkedParents.

Variable E : platform.
Variable bones_all : list json.
Variable bone_map : Dict.t nat.
Variables child parent : string.
Variables c p : nat.

Hypothesis Hinj : injective bone_map.
Hypothesis Hchild : Dict.get bone_map child = Some c.
Hypothesis Hparent : Dict.get bone_map parent = Some p.
Hypothesis Hdeclared : declares E bones_all child parent.
Hypothesis Hunique : one_parent_each E bones_all.

(** The record that declares the link makes it. *)
Lemma link_bone_makes_the_link bone k h :
  declares_by E bone child parent ->
  nodes (snd (Improved.link_bone E bone_map bone k h))
  = Scene.update (nodes h) c (Scene.set_parent p).
Proof.
  intros (nm & pn & Hnm & Hpn & Hc & Hp & Hne).
  unfold Improved.link_bone, try_catch, bind, lift.
  rewrite Hnm, Hpn, Hp, Hne, Hc, Hparent, Hchild. reflexivity.
Qed.

(** A round of pass 2 leaves the link of [c], once made, as it is. *)
Lemma link_bone_keeps_the_link bone k h :
  In bone bones_all ->
  bones_are_nodes bone_map (nodes h) ->
  let h' := snd (Improved.link_bone E bone_map bone k h) in
  bones_are_nodes bone_map (nodes h')
  /\ (exists k', fst (Improved.link_bone E bone_map bone k h) = inr k')
  /\ (Scene.parent_of h c = Some p -> Scene.parent_of h' c = Some p).
Proof.
  intros Hin Hvalid. cbv zeta.
  destruct (improved_link_bone_declared E bone_map bone k h)
    as (Hret & Hnodes).
  split; [| split; [exact Hret |]].
  - destruct Hnodes as [-> | (c' & p' & cn & pn & _ & _ & _ & ->)];
      [exact Hvalid |].
    intros name i Hk. destruct (Hvalid name i Hk) as [n Hn].
    destruct (Nat.eq_dec c' i) as [-> | Hne].
    + eexists. apply update_nth_error. exact Hn.
    + exists n. rewrite update_nth_error_other by exact Hne. exact Hn.
  - unfold Scene.parent_of.
    destruct Hnodes as [-> | (c' & p' & cn & pn & Hc' & Hp' & Hd & ->)];
      [exact (fun H => H) |].
    destruct (Nat.eq_dec c' c) as [-> | Hne].
    + intros _.
      assert (cn = child) by (apply (Hinj cn child c Hc' Hchild)). subst cn.
      destruct Hdeclared as (b0 & Hb0 & Hd0).
      assert (pn = parent) by (apply (Hunique bone b0 child pn parent
                                        Hin Hb0 Hd Hd0)).
      subst pn. assert (p' = p) by congruence. subst p'.
      destruct (Hvalid child c Hchild) as [n Hn].
      rewrite (update_nth_error _ _ _ _ Hn). reflexivity.
    + rewrite update_nth_error_other by exact Hne. exact (fun H => H).
Qed.

Lemma pass2_makes_the_link :
  forall l,
    (forall b, In b l -> In b bones_all) ->
    forall k h,
      bones_are_nodes bone_map (nodes h) ->
      let out := for_each (Improved.link_bone E bone_map) l k h in
      (Scene.parent_of h c = Some p
       \/ exists b, In b l /\ declares_by E b child parent) ->
      Scene.parent_of (snd out) c = Some p.
Proof.
  induction l as [| x l IH]; intros Hsub k h Hvalid; cbv zeta.
  - intros [H0 | (b & [] & _)]. exact H0.
  - rewrite for_each_cons.
    destruct (link_bone_keeps_the_link x k h (Hsub x (or_introl eq_refl))
                Hvalid) as (Hvalid1 & [k' Hk'] & Hkeep).
    pose proof (link_bone_makes_the_link x k h) as Hmake.
    destruct (Improved.link_bone E bone_map x k h) as [r h1].
    cbn [fst snd] in *. subst r.
    intros Hcase.
    apply (IH (fun b Hb => Hsub b (or_intror Hb)) k' h1 Hvalid1).
    destruct Hcase as [H0 | (b & [-> | Hb] & Hd)].
    + left. apply Hkeep. exact H0.
    + left. unfold Scene.parent_of. rewrite (Hmake Hd).
      destruct (Hvalid child c Hchild) as [n Hn].
      rewrite (update_nth_error _ _ _ _ Hn). reflexivity.
    + right. exists b. split; [exact Hb | exact Hd].
Qed.

End LinkedParents.

Section LinkedParentsOfADocument.

Variable E : platform.

(** X21.  Pass 2 of the improved file makes every link it can: when
    no bone name is given two parents by the records of the document,
    a bone whose record declares a parent is, after [create_bones], the
    child of that parent, provided both are bones of the returned map.
    With C6 this makes the links of the map exactly the declared
    ones. *)
Theorem declared_parents_that_resolve_are_linked
    (data : json) (scale : Float64.float) (h : host)
    (bone_map : Dict.t nat) (child parent : string) :
  fst (Improved.create_bones E data scale h) = inr bone_map ->
  one_parent_each E (bones_of data) ->
  declares E (bones_of data) child parent ->
  Dict.mem bone_map child = true ->
  Dict.mem bone_map parent = true ->
  linked (snd (Improved.create_bones E data scale h)) bone_map child parent.
Proof.
  intros Hr Hunique Hdecl Hc Hp.
  unfold Dict.mem in Hc, Hp.
  destruct (Dict.get bone_map child) as [c |] eqn:Hchild; [| discriminate].
  destruct (Dict.get bone_map parent) as [p |] eqn:Hparent; [| discriminate].
  exists c, p. split; [exact Hchild |]. split; [exact Hparent |].
  assert (Hpost :
            post (Improved.create_bones E data scale) h
              (fun r h' =>
                 forall m cc pp,
                   r = inr m ->
                   Dict.get m child = Some cc ->
                   Dict.get m parent = Some pp ->
                   Scene.parent_of h' cc = Some pp)).
  { unfold Improved.create_bones.
    assert (Hnil : forall h' (m : Dict.t nat) (cc pp : nat),
               inr [] = @inr exn _ m ->
               Dict.get m child = Some cc ->
               Dict.get m parent = Some pp ->
               Scene.parent_of h' cc = Some pp).
    { intros h' m cc pp Hm Hcc. inversion Hm. subst m. discriminate. }
    apply post_try, post_bind, post_lift.
    destruct (Py.get data "bones" (JList [])) as [e | bones_data] eqn:Hget;
      [apply post_bind, post_modify, post_bind, post_modify, post_ret, Hnil |].
    destruct (negb (Py.truthy bones_data));
      [apply post_bind, post_modify, post_ret, Hnil |].
    apply post_bind, post_lift.
    destruct (Py.len bones_data) as [e | n];
      [apply post_bind, post_modify, post_bind, post_modify, post_ret, Hnil |].
    apply post_bind, post_modify, post_bind, post_lift.
    destruct (Py.iter bones_data) as [e | bones] eqn:Hiter;
      [apply post_bind, post_modify, post_bind, post_modify, post_ret, Hnil |].
    assert (Hbones : bones_of data = bones)
      by (unfold bones_of; rewrite Hget, Hiter; reflexivity).
    apply post_bind.
    eapply post_weaken;
      [apply (pass1_creates Improved.bone_map nonempty_name
                (Improved.create_bone E scale)
                (improved_create_bone_fresh E scale));
       apply created_empty |].
    intros [e | st] h1 Hcreated;
      [apply post_bind, post_modify, post_bind, post_modify, post_ret, Hnil |].
    apply post_bind.
    destruct Hcreated as [Hall Hinj].
    assert (Hvalid : bones_are_nodes (Improved.bone_map st) (nodes h1)).
    { intros name i Hk. destruct (Hall name i Hk) as (_ & n0 & Hn0 & _).
      exists n0. exact Hn0. }
    unfold post at 1.
    destruct (for_each (Improved.link_bone E (Improved.bone_map st)) bones 0 h1)
      as [r h2] eqn:Hrun.
    cbn [fst snd].
    assert (Hk : exists k', r = inr k').
    { pose proof (pass2_links (declares_by E)
                    (Improved.link_bone E (Improved.bone_map st))
                    (Improved.bone_map st) Hinj
                    (improved_link_bone_declared E (Improved.bone_map st))
                    bones 0 h1
                    (created_resolved nonempty_name (declares_by E) bones _ _
                       (conj Hall Hinj))) as Hp2.
      unfold post in Hp2. rewrite Hrun in Hp2. exact (proj1 Hp2). }
    destruct Hk as [k' ->].
    apply post_bind, post_modify, post_ret.
    intros m cc pp Hm Hcc Hpp. inversion Hm. subst m.
    rewrite <- Hbones in *.
    pose proof (pass2_makes_the_link E (bones_of data) (Improved.bone_map st)
                  child parent cc pp Hinj Hcc Hpp Hdecl Hunique
                  (bones_of data) (fun b Hb => Hb) 0 h1 Hvalid) as Hlink.
    cbv zeta in Hlink. rewrite Hrun in Hlink. cbn [snd] in Hlink.
    unfold Scene.parent_of in *. cbn [nodes Scene.with_listener].
    apply Hlink. right. exact Hdecl. }
  unfold post in Hpost. apply (Hpost bone_map c p Hr Hchild Hparent).
Qed.

End LinkedParentsOfADocument.

Lemma declared_parents_that_resolve_are_linked_witness :
  linked
    (snd (Improved.create_bones Demo.platform0 (JDict Sample.still)
            Float64.f1 Demo.scene0))
    [("root", 0%nat); ("arm", 1%nat)] "arm" "root".
Proof.
  refine (declared_parents_that_resolve_are_linked Demo.platform0
            (JDict Sample.still) Float64.f1 Demo.scene0
            [("root", 0%nat); ("arm", 1%nat)] "arm" "root" _ _ _ _ _).
  - reflexivity.
  - intros b1 b2 name p1 p2 H1 H2 (nm1 & pn1 & Hn1 & Hp1 & Hs1 & Hq1 & Hne1)
      (nm2 & pn2 & Hn2 & Hp2 & Hs2 & Hq2 & Hne2).
    cbn in H1, H2.
    destruct H1 as [<- | [<- | []]]; destruct H2 as [<- | [<- | []]];
      cbn in Hn1, Hp1, Hn2, Hp2;
      inversion Hn1; inversion Hp1; inversion Hn2; inversion Hp2;
      subst; try reflexivity; discriminate.
  - exists (JDict Sample.arm). split; [right; left; reflexivity |].
    exists (JStr "arm"), (JStr "root"). repeat split; reflexivity.
  - reflexivity.
  - reflexivity.
Defined.

(* ===================================================================== *)
(** * The baker on a JSON animation section *)
(* ===================================================================== *)

Lemma keyed_same (h h' : host) b :
  nodes h' = nodes h -> keyed h h' b [] [].
Proof.
  intros Hn n Hb. exists n. rewrite Hn, !app_nil_r. auto.
Qed.

Lemma keyed_then (h h1 h2 : host) b pk1 rk1 pk2 rk2 :
  keyed h h1 b pk1 rk1 -> keyed h1 h2 b pk2 rk2 ->
  keyed h h2 b (pk1 ++ pk2) (rk1 ++ rk2).
Proof.
  intros H1 H2 n Hn.
  destruct (H1 n Hn) as (n1 & Hn1 & Hp1 & Hr1).
  destruct (H2 n1 Hn1) as (n2 & Hn2 & Hp2 & Hr2).
  exists n2. rewrite Hp2, Hr2, Hp1, Hr1, !app_assoc. auto.
Qed.

Lemma keyed_nodes (h h1 h' h1' : host) b pk rk :
  nodes h1 = nodes h -> nodes h1' = nodes h' ->
  keyed h h' b pk rk -> keyed h1 h1' b pk rk.
Proof.
  intros H1 H2 Hk n Hn. rewrite H1 in Hn. rewrite H2. apply Hk. exact Hn.
Qed.

Section Keyframes.

Variable E : platform.

Import Float64.

(** A keyframe that converts: the slider goes to the frame index and
    the key is written on the bone. *)
Lemma bake_translate_key bone frame h i p :
  Clips.translate_key E frame = Some (i, p) ->
  Improved.bake_translate E bone frame tt h
  = (inr tt,
     Scene.with_nodes (Scene.with_sliderTime h i)
       (Scene.update (nodes h) bone (Scene.set_pos i p))).
Proof.
  unfold Clips.translate_key, Clips.number, Improved.bake_translate,
    try_catch, bind, lift, Py.int_of_float.
  destruct (Py.get frame "time" (JInt 0)) as [e | vt]; [discriminate |].
  destruct (Py.to_float E vt) as [e | t]; [discriminate |].
  destruct (Py.get frame "x" (JInt 0)) as [e | vx]; [discriminate |].
  destruct (Py.to_float E vx) as [e | x]; [discriminate |].
  destruct (Py.get frame "y" (JInt 0)) as [e | vy]; [discriminate |].
  destruct (Py.to_float E vy) as [e | y]; [discriminate |].
  destruct (trunc (mul t f30)) as [z |]; [| discriminate].
  intros H. inversion H. reflexivity.
Qed.

(** A keyframe that does not convert: no key, one error line. *)
Lemma bake_translate_no_key bone frame h :
  Clips.translate_key E frame = None ->
  exists e,
    Improved.bake_translate E bone frame tt h
    = (inr tt, log h ERROR "position keyframe error: {}" [AExn e]).
Proof.
  unfold Clips.translate_key, Clips.number, Improved.bake_translate,
    try_catch, bind, lift, Py.int_of_float.
  destruct (Py.get frame "time" (JInt 0)) as [e | vt];
    [intros _; exists e; reflexivity |].
  destruct (Py.to_float E vt) as [e | t];
    [intros _; exists e; reflexivity |].
  destruct (trunc (mul t f30)) as [z |].
  - destruct (Py.get frame "x" (JInt 0)) as [e | vx];
      [intros _; exists e; reflexivity |].
    destruct (Py.to_float E vx) as [e | x];
      [intros _; exists e; reflexivity |].
    destruct (Py.get frame "y" (JInt 0)) as [e | vy];
      [intros _; exists e; reflexivity |].
    destruct (Py.to_float E vy) as [e | y];
      [intros _; exists e; reflexivity | discriminate].
  - intros _. destruct (mul t f30); eexists; reflexivity.
Qed.

Lemma bake_rotate_key bone frame h i a :
  Clips.rotate_key E frame = Some (i, a) ->
  Improved.bake_rotate E bone frame tt h
  = (inr tt,
     Scene.with_nodes (Scene.with_sliderTime h i)
       (Scene.update (nodes h) bone (Scene.set_rotation i a))).
Proof.
  unfold Clips.rotate_key, Clips.number, Improved.bake_rotate,
    try_catch, bind, lift, Py.int_of_float.
  destruct (Py.get frame "time" (JInt 0)) as [e | vt]; [discriminate |].
  destruct (Py.to_float E vt) as [e | t]; [discriminate |].
  destruct (Py.get frame "angle" (JInt 0)) as [e | va]; [discriminate |].
  destruct (Py.to_float E va) as [e | x]; [discriminate |].
  destruct (trunc (mul t f30)) as [z |]; [| discriminate].
  intros H. inversion H. reflexivity.
Qed.

Lemma bake_rotate_no_key bone frame h :
  Clips.rotate_key E frame = None ->
  exists e,
    Improved.bake_rotate E bone frame tt h
    = (inr tt, log h ERROR "rotation keyframe error: {}" [AExn e]).
Proof.
  unfold Clips.rotate_key, Clips.number, Improved.bake_rotate,
    try_catch, bind, lift, Py.int_of_float.
  destruct (Py.get frame "time" (JInt 0)) as [e | vt];
    [intros _; exists e; reflexivity |].
  destruct (Py.to_float E vt) as [e | t];
    [intros _; exists e; reflexivity |].
  destruct (trunc (mul t f30)) as [z |].
  - destruct (Py.get frame "angle" (JInt 0)) as [e | va];
      [intros _; exists e; reflexivity |].
    destruct (Py.to_float E va) as [e | x];
      [intros _; exists e; reflexivity | discriminate].
  - intros _. destruct (mul t f30); eexists; reflexivity.
Qed.

End Keyframes.

Section Tracks.

Variable E : platform.

Lemma keyed_update_pos h t i p b :
  keyed h
    (Scene.with_nodes (Scene.with_sliderTime h t)
       (Scene.update (nodes h) i (Scene.set_pos t p)))
    b (if Nat.eqb i b then [(t, p)] else []) [].
Proof.
  intros n Hn. cbn [nodes Scene.with_nodes].
  destruct (Nat.eqb_spec i b) as [-> | Hne].
  - exists (Scene.set_pos t p n).
    split; [apply update_nth_error; exact Hn |].
    split; [reflexivity | simpl; rewrite app_nil_r; reflexivity].
  - exists n. rewrite update_nth_error_other, !app_nil_r by exact Hne. auto.
Qed.

Lemma keyed_update_rot h t i a b :
  keyed h
    (Scene.with_nodes (Scene.with_sliderTime h t)
       (Scene.update (nodes h) i (Scene.set_rotation t a)))
    b [] (if Nat.eqb i b then [(t, a)] else []).
Proof.
  intros n Hn. cbn [nodes Scene.with_nodes].
  destruct (Nat.eqb_spec i b) as [-> | Hne].
  - exists (Scene.set_rotation t a n).
    split; [apply update_nth_error; exact Hn |].
    split; [simpl; rewrite app_nil_r; reflexivity | reflexivity].
  - exists n. rewrite update_nth_error_other, !app_nil_r by exact Hne. auto.
Qed.

(** A translate track, whatever its keyframes are: the loop returns,
    and the keys written on the bone are the keyframes that convert,
    each converted by itself, in order; no other node gets a key. *)
Lemma bake_translate_frames bone frames :
  forall h,
    let out := for_each (Improved.bake_translate E bone) frames tt h in
    fst out = inr tt
    /\ forall b,
         keyed h (snd out) b
           (if Nat.eqb bone b
            then Clips.keys_of (Clips.translate_key E) frames else [])
           [].
Proof.
  induction frames as [| frame frames IH]; intros h; cbv zeta.
  - split; [reflexivity |]. intros b.
    destruct (Nat.eqb bone b); apply keyed_same; reflexivity.
  - rewrite for_each_cons.
    destruct (Clips.translate_key E frame) as [[i p] |] eqn:Hkey.
    + rewrite (bake_translate_key E bone frame h i p Hkey).
      match goal with
      | |- context [for_each _ _ tt ?h1] =>
          destruct (IH h1) as [Hfst Hkeys]
      end.
      split; [exact Hfst |]. intros b.
      pose proof (keyed_then _ _ _ b _ _ _ _
                    (keyed_update_pos h i bone p b) (Hkeys b)) as Hk.
      unfold Clips.keys_of in *. cbn [flat_map]. rewrite Hkey.
      destruct (Nat.eqb bone b); exact Hk.
    + destruct (bake_translate_no_key E bone frame h Hkey) as [e ->].
      match goal with
      | |- context [for_each _ _ tt ?h1] =>
          destruct (IH h1) as [Hfst Hkeys]
      end.
      split; [exact Hfst |]. intros b.
      unfold Clips.keys_of in *. cbn [flat_map]. rewrite Hkey.
      cbn [app]. apply (keyed_nodes _ h _ _ b _ _ eq_refl eq_refl) in Hkeys.
      exact Hkeys.
Qed.

Lemma bake_rotate_frames bone frames :
  forall h,
    let out := for_each (Improved.bake_rotate E bone) frames tt h in
    fst out = inr tt
    /\ forall b,
         keyed h (snd out) b []
           (if Nat.eqb bone b
            then Clips.keys_of (Clips.rotate_key E) frames else []).
Proof.
  induction frames as [| frame frames IH]; intros h; cbv zeta.
  - split; [reflexivity |]. intros b.
    destruct (Nat.eqb bone b); apply keyed_same; reflexivity.
  - rewrite for_each_cons.
    destruct (Clips.rotate_key E frame) as [[i a] |] eqn:Hkey.
    + rewrite (bake_rotate_key E bone frame h i a Hkey).
      match goal with
      | |- context [for_each _ _ tt ?h1] =>
          destruct (IH h1) as [Hfst Hkeys]
      end.
      split; [exact Hfst |]. intros b.
      pose proof (keyed_then _ _ _ b _ _ _ _
                    (keyed_update_rot h i bone a b) (Hkeys b)) as Hk.
      unfold Clips.keys_of in *. cbn [flat_map]. rewrite Hkey.
      destruct (Nat.eqb bone b); exact Hk.
    + destruct (bake_rotate_no_key E bone frame h Hkey) as [e ->].
      match goal with
      | |- context [for_each _ _ tt ?h1] =>
          destruct (IH h1) as [Hfst Hkeys]
      end.
      split; [exact Hfst |]. intros b.
      unfold Clips.keys_of in *. cbn [flat_map]. rewrite Hkey.
      cbn [app]. apply (keyed_nodes _ h _ _ b _ _ eq_refl eq_refl) in Hkeys.
      exact Hkeys.
Qed.

End Tracks.

Lemma bind_run {A B} (m : M A) (k : A -> M B) h a h1 :
  m h = (inr a, h1) -> bind m k h = k a h1.
Proof. unfold bind. intros ->. reflexivity. Qed.

Lemma run_pair {A} (m : M A) h a :
  fst (m h) = inr a -> m h = (inr a, snd (m h)).
Proof. destruct (m h) as [r h']. simpl. intros ->. reflexivity. Qed.

Section BoneTracks.

Variable E : platform.
Variable bone_map : Dict.t nat.

(** The translate channel of the tracks of a bone. *)
Lemma bake_translate_channel bone name kv h :
  Clips.listed kv "translate" = true ->
  exists has_t h1,
    Py.contains "translate" (JDict kv) = inr has_t
    /\ (if has_t : bool then
          Improved.debug_print (Msg "processing position animation of {}"
                                    [AStr name]) INFO ;;
          frames <- lift (Py.index (JDict kv) "translate") ;;
          fs <- lift (Py.iter frames) ;;
          for_each (Improved.bake_translate E bone) fs tt
        else ret tt) h = (inr tt, h1)
    /\ forall b,
         keyed h h1 b
           (if Nat.eqb bone b
            then Clips.keys_of (Clips.translate_key E)
                   (Clips.keyframes (JDict kv) "translate")
            else [])
           [].
Proof.
  unfold Clips.listed, Clips.keyframes, Py.contains, Dict.mem.
  destruct (Dict.get kv "translate") as [[| | | | | fs |] |] eqn:Hget;
    try discriminate; intros _.
  - exists true. eexists. split; [reflexivity |].
    destruct (bake_translate_frames E bone fs
                (log h INFO "processing position animation of {}" [AStr name]))
      as [Hfst Hkeys].
    split.
    + apply run_pair. unfold bind, lift, Py.index, Improved.debug_print,
        Rt.print, modify. rewrite Hget. exact Hfst.
    + intros b. unfold bind, lift, Py.index, Improved.debug_print,
        Rt.print, modify. rewrite Hget. exact (Hkeys b).
  - exists false, h. split; [reflexivity |].
    split; [reflexivity |]. intros b.
    destruct (Nat.eqb bone b); apply keyed_same; reflexivity.
Qed.

Lemma bake_rotate_channel bone name kv h :
  Clips.listed kv "rotate" = true ->
  exists has_r h1,
    Py.contains "rotate" (JDict kv) = inr has_r
    /\ (if has_r : bool then
          Improved.debug_print (Msg "processing rotation animation of {}"
                                    [AStr name]) INFO ;;
          frames <- lift (Py.index (JDict kv) "rotate") ;;
          fs <- lift (Py.iter frames) ;;
          for_each (Improved.bake_rotate E bone) fs tt
        else ret tt) h = (inr tt, h1)
    /\ forall b,
         keyed h h1 b []
           (if Nat.eqb bone b
            then Clips.keys_of (Clips.rotate_key E)
                   (Clips.keyframes (JDict kv) "rotate")
            else []).
Proof.
  unfold Clips.listed, Clips.keyframes, Py.contains, Dict.mem.
  destruct (Dict.get kv "rotate") as [[| | | | | fs |] |] eqn:Hget;
    try discriminate; intros _.
  - exists true. eexists. split; [reflexivity |].
    destruct (bake_rotate_frames E bone fs
                (log h INFO "processing rotation animation of {}" [AStr name]))
      as [Hfst Hkeys].
    split.
    + apply run_pair. unfold bind, lift, Py.index, Improved.debug_print,
        Rt.print, modify. rewrite Hget. exact Hfst.
    + intros b. unfold bind, lift, Py.index, Improved.debug_print,
        Rt.print, modify. rewrite Hget. exact (Hkeys b).
  - exists false, h. split; [reflexivity |].
    split; [reflexivity |]. intros b.
    destruct (Nat.eqb bone b); apply keyed_same; reflexivity.
Qed.

(** The tracks of one bone of a clip: [bake_bone] returns, and the keys
    it writes on a node are those of the translate and of the rotate
    keyframes when the track names that node, and none otherwise. *)
Lemma bake_bone_tracks name kv h :
  Clips.listed kv "translate" = true ->
  Clips.listed kv "rotate" = true ->
  let out := Improved.bake_bone E bone_map (name, JDict kv) tt h in
  fst out = inr tt
  /\ forall b,
       keyed h (snd out) b
         (Clips.position_keys_of_tracks E bone_map b (name, JDict kv))
         (Clips.rotation_keys_of_tracks E bone_map b (name, JDict kv)).
Proof.
  intros Ht Hr. cbv zeta.
  unfold Improved.bake_bone, Clips.position_keys_of_tracks,
    Clips.rotation_keys_of_tracks, Clips.names.
  cbn [fst snd].
  destruct (Dict.get bone_map (Improved.safe_str E (JStr name)))
    as [bone |].
  - destruct (bake_translate_channel bone (Improved.safe_str E (JStr name))
                kv h Ht) as (has_t & h1 & Hc1 & Hrun1 & Hk1).
    destruct (bake_rotate_channel bone (Improved.safe_str E (JStr name))
                kv h1 Hr) as (has_r & h2 & Hc2 & Hrun2 & Hk2).
    rewrite Hc1, Hc2.
    rewrite (bind_run (lift _) _ h _ h eq_refl).
    rewrite (bind_run _ _ _ _ _ Hrun1).
    rewrite (bind_run (lift _) _ h1 _ h1 eq_refl), Hrun2.
    split; [reflexivity |]. intros b.
    pose proof (keyed_then _ _ _ b _ _ _ _ (Hk1 b) (Hk2 b)) as Hk.
    rewrite app_nil_r in Hk. exact Hk.
  - split; [reflexivity |]. intros b. apply keyed_same. reflexivity.
Qed.

End BoneTracks.

Section ClipTracks.

Variable E : platform.
Variable bone_map : Dict.t nat.

Lemma tracks_ok_listed bone_anim :
  Clips.tracks_ok E bone_anim = true ->
  exists kv,
    bone_anim = JDict kv
    /\ Clips.listed kv "translate" = true
    /\ Clips.listed kv "rotate" = true
    /\ Clips.listed kv "scale" = true.
Proof.
  destruct bone_anim as [| | | | | | kv]; try discriminate.
  unfold Clips.tracks_ok, channels. cbn [forallb].
  rewrite !andb_true_iff. intros [(Ht & Hr & Hs & _) _].
  exists kv. auto.
Qed.

Lemma bake_bones_tracks (bs : list (string * json)) :
  forallb (fun b => Clips.tracks_ok E (snd b)) bs = true ->
  forall h,
    let out := for_each (Improved.bake_bone E bone_map) bs tt h in
    fst out = inr tt
    /\ forall b,
         keyed h (snd out) b
           (flat_map (Clips.position_keys_of_tracks E bone_map b) bs)
           (flat_map (Clips.rotation_keys_of_tracks E bone_map b) bs).
Proof.
  induction bs as [| [name bone_anim] bs IH]; intros Hok h; cbv zeta.
  - split; [reflexivity |]. intros b. apply keyed_same. reflexivity.
  - cbn [forallb snd] in Hok. apply andb_true_iff in Hok.
    destruct Hok as [Hone Hrest].
    destruct (tracks_ok_listed bone_anim Hone) as (kv & -> & Ht & Hr & _).
    rewrite for_each_cons.
    destruct (bake_bone_tracks E bone_map name kv h Ht Hr) as [Hfst Hk1].
    rewrite (run_pair _ _ _ Hfst).
    match goal with
    | |- context [for_each _ bs tt ?h1] =>
        destruct (IH Hrest h1) as [Hfst2 Hk2]
    end.
    split; [exact Hfst2 |]. intros b. cbn [flat_map].
    apply (keyed_then _ _ _ b _ _ _ _ (Hk1 b) (Hk2 b)).
Qed.

(** One clip: [bake_clip] returns with one more clip counted, and the
    keys it writes on a node are those of the tracks that name it. *)
Lemma bake_clip_tracks name clip n h :
  Clips.clip_ok E clip = true ->
  let out := Improved.bake_clip E bone_map (name, clip) n h in
  fst out = inr (n + 1)
  /\ forall b,
       keyed h (snd out) b
         (flat_map (Clips.position_keys_of_tracks E bone_map b)
            (Clips.tracks clip))
         (flat_map (Clips.rotation_keys_of_tracks E bone_map b)
            (Clips.tracks clip)).
Proof.
  intros Hok. cbv zeta.
  assert (Hbones :
            exists bs,
              Py.get clip "bones" (JDict []) = inr (JDict bs)
              /\ Clips.tracks clip = bs
              /\ forallb (fun b => Clips.tracks_ok E (snd b)) bs = true).
  { destruct clip as [| | | | | | ckv]; try discriminate.
    unfold Clips.clip_ok in Hok. unfold Clips.tracks, Py.get.
    destruct (Dict.get ckv "bones") as [[| | | | | | bs] |];
      try discriminate.
    - exists bs. auto.
    - exists []. auto. }
  destruct Hbones as (bs & Hget & Htracks & Hall).
  rewrite Htracks.
  unfold Improved.bake_clip, bind, lift, Improved.debug_print, Rt.print,
    modify, ret.
  cbn [fst snd]. rewrite Hget. cbn [Py.items].
  match goal with
  | |- context [for_each _ bs tt ?h1] =>
      destruct (bake_bones_tracks bs Hall h1) as [Hfst Hk];
      rewrite (run_pair _ _ _ Hfst)
  end.
  split; [reflexivity |]. intros b. exact (Hk b).
Qed.

Lemma bake_clips_tracks (cs : list (string * json)) :
  forallb (fun c => Clips.clip_ok E (snd c)) cs = true ->
  forall n h,
    let out := for_each (Improved.bake_clip E bone_map) cs n h in
    fst out = inr (n + Z.of_nat (List.length cs))
    /\ forall b,
         keyed h (snd out) b
           (flat_map (fun c => flat_map
                                 (Clips.position_keys_of_tracks E bone_map b)
                                 (Clips.tracks (snd c))) cs)
           (flat_map (fun c => flat_map
                                 (Clips.rotation_keys_of_tracks E bone_map b)
                                 (Clips.tracks (snd c))) cs).
Proof.
  induction cs as [| [name clip] cs IH]; intros Hok n h; cbv zeta.
  - split; [simpl; f_equal; lia |]. intros b. apply keyed_same. reflexivity.
  - cbn [forallb snd] in Hok. apply andb_true_iff in Hok.
    destruct Hok as [Hone Hrest].
    rewrite for_each_cons.
    destruct (bake_clip_tracks name clip n h Hone) as [Hfst Hk1].
    rewrite (run_pair _ _ _ Hfst).
    match goal with
    | |- context [for_each _ cs ?n1 ?h1] =>
        destruct (IH Hrest n1 h1) as [Hfst2 Hk2]
    end.
    split.
    + rewrite Hfst2. f_equal. cbn [List.length]. lia.
    + intros b. cbn [flat_map snd].
      apply (keyed_then _ _ _ b _ _ _ _ (Hk1 b) (Hk2 b)).
Qed.

End ClipTracks.

(* ===================================================================== *)
(** * The duration scan on a JSON animation section *)
(* ===================================================================== *)

Section ScanTracks.

Variable E : platform.

Lemma scan_frame_timed frame acc h :
  Clips.timed E frame = true ->
  Improved.scan_frame E frame acc h
  = (inr (PyNum.max acc (Clips.timeSeconds E frame)), h).
Proof.
  unfold Clips.timed, Clips.timeSeconds, Clips.number, Improved.scan_frame,
    bind, lift.
  destruct (Py.get frame "time" (JInt 0)) as [e | v]; [discriminate |].
  destruct (Py.to_float E v) as [e | t]; [discriminate | reflexivity].
Qed.

Lemma scan_frames frames :
  forallb (Clips.timed E) frames = true ->
  forall acc h,
    for_each (Improved.scan_frame E) frames acc h
    = (inr (fold_left PyNum.max (map (Clips.timeSeconds E) frames) acc), h).
Proof.
  induction frames as [| frame frames IH]; intros Hok acc h;
    [reflexivity |].
  cbn [forallb] in Hok. apply andb_true_iff in Hok. destruct Hok as [H1 H2].
  rewrite for_each_cons, (scan_frame_timed frame acc h H1).
  cbn [map fold_left]. apply IH. exact H2.
Qed.

Lemma scan_channel_listed kv channel acc h :
  Clips.listed kv channel = true ->
  forallb (Clips.timed E) (Clips.keyframes (JDict kv) channel) = true ->
  Improved.scan_channel E (JDict kv) channel acc h
  = (inr (fold_left PyNum.max
            (map (Clips.timeSeconds E) (Clips.keyframes (JDict kv) channel))
            acc), h).
Proof.
  unfold Clips.listed, Clips.keyframes, Improved.scan_channel, bind, lift,
    Py.contains, Dict.mem, Py.index.
  destruct (Dict.get kv channel) as [[| | | | | fs |] |];
    try discriminate; intros _ Hok; [| reflexivity].
  cbn [Py.iter]. apply scan_frames. exact Hok.
Qed.

Lemma scan_channels kv (chs : list string) :
  forallb (Clips.listed kv) chs = true ->
  forallb (fun channel =>
             forallb (Clips.timed E) (Clips.keyframes (JDict kv) channel))
    chs = true ->
  forall acc h,
    for_each (Improved.scan_channel E (JDict kv)) chs acc h
    = (inr (fold_left PyNum.max
              (flat_map (fun channel =>
                           map (Clips.timeSeconds E)
                             (Clips.keyframes (JDict kv) channel)) chs)
              acc), h).
Proof.
  induction chs as [| ch chs IH]; intros Hl Ht acc h; [reflexivity |].
  cbn [forallb] in Hl, Ht. apply andb_true_iff in Hl, Ht.
  destruct Hl as [Hl1 Hl2]. destruct Ht as [Ht1 Ht2].
  rewrite for_each_cons, (scan_channel_listed kv ch acc h Hl1 Ht1).
  cbn [flat_map]. rewrite fold_left_app. apply IH; assumption.
Qed.

Lemma scan_bone_tracks name bone_anim acc h :
  Clips.tracks_ok E bone_anim = true ->
  Improved.scan_bone E (name, bone_anim) acc h
  = (inr (fold_left PyNum.max (Clips.times_of_tracks E bone_anim) acc), h).
Proof.
  destruct bone_anim as [| | | | | | kv]; try discriminate.
  unfold Clips.tracks_ok. rewrite andb_true_iff. intros [Hl Ht].
  unfold Improved.scan_bone, Clips.times_of_tracks. cbn [snd].
  apply scan_channels; assumption.
Qed.

Lemma scan_bones (bs : list (string * json)) :
  forallb (fun b => Clips.tracks_ok E (snd b)) bs = true ->
  forall acc h,
    for_each (Improved.scan_bone E) bs acc h
    = (inr (fold_left PyNum.max
              (flat_map (fun b => Clips.times_of_tracks E (snd b)) bs) acc),
       h).
Proof.
  induction bs as [| [name bone_anim] bs IH]; intros Hok acc h;
    [reflexivity |].
  cbn [forallb snd] in Hok. apply andb_true_iff in Hok.
  destruct Hok as [H1 H2].
  rewrite for_each_cons, (scan_bone_tracks name bone_anim acc h H1).
  cbn [flat_map snd]. rewrite fold_left_app. apply IH. exact H2.
Qed.

Lemma scan_clip_ok name clip acc h :
  Clips.clip_ok E clip = true ->
  Improved.scan_clip E (name, clip) acc h
  = (inr (fold_left PyNum.max (Clips.times_of_clip E clip) acc), h).
Proof.
  destruct clip as [| | | | | | ckv]; try discriminate.
  unfold Clips.clip_ok, Clips.times_of_clip, Clips.tracks,
    Improved.scan_clip, bind, lift, Py.get.
  cbn [snd].
  destruct (Dict.get ckv "bones") as [[| | | | | | bs] |];
    try discriminate; intros Hok; [| reflexivity].
  cbn [Py.items]. apply scan_bones. exact Hok.
Qed.

(** The scan over the clips of a well-formed section returns the
    running maximum of its times, and changes nothing. *)
Lemma scan_clips (cs : list (string * json)) :
  forallb (fun c => Clips.clip_ok E (snd c)) cs = true ->
  forall acc h,
    for_each (Improved.scan_clip E) cs acc h
    = (inr (fold_left PyNum.max
              (flat_map (fun c => Clips.times_of_clip E (snd c)) cs) acc),
       h).
Proof.
  induction cs as [| [name clip] cs IH]; intros Hok acc h; [reflexivity |].
  cbn [forallb snd] in Hok. apply andb_true_iff in Hok.
  destruct Hok as [H1 H2].
  rewrite for_each_cons, (scan_clip_ok name clip acc h H1).
  cbn [flat_map snd]. rewrite fold_left_app. apply IH. exact H2.
Qed.

End ScanTracks.

(* ===================================================================== *)
(** * The animation import on a document with a source *)
(* ===================================================================== *)

Lemma with_listener_same h : Scene.with_listener h (listener h ++ []) = h.
Proof. destruct h. unfold Scene.with_listener. simpl. rewrite app_nil_r. reflexivity. Qed.

Section Source.

Variable E : platform.

(** The fallback scan prints and does nothing else. *)
Lemma find_animations_listens data keys :
  forall a h,
    exists lines,
      snd (Improved.find_animations data keys a h)
      = Scene.with_listener h (listener h ++ lines).
Proof.
  induction keys as [| key keys IH]; intros a h.
  - exists []. rewrite with_listener_same. reflexivity.
  - cbn [Improved.find_animations].
    destruct (PyStr.contains "anim" (PyStr.lower key)
              || PyStr.contains "motion" (PyStr.lower key)); [| apply IH].
    unfold bind, Improved.debug_print, Rt.print, modify, lift.
    destruct (Py.get data key (JDict [])) as [e | v].
    + eexists. reflexivity.
    + destruct (Py.truthy v).
      * eexists. reflexivity.
      * match goal with
        | |- context [Improved.find_animations data keys v ?h1] =>
            destruct (IH v h1) as [lines Hl]
        end.
        rewrite Hl. eexists.
        unfold Scene.with_listener. cbn [listener bitmaps nodes
          animationRange sliderTime selection].
        rewrite <- app_assoc. reflexivity.
Qed.

(** The animation source of a document is what [import_animation]
    takes its clips from; locating it prints and does nothing else. *)
Lemma locate_source (kv : list (string * json)) (v : json) h :
  NoDup (Dict.keys kv) ->
  animation_source kv = Some v ->
  Py.truthy v = true
  /\ exists lines,
       Improved.locate_animations (JDict kv) h
       = (inr v, Scene.with_listener h (listener h ++ lines)).
Proof.
  intros Hnd. unfold animation_source.
  destruct (Py.truthy (primary_animations kv)) eqn:Hprimary.
  - intros Hv. inversion Hv. subst v. split; [exact Hprimary |].
    exists []. rewrite with_listener_same.
    unfold primary_animations in *.
    unfold Improved.locate_animations, bind, lift, Py.get.
    rewrite Hprimary. reflexivity.
  - destruct (fallback_source kv) as [[k v0] |] eqn:Hfb; [| discriminate].
    intros Hv. inversion Hv. subst v0. clear Hv.
    split.
    + apply find_some in Hfb. destruct Hfb as [_ Hfb].
      apply andb_true_iff in Hfb. apply Hfb.
    + unfold primary_animations in Hprimary.
      unfold Improved.locate_animations, bind, lift, Py.get, Py.keys,
        Improved.debug_print, Rt.print, modify.
      rewrite Hprimary. cbv beta iota delta [negb].
      match goal with
      | |- context [Improved.find_animations (JDict kv) (Dict.keys kv)
                      ?a ?h1] =>
          pose proof (find_animations_first kv k v Hnd kv []
                        eq_refl Hfb a h1) as Hfst;
          destruct (find_animations_listens (JDict kv) (Dict.keys kv) a h1)
            as [lines Hsnd];
          destruct (Improved.find_animations (JDict kv) (Dict.keys kv)
                      a h1) as [r h2]
      end.
      cbn [fst snd] in *. subst r h2. eexists.
      unfold Scene.with_listener. cbn [listener bitmaps nodes
        animationRange sliderTime selection].
      rewrite <- app_assoc. reflexivity.
Qed.

Lemma well_formed_clips v :
  Clips.well_formed E v = true ->
  exists cs,
    v = JDict cs
    /\ forallb (fun c => Clips.clip_ok E (snd c)) cs = true.
Proof.
  destruct v as [| | | | | | cs]; try discriminate.
  intros H. exists cs. auto.
Qed.

(** With a well-formed source whose running maximum has a frame count,
    the import sets the time line, bakes every clip and rewinds. *)
Lemma import_animation_baked
    (kv : list (string * json)) (v : json) (bone_map : Dict.t nat)
    (h : host) (frames : Z) :
  NoDup (Dict.keys kv) ->
  animation_source kv = Some v ->
  Clips.well_formed E v = true ->
  PyNum.int_times_30 (running_max (Clips.times E v)) = inr frames ->
  post (Improved.import_animation E (JDict kv) bone_map) h
    (fun r h' =>
       r = inr tt
       /\ animationRange h' = (0, frames + 10)
       /\ sliderTime h' = 0
       /\ (forall b,
             keyed h h' b (Clips.position_keys E bone_map b v)
               (Clips.rotation_keys E bone_map b v))
       /\ exists before,
            listener h'
            = (before
               ++ [Entry INFO
                     (Msg "animation import finished: {} animations"
                        [AInt (Z.of_nat (List.length (Clips.clips v)))])])%list).
Proof.
  intros Hnd Hsrc Hwf Hframes.
  destruct (well_formed_clips v Hwf) as (cs & -> & Hcs).
  unfold Improved.import_animation.
  apply post_try, post_bind, post_modify, post_bind.
  match goal with
  | |- post _ ?h0 _ =>
      destruct (locate_source kv (JDict cs) h0 Hnd Hsrc)
        as (Htruthy & lines & Hloc)
  end.
  eapply post_eq; [exact Hloc |].
  cbv beta iota. rewrite Htruthy. cbn [negb Py.len Py.keys Py.items].
  apply post_bind, post_lift, post_bind, post_modify, post_bind, post_lift,
    post_bind, post_modify, post_bind, post_lift, post_bind.
  eapply post_eq; [apply (scan_clips E cs Hcs) |].
  cbv beta iota.
  change (fold_left PyNum.max
            (flat_map (fun c => Clips.times_of_clip E (snd c)) cs) (PInt 0))
    with (running_max (Clips.times E (JDict cs))).
  rewrite Hframes.
  apply post_bind, post_lift, post_bind, post_modify, post_bind, post_modify,
    post_bind, post_modify, post_bind.
  match goal with
  | |- post (for_each ?body cs 0) ?h0 _ =>
      destruct (bake_clips_tracks E bone_map cs Hcs 0 h0) as [Hfst Hkeys];
      pose proof (keeps_for_each animationRange body
                    (bake_clip_keeps_range E bone_map) cs 0 h0) as Hrange;
      unfold post;
      destruct (for_each body cs 0 h0) as [[e | n] h1]; [discriminate Hfst |]
  end.
  cbn [fst snd] in *. inversion Hfst. subst n.
  apply post_bind, post_modify, post_modify.
  split; [reflexivity |]. split; [exact Hrange |]. split; [reflexivity |].
  split.
  - intros b. apply (keyed_nodes _ h _ _ b _ _ eq_refl eq_refl (Hkeys b)).
  - eexists. cbn [listener Scene.with_listener Scene.with_sliderTime
      Clips.clips]. reflexivity.
Qed.

(** When the frame count of the running maximum does not exist, the
    import reports the exception and leaves the scene as it was. *)
Lemma import_animation_overflow
    (kv : list (string * json)) (v : json) (bone_map : Dict.t nat)
    (h : host) (e : exn) :
  NoDup (Dict.keys kv) ->
  animation_source kv = Some v ->
  Clips.well_formed E v = true ->
  PyNum.int_times_30 (running_max (Clips.times E v)) = inl e ->
  post (Improved.import_animation E (JDict kv) bone_map) h
    (fun r h' =>
       r = inr tt
       /\ beside_listener h' = beside_listener h
       /\ exists before,
            listener h'
            = (before
               ++ [Entry ERROR (Msg "animation import failed: {}" [AExn e]);
                   Entry ERROR (Msg "details: {}" [AExn e])])%list).
Proof.
  intros Hnd Hsrc Hwf Hframes.
  destruct (well_formed_clips v Hwf) as (cs & -> & Hcs).
  unfold Improved.import_animation.
  apply post_try, post_bind, post_modify, post_bind.
  match goal with
  | |- post _ ?h0 _ =>
      destruct (locate_source kv (JDict cs) h0 Hnd Hsrc)
        as (Htruthy & lines & Hloc)
  end.
  eapply post_eq; [exact Hloc |].
  cbv beta iota. rewrite Htruthy. cbn [negb Py.len Py.keys Py.items].
  apply post_bind, post_lift, post_bind, post_modify, post_bind, post_lift,
    post_bind, post_modify, post_bind, post_lift, post_bind.
  eapply post_eq; [apply (scan_clips E cs Hcs) |].
  cbv beta iota.
  change (fold_left PyNum.max
            (flat_map (fun c => Clips.times_of_clip E (snd c)) cs) (PInt 0))
    with (running_max (Clips.times E (JDict cs))).
  rewrite Hframes.
  apply post_bind, post_lift, post_bind, post_modify, post_modify.
  split; [reflexivity |]. split; [reflexivity |].
  eexists. cbn [listener Scene.with_listener]. symmetry.
  apply (app_assoc _ [_] [_]).
Qed.

End Source.

(* ===================================================================== *)
(** * The baker does not look at the listener *)
(* ===================================================================== *)

Section Blind.

Lemma blind_ret {A} (a : A) : blind (ret a).
Proof. intros h1 h2 H. split; [reflexivity | exact H]. Qed.

Lemma blind_raise {A} (e : exn) : blind (@raise A e).
Proof. intros h1 h2 H. split; [reflexivity | exact H]. Qed.

Lemma blind_lift {A} (r : exn + A) : blind (lift r).
Proof. intros h1 h2 H. split; [reflexivity | exact H]. Qed.

Lemma blind_bind {A B} (m : M A) (k : A -> M B) :
  blind m -> (forall a, blind (k a)) -> blind (bind m k).
Proof.
  intros Hm Hk h1 h2 H. unfold bind.
  destruct (Hm h1 h2 H) as [Hr Hs].
  destruct (m h1) as [[e1 | a1] h1'], (m h2) as [[e2 | a2] h2'];
    cbn [fst snd] in *; try discriminate.
  - inversion Hr. subst e2. split; [reflexivity | exact Hs].
  - inversion Hr. subst a2. apply Hk. exact Hs.
Qed.

Lemma blind_try {A} (m : M A) (handler : exn -> M A) :
  blind m -> (forall e, blind (handler e)) -> blind (try_catch m handler).
Proof.
  intros Hm Hk h1 h2 H. unfold try_catch.
  destruct (Hm h1 h2 H) as [Hr Hs].
  destruct (m h1) as [[e1 | a1] h1'], (m h2) as [[e2 | a2] h2'];
    cbn [fst snd] in *; try discriminate.
  - inversion Hr. subst e2. apply Hk. exact Hs.
  - split; [exact Hr | exact Hs].
Qed.

Lemma blind_for_each {X S} (body : X -> S -> M S) :
  (forall x s, blind (body x s)) ->
  forall xs s, blind (for_each body xs s).
Proof.
  intros Hbody. induction xs as [| x xs IH]; intros s.
  - apply blind_ret.
  - simpl. apply blind_bind; [apply Hbody | exact IH].
Qed.

Lemma blind_print l m : blind (Rt.print l m).
Proof. intros h1 h2 H. split; [reflexivity | exact H]. Qed.

Lemma blind_set_sliderTime t : blind (Rt.set_sliderTime t).
Proof.
  intros h1 h2 H. split; [reflexivity |].
  unfold alike, beside_listener in *. cbn. congruence.
Qed.

Lemma blind_set_animationRange a b : blind (Rt.set_animationRange a b).
Proof.
  intros h1 h2 H. split; [reflexivity |].
  unfold alike, beside_listener in *. cbn. congruence.
Qed.

Lemma blind_set_pos i p : blind (Rt.set_pos i p).
Proof.
  intros h1 h2 H. split; [reflexivity |].
  unfold alike, beside_listener in *. cbn.
  injection H as Hb Hn Hr Hs Hsel. congruence.
Qed.

Lemma blind_set_rotation i a : blind (Rt.set_rotation i a).
Proof.
  intros h1 h2 H. split; [reflexivity |].
  unfold alike, beside_listener in *. cbn.
  injection H as Hb Hn Hr Hs Hsel. congruence.
Qed.

End Blind.

(** Decompose a goal [blind m] along the structure of [m]. *)
Ltac blind_struct :=
  repeat (intros;
          lazymatch goal with
          | |- blind (bind _ _) => apply blind_bind
          | |- blind (try_catch _ _) => apply blind_try
          | |- blind (for_each _ _ _) => apply blind_for_each
          | |- blind (ret _) => apply blind_ret
          | |- blind (raise _) => apply blind_raise
          | |- blind (lift _) => apply blind_lift
          | |- blind (Rt.print _ _) => apply blind_print
          | |- blind (Improved.debug_print _ _) => apply blind_print
          | |- blind (Rt.set_sliderTime _) => apply blind_set_sliderTime
          | |- blind (Rt.set_animationRange _ _) =>
              apply blind_set_animationRange
          | |- blind (Rt.set_pos _ _) => apply blind_set_pos
          | |- blind (Rt.set_rotation _ _) => apply blind_set_rotation
          | |- blind (if ?b then _ else _) => destruct b
          | |- blind (match ?x with _ => _ end) => destruct x
          | |- blind _ => fail
          end).

Section BlindBaker.

Variable E : platform.

Lemma scan_clip_blind item acc : blind (Improved.scan_clip E item acc).
Proof.
  unfold Improved.scan_clip. blind_struct.
  unfold Improved.scan_bone. blind_struct.
  unfold Improved.scan_channel. blind_struct.
  unfold Improved.scan_frame. blind_struct.
Qed.

Lemma bake_clip_blind bone_map item n :
  blind (Improved.bake_clip E bone_map item n).
Proof.
  unfold Improved.bake_clip. blind_struct.
  destruct x as [bone_name bone_anim].
  unfold Improved.bake_bone. blind_struct;
    unfold Improved.bake_translate, Improved.bake_rotate; blind_struct.
Qed.

(** [import_animation] takes its clips from the animation source of
    the document: it ends as it does on the document that holds the
    source under the primary key, the listener apart. *)
Lemma import_animation_from_source
    (kv : list (string * json)) (v : json) (bone_map : Dict.t nat)
    (h : host) :
  NoDup (Dict.keys kv) ->
  animation_source kv = Some v ->
  let found := Improved.import_animation E (JDict kv) bone_map h in
  let direct :=
    Improved.import_animation E (JDict [("animations", v)]) bone_map h in
  fst found = fst direct
  /\ beside_listener (snd found) = beside_listener (snd direct).
Proof.
  intros Hnd Hsrc. cbv zeta.
  assert (Hv : Py.truthy v = true)
    by (apply (locate_source kv v h Hnd Hsrc)).
  assert (Hsrc2 : animation_source [("animations", v)] = Some v)
    by (unfold animation_source, primary_animations; cbn; rewrite Hv;
        reflexivity).
  assert (Hnd2 : NoDup (Dict.keys [("animations", v)]))
    by (repeat constructor; intros []).
  unfold Improved.import_animation.
  match goal with
  | |- context [bind (Improved.locate_animations (JDict kv)) ?K] =>
      set (rest := K)
  end.
  match goal with
  | |- context [try_catch _ ?H] => set (handler := H)
  end.
  assert (Hblind : blind (try_catch (rest v) handler)).
  { subst rest handler. cbv beta. rewrite Hv. cbn [negb].
    blind_struct; auto using scan_clip_blind, bake_clip_blind. }
  assert (Hrun : forall kv0 h0,
             NoDup (Dict.keys kv0) ->
             animation_source kv0 = Some v ->
             exists h1,
               alike h1 h0
               /\ try_catch
                    (Improved.debug_print
                       (Msg "analysing animation data structure..." []) INFO ;;
                     bind (Improved.locate_animations (JDict kv0)) rest)
                    handler h0
                  = try_catch (rest v) handler h1).
  { intros kv0 h0 Hnd0 Hsrc0.
    destruct (locate_source kv0 v
                (log h0 INFO "analysing animation data structure..." [])
                Hnd0 Hsrc0) as (_ & lines & Hloc).
    eexists. split; [| unfold try_catch, bind at 1 2,
                         Improved.debug_print, Rt.print, modify;
                       fold (log h0 INFO
                               "analysing animation data structure..." []);
                       rewrite Hloc; reflexivity].
    reflexivity. }
  destruct (Hrun kv h Hnd Hsrc) as (h1 & Hh1 & ->).
  destruct (Hrun [("animations", v)] h Hnd2 Hsrc2) as (h2 & Hh2 & ->).
  apply Hblind. unfold alike in *. congruence.
Qed.

End BlindBaker.

(* ===================================================================== *)
(** * The duration of the baked time line *)
(* ===================================================================== *)

Section FrameCount.

Import Float64 Float64Facts.

Lemma int_of_float_finite f :
  is_finite f = true ->
  exists z, trunc f = Some z /\ Py.int_of_float f = inr z.
Proof.
  unfold Py.int_of_float.
  destruct f as [s | s | | s m e]; try discriminate; intros _;
    eexists; split; reflexivity.
Qed.

Lemma int_of_float_not_finite f :
  is_finite f = false ->
  trunc f = None /\ exists e, Py.int_of_float f = inl e.
Proof.
  unfold Py.int_of_float.
  destruct f as [s | s | | s m e]; try discriminate; intros _;
    (split; [reflexivity | eexists; reflexivity]).
Qed.

Lemma floor_ceil_finite f :
  is_finite f = true -> exists fl c, floor f = Some fl /\ ceil f = Some c.
Proof.
  destruct f as [s | s | | s m e]; try discriminate; intros _;
    do 2 eexists; split; reflexivity.
Qed.

Lemma max_zero_nonneg m :
  is_finite m = true -> nonneg (Py.max zero m) = true.
Proof.
  intros Hm. unfold Py.max.
  destruct (ltb zero m) eqn:Hlt; [| reflexivity].
  apply above_zero_nonneg; assumption.
Qed.

(** The frame count of the running maximum is [int(max(0, m) * 30)] for
    the maximum [m] of the times. *)
Lemma running_max_int (ts : list float) (m : float) :
  Doc.all_finite ts ->
  Doc.is_maximum m ts ->
  PyNum.int_times_30 (running_max ts)
  = Py.int_of_float (mul (Py.max zero m) f30).
Proof.
  intros Hfin [Hin Hmax].
  destruct (fold_max_spec ts Hfin (PInt 0) eq_refl) as (Hf & _ & Hall & Hor).
  fold (running_max ts) in *. unfold Doc.all_finite in Hfin.
  rewrite Forall_forall in Hall, Hmax, Hfin.
  change (PyNum.to_float (PInt 0)) with zero in *.
  destruct Hor as [Hr | (f & Hr & Hinf & Hpos)]; rewrite Hr in *.
  - change (PyNum.to_float (PInt 0)) with zero in Hall.
    unfold Py.max. fold ltb. rewrite (Hall m Hin). reflexivity.
  - change (PyNum.to_float (PFloat f)) with f in *.
    assert (Hfm : f = m).
    { apply above_zero_antisym; auto.
      pose proof (Hmax f Hinf) as Hle.
      rewrite leb_ltb in Hle by auto.
      destruct (ltb m f); [discriminate | reflexivity]. }
    subst f. unfold Py.max. fold ltb. rewrite Hpos. reflexivity.
Qed.

(** With no time at all the frame count is 0. *)
Lemma running_max_nil : PyNum.int_times_30 (running_max []) = inr 0.
Proof. reflexivity. Qed.

(** The frame count, when the product is finite, is its floor. *)
Lemma clamped_frames m :
  is_finite m = true ->
  is_finite (mul (Py.max zero m) f30) = true ->
  exists fl,
    floor (mul (Py.max zero m) f30) = Some fl
    /\ Py.int_of_float (mul (Py.max zero m) f30) = inr fl.
Proof.
  intros Hm Hp.
  destruct (int_of_float_finite _ Hp) as (z & Hz & Hint).
  exists z. split; [| exact Hint].
  rewrite <- trunc_floor_nonneg; [exact Hz |].
  apply mul_nonneg; [apply max_zero_nonneg; exact Hm | reflexivity | exact Hp].
Qed.

Lemma maximum_finite m ts :
  Doc.all_finite ts -> Doc.is_maximum m ts -> is_finite m = true.
Proof.
  intros Hfin [Hin _]. unfold Doc.all_finite in Hfin.
  rewrite Forall_forall in Hfin. auto.
Qed.

Lemma clamp_finite m :
  nonneg m = true ->
  is_finite (mul (Py.max zero m) f30) = is_finite (mul m f30).
Proof.
  intros Hm. destruct m as [s | s | | [|] mm e]; try discriminate;
    reflexivity.
Qed.

End FrameCount.

Section Duration.

Variable E : platform.

Import Float64 Float64Facts.

(** The time line [import_animation] leaves, by the frame count of the
    running maximum of the times of the source. *)
Lemma import_animation_time_line
    (kv : list (string * json)) (v : json) (bone_map : Dict.t nat)
    (h : host) :
  NoDup (Dict.keys kv) ->
  animation_source kv = Some v ->
  Clips.well_formed E v = true ->
  let h' := snd (Improved.import_animation E (JDict kv) bone_map h) in
  match PyNum.int_times_30 (running_max (Clips.times E v)) with
  | inr frames => animationRange h' = (0, frames + 10) /\ sliderTime h' = 0
  | inl e =>
      beside_listener h' = beside_listener h
      /\ exists before,
           listener h'
           = (before
              ++ [Entry ERROR (Msg "animation import failed: {}" [AExn e]);
                  Entry ERROR (Msg "details: {}" [AExn e])])%list
  end.
Proof.
  intros Hnd Hsrc Hwf. cbv zeta.
  destruct (PyNum.int_times_30 (running_max (Clips.times E v)))
    as [e | frames] eqn:Hframes.
  - destruct (import_animation_overflow E kv v bone_map h e Hnd Hsrc Hwf
                Hframes) as (_ & Hb & Hl).
    split; assumption.
  - destruct (import_animation_baked E kv v bone_map h frames Hnd Hsrc Hwf
                Hframes) as (_ & Hr & Hs & _).
    split; assumption.
Qed.

End Duration.

Section DurationClaims.

Variable E : platform.

Import Float64 Float64Facts.

(** C1 (as amended).  Take a document whose animation source (the value
    of the primary key or, failing that, of the fallback key) is a
    well-formed section: an object of clips, each an object whose
    [bones], when present, is an object of tracks, each track an object
    whose translate, rotate and scale channels, when present, are lists
    of keyframes whose time, 0 when absent, is a number; and let the
    keyframe times be finite.  With [maxTime] the maximum time over
    every translate, rotate and scale keyframe of every bone of every
    clip, the time line [import_animation] sets runs from 0 to
    [floor(max(0, maxTime) * 30) + 10] whenever that product is a
    finite double: the running maximum starts at 0.  For a maximum that
    is not below zero this is [floor(maxTime * 30) + 10]; with no
    keyframe it is the padding, 10.  When the product overflows,
    [int()] raises: the time line and the nodes are left as they were
    and the exception is reported. *)
Theorem duration_is_floor_of_clamped_maximum
    (kv : list (string * json)) (v : json) (bone_map : Dict.t nat)
    (h : host) :
  NoDup (Dict.keys kv) ->
  animation_source kv = Some v ->
  Clips.well_formed E v = true ->
  Doc.all_finite (Clips.times E v) ->
  let h' := snd (Improved.import_animation E (JDict kv) bone_map h) in
  (Clips.times E v = [] -> animationRange h' = (0, 10))
  /\ (forall m,
        Doc.is_maximum m (Clips.times E v) ->
        is_finite (mul (Py.max zero m) f30) = true ->
        exists fl,
          floor (mul (Py.max zero m) f30) = Some fl
          /\ animationRange h' = (0, fl + 10))
  /\ (forall m,
        Doc.is_maximum m (Clips.times E v) ->
        nonneg m = true ->
        is_finite (mul m f30) = true ->
        exists fl,
          floor (mul m f30) = Some fl
          /\ animationRange h' = (0, fl + 10))
  /\ (forall m,
        Doc.is_maximum m (Clips.times E v) ->
        is_finite (mul (Py.max zero m) f30) = false ->
        animationRange h' = animationRange h
        /\ nodes h' = nodes h
        /\ exists e before,
             listener h'
             = (before
                ++ [Entry ERROR (Msg "animation import failed: {}" [AExn e]);
                    Entry ERROR (Msg "details: {}" [AExn e])])%list).
Proof.
  intros Hnd Hsrc Hwf Hfin h'.
  pose proof (import_animation_time_line E kv v bone_map h Hnd Hsrc Hwf)
    as Hline.
  cbv zeta in Hline. fold h' in Hline.
  assert (Hclamped :
            forall m,
              Doc.is_maximum m (Clips.times E v) ->
              is_finite (mul (Py.max zero m) f30) = true ->
              exists fl,
                floor (mul (Py.max zero m) f30) = Some fl
                /\ animationRange h' = (0, fl + 10)).
  { intros m Hm Hp.
    destruct (clamped_frames m (maximum_finite m _ Hfin Hm) Hp)
      as (fl & Hfl & Hint).
    exists fl. split; [exact Hfl |].
    rewrite (running_max_int _ m Hfin Hm), Hint in Hline.
    apply Hline. }
  split; [| split; [exact Hclamped | split]].
  - intros Hts. rewrite Hts, running_max_nil in Hline. apply Hline.
  - intros m Hm Hnn Hp.
    rewrite <- (clamp_finite m Hnn) in Hp.
    destruct (Hclamped m Hm Hp) as (fl & Hfl & Hr).
    exists fl. split; [| exact Hr].
    rewrite <- (clamp_nonneg m Hnn). exact Hfl.
  - intros m Hm Hp.
    destruct (int_of_float_not_finite _ Hp) as (_ & e & Hint).
    rewrite (running_max_int _ m Hfin Hm), Hint in Hline.
    destruct Hline as (Hb & before & Hl).
    unfold beside_listener in Hb.
    split; [congruence |]. split; [congruence |].
    exists e, before. exact Hl.
Qed.

(** C5 (as amended).  For a document with a well-formed animation
    source and finite keyframe times whose maximum is not below zero
    and, times 30, is a finite double, the duration is
    [floor(maxTime * 30) + 10].  It is at most [ceil(maxTime * 30) + 10]
    and equals it only when [maxTime * 30] is a whole number of
    frames. *)
Theorem duration_is_floor_not_ceiling
    (kv : list (string * json)) (v : json) (bone_map : Dict.t nat)
    (h : host) (m : float) :
  NoDup (Dict.keys kv) ->
  animation_source kv = Some v ->
  Clips.well_formed E v = true ->
  Doc.all_finite (Clips.times E v) ->
  Doc.is_maximum m (Clips.times E v) ->
  nonneg m = true ->
  is_finite (mul m f30) = true ->
  let h' := snd (Improved.import_animation E (JDict kv) bone_map h) in
  exists fl c,
    floor (mul m f30) = Some fl
    /\ ceil (mul m f30) = Some c
    /\ durationFrames h' = fl + 10
    /\ durationFrames h' <= c + 10
    /\ (durationFrames h' = c + 10 <-> integral (mul m f30) = true).
Proof.
  intros Hnd Hsrc Hwf Hfin Hm Hnn Hp h'.
  destruct (floor_ceil_finite _ Hp) as (fl & c & Hfl & Hc).
  exists fl, c. split; [exact Hfl |]. split; [exact Hc |].
  assert (Hd : durationFrames h' = fl + 10).
  { pose proof (import_animation_time_line E kv v bone_map h Hnd Hsrc Hwf)
      as Hline.
    cbv zeta in Hline. fold h' in Hline.
    assert (Hp' : is_finite (mul (Py.max zero m) f30) = true)
      by (rewrite (clamp_finite m Hnn); exact Hp).
    destruct (clamped_frames m (maximum_finite m _ Hfin Hm) Hp')
      as (fl' & Hfl' & Hint).
    rewrite (clamp_nonneg m Hnn), Hfl in Hfl'. inversion Hfl'. subst fl'.
    rewrite (running_max_int _ m Hfin Hm), Hint in Hline.
    unfold durationFrames. rewrite (proj1 Hline). reflexivity. }
  destruct (floor_le_ceil _ _ _ Hfl Hc) as [Hle Hiff].
  rewrite Hd. split; [reflexivity |]. split; [lia |].
  rewrite <- Hiff. lia.
Qed.

End DurationClaims.

(** Scenario B: translate keys at 0, 1 and 2 seconds give 70 frames. *)
Lemma duration_is_floor_of_clamped_maximum_witness :
  animationRange
    (snd (Improved.import_animation Demo.platform0
            (JDict (Demo.document Demo.scenario_B)) [] Demo.scene0))
  = (0, 60 + 10).
Proof.
  destruct (proj1 (proj2 (proj2
              (duration_is_floor_of_clamped_maximum Demo.platform0
                 (Demo.document Demo.scenario_B)
                 (Doc.json_of_animations Demo.scenario_B) [] Demo.scene0
                 ltac:(repeat constructor; simpl; intuition discriminate)
                 eq_refl eq_refl ltac:(repeat constructor))))
              (Float64.of_Z 2)
              ltac:(split; [simpl; auto | repeat constructor])
              eq_refl eq_refl)
    as (fl & Hfl & Hrange).
  vm_compute in Hfl. inversion Hfl. subst fl. exact Hrange.
Defined.

Lemma duration_is_floor_not_ceiling_witness :
  durationFrames
    (snd (Improved.import_animation Demo.platform0
            (JDict (Demo.document Demo.quarter_second)) [] Demo.scene0))
  = 7 + 10.
Proof.
  destruct (duration_is_floor_not_ceiling Demo.platform0
              (Demo.document Demo.quarter_second)
              (Doc.json_of_animations Demo.quarter_second) [] Demo.scene0
              Demo.quarter
              ltac:(repeat constructor; simpl; intuition discriminate)
              eq_refl eq_refl ltac:(repeat constructor)
              ltac:(split; [simpl; auto | repeat constructor])
              eq_refl eq_refl)
    as (fl & c & Hfl & _ & Hd & _).
  vm_compute in Hfl. inversion Hfl. subst fl. exact Hd.
Defined.

(** A key at the finite time 2^1023: the product with 30 is not a
    finite double, [int()] raises and the time line stays as it was. *)
Lemma duration_is_unset_when_the_product_overflows :
  let huge := Demo.one_track [Demo.key (Doc.NInt (2 ^ 1023))] in
  Doc.all_finite (Clips.times Demo.platform0 (Doc.json_of_animations huge))
  /\ animationRange
       (snd (Improved.import_animation Demo.platform0
               (JDict (Demo.document huge)) [] Demo.scene0))
     = (0, 100).
Proof.
  cbv zeta. split; [| vm_compute; reflexivity].
  vm_compute. repeat constructor.
Qed.

(* ===================================================================== *)
(** * Keyframes are converted one by one *)
(* ===================================================================== *)

Section BakedKeys.

Variable E : platform.

Import Float64 Float64Facts.

Lemma frame_index_of t :
  is_finite (mul t f30) = true ->
  exists i,
    trunc (mul t f30) = Some i
    /\ (nonneg t = true -> floor (mul t f30) = Some i).
Proof.
  intros Hp. destruct (int_of_float_finite _ Hp) as (i & Hi & _).
  exists i. split; [exact Hi |]. intros Hnn.
  rewrite <- trunc_floor_nonneg; [exact Hi |].
  apply mul_nonneg; [exact Hnn | reflexivity | exact Hp].
Qed.

Lemma translate_key_of frame t x y i :
  Clips.number E frame "time" = inr t ->
  Clips.number E frame "x" = inr x ->
  Clips.number E frame "y" = inr y ->
  trunc (mul t f30) = Some i ->
  Clips.translate_key E frame
  = Some (i, Point3 (mul x f0_01) (mul (opp y) f0_01) zero).
Proof.
  intros Ht Hx Hy Hi. unfold Clips.translate_key.
  rewrite Ht, Hx, Hy, Hi. reflexivity.
Qed.

Lemma rotate_key_of frame t a i :
  Clips.number E frame "time" = inr t ->
  Clips.number E frame "angle" = inr a ->
  trunc (mul t f30) = Some i ->
  Clips.rotate_key E frame = Some (i, radToDeg E a).
Proof.
  intros Ht Ha Hi. unfold Clips.rotate_key. rewrite Ht, Ha, Hi. reflexivity.
Qed.

Lemma no_key_without_index frame t :
  Clips.number E frame "time" = inr t ->
  is_finite (mul t f30) = false ->
  Clips.translate_key E frame = None /\ Clips.rotate_key E frame = None.
Proof.
  intros Ht Hp. destruct (int_of_float_not_finite _ Hp) as (Hnone & _).
  unfold Clips.translate_key, Clips.rotate_key. rewrite Ht, Hnone.
  split.
  - destruct (Clips.number E frame "x"), (Clips.number E frame "y");
      reflexivity.
  - destruct (Clips.number E frame "angle"); reflexivity.
Qed.

(** The node of a bone after a track has been baked on it. *)
Lemma keyed_bone h h' bone pk rk n :
  nth_error (nodes h) bone = Some n ->
  keyed h h' bone pk rk ->
  exists n',
    nth_error (nodes h') bone = Some n'
    /\ n_pos_keys n' = (n_pos_keys n ++ pk)%list
    /\ n_rot_keys n' = (n_rot_keys n ++ rk)%list.
Proof. intros Hn Hk. apply Hk. exact Hn. Qed.

(** C4 (as amended).  Each keyframe is converted by itself, whatever
    the scene and the other keyframes are.  A translate keyframe whose
    time, x and y, each 0 when absent, are numbers and whose time times
    30 is a finite double is baked as the key
    [(int(time * 30), (x * 0.01, -y * 0.01, 0))], and a rotate keyframe
    as [(int(time * 30), radToDeg(angle))]; [int] truncates toward
    zero, which is the floor for a time that is not below zero.  A
    keyframe that cannot be converted so (a value that is no number, a
    product that is no finite double) writes no key and is reported as
    an error.  The keys written on a bone by a track are the keys of
    its keyframes that convert, in the order of the track, after the
    keys the bone had. *)
Theorem keyframes_are_baked_one_by_one
    (bone : nat) (frames : list json) (h : host) (n : node) :
  nth_error (nodes h) bone = Some n ->
  (exists n',
     nth_error
       (nodes (snd (for_each (Improved.bake_translate E bone) frames tt h)))
       bone = Some n'
     /\ n_pos_keys n'
        = (n_pos_keys n ++ Clips.keys_of (Clips.translate_key E) frames)%list
     /\ n_rot_keys n' = n_rot_keys n)
  /\ (exists n',
        nth_error
          (nodes (snd (for_each (Improved.bake_rotate E bone) frames tt h)))
          bone = Some n'
        /\ n_rot_keys n'
           = (n_rot_keys n ++ Clips.keys_of (Clips.rotate_key E) frames)%list
        /\ n_pos_keys n' = n_pos_keys n)
  /\ (forall frame t x y,
        Clips.number E frame "time" = inr t ->
        Clips.number E frame "x" = inr x ->
        Clips.number E frame "y" = inr y ->
        is_finite (mul t f30) = true ->
        exists frameIndex,
          trunc (mul t f30) = Some frameIndex
          /\ (nonneg t = true -> floor (mul t f30) = Some frameIndex)
          /\ Clips.translate_key E frame
             = Some (frameIndex,
                     Point3 (mul x f0_01) (mul (opp y) f0_01) zero)
          /\ forall h0,
               Improved.bake_translate E bone frame tt h0
               = (inr tt,
                  Scene.with_nodes (Scene.with_sliderTime h0 frameIndex)
                    (Scene.update (nodes h0) bone
                       (Scene.set_pos frameIndex
                          (Point3 (mul x f0_01) (mul (opp y) f0_01) zero)))))
  /\ (forall frame t a,
        Clips.number E frame "time" = inr t ->
        Clips.number E frame "angle" = inr a ->
        is_finite (mul t f30) = true ->
        exists frameIndex,
          trunc (mul t f30) = Some frameIndex
          /\ (nonneg t = true -> floor (mul t f30) = Some frameIndex)
          /\ Clips.rotate_key E frame = Some (frameIndex, radToDeg E a)
          /\ forall h0,
               Improved.bake_rotate E bone frame tt h0
               = (inr tt,
                  Scene.with_nodes (Scene.with_sliderTime h0 frameIndex)
                    (Scene.update (nodes h0) bone
                       (Scene.set_rotation frameIndex (radToDeg E a)))))
  /\ (forall frame h0,
        Clips.translate_key E frame = None ->
        exists e,
          Improved.bake_translate E bone frame tt h0
          = (inr tt, log h0 ERROR "position keyframe error: {}" [AExn e]))
  /\ (forall frame h0,
        Clips.rotate_key E frame = None ->
        exists e,
          Improved.bake_rotate E bone frame tt h0
          = (inr tt, log h0 ERROR "rotation keyframe error: {}" [AExn e]))
  /\ (forall frame t,
        Clips.number E frame "time" = inr t ->
        is_finite (mul t f30) = false ->
        Clips.translate_key E frame = None
        /\ Clips.rotate_key E frame = None).
Proof.
  intros Hn.
  split; [| split; [| split; [| split; [| split; [| split]]]]].
  - destruct (bake_translate_frames E bone frames h) as [_ Hk].
    destruct (keyed_bone _ _ _ _ _ _ Hn (Hk bone)) as (n' & Hn' & Hp & Hr).
    rewrite Nat.eqb_refl in Hp. rewrite app_nil_r in Hr.
    exists n'. auto.
  - destruct (bake_rotate_frames E bone frames h) as [_ Hk].
    destruct (keyed_bone _ _ _ _ _ _ Hn (Hk bone)) as (n' & Hn' & Hp & Hr).
    rewrite Nat.eqb_refl in Hr. rewrite app_nil_r in Hp.
    exists n'. auto.
  - intros frame t x y Ht Hx Hy Hp.
    destruct (frame_index_of t Hp) as (i & Hi & Hfloor).
    exists i. split; [exact Hi |]. split; [exact Hfloor |].
    pose proof (translate_key_of frame t x y i Ht Hx Hy Hi) as Hkey.
    split; [exact Hkey |]. intros h0.
    apply bake_translate_key. exact Hkey.
  - intros frame t a Ht Ha Hp.
    destruct (frame_index_of t Hp) as (i & Hi & Hfloor).
    exists i. split; [exact Hi |]. split; [exact Hfloor |].
    pose proof (rotate_key_of frame t a i Ht Ha Hi) as Hkey.
    split; [exact Hkey |]. intros h0.
    apply bake_rotate_key. exact Hkey.
  - intros frame h0. apply bake_translate_no_key.
  - intros frame h0. apply bake_rotate_no_key.
  - apply no_key_without_index.
Qed.

(** X17.  The tracks of one bone of the bone map, when they are an
    object whose translate and rotate channels are lists or absent:
    [bake_bone] returns and has written, after the keys the bone had,
    the keys of the translate keyframes and of the rotate keyframes that
    convert, each converted by itself and in the order of its track.  A
    keyframe that does not convert writes no key, a scale track writes
    nothing, and no other node gets a key. *)
Theorem bake_bone_writes_the_tracks
    (bone_map : Dict.t nat) (name : string) (kv : list (string * json))
    (bone : nat) (h : host) (n : node) :
  Dict.get bone_map (Improved.safe_str E (JStr name)) = Some bone ->
  nth_error (nodes h) bone = Some n ->
  Clips.listed kv "translate" = true ->
  Clips.listed kv "rotate" = true ->
  let out := Improved.bake_bone E bone_map (name, JDict kv) tt h in
  fst out = inr tt
  /\ (exists n',
        nth_error (nodes (snd out)) bone = Some n'
        /\ n_pos_keys n'
           = (n_pos_keys n
              ++ Clips.keys_of (Clips.translate_key E)
                   (Clips.keyframes (JDict kv) "translate"))%list
        /\ n_rot_keys n'
           = (n_rot_keys n
              ++ Clips.keys_of (Clips.rotate_key E)
                   (Clips.keyframes (JDict kv) "rotate"))%list)
  /\ (forall b n0,
        b <> bone ->
        nth_error (nodes h) b = Some n0 ->
        exists n0',
          nth_error (nodes (snd out)) b = Some n0'
          /\ n_pos_keys n0' = n_pos_keys n0
          /\ n_rot_keys n0' = n_rot_keys n0).
Proof.
  intros Hbone Hn Ht Hr. cbv zeta.
  destruct (bake_bone_tracks E bone_map name kv h Ht Hr) as [Hfst Hk].
  split; [exact Hfst |]. split.
  - destruct (keyed_bone _ _ _ _ _ _ Hn (Hk bone)) as (n' & Hn' & Hp & Hq).
    unfold Clips.position_keys_of_tracks, Clips.rotation_keys_of_tracks,
      Clips.names in Hp, Hq.
    cbn [fst snd] in Hp, Hq. rewrite Hbone, Nat.eqb_refl in Hp, Hq.
    exists n'. auto.
  - intros b n0 Hne Hn0.
    destruct (keyed_bone _ _ _ _ _ _ Hn0 (Hk b)) as (n' & Hn' & Hp & Hq).
    unfold Clips.position_keys_of_tracks, Clips.rotation_keys_of_tracks,
      Clips.names in Hp, Hq.
    cbn [fst snd] in Hp, Hq. rewrite Hbone in Hp, Hq.
    destruct (Nat.eqb_spec bone b) as [Heq | _]; [congruence |].
    rewrite app_nil_r in Hp, Hq. exists n'. auto.
Qed.

End BakedKeys.

Lemma keyframes_are_baked_one_by_one_witness :
  exists n',
    nth_error
      (nodes (snd (for_each (Improved.bake_translate Demo.platform0 0)
                     [JDict [("x", JInt 100); ("time", JInt 1)];
                      JDict [("time", JStr "soon")];
                      JDict [("time", JInt 2); ("y", JInt 100)]]
                     tt Demo.one_bone_scene))) 0%nat = Some n'
    /\ n_pos_keys n'
       = (n_pos_keys Demo.bone0
          ++ Clips.keys_of (Clips.translate_key Demo.platform0)
               [JDict [("x", JInt 100); ("time", JInt 1)];
                JDict [("time", JStr "soon")];
                JDict [("time", JInt 2); ("y", JInt 100)]])%list
    /\ n_rot_keys n' = n_rot_keys Demo.bone0.
Proof.
  refine (proj1 (keyframes_are_baked_one_by_one Demo.platform0 0
                   [JDict [("x", JInt 100); ("time", JInt 1)];
                    JDict [("time", JStr "soon")];
                    JDict [("time", JInt 2); ("y", JInt 100)]]
                   Demo.one_bone_scene Demo.bone0 _)).
  reflexivity.
Defined.

Lemma bake_bone_writes_the_tracks_witness :
  fst (Improved.bake_bone Demo.platform0 [("root", 0%nat)]
         ("root",
          JDict [("rotate", JList [JDict [("angle", JInt 1)]]);
                 ("translate",
                  JList [JDict [("time", JInt 1); ("x", JInt 100)]])])
         tt Demo.one_bone_scene)
  = inr tt.
Proof.
  refine (proj1 (bake_bone_writes_the_tracks Demo.platform0
                   [("root", 0%nat)] "root"
                   [("rotate", JList [JDict [("angle", JInt 1)]]);
                    ("translate",
                     JList [JDict [("time", JInt 1); ("x", JInt 100)]])]
                   0%nat Demo.one_bone_scene Demo.bone0 _ _ _ _));
    reflexivity.
Defined.

(* ===================================================================== *)
(** * The fallback animation source *)
(* ===================================================================== *)

Section FallbackSource.

Variable E : platform.

(** C8.  With the primary [animations] key absent or empty, the baker
    scans the top-level keys in order and takes, as its animation
    source, the value of the first key that contains "anim" or "motion",
    in any case, and is not empty.  It works on that value as on the
    value of the primary key: the scene it leaves is, the listener
    apart, the scene it leaves on the document that holds the value
    under [animations]; and when the value is a well-formed section
    whose frame count exists, the time line is set from its keyframe
    times and the keys of its tracks are written on the bones they
    name.  When
    there is no such key it prints a warning and returns with the scene
    untouched but for the listener; it never raises, so the import goes
    on. *)
Theorem fallback_animation_source
    (kv : list (string * json)) (bone_map : Dict.t nat) (h : host) :
  NoDup (Dict.keys kv) ->
  Py.truthy (primary_animations kv) = false ->
  let h' := snd (Improved.import_animation E (JDict kv) bone_map h) in
  (forall k v,
     fallback_source kv = Some (k, v) ->
     fst (Improved.locate_animations (JDict kv) h) = inr v
     /\ beside_listener h'
        = beside_listener
            (snd (Improved.import_animation E (JDict [("animations", v)])
                    bone_map h))
     /\ forall frames,
          Clips.well_formed E v = true ->
          PyNum.int_times_30 (running_max (Clips.times E v)) = inr frames ->
          animationRange h' = (0, frames + 10)
          /\ sliderTime h' = 0
          /\ (forall b,
                keyed h h' b (Clips.position_keys E bone_map b v)
                  (Clips.rotation_keys E bone_map b v))
          /\ exists before,
               listener h'
               = (before
                  ++ [Entry INFO
                        (Msg "animation import finished: {} animations"
                           [AInt (Z.of_nat (List.length (Clips.clips v)))])])%list)
  /\ (fallback_source kv = None ->
      Improved.import_animation E (JDict kv) bone_map h
      = (inr tt,
         Scene.with_listener h
           (listener h
            ++ [Entry INFO (Msg "analysing animation data structure..." []);
                Entry INFO (Msg "looking for other animation keys..." [])]
            ++ possible_key_lines (Dict.keys kv)
            ++ [Entry WARNING (Msg "no animation data found" [])])))
  /\ (forall data,
        fst (Improved.import_animation E data bone_map h) = inr tt).
Proof.
  intros Hnd Hprimary h'.
  split; [| split].
  - intros k v Hfb.
    assert (Hsrc : animation_source kv = Some v)
      by (unfold animation_source; rewrite Hprimary, Hfb; reflexivity).
    split.
    + destruct (locate_source kv v h Hnd Hsrc) as (_ & lines & Hloc).
      rewrite Hloc. reflexivity.
    + split; [apply (import_animation_from_source E kv v bone_map h Hnd Hsrc) |].
      intros frames Hwf Hframes.
      destruct (import_animation_baked E kv v bone_map h frames Hnd Hsrc
                  Hwf Hframes) as (_ & Hrange & Hslider & Hkeys & Hlast).
      auto.
  - intros Hfb. unfold primary_animations in Hprimary.
    unfold Improved.import_animation, try_catch, Improved.locate_animations,
      bind, lift, Py.get, Py.keys, Improved.debug_print, Rt.print, modify.
    rewrite Hprimary. cbv beta iota delta [negb].
    match goal with
    | |- context [Improved.find_animations (JDict kv) (Dict.keys kv) ?a ?h0] =>
        destruct (find_animations_none kv (Dict.keys kv) a h0
                    (fallback_none_all kv Hfb) Hprimary) as [a' [Hrun Ha']]
    end.
    rewrite Hrun, Ha'. simpl.
    unfold Scene.with_listener. simpl. rewrite <- !app_assoc. reflexivity.
  - intros data. apply import_animation_returns.
Qed.

End FallbackSource.

(** The clip of scenario B under [Animation_Data]: 70 frames, and the
    three keys on the root bone. *)
Lemma fallback_animation_source_witness :
  let out :=
    Improved.import_animation Demo.platform0 (JDict clips_elsewhere)
      [("root", 0%nat)] Demo.one_bone_scene in
  animationRange (snd out) = (0, 60 + 10)
  /\ map fst (Clips.position_keys Demo.platform0 [("root", 0%nat)] 0
                (Doc.json_of_animations Demo.scenario_B))
     = [0; 30; 60]
  /\ keyed Demo.one_bone_scene (snd out) 0
       (Clips.position_keys Demo.platform0 [("root", 0%nat)] 0
          (Doc.json_of_animations Demo.scenario_B))
       (Clips.rotation_keys Demo.platform0 [("root", 0%nat)] 0
          (Doc.json_of_animations Demo.scenario_B)).
Proof.
  cbv zeta.
  destruct (proj2 (proj2 (proj1 (fallback_animation_source Demo.platform0
                            clips_elsewhere [("root", 0%nat)]
                            Demo.one_bone_scene
                            ltac:(repeat constructor; simpl;
                                  intuition discriminate)
                            eq_refl)
                     "Animation_Data"
                     (Doc.json_of_animations Demo.scenario_B) eq_refl))
              60 eq_refl eq_refl)
    as (Hrange & _ & Hkeys & _).
  split; [exact Hrange |]. split; [reflexivity | exact (Hkeys 0%nat)].
Defined.

(* ===================================================================== *)
(** * The time line after an import *)
(* ===================================================================== *)

Section TimeLine.

Variable E : platform.
Variables json_path atlas_path texture_dir : string.
Variable scale : Float64.float.

Import Float64.

Lemma no_source kv :
  animation_source kv = None ->
  Py.truthy (primary_animations kv) = false /\ fallback_source kv = None.
Proof.
  unfold animation_source.
  destruct (Py.truthy (primary_animations kv)); [discriminate |].
  destruct (fallback_source kv); [discriminate | auto].
Qed.

(** X12.  The time line after [import_spine] has built the scene of a
    document (valid paths, slots a list of objects); the time slider is
    at frame 0 in every case.  With no animation source in the document
    the time line is the one set before the animation import, 0 to 100.
    With a well-formed source with finite keyframe times it runs from 0
    to [floor(max(0, maxTime) * 30) + 10], [maxTime] being the maximum
    of the times, when that product is a finite double, and to 10 when
    there is no keyframe; when the product is not finite the time line
    stays 0 to 100. *)
Theorem import_spine_sets_the_time_line
    (h : host) (kv : list (string * json)) (slots : list json) :
  fst (Improved.validate_file_path E json_path "JSON file") = true ->
  fst (Improved.validate_file_path E atlas_path "Atlas file") = true ->
  fst (Improved.validate_file_path E texture_dir "texture directory") = true ->
  load_json E json_path = inr (JDict kv) ->
  Py.get (JDict kv) "slots" (JList []) = inr (JList slots) ->
  Forall is_object slots ->
  let h' :=
    snd (Improved.import_spine E json_path atlas_path texture_dir scale h) in
  (animation_source kv = None ->
   animationRange h' = (0, 100) /\ sliderTime h' = 0)
  /\ (forall v,
        NoDup (Dict.keys kv) ->
        animation_source kv = Some v ->
        Clips.well_formed E v = true ->
        Doc.all_finite (Clips.times E v) ->
        (Clips.times E v = [] ->
         animationRange h' = (0, 10) /\ sliderTime h' = 0)
        /\ (forall m,
              Doc.is_maximum m (Clips.times E v) ->
              sliderTime h' = 0
              /\ if is_finite (mul (Py.max zero m) f30)
                 then exists fl,
                        floor (mul (Py.max zero m) f30) = Some fl
                        /\ animationRange h' = (0, fl + 10)
                 else animationRange h' = (0, 100))).
Proof.
  intros Hv1 Hv2 Hv3 Hjson Hslots Hobj. cbv zeta.
  destruct (import_spine_stages E json_path atlas_path texture_dir scale
              h (JDict kv) slots Hv1 Hv2 Hv3 Hjson Hslots Hobj)
    as (textures & h1 & bone_map & h2 & h3 & h4
        & _ & _ & _ & Hrun4 & Hrun).
  rewrite Hrun. cbn [snd].
  assert (Hfinal : forall r s,
             animationRange h4 = r -> sliderTime h4 = s ->
             animationRange
               (log match bone_map with
                    | [] => h4
                    | _ => Scene.with_selection h4 (Dict.values bone_map)
                    end INFO "=== Spine import finished ===" []) = r
             /\ sliderTime
                  (log match bone_map with
                       | [] => h4
                       | _ => Scene.with_selection h4 (Dict.values bone_map)
                       end INFO "=== Spine import finished ===" []) = s).
  { intros r s Hr Hs. destruct bone_map; split; assumption. }
  split.
  - intros Hnone. destruct (no_source kv Hnone) as [Hprimary Hfb].
    match type of Hrun4 with
    | Improved.import_animation _ _ _ ?hh = _ =>
        destruct (import_animation_without_source E kv bone_map hh
                    Hprimary Hfb) as (l & Hrun4')
    end.
    rewrite Hrun4' in Hrun4. inversion Hrun4. subst h4.
    apply Hfinal; reflexivity.
  - intros v Hnd Hsrc Hwf Hfin.
    match type of Hrun4 with
    | Improved.import_animation _ _ _ ?hh = _ =>
        pose proof (import_animation_time_line E kv v bone_map hh
                      Hnd Hsrc Hwf) as Hline
    end.
    cbv zeta in Hline. rewrite Hrun4 in Hline. cbn [snd] in Hline.
    split.
    + intros Hts. rewrite Hts, running_max_nil in Hline.
      apply Hfinal; apply Hline.
    + intros m Hm.
      rewrite (running_max_int _ m Hfin Hm) in Hline.
      destruct (is_finite (mul (Py.max zero m) f30)) eqn:Hp.
      * destruct (clamped_frames m (maximum_finite m _ Hfin Hm) Hp)
          as (fl & Hfl & Hint).
        rewrite Hint in Hline. destruct Hline as [Hr Hs].
        destruct (Hfinal _ _ Hr Hs) as [Hr' Hs'].
        split; [exact Hs' |]. exists fl. split; [exact Hfl | exact Hr'].
      * destruct (int_of_float_not_finite _ Hp) as (_ & e & Hint).
        rewrite Hint in Hline. destruct Hline as [Hb _].
        unfold beside_listener in Hb. cbn in Hb.
        injection Hb as _ _ Hr Hs _.
        destruct (Hfinal _ _ Hr Hs) as [Hr' Hs'].
        split; assumption.
Qed.

End TimeLine.

Lemma import_spine_sets_the_time_line_witness :
  animationRange
    (snd (Improved.import_spine
            (Sample.studio Sample.atlas (JDict Sample.skeleton))
            "a.json" "a.atlas" "textures" Float64.f1 Demo.scene0))
  = (0, 60 + 10).
Proof.
  destruct (proj2 (proj2 (proj2 (import_spine_sets_the_time_line
                            (Sample.studio Sample.atlas (JDict Sample.skeleton))
                            "a.json" "a.atlas" "textures" Float64.f1
                            Demo.scene0 Sample.skeleton [Sample.slot]
                            eq_refl eq_refl eq_refl eq_refl eq_refl
                            ltac:(constructor;
                                  [eexists; reflexivity | constructor]))
                     (Doc.json_of_animations Demo.scenario_B)
                     ltac:(repeat constructor; simpl; intuition discriminate)
                     eq_refl eq_refl ltac:(repeat constructor))
                   (Float64.of_Z 2)
                   ltac:(split; [simpl; auto | repeat constructor])))
    as (fl & Hfl & Hrange).
  vm_compute in Hfl. inversion Hfl. subst fl. exact Hrange.
Defined.

(* ===================================================================== *)
(** * Declared parents and the links of pass 2 *)
(* ===================================================================== *)

Section LinksOfPass2.

Variable link : json -> Z -> M Z.
Variable D : json -> string -> string -> Prop.
Variable bones_all : list json.
Variable bone_map : Dict.t nat.

Hypothesis Hstep :
  forall bone k h, post (link bone k) h (links_declared D bone_map bone h).
Hypothesis Hmake :
  forall bone k h child parent c p,
    D bone child parent ->
    Dict.get bone_map child = Some c ->
    Dict.get bone_map parent = Some p ->
    nodes (snd (link bone k h)) = Scene.update (nodes h) c (Scene.set_parent p).
Hypothesis Hinj : injective bone_map.
Hypothesis Hunique :
  forall b1 b2 name p1 p2,
    In b1 bones_all -> In b2 bones_all ->
    D b1 name p1 -> D b2 name p2 -> p1 = p2.

Variables child parent : string.
Variables c p : nat.

Hypothesis Hchild : Dict.get bone_map child = Some c.
Hypothesis Hparent : Dict.get bone_map parent = Some p.
Hypothesis Hdeclared : exists bone, In bone bones_all /\ D bone child parent.

(** A round of pass 2 leaves the link of [c], once made, as it is. *)
Lemma link_keeps bone k h :
  In bone bones_all ->
  bones_are_nodes bone_map (nodes h) ->
  let h' := snd (link bone k h) in
  bones_are_nodes bone_map (nodes h')
  /\ (exists k', fst (link bone k h) = inr k')
  /\ (Scene.parent_of h c = Some p -> Scene.parent_of h' c = Some p).
Proof.
  intros Hin Hvalid. cbv zeta.
  destruct (Hstep bone k h) as (Hret & Hnodes).
  split; [| split; [exact Hret |]].
  - destruct Hnodes as [-> | (c' & p' & cn & pn & _ & _ & _ & ->)];
      [exact Hvalid |].
    intros name i Hk. destruct (Hvalid name i Hk) as [n Hn].
    destruct (Nat.eq_dec c' i) as [-> | Hne].
    + eexists. apply update_nth_error. exact Hn.
    + exists n. rewrite update_nth_error_other by exact Hne. exact Hn.
  - unfold Scene.parent_of.
    destruct Hnodes as [-> | (c' & p' & cn & pn & Hc' & Hp' & Hd & ->)];
      [exact (fun H => H) |].
    destruct (Nat.eq_dec c' c) as [-> | Hne].
    + intros _.
      assert (cn = child) by (apply (Hinj cn child c Hc' Hchild)). subst cn.
      destruct Hdeclared as (b0 & Hb0 & Hd0).
      assert (pn = parent)
        by (apply (Hunique bone b0 child pn parent Hin Hb0 Hd Hd0)).
      subst pn. assert (p' = p) by congruence. subst p'.
      destruct (Hvalid child c Hchild) as [n Hn].
      rewrite (update_nth_error _ _ _ _ Hn). reflexivity.
    + rewrite update_nth_error_other by exact Hne. exact (fun H => H).
Qed.

(** Pass 2 makes the link a record declares, and keeps it. *)
Lemma pass2_makes :
  forall l,
    (forall b, In b l -> In b bones_all) ->
    forall k h,
      bones_are_nodes bone_map (nodes h) ->
      (Scene.parent_of h c = Some p
       \/ exists b, In b l /\ D b child parent) ->
      Scene.parent_of (snd (for_each link l k h)) c = Some p.
Proof.
  induction l as [| x l IH]; intros Hsub k h Hvalid.
  - intros [H0 | (b & [] & _)]. exact H0.
  - rewrite for_each_cons.
    destruct (link_keeps x k h (Hsub x (or_introl eq_refl)) Hvalid)
      as (Hvalid1 & [k' Hk'] & Hkeep).
    pose proof (Hmake x k h child parent c p) as Hmade.
    destruct (link x k h) as [r h1].
    cbn [fst snd] in *. subst r.
    intros Hcase.
    apply (IH (fun b Hb => Hsub b (or_intror Hb)) k' h1 Hvalid1).
    destruct Hcase as [H0 | (b & [-> | Hb] & Hd)].
    + left. apply Hkeep. exact H0.
    + left. unfold Scene.parent_of.
      rewrite (Hmade Hd Hchild Hparent).
      destruct (Hvalid child c Hchild) as [n Hn].
      rewrite (update_nth_error _ _ _ _ Hn). reflexivity.
    + right. exists b. split; [exact Hb | exact Hd].
Qed.

End LinksOfPass2.

Section LinksOfBothFiles.

Variable E : platform.

Ltac declared_leaf :=
  unfold links_declared; scene_simpl;
  split; [eexists; reflexivity |];
  first
    [ left; reflexivity
    | right;
      match goal with
      | Hp : Dict.get _ ?pn = Some ?p, Hc : Dict.get _ ?cn = Some ?c
        |- context [Scene.update _ ?c (Scene.set_parent ?p)] =>
          exists c, p, cn, pn;
          split; [exact Hc |]; split; [exact Hp |]
      end;
      split; [| reflexivity];
      unfold original_declares_by; do 2 eexists;
      repeat (split; [first [eassumption | reflexivity] |]);
      assumption ].

Lemma original_link_bone_named bone_map bone k h :
  post (Original.link_bone E bone_map bone k) h
    (links_declared (original_declares_by E) bone_map bone h).
Proof.
  unfold Original.link_bone.
  wp_all; declared_leaf.
Qed.

(** The record that declares a link between bones of the map makes
    it. *)
Lemma improved_link_bone_makes bone_map bone k h child parent c p :
  declares_by E bone child parent ->
  Dict.get bone_map child = Some c ->
  Dict.get bone_map parent = Some p ->
  nodes (snd (Improved.link_bone E bone_map bone k h))
  = Scene.update (nodes h) c (Scene.set_parent p).
Proof.
  intros (nm & pn & Hnm & Hpn & Hc & Hp & Hne) Hchild Hparent.
  unfold Improved.link_bone, try_catch, bind, lift.
  rewrite Hnm, Hpn, Hp, Hne, Hc, Hparent, Hchild. reflexivity.
Qed.

Lemma original_link_bone_makes bone_map bone k h child parent c p :
  original_declares_by E bone child parent ->
  Dict.get bone_map child = Some c ->
  Dict.get bone_map parent = Some p ->
  nodes (snd (Original.link_bone E bone_map bone k h))
  = Scene.update (nodes h) c (Scene.set_parent p).
Proof.
  intros (nm & pn & Hnm & Hpn & Hc & Hp & Hne) Hchild Hparent.
  unfold Original.link_bone, try_catch, bind, lift.
  rewrite Hnm, Hpn, Hp, Hne, Hc, Hparent, Hchild. reflexivity.
Qed.

Lemma links_as_declared_empty D bones h :
  links_as_declared D bones (inr []) h.
Proof.
  exists []. split; [reflexivity |].
  split; [intros ? ? ? H; discriminate |].
  split; [apply resolved_empty |].
  intros _ child parent c p _ H. discriminate.
Qed.

(** The result of pass 2 after pass 1, for either file. *)
Lemma links_after_pass2 (link : Dict.t nat -> json -> Z -> M Z)
    (D : json -> string -> string -> Prop) named bones bone_map h1 :
  (forall bone k h,
     post (link bone_map bone k) h (links_declared D bone_map bone h)) ->
  (forall bone k h child parent c p,
     D bone child parent ->
     Dict.get bone_map child = Some c ->
     Dict.get bone_map parent = Some p ->
     nodes (snd (link bone_map bone k h))
     = Scene.update (nodes h) c (Scene.set_parent p)) ->
  created named bone_map h1 ->
  post (for_each (link bone_map) bones 0) h1
    (fun r h2 =>
       (exists k, r = inr k)
       /\ injective bone_map
       /\ resolved D bones bone_map h2
       /\ ((forall b1 b2 name p1 p2,
              In b1 bones -> In b2 bones ->
              D b1 name p1 -> D b2 name p2 -> p1 = p2) ->
           forall child parent c p,
             (exists bone, In bone bones /\ D bone child parent) ->
             Dict.get bone_map child = Some c ->
             Dict.get bone_map parent = Some p ->
             Scene.parent_of h2 c = Some p)).
Proof.
  intros Hstep Hmake Hcreated.
  pose proof (pass2_links D (link bone_map) bone_map (proj2 Hcreated)
                Hstep bones 0 h1
                (created_resolved named D bones _ _ Hcreated)) as Hp2.
  unfold post in *. destruct Hp2 as [Hk Hres].
  split; [exact Hk |]. split; [exact (proj2 Hcreated) |].
  split; [exact Hres |].
  intros Hunique child parent c p Hdecl Hc Hp.
  apply (pass2_makes (link bone_map) D bones bone_map Hstep Hmake
           (proj2 Hcreated) Hunique child parent c p Hc Hp Hdecl
           bones (fun b Hb => Hb) 0 h1).
  - intros name i Hk'. destruct (proj1 Hcreated name i Hk')
      as (_ & n0 & Hn0 & _).
    exists n0. exact Hn0.
  - right. exact Hdecl.
Qed.

Lemma improved_create_bones_links data scale h :
  post (Improved.create_bones E data scale) h
    (links_as_declared (declares_by E) (bones_of data)).
Proof.
  unfold Improved.create_bones.
  apply post_try, post_bind, post_lift.
  destruct (Py.get data "bones" (JList [])) as [e | bones_data] eqn:Hget;
    [apply post_bind, post_modify, post_bind, post_modify, post_ret,
       links_as_declared_empty |].
  destruct (negb (Py.truthy bones_data));
    [apply post_bind, post_modify, post_ret, links_as_declared_empty |].
  apply post_bind, post_lift.
  destruct (Py.len bones_data) as [e | n];
    [apply post_bind, post_modify, post_bind, post_modify, post_ret,
       links_as_declared_empty |].
  apply post_bind, post_modify, post_bind, post_lift.
  destruct (Py.iter bones_data) as [e | bones] eqn:Hiter;
    [apply post_bind, post_modify, post_bind, post_modify, post_ret,
       links_as_declared_empty |].
  assert (Hbones : bones_of data = bones)
    by (unfold bones_of; rewrite Hget, Hiter; reflexivity).
  rewrite Hbones.
  apply post_bind.
  eapply post_weaken;
    [apply (pass1_creates Improved.bone_map nonempty_name
              (Improved.create_bone E scale)
              (improved_create_bone_fresh E scale));
     apply created_empty |].
  intros [e | st] h1 Hcreated;
    [apply post_bind, post_modify, post_bind, post_modify, post_ret,
       links_as_declared_empty |].
  apply post_bind.
  eapply post_weaken;
    [apply (links_after_pass2 (Improved.link_bone E) (declares_by E)
              nonempty_name bones (Improved.bone_map st) h1
              (improved_link_bone_declared E (Improved.bone_map st))
              (improved_link_bone_makes (Improved.bone_map st))
              Hcreated) |].
  intros r h2 ([k ->] & Hinj & Hres & Hall).
  apply post_bind, post_modify, post_ret.
  exists (Improved.bone_map st). split; [reflexivity |].
  split; [exact Hinj |]. split; [exact Hres | exact Hall].
Qed.

Lemma original_create_bones_links data scale h :
  post (Original.create_bones E data scale) h
    (links_as_declared (original_declares_by E) (bones_of data)).
Proof.
  unfold Original.create_bones.
  apply post_try, post_bind, post_modify, post_bind, post_lift.
  destruct (Py.get data "bones" (JList [])) as [e | bones_data] eqn:Hget;
    [apply post_bind, post_modify, post_ret, links_as_declared_empty |].
  apply post_bind, post_lift.
  destruct (Py.iter bones_data) as [e | bones] eqn:Hiter;
    [apply post_bind, post_modify, post_ret, links_as_declared_empty |].
  assert (Hbones : bones_of data = bones)
    by (unfold bones_of; rewrite Hget, Hiter; reflexivity).
  rewrite Hbones.
  apply post_bind.
  eapply post_weaken;
    [apply (pass1_creates (fun m : Dict.t nat => m) any_name
              (Original.create_bone E scale)
              (original_create_bone_fresh E scale));
     apply created_empty |].
  intros [e | bone_map] h1 Hcreated;
    [apply post_bind, post_modify, post_ret, links_as_declared_empty |].
  apply post_bind, post_lift. cbv beta iota.
  apply post_bind, post_lift. rewrite Hiter. cbv beta iota.
  apply post_bind.
  eapply post_weaken;
    [apply (links_after_pass2 (Original.link_bone E)
              (original_declares_by E) any_name bones bone_map h1
              (original_link_bone_named bone_map)
              (original_link_bone_makes bone_map)
              Hcreated) |].
  intros r h2 ([k ->] & Hinj & Hres & Hall).
  apply post_bind, post_modify, post_ret.
  exists bone_map. split; [reflexivity |].
  split; [exact Hinj |]. split; [exact Hres | exact Hall].
Qed.

End LinksOfBothFiles.

(* ===================================================================== *)
(** * The parent graph of a skeleton *)
(* ===================================================================== *)

(** The graph of the links of a result of [create_bones], against the
    graph its records declare. *)
Lemma declared_graph (D : json -> string -> string -> Prop)
    (bones : list json) (r : exn + Dict.t nat) (h' : host) :
  links_as_declared D bones r h' ->
  exists bone_map,
    r = inr bone_map
    /\ (forall child parent,
          linked h' bone_map child parent ->
          exists bone, In bone bones /\ D bone child parent)
    /\ (acyclic (fun child parent =>
                   exists bone, In bone bones /\ D bone child parent) ->
        acyclic (linked h' bone_map))
    /\ ((forall b1 b2 name p1 p2,
           In b1 bones -> In b2 bones ->
           D b1 name p1 -> D b2 name p2 -> p1 = p2) ->
        forall child parent,
          (exists bone, In bone bones /\ D bone child parent) ->
          Dict.mem bone_map child = true ->
          Dict.mem bone_map parent = true ->
          linked h' bone_map child parent).
Proof.
  intros (bone_map & Hr & Hinj & Hres & Hall).
  exists bone_map. split; [exact Hr |].
  assert (Hsub : forall child parent,
             linked h' bone_map child parent ->
             exists bone, In bone bones /\ D bone child parent).
  { intros child parent (c & p & Hc & Hp & Hlink).
    destruct (Hres child c Hc) as (n & Hn & Hpar).
    unfold Scene.parent_of in Hlink. rewrite Hn in Hlink.
    destruct Hpar as [Hnone | (p' & pname & Hsome & Hg & bone & Hin & Hd)];
      [congruence |].
    assert (p' = p) by congruence. subst p'.
    rewrite (Hinj parent pname p Hp Hg).
    exists bone. split; [exact Hin | exact Hd]. }
  split; [exact Hsub |]. split.
  - intros Hacyclic x Hx. apply (Hacyclic x).
    apply (clos_trans_incl _ _ Hsub x x Hx).
  - intros Hunique child parent Hdecl Hc Hp.
    unfold Dict.mem in Hc, Hp.
    destruct (Dict.get bone_map child) as [c |] eqn:Hchild; [| discriminate].
    destruct (Dict.get bone_map parent) as [p |] eqn:Hparent;
      [| discriminate].
    exists c, p. split; [exact Hchild |]. split; [exact Hparent |].
    apply (Hall Hunique child parent c p Hdecl Hchild Hparent).
Qed.

Lemma post_run_pair {A} (m : M A) h (Q : exn + A -> host -> Prop) :
  post m h Q -> exists r h', m h = (r, h') /\ Q r h'.
Proof.
  unfold post. intros HQ. exists (fst (m h)), (snd (m h)).
  split; [destruct (m h); reflexivity | exact HQ].
Qed.

Section CycleClaims.

Variable E : platform.

(** C6 (as amended).  [create_bones] has no cycle check, in either
    file.  Names are compared as [safe_str] rewrites them.  Every parent
    link of the result is one that a record declares, so a document
    whose declared parents have no cycle gets a parent graph without
    cycle; and when no name is given two parents by the records (a
    later record of a name overwrites the link of an earlier one), every
    declared parent is linked when child and parent are bones of the
    map, a bone that names itself included.  The round of pass 2 that
    makes a link prints the information line of the link and nothing
    else. *)
Theorem declared_parents_are_linked_unchecked
    (data : json) (scale : Float64.float) (h : host) :
  (exists bone_map h',
     Improved.create_bones E data scale h = (inr bone_map, h')
     /\ (forall child parent,
           linked h' bone_map child parent ->
           declares E (bones_of data) child parent)
     /\ (acyclic (declares E (bones_of data)) ->
         acyclic (linked h' bone_map))
     /\ (one_parent_each E (bones_of data) ->
         forall child parent,
           declares E (bones_of data) child parent ->
           Dict.mem bone_map child = true ->
           Dict.mem bone_map parent = true ->
           linked h' bone_map child parent))
  /\ (exists bone_map h',
        Original.create_bones E data scale h = (inr bone_map, h')
        /\ (forall child parent,
              linked h' bone_map child parent ->
              original_declares E (bones_of data) child parent)
        /\ (acyclic (original_declares E (bones_of data)) ->
            acyclic (linked h' bone_map))
        /\ (original_one_parent_each E (bones_of data) ->
            forall child parent,
              original_declares E (bones_of data) child parent ->
              Dict.mem bone_map child = true ->
              Dict.mem bone_map parent = true ->
              linked h' bone_map child parent))
  /\ (forall (m : Dict.t nat) (kv : list (string * json)) (k : Z) h0 c p,
        PyStr.nonempty (record_parent E kv) = true ->
        Dict.get m (record_parent E kv) = Some p ->
        Dict.get m (record_name E kv) = Some c ->
        Improved.link_bone E m (JDict kv) k h0
        = (inr (k + 1),
           log (Scene.with_nodes h0
                  (Scene.update (nodes h0) c (Scene.set_parent p)))
             INFO "set parent: {} -> {}"
             [AStr (record_name E kv); AStr (record_parent E kv)]))
  /\ (forall (m : Dict.t nat) (kv : list (string * json)) (nm : json)
             (k : Z) h0 c p,
        Dict.get kv "name" = Some nm ->
        let child := Original.safe_str E nm in
        let parent := Original.safe_str E (field kv "parent" JNull) in
        PyStr.nonempty parent = true ->
        Dict.get m parent = Some p ->
        Dict.get m child = Some c ->
        Original.link_bone E m (JDict kv) k h0
        = (inr (k + 1),
           log (Scene.with_nodes h0
                  (Scene.update (nodes h0) c (Scene.set_parent p)))
             INFO "set parent: {} -> {}" [AStr child; AStr parent])).
Proof.
  split; [| split; [| split]].
  - destruct (post_run_pair _ _ _ (improved_create_bones_links E data scale h))
      as (r & h' & Hrun & Hlinks).
    destruct (declared_graph _ _ _ _ Hlinks)
      as (bone_map & -> & Hsub & Hacyclic & Hall).
    exists bone_map, h'. split; [exact Hrun |].
    split; [exact Hsub |]. split; [exact Hacyclic | exact Hall].
  - destruct (post_run_pair _ _ _ (original_create_bones_links E data scale h))
      as (r & h' & Hrun & Hlinks).
    destruct (declared_graph _ _ _ _ Hlinks)
      as (bone_map & -> & Hsub & Hacyclic & Hall).
    exists bone_map, h'. split; [exact Hrun |].
    split; [exact Hsub |]. split; [exact Hacyclic | exact Hall].
  - intros m kv k h0 c p Hne Hp Hc. unfold record_parent, record_name in *.
    unfold Improved.link_bone, try_catch, bind, lift, Py.get.
    rewrite Hne, Hp, Hc. reflexivity.
  - intros m kv nm k h0 c p Hnm child parent Hne Hp Hc.
    subst child parent. unfold field in *.
    unfold Original.link_bone, try_catch, bind, lift, Py.get, Py.index.
    rewrite Hnm, Hne, Hp, Hc. reflexivity.
Qed.

End CycleClaims.

(* ===================================================================== *)
(** * Parents that are not bones of the map *)
(* ===================================================================== *)

Lemma grown_refl h : grown h h.
Proof. exists []. unfold printed. rewrite app_nil_r. reflexivity. Qed.

Lemma grown_trans h1 h2 h3 : grown h1 h2 -> grown h2 h3 -> grown h1 h3.
Proof.
  intros [l1 H1] [l2 H2]. exists (l1 ++ l2)%list. unfold printed in *.
  rewrite H2, H1, app_assoc. reflexivity.
Qed.

Lemma grown_In h h' e : grown h h' -> In e (listener h) -> In e (listener h').
Proof.
  intros [l Hl] Hin. unfold printed in Hl. rewrite Hl.
  apply in_or_app. left. exact Hin.
Qed.

Lemma no_warning_refl h : no_warning_since h h.
Proof.
  exists []. split; [| constructor].
  unfold printed. rewrite app_nil_r. reflexivity.
Qed.

Lemma no_warning_trans h1 h2 h3 :
  no_warning_since h1 h2 -> no_warning_since h2 h3 -> no_warning_since h1 h3.
Proof.
  intros (l1 & H1 & F1) (l2 & H2 & F2). exists (l1 ++ l2)%list.
  unfold printed in *. split.
  - rewrite H2, H1, app_assoc. reflexivity.
  - apply Forall_app. split; assumption.
Qed.

(** A loop whose rounds only add to the listener. *)
Lemma for_each_since {X S} (R : host -> host -> Prop)
    (body : X -> S -> M S) :
  (forall h, R h h) ->
  (forall h1 h2 h3, R h1 h2 -> R h2 h3 -> R h1 h3) ->
  (forall x s h, post (body x s) h (fun _ h' => R h h')) ->
  forall xs s h, post (for_each body xs s) h (fun _ h' => R h h').
Proof.
  intros Hrefl Htrans Hbody.
  induction xs as [| x xs IH]; intros s h; [apply Hrefl |].
  simpl. apply post_bind.
  eapply post_weaken; [apply Hbody |].
  intros [e | s'] h1 H1; [exact H1 |].
  eapply post_weaken; [apply IH |].
  intros r h2 H2. apply (Htrans _ _ _ H1 H2).
Qed.

Section MissingParents.

Variable E : platform.

Ltac grown_leaf :=
  unfold grown, printed; scene_simpl; rewrite <- ?app_assoc;
  first [ exists []; rewrite app_nil_r; reflexivity
        | eexists; reflexivity ].

Ltac calm_leaf :=
  unfold no_warning_since, printed; scene_simpl; rewrite <- ?app_assoc;
  first [ exists []; rewrite app_nil_r; split; [reflexivity | constructor]
        | eexists; split;
          [reflexivity | repeat constructor; discriminate] ].

Lemma improved_link_bone_grown bone_map bone k h :
  post (Improved.link_bone E bone_map bone k) h (fun _ h' => grown h h').
Proof.
  unfold Improved.link_bone.
  wp_all; grown_leaf.
Qed.

(** Pass 2 of the improved file warns of every parent that is not a
    bone of the map. *)
Lemma improved_pass2_warns bone_map (kv : list (string * json)) :
  PyStr.nonempty (record_parent E kv) = true ->
  Dict.get bone_map (record_parent E kv) = None ->
  forall bones k h,
    In (JDict kv) bones ->
    In (missing_parent_warning (record_parent E kv))
      (listener (snd (for_each (Improved.link_bone E bone_map) bones k h))).
Proof.
  intros Hne Hnone.
  induction bones as [| bone bones IH]; intros k h Hin; [destruct Hin |].
  rewrite for_each_cons.
  destruct Hin as [-> | Hin].
  - assert (Hstep :
              Improved.link_bone E bone_map (JDict kv) k h
              = (inr k,
                 log h WARNING "parent bone does not exist: {}"
                   [AStr (record_parent E kv)])).
    { unfold record_parent in *.
      unfold Improved.link_bone, try_catch, bind, lift, Py.get.
      rewrite Hne, Hnone. reflexivity. }
    rewrite Hstep.
    match goal with
    | |- In _ (listener (snd (for_each ?body bones k ?h1))) =>
        pose proof (for_each_since grown body grown_refl grown_trans
                      (improved_link_bone_grown bone_map) bones k h1)
          as Hgrown
    end.
    apply (grown_In _ _ _ Hgrown).
    unfold log. cbn [listener Scene.with_listener].
    apply in_or_app. right. left. reflexivity.
  - destruct (improved_link_bone_declared E bone_map bone k h)
      as ([k' Hk'] & _).
    destruct (Improved.link_bone E bone_map bone k h) as [r h1].
    cbn [fst snd] in *. subst r. apply IH. exact Hin.
Qed.

(** What [create_bones] of the improved file returns: a map without
    dangling parents and, when the map is not empty, a warning for
    every record that names a parent that is not a bone of the map. *)
Lemma improved_create_bones_warns data scale h :
  post (Improved.create_bones E data scale) h
    (fun r h' =>
       exists bone_map,
         r = inr bone_map
         /\ parents_resolved h' bone_map
         /\ (bone_map <> [] ->
             forall kv,
               In (JDict kv) (bones_of data) ->
               PyStr.nonempty (record_parent E kv) = true ->
               Dict.get bone_map (record_parent E kv) = None ->
               In (missing_parent_warning (record_parent E kv))
                 (listener h'))).
Proof.
  assert (Hnil : forall h',
             exists bone_map : Dict.t nat,
               @inr exn _ [] = inr bone_map
               /\ parents_resolved h' bone_map
               /\ (bone_map <> [] ->
                   forall kv,
                     In (JDict kv) (bones_of data) ->
                     PyStr.nonempty (record_parent E kv) = true ->
                     Dict.get bone_map (record_parent E kv) = None ->
                     In (missing_parent_warning (record_parent E kv))
                       (listener h'))).
  { intros h'. exists []. split; [reflexivity |].
    split; [intros name i H; discriminate |].
    intros H. contradiction H. reflexivity. }
  unfold Improved.create_bones.
  apply post_try, post_bind, post_lift.
  destruct (Py.get data "bones" (JList [])) as [e | bones_data] eqn:Hget;
    [apply post_bind, post_modify, post_bind, post_modify, post_ret, Hnil |].
  destruct (negb (Py.truthy bones_data));
    [apply post_bind, post_modify, post_ret, Hnil |].
  apply post_bind, post_lift.
  destruct (Py.len bones_data) as [e | n];
    [apply post_bind, post_modify, post_bind, post_modify, post_ret, Hnil |].
  apply post_bind, post_modify, post_bind, post_lift.
  destruct (Py.iter bones_data) as [e | bones] eqn:Hiter;
    [apply post_bind, post_modify, post_bind, post_modify, post_ret, Hnil |].
  assert (Hbones : bones_of data = bones)
    by (unfold bones_of; rewrite Hget, Hiter; reflexivity).
  apply post_bind.
  eapply post_weaken;
    [apply (pass1_creates Improved.bone_map nonempty_name
              (Improved.create_bone E scale)
              (improved_create_bone_fresh E scale));
     apply created_empty |].
  intros [e | st] h1 Hcreated;
    [apply post_bind, post_modify, post_bind, post_modify, post_ret, Hnil |].
  apply post_bind.
  pose proof (pass2_links (declares_by E)
                (Improved.link_bone E (Improved.bone_map st))
                (Improved.bone_map st) (proj2 Hcreated)
                (improved_link_bone_declared E (Improved.bone_map st))
                bones 0 h1
                (created_resolved nonempty_name (declares_by E) bones _ _
                   Hcreated)) as Hp2.
  pose proof (fun kv Hne Hnone =>
                improved_pass2_warns (Improved.bone_map st) kv Hne Hnone
                  bones 0 h1) as Hwarn.
  unfold post in Hp2 |- *.
  destruct (for_each (Improved.link_bone E (Improved.bone_map st)) bones 0 h1)
    as [r h2].
  cbn [fst snd] in *. destruct Hp2 as [[k ->] Hres].
  apply post_bind, post_modify, post_ret.
  exists (Improved.bone_map st). split; [reflexivity |].
  split; [apply (resolved_parents _ _ _ _ Hres) |].
  intros _ kv Hin Hne Hnone. rewrite Hbones in Hin.
  cbn [listener Scene.with_listener].
  apply in_or_app. left. apply (Hwarn kv Hne Hnone Hin).
Qed.

Lemma original_create_bone_calm scale bone bone_map h :
  post (Original.create_bone E scale bone bone_map) h
    (fun _ h' => no_warning_since h h').
Proof.
  unfold Original.create_bone, Rt.createBone.
  wp_all; calm_leaf.
Qed.

Lemma original_link_bone_calm bone_map bone k h :
  post (Original.link_bone E bone_map bone k) h
    (fun _ h' => no_warning_since h h').
Proof.
  unfold Original.link_bone.
  wp_all; calm_leaf.
Qed.

(** [create_bones] of [spine_importer.py] prints no warning, whatever
    the document is. *)
Lemma original_create_bones_calm data scale h :
  post (Original.create_bones E data scale) h
    (fun _ h' => no_warning_since h h').
Proof.
  assert (Hone : forall h0 l m,
             l <> WARNING ->
             no_warning_since h h0 ->
             no_warning_since h
               (Scene.with_listener h0 (listener h0 ++ [Entry l m]))).
  { intros h0 l m Hl H0. apply (no_warning_trans _ _ _ H0).
    exists [Entry l m]. split; [reflexivity |].
    constructor; [exact Hl | constructor]. }
  assert (Hloop : forall {X S} (body : X -> S -> M S) xs s h0,
             (forall x s1 h1,
                post (body x s1) h1 (fun _ h' => no_warning_since h1 h')) ->
             no_warning_since h h0 ->
             post (for_each body xs s) h0
               (fun _ h' => no_warning_since h h')).
  { intros X S body xs s h0 Hbody H0.
    eapply post_weaken;
      [apply (for_each_since no_warning_since body no_warning_refl
                no_warning_trans Hbody) |].
    intros r h' H1. apply (no_warning_trans _ _ _ H0 H1). }
  unfold Original.create_bones.
  apply post_try, post_bind, post_modify.
  match goal with
  | |- post _ ?h0 _ =>
      assert (H0 : no_warning_since h h0)
        by (apply Hone; [discriminate | apply no_warning_refl])
  end.
  apply post_bind, post_lift.
  destruct (Py.get data "bones" (JList [])) as [e | bones_data];
    [apply post_bind, post_modify, post_ret, Hone;
       [discriminate | exact H0] |].
  apply post_bind, post_lift.
  destruct (Py.iter bones_data) as [e | bones] eqn:Hiter;
    [apply post_bind, post_modify, post_ret, Hone;
       [discriminate | exact H0] |].
  apply post_bind.
  eapply post_weaken;
    [apply (Hloop _ _ (Original.create_bone E scale) bones [] _
              (original_create_bone_calm scale) H0) |].
  intros [e | bone_map] h1 H1;
    [apply post_bind, post_modify, post_ret, Hone;
       [discriminate | exact H1] |].
  apply post_bind, post_lift. cbv beta iota.
  apply post_bind, post_lift. rewrite Hiter. cbv beta iota.
  apply post_bind.
  eapply post_weaken;
    [apply (Hloop _ _ (Original.link_bone E bone_map) bones 0 _
              (original_link_bone_calm bone_map) H1) |].
  intros [e | k] h2 H2;
    [apply post_bind, post_modify, post_ret, Hone;
       [discriminate | exact H2] |].
  apply post_bind, post_modify, post_ret, Hone; [discriminate | exact H2].
Qed.

End MissingParents.

(** A bone whose records name only parents that are not in the map has
    no parent. *)
Lemma undeclared_is_root (D : json -> string -> string -> Prop)
    (bones : list json) (bone_map : Dict.t nat) (h' : host) name i :
  resolved D bones bone_map h' ->
  Dict.get bone_map name = Some i ->
  (forall parent,
     (exists bone, In bone bones /\ D bone name parent) ->
     Dict.get bone_map parent = None) ->
  Scene.parent_of h' i = None.
Proof.
  intros Hres Hi Hall.
  destruct (Hres name i Hi) as (n & Hn & Hpar).
  unfold Scene.parent_of. rewrite Hn.
  destruct Hpar as [Hnone | (p & pname & _ & Hg & Hd)]; [exact Hnone |].
  rewrite (Hall pname Hd) in Hg. discriminate.
Qed.

(** C3 on [spine_importer.py]: a bone whose declared parent is not a
    bone of the map stays a root, and no warning is printed: on a
    skeleton with a root, an arm on the root and a bone whose parent
    does not exist, the arm is linked, the third bone is left without
    parent, and every line printed is an information line.  The
    improved file leaves the same links and prints the warning.  For
    every document, both files return a map without dangling parent in
    which a bone whose records name only parents outside the map has no
    parent; [spine_importer.py] prints no warning at all, and the
    improved file, when it returns bones, has printed the warning for
    every record that names a parent outside the map. *)
Theorem original_leaves_a_missing_parent_unreported :
  (let old := Original.create_bones Demo.platform0 with_orphan Float64.f1
                Demo.scene0 in
   let new := Improved.create_bones Demo.platform0 with_orphan Float64.f1
                Demo.scene0 in
   fst old = inr [("root", 0%nat); ("arm", 1%nat); ("a", 2%nat)]
   /\ Scene.parent_of (snd old) 1 = Some 0%nat
   /\ Scene.parent_of (snd old) 2 = None
   /\ all_info (snd old)
   /\ fst new = inr [("root", 0%nat); ("arm", 1%nat); ("a", 2%nat)]
   /\ Scene.parent_of (snd new) 1 = Some 0%nat
   /\ Scene.parent_of (snd new) 2 = None
   /\ In (missing_parent_warning "ghost") (listener (snd new)))
  /\ (forall (E : platform) (data : json) (scale : Float64.float) (h : host),
        exists bone_map h',
          Original.create_bones E data scale h = (inr bone_map, h')
          /\ parents_resolved h' bone_map
          /\ (forall name i,
                Dict.get bone_map name = Some i ->
                (forall parent,
                   original_declares E (bones_of data) name parent ->
                   Dict.get bone_map parent = None) ->
                Scene.parent_of h' i = None)
          /\ no_warning_since h h')
  /\ (forall (E : platform) (data : json) (scale : Float64.float) (h : host),
        exists bone_map h',
          Improved.create_bones E data scale h = (inr bone_map, h')
          /\ parents_resolved h' bone_map
          /\ (forall name i,
                Dict.get bone_map name = Some i ->
                (forall parent,
                   declares E (bones_of data) name parent ->
                   Dict.get bone_map parent = None) ->
                Scene.parent_of h' i = None)
          /\ (bone_map <> [] ->
              forall kv,
                In (JDict kv) (bones_of data) ->
                PyStr.nonempty (record_parent E kv) = true ->
                Dict.get bone_map (record_parent E kv) = None ->
                In (missing_parent_warning (record_parent E kv))
                  (listener h'))).
Proof.
  split; [| split].
  - cbv zeta.
    split; [vm_compute; reflexivity |]. split; [vm_compute; reflexivity |].
    split; [vm_compute; reflexivity |].
    split; [unfold all_info; vm_compute; repeat constructor |].
    split; [vm_compute; reflexivity |]. split; [vm_compute; reflexivity |].
    split; [vm_compute; reflexivity |].
    vm_compute. auto 10.
  - intros E data scale h.
    pose proof (original_create_bones_links E data scale h) as Hlinks.
    pose proof (original_create_bones_calm E data scale h) as Hcalm.
    unfold post in Hlinks, Hcalm.
    destruct (Original.create_bones E data scale h) as [r h'].
    cbn [fst snd] in *.
    destruct Hlinks as (bone_map & -> & _ & Hres & _).
    exists bone_map, h'. split; [reflexivity |].
    split; [apply (resolved_parents _ _ _ _ Hres) |].
    split; [| exact Hcalm].
    intros name i Hi Hall.
    apply (undeclared_is_root _ _ _ _ name i Hres Hi Hall).
  - intros E data scale h.
    pose proof (improved_create_bones_links E data scale h) as Hlinks.
    pose proof (improved_create_bones_warns E data scale h) as Hwarn.
    unfold post in Hlinks, Hwarn.
    destruct (Improved.create_bones E data scale h) as [r h'].
    cbn [fst snd] in *.
    destruct Hlinks as (bone_map & -> & _ & Hres & _).
    destruct Hwarn as (bone_map' & Heq & Hpr & Hw).
    inversion Heq. subst bone_map'.
    exists bone_map, h'. split; [reflexivity |].
    split; [exact Hpr |]. split; [| exact Hw].
    intros name i Hi Hall.
    apply (undeclared_is_root _ _ _ _ name i Hres Hi Hall).
Qed.

(** Names are compared as [safe_str] rewrites them: a bone named with
    a backslash whose parent is written with a slash is its own
    parent. *)
Lemma names_are_compared_once_made_safe :
  let out := Improved.create_bones Demo.platform0 slashed Float64.f1
               Demo.scene0 in
  fst out = inr [("a/b", 0%nat)]
  /\ Scene.parent_of (snd out) 0 = Some 0%nat.
Proof. cbv zeta. split; vm_compute; reflexivity. Qed.
